(** * TGraph2D: the point container and its cached Delaunay interpolation

    A shallow embedding of [hist/hist/src/TGraph2D.cxx].  The container owns
    three parallel coordinate arrays and caches a histogram together with a
    Delaunay interpolator; the cache is meant to be dropped whenever the
    samples or a build parameter change.  The development follows the C++
    text method by method: every method is a computation in a state and
    undefined-behaviour monad over the object, the heap of collaborating
    ROOT objects and the message channel. *)

From Stdlib Require Import ZArith List Bool String Ascii Lia ZifyBool Floats Uint63.
From stdpp Require Import base option list gmap strings.

#[local] Set Warnings "-inexact-float".
#[local] Open Scope Z_scope.

(** ** Scalars *)

(** [Double_t] is IEEE-754 binary64, [Int_t] a machine integer.  Signed
    overflow is undefined in C++; the only places where the modelled methods
    can overflow are guarded explicitly (see [SetPoint]). *)
Definition Double_t : Type := float.
Definition Int_t : Type := Z.
Bind Scope float_scope with Double_t.
Bind Scope Z_scope with Int_t.

Definition kMaxInt : Int_t := 2147483647.

(** Conversion of an [Int_t] to [Double_t], exact on the whole 32-bit range. *)
Definition Int2Double (z : Int_t) : Double_t :=
  if z <? 0 then (- (of_uint63 (of_Z (- z))))%float else of_uint63 (of_Z z).

(** The C++ comparison operators on doubles. *)
Definition dlt (a b : Double_t) : bool := (a <? b)%float.
Definition dle (a b : Double_t) : bool := (a <=? b)%float.
Definition deq (a b : Double_t) : bool := (a =? b)%float.
Definition dne (a b : Double_t) : bool := negb (a =? b)%float.

(** [TMath::QuietNaN()] and [TMath::Abs]. *)
Definition QuietNaN : Double_t := nan.
Definition Abs (a : Double_t) : Double_t := abs a.

(** ** The message channel ([Error] and [Warning] of TObject) *)

Inductive Level := kWarning | kError.

Record Message := mkMessage {
  level : Level;
  location : string;
  text : string;
  args : list Int_t
}.

(** ** Heap objects *)

Definition addr : Type := nat.

(** A [Double_t*] member: [None] is [nullptr], otherwise the allocated block. *)
Definition Array : Type := option (list Double_t).

Record Sample := mkSample { sx : Double_t; sy : Double_t; sz : Double_t }.

(** The two interpolation engines, told apart by [IsA()] and by their object
    names, "TGraphDelaunay" and "TGraphDelaunay2D". *)
Inductive Engine := kDelaunay | kDelaunay2D.

Definition engine_name (e : Engine) : string :=
  match e with
  | kDelaunay => "TGraphDelaunay"
  | kDelaunay2D => "TGraphDelaunay2D"
  end.

(** Modelled from the spec: the classes TGraphDelaunay and TGraphDelaunay2D
    are implemented in files of their own, not in TGraph2D.cxx.  Following the
    Triangulator of the specification, an interpolator holds its settings and
    a triangulation that is built on the first query from the samples of the
    graph and memoized. *)
Record TGraphDelaunay := mkDelaunay {
  dEngine : Engine;
  dMaxIter : Int_t;
  dZout : Double_t;
  dSnapshot : option (list Sample)
}.

(** What the modelled methods use of a TH2D: the two axes, the recorded
    [Fill] calls (one entry each), the stored extrema (-1111 when unset), two
    status flags, the list of functions and the painter. *)
Record TH2D := mkTH2D {
  hNbinsX : Int_t;
  hXmin : Double_t;
  hXmax : Double_t;
  hNbinsY : Int_t;
  hYmin : Double_t;
  hYmax : Double_t;
  hFills : list (Double_t * Double_t * Double_t);
  hMinimum : Double_t;
  hMaximum : Double_t;
  hNoStats : bool;
  hSumw2 : bool;
  hFunctions : list addr;
  hPainter : option addr
}.

Definition set_hNbinsX (v : Int_t) (h : TH2D) : TH2D :=
  mkTH2D v (h.(hXmin)) (h.(hXmax)) (h.(hNbinsY)) (h.(hYmin)) (h.(hYmax)) (h.(hFills)) (h.(hMinimum)) (h.(hMaximum)) (h.(hNoStats)) (h.(hSumw2)) (h.(hFunctions)) (h.(hPainter)).
Definition set_hXmin (v : Double_t) (h : TH2D) : TH2D :=
  mkTH2D (h.(hNbinsX)) v (h.(hXmax)) (h.(hNbinsY)) (h.(hYmin)) (h.(hYmax)) (h.(hFills)) (h.(hMinimum)) (h.(hMaximum)) (h.(hNoStats)) (h.(hSumw2)) (h.(hFunctions)) (h.(hPainter)).
Definition set_hXmax (v : Double_t) (h : TH2D) : TH2D :=
  mkTH2D (h.(hNbinsX)) (h.(hXmin)) v (h.(hNbinsY)) (h.(hYmin)) (h.(hYmax)) (h.(hFills)) (h.(hMinimum)) (h.(hMaximum)) (h.(hNoStats)) (h.(hSumw2)) (h.(hFunctions)) (h.(hPainter)).
Definition set_hNbinsY (v : Int_t) (h : TH2D) : TH2D :=
  mkTH2D (h.(hNbinsX)) (h.(hXmin)) (h.(hXmax)) v (h.(hYmin)) (h.(hYmax)) (h.(hFills)) (h.(hMinimum)) (h.(hMaximum)) (h.(hNoStats)) (h.(hSumw2)) (h.(hFunctions)) (h.(hPainter)).
Definition set_hYmin (v : Double_t) (h : TH2D) : TH2D :=
  mkTH2D (h.(hNbinsX)) (h.(hXmin)) (h.(hXmax)) (h.(hNbinsY)) v (h.(hYmax)) (h.(hFills)) (h.(hMinimum)) (h.(hMaximum)) (h.(hNoStats)) (h.(hSumw2)) (h.(hFunctions)) (h.(hPainter)).
Definition set_hYmax (v : Double_t) (h : TH2D) : TH2D :=
  mkTH2D (h.(hNbinsX)) (h.(hXmin)) (h.(hXmax)) (h.(hNbinsY)) (h.(hYmin)) v (h.(hFills)) (h.(hMinimum)) (h.(hMaximum)) (h.(hNoStats)) (h.(hSumw2)) (h.(hFunctions)) (h.(hPainter)).
Definition set_hFills (v : list (Double_t * Double_t * Double_t)) (h : TH2D) : TH2D :=
  mkTH2D (h.(hNbinsX)) (h.(hXmin)) (h.(hXmax)) (h.(hNbinsY)) (h.(hYmin)) (h.(hYmax)) v (h.(hMinimum)) (h.(hMaximum)) (h.(hNoStats)) (h.(hSumw2)) (h.(hFunctions)) (h.(hPainter)).
Definition set_hMinimum (v : Double_t) (h : TH2D) : TH2D :=
  mkTH2D (h.(hNbinsX)) (h.(hXmin)) (h.(hXmax)) (h.(hNbinsY)) (h.(hYmin)) (h.(hYmax)) (h.(hFills)) v (h.(hMaximum)) (h.(hNoStats)) (h.(hSumw2)) (h.(hFunctions)) (h.(hPainter)).
Definition set_hMaximum (v : Double_t) (h : TH2D) : TH2D :=
  mkTH2D (h.(hNbinsX)) (h.(hXmin)) (h.(hXmax)) (h.(hNbinsY)) (h.(hYmin)) (h.(hYmax)) (h.(hFills)) (h.(hMinimum)) v (h.(hNoStats)) (h.(hSumw2)) (h.(hFunctions)) (h.(hPainter)).
Definition set_hNoStats (v : bool) (h : TH2D) : TH2D :=
  mkTH2D (h.(hNbinsX)) (h.(hXmin)) (h.(hXmax)) (h.(hNbinsY)) (h.(hYmin)) (h.(hYmax)) (h.(hFills)) (h.(hMinimum)) (h.(hMaximum)) v (h.(hSumw2)) (h.(hFunctions)) (h.(hPainter)).
Definition set_hSumw2 (v : bool) (h : TH2D) : TH2D :=
  mkTH2D (h.(hNbinsX)) (h.(hXmin)) (h.(hXmax)) (h.(hNbinsY)) (h.(hYmin)) (h.(hYmax)) (h.(hFills)) (h.(hMinimum)) (h.(hMaximum)) (h.(hNoStats)) v (h.(hFunctions)) (h.(hPainter)).
Definition set_hFunctions (v : list addr) (h : TH2D) : TH2D :=
  mkTH2D (h.(hNbinsX)) (h.(hXmin)) (h.(hXmax)) (h.(hNbinsY)) (h.(hYmin)) (h.(hYmax)) (h.(hFills)) (h.(hMinimum)) (h.(hMaximum)) (h.(hNoStats)) (h.(hSumw2)) v (h.(hPainter)).
Definition set_hPainter (v : option addr) (h : TH2D) : TH2D :=
  mkTH2D (h.(hNbinsX)) (h.(hXmin)) (h.(hXmax)) (h.(hNbinsY)) (h.(hYmin)) (h.(hYmax)) (h.(hFills)) (h.(hMinimum)) (h.(hMaximum)) (h.(hNoStats)) (h.(hSumw2)) (h.(hFunctions)) v.

Inductive Object :=
  | ObjTH2D (h : TH2D)
  | ObjDelaunay (d : TGraphDelaunay)
  | ObjPainter (owner : addr).

(** ** The graph object *)

(** The data members of TGraph2D that the modelled methods touch.  Name,
    title, directory, the list of fit functions and the drawing attributes are
    left out; [kOldInterpolation] is the TObject status bit of that name. *)
Record TGraph2D := mkTGraph2D {
  fNpoints : Int_t;
  fNpx : Int_t;
  fNpy : Int_t;
  fMaxIter : Int_t;
  fSize : Int_t;
  fX : Array;
  fY : Array;
  fZ : Array;
  fMinimum : Double_t;
  fMaximum : Double_t;
  fMargin : Double_t;
  fZout : Double_t;
  fHistogram : option addr;
  fDelaunay : option addr;
  fPainter : option addr;
  fUserHisto : bool;
  kOldInterpolation : bool
}.

Definition set_fNpoints (v : Int_t) (g : TGraph2D) : TGraph2D :=
  mkTGraph2D v (g.(fNpx)) (g.(fNpy)) (g.(fMaxIter)) (g.(fSize)) (g.(fX)) (g.(fY)) (g.(fZ)) (g.(fMinimum)) (g.(fMaximum)) (g.(fMargin)) (g.(fZout)) (g.(fHistogram)) (g.(fDelaunay)) (g.(fPainter)) (g.(fUserHisto)) (g.(kOldInterpolation)).
Definition set_fNpx (v : Int_t) (g : TGraph2D) : TGraph2D :=
  mkTGraph2D (g.(fNpoints)) v (g.(fNpy)) (g.(fMaxIter)) (g.(fSize)) (g.(fX)) (g.(fY)) (g.(fZ)) (g.(fMinimum)) (g.(fMaximum)) (g.(fMargin)) (g.(fZout)) (g.(fHistogram)) (g.(fDelaunay)) (g.(fPainter)) (g.(fUserHisto)) (g.(kOldInterpolation)).
Definition set_fNpy (v : Int_t) (g : TGraph2D) : TGraph2D :=
  mkTGraph2D (g.(fNpoints)) (g.(fNpx)) v (g.(fMaxIter)) (g.(fSize)) (g.(fX)) (g.(fY)) (g.(fZ)) (g.(fMinimum)) (g.(fMaximum)) (g.(fMargin)) (g.(fZout)) (g.(fHistogram)) (g.(fDelaunay)) (g.(fPainter)) (g.(fUserHisto)) (g.(kOldInterpolation)).
Definition set_fMaxIter (v : Int_t) (g : TGraph2D) : TGraph2D :=
  mkTGraph2D (g.(fNpoints)) (g.(fNpx)) (g.(fNpy)) v (g.(fSize)) (g.(fX)) (g.(fY)) (g.(fZ)) (g.(fMinimum)) (g.(fMaximum)) (g.(fMargin)) (g.(fZout)) (g.(fHistogram)) (g.(fDelaunay)) (g.(fPainter)) (g.(fUserHisto)) (g.(kOldInterpolation)).
Definition set_fSize (v : Int_t) (g : TGraph2D) : TGraph2D :=
  mkTGraph2D (g.(fNpoints)) (g.(fNpx)) (g.(fNpy)) (g.(fMaxIter)) v (g.(fX)) (g.(fY)) (g.(fZ)) (g.(fMinimum)) (g.(fMaximum)) (g.(fMargin)) (g.(fZout)) (g.(fHistogram)) (g.(fDelaunay)) (g.(fPainter)) (g.(fUserHisto)) (g.(kOldInterpolation)).
Definition set_fX (v : Array) (g : TGraph2D) : TGraph2D :=
  mkTGraph2D (g.(fNpoints)) (g.(fNpx)) (g.(fNpy)) (g.(fMaxIter)) (g.(fSize)) v (g.(fY)) (g.(fZ)) (g.(fMinimum)) (g.(fMaximum)) (g.(fMargin)) (g.(fZout)) (g.(fHistogram)) (g.(fDelaunay)) (g.(fPainter)) (g.(fUserHisto)) (g.(kOldInterpolation)).
Definition set_fY (v : Array) (g : TGraph2D) : TGraph2D :=
  mkTGraph2D (g.(fNpoints)) (g.(fNpx)) (g.(fNpy)) (g.(fMaxIter)) (g.(fSize)) (g.(fX)) v (g.(fZ)) (g.(fMinimum)) (g.(fMaximum)) (g.(fMargin)) (g.(fZout)) (g.(fHistogram)) (g.(fDelaunay)) (g.(fPainter)) (g.(fUserHisto)) (g.(kOldInterpolation)).
Definition set_fZ (v : Array) (g : TGraph2D) : TGraph2D :=
  mkTGraph2D (g.(fNpoints)) (g.(fNpx)) (g.(fNpy)) (g.(fMaxIter)) (g.(fSize)) (g.(fX)) (g.(fY)) v (g.(fMinimum)) (g.(fMaximum)) (g.(fMargin)) (g.(fZout)) (g.(fHistogram)) (g.(fDelaunay)) (g.(fPainter)) (g.(fUserHisto)) (g.(kOldInterpolation)).
Definition set_fMinimum (v : Double_t) (g : TGraph2D) : TGraph2D :=
  mkTGraph2D (g.(fNpoints)) (g.(fNpx)) (g.(fNpy)) (g.(fMaxIter)) (g.(fSize)) (g.(fX)) (g.(fY)) (g.(fZ)) v (g.(fMaximum)) (g.(fMargin)) (g.(fZout)) (g.(fHistogram)) (g.(fDelaunay)) (g.(fPainter)) (g.(fUserHisto)) (g.(kOldInterpolation)).
Definition set_fMaximum (v : Double_t) (g : TGraph2D) : TGraph2D :=
  mkTGraph2D (g.(fNpoints)) (g.(fNpx)) (g.(fNpy)) (g.(fMaxIter)) (g.(fSize)) (g.(fX)) (g.(fY)) (g.(fZ)) (g.(fMinimum)) v (g.(fMargin)) (g.(fZout)) (g.(fHistogram)) (g.(fDelaunay)) (g.(fPainter)) (g.(fUserHisto)) (g.(kOldInterpolation)).
Definition set_fMargin (v : Double_t) (g : TGraph2D) : TGraph2D :=
  mkTGraph2D (g.(fNpoints)) (g.(fNpx)) (g.(fNpy)) (g.(fMaxIter)) (g.(fSize)) (g.(fX)) (g.(fY)) (g.(fZ)) (g.(fMinimum)) (g.(fMaximum)) v (g.(fZout)) (g.(fHistogram)) (g.(fDelaunay)) (g.(fPainter)) (g.(fUserHisto)) (g.(kOldInterpolation)).
Definition set_fZout (v : Double_t) (g : TGraph2D) : TGraph2D :=
  mkTGraph2D (g.(fNpoints)) (g.(fNpx)) (g.(fNpy)) (g.(fMaxIter)) (g.(fSize)) (g.(fX)) (g.(fY)) (g.(fZ)) (g.(fMinimum)) (g.(fMaximum)) (g.(fMargin)) v (g.(fHistogram)) (g.(fDelaunay)) (g.(fPainter)) (g.(fUserHisto)) (g.(kOldInterpolation)).
Definition set_fHistogram (v : option addr) (g : TGraph2D) : TGraph2D :=
  mkTGraph2D (g.(fNpoints)) (g.(fNpx)) (g.(fNpy)) (g.(fMaxIter)) (g.(fSize)) (g.(fX)) (g.(fY)) (g.(fZ)) (g.(fMinimum)) (g.(fMaximum)) (g.(fMargin)) (g.(fZout)) v (g.(fDelaunay)) (g.(fPainter)) (g.(fUserHisto)) (g.(kOldInterpolation)).
Definition set_fDelaunay (v : option addr) (g : TGraph2D) : TGraph2D :=
  mkTGraph2D (g.(fNpoints)) (g.(fNpx)) (g.(fNpy)) (g.(fMaxIter)) (g.(fSize)) (g.(fX)) (g.(fY)) (g.(fZ)) (g.(fMinimum)) (g.(fMaximum)) (g.(fMargin)) (g.(fZout)) (g.(fHistogram)) v (g.(fPainter)) (g.(fUserHisto)) (g.(kOldInterpolation)).
Definition set_fPainter (v : option addr) (g : TGraph2D) : TGraph2D :=
  mkTGraph2D (g.(fNpoints)) (g.(fNpx)) (g.(fNpy)) (g.(fMaxIter)) (g.(fSize)) (g.(fX)) (g.(fY)) (g.(fZ)) (g.(fMinimum)) (g.(fMaximum)) (g.(fMargin)) (g.(fZout)) (g.(fHistogram)) (g.(fDelaunay)) v (g.(fUserHisto)) (g.(kOldInterpolation)).
Definition set_fUserHisto (v : bool) (g : TGraph2D) : TGraph2D :=
  mkTGraph2D (g.(fNpoints)) (g.(fNpx)) (g.(fNpy)) (g.(fMaxIter)) (g.(fSize)) (g.(fX)) (g.(fY)) (g.(fZ)) (g.(fMinimum)) (g.(fMaximum)) (g.(fMargin)) (g.(fZout)) (g.(fHistogram)) (g.(fDelaunay)) (g.(fPainter)) v (g.(kOldInterpolation)).
Definition set_kOldInterpolation (v : bool) (g : TGraph2D) : TGraph2D :=
  mkTGraph2D (g.(fNpoints)) (g.(fNpx)) (g.(fNpy)) (g.(fMaxIter)) (g.(fSize)) (g.(fX)) (g.(fY)) (g.(fZ)) (g.(fMinimum)) (g.(fMaximum)) (g.(fMargin)) (g.(fZout)) (g.(fHistogram)) (g.(fDelaunay)) (g.(fPainter)) (g.(fUserHisto)) v.

(** ** Collaborators implemented elsewhere in ROOT *)

Definition Contours : Type := list (list (Double_t * Double_t)).

(** The parts of ROOT that the methods call and whose code is elsewhere: the
    geometry of the two triangulation engines (the value at a query point for
    given samples, iteration cap and outside-hull value), the extrema of the
    bin contents of a histogram ([TH1::GetMinimum] and [GetMaximum] when no
    extremum is stored), the contour extraction of the histogram painter, and
    the content of a freshly allocated, uninitialised [Double_t]. *)
Class Collaborators := {
  interpolate : Engine -> list Sample -> Int_t -> Double_t ->
                Double_t -> Double_t -> Double_t;
  bins_minimum : TH2D -> Double_t;
  bins_maximum : TH2D -> Double_t;
  painter_contours : TH2D -> Double_t -> Contours;
  indeterminate : Double_t
}.

(** ** State, undefined behaviour and the method monad *)

(** A method runs on the graph [this], the heap of ROOT objects it points to,
    the allocation pointer and the messages printed so far. *)
Record World := mkWorld {
  this : TGraph2D;
  heap : gmap addr Object;
  brk : addr;
  out : list Message
}.

(** [None] stands for undefined behaviour: a null or dangling dereference, an
    access outside an allocated block, a signed overflow. *)
Definition M (A : Type) : Type := World -> option (A * World).

Definition ret {A} (a : A) : M A := fun w => Some (a, w).

Definition bind {A B} (m : M A) (k : A -> M B) : M B :=
  fun w => match m w with
           | Some (a, w') => k a w'
           | None => None
           end.

Definition undefined {A} : M A := fun _ => None.

Declare Scope method_scope.
Delimit Scope method_scope with M.
Notation "x <- m ;; k" := (bind m (fun x => k))
  (at level 100, m at next level, k at level 200, right associativity) : method_scope.
Notation "m ;;; k" := (bind m (fun _ => k))
  (at level 100, k at level 200, right associativity) : method_scope.
#[local] Open Scope method_scope.

Definition self : M TGraph2D := fun w => Some (this w, w).

Definition update (f : TGraph2D -> TGraph2D) : M unit :=
  fun w => Some (tt, mkWorld (f (this w)) (heap w) (brk w) (out w)).

Definition emit (m : Message) : M unit :=
  fun w => Some (tt, mkWorld (this w) (heap w) (brk w) (out w ++ [m])).

Definition Error (loc txt : string) (a : list Int_t) : M unit :=
  emit (mkMessage kError loc txt a).

Definition Warning (loc txt : string) : M unit :=
  emit (mkMessage kWarning loc txt []).

(** [new]: the object is placed at the allocation pointer, which advances. *)
Definition new (o : Object) : M addr :=
  fun w => Some (brk w, mkWorld (this w) (<[brk w := o]> (heap w)) (S (brk w)) (out w)).

Definition poke (a : addr) (o : Object) : M unit :=
  fun w => Some (tt, mkWorld (this w) (<[a := o]> (heap w)) (brk w) (out w)).

Definition free (a : addr) : M unit :=
  fun w => Some (tt, mkWorld (this w) (delete a (heap w)) (brk w) (out w)).

Definition hist_at (a : addr) : M TH2D :=
  fun w => match heap w !! a with
           | Some (ObjTH2D h) => Some (h, w)
           | _ => None
           end.

Definition delaunay_at (a : addr) : M TGraphDelaunay :=
  fun w => match heap w !! a with
           | Some (ObjDelaunay d) => Some (d, w)
           | _ => None
           end.

Definition painter_at (a : addr) : M addr :=
  fun w => match heap w !! a with
           | Some (ObjPainter o) => Some (o, w)
           | _ => None
           end.

Definition hist_update (a : addr) (f : TH2D -> TH2D) : M unit :=
  h <- hist_at a ;; poke a (ObjTH2D (f h)).

Fixpoint free_all (l : list addr) : M unit :=
  match l with
  | [] => ret tt
  | a :: l' => free a ;;; free_all l'
  end.

(** [delete h] for a histogram: the TH1 destructor also deletes the objects
    of its list of functions and its painter. *)
Definition delete_hist (a : addr) : M unit :=
  h <- hist_at a ;;
  free_all (hFunctions h) ;;;
  free_all (option_list (hPainter h)) ;;;
  free a.

(** Element access on a [Double_t*] member. *)
Definition load (a : Array) (i : Int_t) : M Double_t :=
  match a with
  | Some l =>
      if i <? 0 then undefined
      else match l !! Z.to_nat i with
           | Some v => ret v
           | None => undefined
           end
  | None => undefined
  end.

Definition store (a : Array) (i : Int_t) (v : Double_t) : M Array :=
  match a with
  | Some l =>
      if (0 <=? i) && (i <? Z.of_nat (length l))
      then ret (Some (<[Z.to_nat i := v]> l))
      else undefined
  | None => undefined
  end.

Definition is_null {A} (p : option A) : bool :=
  match p with None => true | Some _ => false end.

(** [for (Int_t i = lo; i < hi; i++) body(i)] for a body that leaves the
    bounds alone. *)
Fixpoint for_count (n : nat) (i : Int_t) (body : Int_t -> M unit) : M unit :=
  match n with
  | O => ret tt
  | S n' => body i ;;; for_count n' (i + 1) body
  end.

Definition for_range (lo hi : Int_t) (body : Int_t -> M unit) : M unit :=
  for_count (Z.to_nat (hi - lo)) lo body.

(** ** TString and TMath helpers *)

Definition lower_char (c : ascii) : ascii :=
  let n := nat_of_ascii c in
  if ((65 <=? n) && (n <=? 90))%nat then ascii_of_nat (n + 32) else c.

Fixpoint ToLower (s : string) : string :=
  match s with
  | EmptyString => EmptyString
  | String c s' => String (lower_char c) (ToLower s')
  end.

Definition Contains (s pat : string) : bool :=
  negb (is_null (String.index 0 pat s)).

(** Modelled from the spec: [TMath::AreEqualRel] is defined in TMath.h, not
    in TGraph2D.cxx; the specification speaks of equality within a relative
    epsilon, which is the test below together with the guard for denormal
    differences. *)
Definition kMinDouble : Double_t := 0x1p-1022%float.

Definition AreEqualRel (a b relPrec : Double_t) : bool :=
  dle (Abs (a - b)%float) (0.5 * relPrec * (Abs a + Abs b))%float
  || dlt (Abs (a - b)%float) kMinDouble.

(** ** The methods of TGraph2D *)

Section Methods.
Context `{Collaborators}.

(** [new Double_t[n]]: a block of [n] uninitialised doubles. *)
Definition new_array (n : Int_t) : Array :=
  Some (replicate (Z.to_nat n) indeterminate).

(** The block that five methods share verbatim:
    [if (fHistogram) { delete fHistogram; fHistogram = nullptr; fDelaunay = nullptr; }] *)
Definition discard_histogram : M unit :=
  g <- self ;;
  match fHistogram g with
  | Some a =>
      delete_hist a ;;;
      update (set_fHistogram None) ;;;
      update (set_fDelaunay None)
  | None => ret tt
  end.

(** *** Construction (lines 243-263, 303-314, 384-393, 600-631) *)

(** The TObject base class starts with all status bits cleared. *)
Definition TObject_ctor : M unit := update (set_kOldInterpolation false).

(** [TGraph2D::TGraph2D()].  The assignments to [fDirectory] and [fFunctions]
    concern members that the record leaves out. *)
Definition TGraph2D_ctor : M unit :=
  TObject_ctor ;;;
  update (set_fNpoints 0) ;;;
  update (set_fSize 0) ;;;
  update (set_fMargin 0%float) ;;;
  update (set_fNpx 40) ;;;
  update (set_fNpy 40) ;;;
  update (set_fHistogram None) ;;;
  update (set_fDelaunay None) ;;;
  update (set_fMaximum (-1111)%float) ;;;
  update (set_fMinimum (-1111)%float) ;;;
  update (set_fX None) ;;;
  update (set_fY None) ;;;
  update (set_fZ None) ;;;
  update (set_fZout 0%float) ;;;
  update (set_fMaxIter 100000) ;;;
  update (set_fPainter None) ;;;
  update (set_fUserHisto false).

(** [TGraph2D::Build(Int_t n)].  The assignments to [fDirectory] and
    [fFunctions] and the registration in the current directory that ends the
    method concern members that the record leaves out: the list of fit
    functions that is created and the directory are not in the modelled
    heap. *)
Definition Build (n : Int_t) : M unit :=
  if n <=? 0 then Error "TGraph2D" "Invalid number of points (%d)" [n]
  else
    update (set_fSize n) ;;;
    update (set_fMargin 0%float) ;;;
    update (set_fNpx 40) ;;;
    update (set_fNpy 40) ;;;
    update (set_fHistogram None) ;;;
    update (set_fDelaunay None) ;;;
    update (set_fMaximum (-1111)%float) ;;;
    update (set_fMinimum (-1111)%float) ;;;
    update (set_fX (new_array n)) ;;;
    update (set_fY (new_array n)) ;;;
    update (set_fZ (new_array n)) ;;;
    update (set_fZout 0%float) ;;;
    update (set_fMaxIter 100000) ;;;
    update (set_fPainter None) ;;;
    update (set_fUserHisto false).

(** One iteration of the copy loops: [fX[i] = x[i]; fY[i] = y[i]; fZ[i] = z[i];] *)
Definition copy_point (x y z : Array) (i : Int_t) : M unit :=
  xi <- load x i ;;
  g <- self ;; ax <- store (fX g) i xi ;; update (set_fX ax) ;;;
  yi <- load y i ;;
  g <- self ;; ay <- store (fY g) i yi ;; update (set_fY ay) ;;;
  zi <- load z i ;;
  g <- self ;; az <- store (fZ g) i zi ;; update (set_fZ az).

(** [TGraph2D::TGraph2D(Int_t n, Double_t *x, Double_t *y, Double_t *z)] *)
Definition TGraph2D_ctor_arrays (n : Int_t) (x y z : Array) : M unit :=
  TObject_ctor ;;;
  update (set_fNpoints n) ;;;
  Build n ;;;
  g <- self ;;
  for_range 0 (fNpoints g) (copy_point x y z).

(** [TGraph2D::TGraph2D(Int_t n)] *)
Definition TGraph2D_ctor_n (n : Int_t) : M unit :=
  TObject_ctor ;;;
  update (set_fNpoints n) ;;;
  Build n ;;;
  g <- self ;;
  for_range 0 (fNpoints g) (fun i =>
    g <- self ;; ax <- store (fX g) i 0%float ;; update (set_fX ax) ;;;
    g <- self ;; ay <- store (fY g) i 0%float ;; update (set_fY ay) ;;;
    g <- self ;; az <- store (fZ g) i 0%float ;; update (set_fZ az)).

(** *** Grid resolution and build parameters (lines 1609-1731) *)

(** [TGraph2D::SetMargin(Double_t m)] *)
Definition SetMargin (m : Double_t) : M unit :=
  (if dlt m 0%float || dlt 1%float m then
     Warning "SetMargin" "The margin must be >= 0 && <= 1, fMargin set to 0.1" ;;;
     update (set_fMargin 0.1%float)
   else
     update (set_fMargin m)) ;;;
  discard_histogram.

(** [TGraph2D::SetMarginBinsContent(Double_t z)] *)
Definition SetMarginBinsContent (z : Double_t) : M unit :=
  update (set_fZout z) ;;;
  discard_histogram.

(** [TGraph2D::SetNpx(Int_t npx)] *)
Definition SetNpx (npx : Int_t) : M unit :=
  (if npx <? 4 then
     Warning "SetNpx" "Number of points must be >4 && < 500, fNpx set to 4" ;;;
     update (set_fNpx 4)
   else if 500 <? npx then
     Warning "SetNpx" "Number of points must be >4 && < 500, fNpx set to 500" ;;;
     update (set_fNpx 500)
   else
     update (set_fNpx npx)) ;;;
  discard_histogram.

(** [TGraph2D::SetNpy(Int_t npy)] *)
Definition SetNpy (npy : Int_t) : M unit :=
  (if npy <? 4 then
     Warning "SetNpy" "Number of points must be >4 && < 500, fNpy set to 4" ;;;
     update (set_fNpy 4)
   else if 500 <? npy then
     Warning "SetNpy" "Number of points must be >4 && < 500, fNpy set to 500" ;;;
     update (set_fNpy 500)
   else
     update (set_fNpy npy)) ;;;
  discard_histogram.

(** *** Points (lines 1227-1235, 1435-1485, 1739-1773) *)

(** [TGraph2D::GetPoint(Int_t i, Double_t &x, Double_t &y, Double_t &z) const]:
    the three references are passed in and handed back with the result. *)
Definition GetPoint (i : Int_t) (xyz : Double_t * Double_t * Double_t)
  : M (Int_t * (Double_t * Double_t * Double_t)) :=
  g <- self ;;
  if (i <? 0) || (fNpoints g <=? i) then ret (-1, xyz)
  else if is_null (fX g) || is_null (fY g) || is_null (fZ g) then ret (-1, xyz)
  else
    x <- load (fX g) i ;;
    y <- load (fY g) i ;;
    z <- load (fZ g) i ;;
    ret (i, (x, y, z)).

(** One iteration of the shifting loop of [RemovePoint]. *)
Definition shift_point (i : Int_t) : M unit :=
  g <- self ;; v <- load (fX g) (i + 1) ;; ax <- store (fX g) i v ;; update (set_fX ax) ;;;
  g <- self ;; v <- load (fY g) (i + 1) ;; ay <- store (fY g) i v ;; update (set_fY ay) ;;;
  g <- self ;; v <- load (fZ g) (i + 1) ;; az <- store (fZ g) i v ;; update (set_fZ az).

(** [TGraph2D::RemovePoint(Int_t ipoint)] *)
Definition RemovePoint (ipoint : Int_t) : M Int_t :=
  if ipoint <? 0 then ret (-1)
  else
    g <- self ;;
    if fNpoints g <=? ipoint then ret (-1)
    else
      for_range ipoint (fNpoints g - 1) shift_point ;;;
      update (fun g => set_fNpoints (fNpoints g - 1) g) ;;;
      discard_histogram ;;;
      ret ipoint.

(** The inner loop of [RemoveDuplicates], entered at index [j]:
    [for (...; j < fNpoints; j++) if (x == fX[j] && y == fY[j]) { RemovePoint(j); j--; }].
    Every iteration either advances [j] or shortens the graph, so
    [fNpoints - j] iterations are enough; [fuel] is that bound. *)
Fixpoint dup_scan (fuel : nat) (x y : Double_t) (j : Int_t) : M unit :=
  g <- self ;;
  if j <? fNpoints g then
    match fuel with
    | O => undefined
    | S fuel' =>
        xj <- load (fX g) j ;;
        same <- (if deq x xj then yj <- load (fY g) j ;; ret (deq y yj)
                 else ret false) ;;
        if same then RemovePoint j ;;; dup_scan fuel' x y (j - 1 + 1)
        else dup_scan fuel' x y (j + 1)
    end
  else ret tt.

(** The outer loop of [RemoveDuplicates], entered at index [i]. *)
Fixpoint dup_outer (fuel : nat) (i : Int_t) : M unit :=
  g <- self ;;
  if i <? fNpoints g then
    match fuel with
    | O => undefined
    | S fuel' =>
        x <- load (fX g) i ;;
        y <- load (fY g) i ;;
        dup_scan (Z.to_nat (fNpoints g - (i + 1))) x y (i + 1) ;;;
        dup_outer fuel' (i + 1)
    end
  else ret tt.

(** [TGraph2D::RemoveDuplicates()] *)
Definition RemoveDuplicates : M Int_t :=
  g <- self ;;
  dup_outer (Z.to_nat (fNpoints g)) 0 ;;;
  g <- self ;;
  ret (fNpoints g).

(** The reallocation of one coordinate array in [SetPoint]: a new block of
    [newN] doubles; when the old block exists and [fSize] is not zero its
    first [fSize] elements are copied and the rest is zeroed. *)
Definition regrow (old : Array) (size newN : Int_t) : M Array :=
  match old with
  | Some l =>
      if size =? 0 then ret (new_array newN)
      else if (0 <? size) && (size <=? Z.of_nat (length l)) && (size <=? newN)
      then ret (Some (take (Z.to_nat size) l
                      ++ replicate (Z.to_nat (newN - size)) 0%float))
      else undefined
  | None => ret (new_array newN)
  end.

(** [TGraph2D::SetPoint(Int_t n, Double_t x, Double_t y, Double_t z)] *)
Definition SetPoint (n : Int_t) (x y z : Double_t) : M unit :=
  if n <? 0 then ret tt
  else
    g <- self ;;
    (if is_null (fX g) || is_null (fY g) || is_null (fZ g) || (fSize g <=? n) then
       if (kMaxInt <? 2 * fSize g) || (2 * fSize g <? - kMaxInt - 1) || (kMaxInt <? n + 1)
       then undefined
       else
         let newN := Z.max (2 * fSize g) (n + 1) in
         savex <- regrow (fX g) (fSize g) newN ;;
         savey <- regrow (fY g) (fSize g) newN ;;
         savez <- regrow (fZ g) (fSize g) newN ;;
         update (set_fX savex) ;;;
         update (set_fY savey) ;;;
         update (set_fZ savez) ;;;
         update (set_fSize newN)
     else ret tt) ;;;
    g <- self ;; ax <- store (fX g) n x ;; update (set_fX ax) ;;;
    g <- self ;; ay <- store (fY g) n y ;; update (set_fY ay) ;;;
    g <- self ;; az <- store (fZ g) n z ;; update (set_fZ az) ;;;
    update (fun g => set_fNpoints (Z.max (fNpoints g) (n + 1)) g).

(** *** Extrema of the coordinates (lines 1161-1221) *)

(** [for (Int_t i = 1; i < fNpoints; i++) if (better(a[i], v)) v = a[i];] *)
Fixpoint scan_from (cnt : nat) (i : Int_t) (better : Double_t -> Double_t -> bool)
    (a : Array) (v : Double_t) : M Double_t :=
  match cnt with
  | O => ret v
  | S cnt' =>
      ai <- load a i ;;
      scan_from cnt' (i + 1) better a (if better ai v then ai else v)
  end.

Definition extremum (better : Double_t -> Double_t -> bool) (a : Array) (n : Int_t)
  : M Double_t :=
  v <- load a 0 ;;
  scan_from (Z.to_nat (n - 1)) 1 better a v.

Definition greater (a v : Double_t) : bool := dlt v a.
Definition smaller (a v : Double_t) : bool := dlt a v.

Definition GetXmax : M Double_t := g <- self ;; extremum greater (fX g) (fNpoints g).
Definition GetXmin : M Double_t := g <- self ;; extremum smaller (fX g) (fNpoints g).
Definition GetYmax : M Double_t := g <- self ;; extremum greater (fY g) (fNpoints g).
Definition GetYmin : M Double_t := g <- self ;; extremum smaller (fY g) (fNpoints g).
Definition GetZmax : M Double_t := g <- self ;; extremum greater (fZ g) (fNpoints g).
Definition GetZmin : M Double_t := g <- self ;; extremum smaller (fZ g) (fNpoints g).

(** Modelled from the spec: the virtual [GetXmaxE] and its five siblings are
    defined in TGraph2D.h, not in TGraph2D.cxx.  The bounding box of the
    specification is the minimum and maximum of x and y over all samples, and
    a graph without errors has nothing to add to them. *)
Definition GetXmaxE : M Double_t := GetXmax.
Definition GetXminE : M Double_t := GetXmin.
Definition GetYmaxE : M Double_t := GetYmax.
Definition GetYminE : M Double_t := GetYmin.
Definition GetZmaxE : M Double_t := GetZmax.
Definition GetZminE : M Double_t := GetZmin.

(** *** The histogram and its interpolator (lines 916-928, 964-983, 1010-1155, 1241-1272) *)

(** [new TH2D(name, title, nx, xmin, xmax, ny, ymin, ymax)] *)
Definition new_TH2D (nx : Int_t) (xmin xmax : Double_t) (ny : Int_t)
    (ymin ymax : Double_t) : TH2D :=
  mkTH2D nx xmin xmax ny ymin ymax [] (-1111)%float (-1111)%float false false [] None.

(** [TH1::GetEntries()]: one entry per [Fill]. *)
Definition GetEntries (h : TH2D) : Z := Z.of_nat (length (hFills h)).

(** [TH1::GetMinimum()] and [TH1::GetMaximum()]: the stored value unless it
    is -1111, otherwise the extremum of the bin contents. *)
Definition TH1_GetMinimum (h : TH2D) : Double_t :=
  if dne (hMinimum h) (-1111)%float then hMinimum h else bins_minimum h.

Definition TH1_GetMaximum (h : TH2D) : Double_t :=
  if dne (hMaximum h) (-1111)%float then hMaximum h else bins_maximum h.

(** A method call through [fHistogram]; a null pointer is dereferenced when
    there is no histogram. *)
Definition with_histogram {A} (k : addr -> M A) : M A :=
  g <- self ;;
  match fHistogram g with
  | Some a => k a
  | None => undefined
  end.

(** The name under which [TList::FindObject] sees an object.  The modelled
    methods only ever add interpolators to a list of functions. *)
Definition object_name (o : Object) : string :=
  match o with
  | ObjDelaunay d => engine_name (dEngine d)
  | _ => ""
  end.

(** [TList::FindObject(const char *name)] *)
Fixpoint FindObject (name : string) (l : list addr) : M (option addr) :=
  match l with
  | [] => ret None
  | a :: l' =>
      o <- (fun w => match heap w !! a with Some o => Some (o, w) | None => None end) ;;
      if String.eqb (object_name o) name then ret (Some a)
      else FindObject name l'
  end.

Definition delaunay_update (a : addr) (f : TGraphDelaunay -> TGraphDelaunay) : M unit :=
  d <- delaunay_at a ;; poke a (ObjDelaunay (f d)).

Definition SetMaxIter (n : Int_t) (d : TGraphDelaunay) : TGraphDelaunay :=
  mkDelaunay (dEngine d) n (dZout d) (dSnapshot d).

Definition Delaunay_SetMarginBinsContent (z : Double_t) (d : TGraphDelaunay)
  : TGraphDelaunay :=
  mkDelaunay (dEngine d) (dMaxIter d) z (dSnapshot d).

(** Modelled from the spec: a new interpolator has the default iteration cap
    100000 and outside-hull value 0, and no triangulation yet. *)
Definition new_Delaunay (e : Engine) : TGraphDelaunay :=
  mkDelaunay e 100000 0%float None.

(** [TGraph2D::CreateInterpolator(Bool_t oldInterp)] *)
Definition CreateInterpolator (oldInterp : bool) : M unit :=
  with_histogram (fun ha =>
    hist_at ha ;;;
    if oldInterp then
      dt <- new (ObjDelaunay (new_Delaunay kDelaunay)) ;;
      g <- self ;;
      delaunay_update dt (SetMaxIter (fMaxIter g)) ;;;
      delaunay_update dt (Delaunay_SetMarginBinsContent (fZout g)) ;;;
      update (set_fDelaunay (Some dt)) ;;;
      update (set_kOldInterpolation true) ;;;
      h <- hist_at ha ;;
      found <- FindObject "TGraphDelaunay" (hFunctions h) ;;
      if is_null found
      then hist_update ha (fun h => set_hFunctions (hFunctions h ++ [dt]) h)
      else ret tt
    else
      dt <- new (ObjDelaunay (new_Delaunay kDelaunay2D)) ;;
      g <- self ;;
      delaunay_update dt (Delaunay_SetMarginBinsContent (fZout g)) ;;;
      update (set_fDelaunay (Some dt)) ;;;
      update (set_kOldInterpolation false) ;;;
      h <- hist_at ha ;;
      found <- FindObject "TGraphDelaunay2D" (hFunctions h) ;;
      if is_null found
      then hist_update ha (fun h => set_hFunctions (hFunctions h ++ [dt]) h)
      else ret tt).

(** The first [n] elements of a coordinate array, as the interpolator reads
    them through its pointer to the graph. *)
Definition block (a : Array) (n : Int_t) : M (list Double_t) :=
  match a with
  | Some l => if n <=? Z.of_nat (length l) then ret (take (Z.to_nat n) l) else undefined
  | None => if n <=? 0 then ret [] else undefined
  end.

Fixpoint zip3 (xs ys zs : list Double_t) : list Sample :=
  match xs, ys, zs with
  | x :: xs', y :: ys', z :: zs' => mkSample x y z :: zip3 xs' ys' zs'
  | _, _, _ => []
  end.

Definition graph_samples : M (list Sample) :=
  g <- self ;;
  xs <- block (fX g) (fNpoints g) ;;
  ys <- block (fY g) (fNpoints g) ;;
  zs <- block (fZ g) (fNpoints g) ;;
  ret (zip3 xs ys zs).

(** Modelled from the spec: [ComputeZ] of the interpolator at [a].  If the
    triangulation has not been built yet it is built first, from the samples
    the graph holds at that moment, and memoized; the value is then the
    engine's interpolation on that triangulation.  There is no other side
    effect. *)
Definition ComputeZ (a : addr) (x y : Double_t) : M Double_t :=
  d <- delaunay_at a ;;
  snap <- match dSnapshot d with
          | Some s => ret s
          | None => graph_samples
          end ;;
  poke a (ObjDelaunay (mkDelaunay (dEngine d) (dMaxIter d) (dZout d) (Some snap))) ;;;
  ret (interpolate (dEngine d) snap (dMaxIter d) (dZout d) x y).

Definition Engine_eqb (a b : Engine) : bool :=
  match a, b with
  | kDelaunay, kDelaunay | kDelaunay2D, kDelaunay2D => true
  | _, _ => false
  end.

(** [ComputeZ(x, y)] called through [fDelaunay] after a C cast to one of the
    two interpolator classes: the cast is only defined when the object is of
    the class it is cast to. *)
Definition ComputeZ_as (e : Engine) (x y : Double_t) : M Double_t :=
  g <- self ;;
  match fDelaunay g with
  | Some a =>
      d <- delaunay_at a ;;
      if Engine_eqb (dEngine d) e then ComputeZ a x y else undefined
  | None => undefined
  end.

(** [fHistogram->Fill(x, y, z)] *)
Definition Fill (x y z : Double_t) : M unit :=
  with_histogram (fun a =>
    hist_update a (fun h => set_hFills (hFills h ++ [(x, y, z)]) h)).

(** The widening of a degenerate axis range, written out twice in
    [GetHistogram], once for x and once for y. *)
Definition epsilon : Double_t := 1e-9%float.

Definition widen (hmin hmax : Double_t) : Double_t * Double_t :=
  if AreEqualRel hmax hmin epsilon then
    if dlt (Abs hmin) epsilon then ((-0.001)%float, 0.001%float)
    else ((hmin - Abs hmin * (epsilon / 2))%float,
          (hmax + Abs hmax * (epsilon / 2))%float)
  else (hmin, hmax).

(** The block [delete fHistogram; fHistogram = nullptr; fDelaunay = nullptr;]
    as it stands inside [GetHistogram], where [fHistogram] is known to be
    [a]. *)
Definition delete_cached (a : addr) : M unit :=
  delete_hist a ;;;
  update (set_fHistogram None) ;;;
  update (set_fDelaunay None).

(** [GetHistogram], lines 1028-1047: what to do with an existing histogram.
    The result is [true] when the method returns it as it is. *)
Definition GetHistogram_cached (empty oldInterp : bool) : M bool :=
  g <- self ;;
  match fHistogram g with
  | None => ret false
  | Some a =>
      h <- hist_at a ;;
      if negb empty && (GetEntries h =? 0) then
        (if negb (fUserHisto g) then delete_cached a else ret tt) ;;;
        ret false
      else if GetEntries h =? 0 then ret false
      else if (kOldInterpolation g && negb oldInterp)
              || (negb (kOldInterpolation g) && oldInterp)
      then delete_cached a ;;; ret false
      else ret true
  end.

(** [GetHistogram], lines 1049-1097: the axis ranges, and the booking of the
    histogram and of its interpolator when there is none. *)
Definition GetHistogram_book (oldInterp : bool)
  : M (Double_t * Double_t * Double_t * Double_t) :=
  g <- self ;;
  if negb (fUserHisto g) then
    xmax <- GetXmaxE ;;
    ymax <- GetYmaxE ;;
    xmin <- GetXminE ;;
    ymin <- GetYminE ;;
    let hxmin := (xmin - fMargin g * (xmax - xmin))%float in
    let hymin := (ymin - fMargin g * (ymax - ymin))%float in
    let hxmax := (xmax + fMargin g * (xmax - xmin))%float in
    let hymax := (ymax + fMargin g * (ymax - ymin))%float in
    let hx := widen hxmin hxmax in
    let hy := widen hymin hymax in
    match fHistogram g with
    | Some a =>
        hist_update a (fun h => set_hXmax (snd hx) (set_hXmin (fst hx) h)) ;;;
        hist_update a (fun h => set_hYmax (snd hy) (set_hYmin (fst hy) h))
    | None =>
        a <- new (ObjTH2D (new_TH2D (fNpx g) (fst hx) (snd hx)
                                    (fNpy g) (fst hy) (snd hy))) ;;
        update (set_fHistogram (Some a)) ;;;
        CreateInterpolator oldInterp
    end ;;;
    with_histogram (fun a => hist_update a (set_hNoStats true)) ;;;
    with_histogram (fun a => hist_update a (set_hSumw2 false)) ;;;
    ret (fst hx, snd hx, fst hy, snd hy)
  else
    with_histogram (fun a =>
      h <- hist_at a ;;
      ret (hXmin h, hXmax h, hYmin h, hYmax h)).

(** [GetHistogram], lines 1101-1125: option "empty". *)
Definition GetHistogram_empty : M (option addr) :=
  g <- self ;;
  hzmin <- (if dne (fMinimum g) (-1111)%float then ret (fMinimum g) else GetZminE) ;;
  hzmax <- (if dne (fMaximum g) (-1111)%float then ret (fMaximum g) else GetZmaxE) ;;
  let hz :=
    if deq hzmin hzmax then
      if deq hzmin 0%float then ((-0.01)%float, 0.01%float)
      else ((hzmin - 0.01 * Abs hzmin)%float, (hzmin + 0.01 * Abs hzmin)%float)
    else (hzmin, hzmax) in
  with_histogram (fun a => hist_update a (set_hMinimum (fst hz))) ;;;
  with_histogram (fun a => hist_update a (set_hMaximum (snd hz))) ;;;
  g <- self ;;
  ret (fHistogram g).

(** The centre of cell [i] on an axis that starts at [hmin] with cells of
    width [d]: [hmin + (i - 0.5) * d]. *)
Definition cell_centre (hmin d : Double_t) (i : Int_t) : Double_t :=
  (hmin + (Int2Double i - 0.5) * d)%float.

(** [GetHistogram], lines 1127-1154: the interpolation at every cell centre
    and the final extrema. *)
Definition GetHistogram_fill (oldInterp : bool)
    (lim : Double_t * Double_t * Double_t * Double_t) : M (option addr) :=
  let '(hxmin, hxmax, hymin, hymax) := lim in
  g <- self ;;
  let dx := ((hxmax - hxmin) / Int2Double (fNpx g))%float in
  let dy := ((hymax - hymin) / Int2Double (fNpy g))%float in
  for_range 1 (fNpx g + 1) (fun ix =>
    let x := cell_centre hxmin dx ix in
    for_range 1 (fNpy g + 1) (fun iy =>
      let y := cell_centre hymin dy iy in
      z <- ComputeZ_as (if oldInterp then kDelaunay else kDelaunay2D) x y ;;
      Fill x y z)) ;;;
  hzmin <- GetZminE ;;
  hzmax <- GetZmaxE ;;
  with_histogram (fun a =>
    h <- hist_at a ;;
    if dlt hzmin (TH1_GetMinimum h) then hist_update a (set_hMinimum hzmin) else ret tt) ;;;
  with_histogram (fun a =>
    h <- hist_at a ;;
    if dlt (TH1_GetMaximum h) hzmax then hist_update a (set_hMaximum hzmax) else ret tt) ;;;
  (if dne (fMinimum g) (-1111)%float
   then with_histogram (fun a => hist_update a (set_hMinimum (fMinimum g)))
   else ret tt) ;;;
  (if dne (fMaximum g) (-1111)%float
   then with_histogram (fun a => hist_update a (set_hMaximum (fMaximum g)))
   else ret tt) ;;;
  g <- self ;;
  ret (fHistogram g).

(** [TGraph2D::GetHistogram(Option_t *option)], the option being [opt_arg] *)
Definition GetHistogram (opt_arg : string) : M (option addr) :=
  g <- self ;;
  if fNpoints g <=? 0 then
    (if is_null (fHistogram g) then
       a <- new (ObjTH2D (new_TH2D (fNpx g) 0%float 1%float (fNpy g) 0%float 1%float)) ;;
       update (set_fHistogram (Some a)) ;;;
       hist_update a (set_hNoStats true)
     else ret tt) ;;;
    g <- self ;;
    ret (fHistogram g)
  else
    let opt := ToLower opt_arg in
    let empty := Contains opt "empty" in
    let oldInterp := Contains opt "old" in
    cached <- GetHistogram_cached empty oldInterp ;;
    if cached then g <- self ;; ret (fHistogram g)
    else
      lim <- GetHistogram_book oldInterp ;;
      if empty then GetHistogram_empty
      else GetHistogram_fill oldInterp lim.

(** The lookup of the interpolator in [Interpolate], lines 1249-1260. *)
Definition find_interpolator : M unit :=
  g <- self ;;
  if is_null (fDelaunay g) then
    with_histogram (fun ha =>
      h <- hist_at ha ;;
      if negb (kOldInterpolation g) then
        d <- FindObject "TGraphDelaunay2D" (hFunctions h) ;;
        update (set_fDelaunay d) ;;;
        if is_null d then
          d' <- FindObject "TGraphDelaunay" (hFunctions h) ;;
          update (set_fDelaunay d')
        else ret tt
      else
        d <- FindObject "TGraphDelaunay" (hFunctions h) ;;
        update (set_fDelaunay d) ;;;
        if is_null d then
          d' <- FindObject "TGraphDelaunay2D" (hFunctions h) ;;
          update (set_fDelaunay d')
        else ret tt)
  else ret tt.

(** [TGraph2D::Interpolate(Double_t x, Double_t y)] *)
Definition Interpolate (x y : Double_t) : M Double_t :=
  g <- self ;;
  if fNpoints g <=? 0 then
    Error "Interpolate" "Empty TGraph2D" [] ;;;
    ret 0%float
  else
    (if is_null (fHistogram g) then GetHistogram "empty" ;;; ret tt else ret tt) ;;;
    find_interpolator ;;;
    g <- self ;;
    match fDelaunay g with
    | None => ret QuietNaN
    | Some a =>
        d <- delaunay_at a ;;
        match dEngine d with
        | kDelaunay2D => ComputeZ a x y
        | kDelaunay => ComputeZ a x y
        end
    end.

(** [TH1::GetPainter()]: the painter of a histogram is created on first use
    and kept. *)
Definition TH1_GetPainter (a : addr) : M addr :=
  h <- hist_at a ;;
  match hPainter h with
  | Some p => ret p
  | None =>
      p <- new (ObjPainter a) ;;
      hist_update a (set_hPainter (Some p)) ;;;
      ret p
  end.

(** [TGraph2D::GetContourList(Double_t contour)]; [None] is the null list. *)
Definition GetContourList (contour : Double_t) : M (option Contours) :=
  g <- self ;;
  if fNpoints g <=? 0 then
    Error "GetContourList" "Empty TGraph2D" [] ;;;
    ret None
  else
    (if is_null (fHistogram g) then GetHistogram "empty" ;;; ret tt else ret tt) ;;;
    g <- self ;;
    (if is_null (fPainter g) then
       p <- with_histogram TH1_GetPainter ;;
       update (set_fPainter (Some p))
     else ret tt) ;;;
    g <- self ;;
    match fPainter g with
    | Some p =>
        owner <- painter_at p ;;
        h <- hist_at owner ;;
        ret (Some (painter_contours h contour))
    | None => undefined
    end.

End Methods.

(** ** A reference environment *)

(** A small engine for running the methods on concrete graphs: the value at
    a sample's own position is that sample's z (the first such sample wins),
    and every other position counts as outside the hull. *)
Fixpoint vertex_lookup (l : list Sample) (zout x y : Double_t) : Double_t :=
  match l with
  | [] => zout
  | s :: l' => if deq x (sx s) && deq y (sy s) then sz s else vertex_lookup l' zout x y
  end.

Definition fills_extremum (better : Double_t -> Double_t -> bool) (h : TH2D) : Double_t :=
  fold_left (fun v f => if better (snd f) v then snd f else v) (hFills h) 0%float.

Definition reference : Collaborators := {|
  interpolate := fun _ l _ zout x y => vertex_lookup l zout x y;
  bins_minimum := fills_extremum smaller;
  bins_maximum := fills_extremum greater;
  painter_contours := fun _ _ => [];
  indeterminate := (-7.5)%float
|}.

(** Raw storage before a constructor has run. *)
Definition raw_graph : TGraph2D :=
  mkTGraph2D 7 7 7 7 7 None None None 7%float 7%float 7%float 7%float
             (Some 7%nat) (Some 7%nat) (Some 7%nat) true true.

Definition raw_world : World := mkWorld raw_graph ∅ 0%nat [].

(** Running a method and keeping only the resulting world. *)
Definition exec {A} (m : M A) (w : World) : option World :=
  match m w with
  | Some (_, w') => Some w'
  | None => None
  end.

(** ** Further methods of TGraph2D *)

(** The histograms that [Project] hands to its caller.  A one-dimensional
    histogram records its [Fill(x, w)] calls; both kinds come with the
    number of entries stored by [SetEntries]. *)
Record TH1D := mkTH1D {
  h1Nbins : Int_t;
  h1Xmin : Double_t;
  h1Xmax : Double_t;
  h1Fills : list (Double_t * Double_t)
}.

Inductive Projection :=
  | ProjTH1D (h : TH1D)
  | ProjTH2D (h : TH2D).

(** What [TF2::Eval(x, y, z)] computes for a given function object. *)
Definition TF2 : Type := Double_t -> Double_t -> Double_t -> Double_t.

(** The global [gPad], the current pad: [None] when there is none, and
    otherwise what its [Modified()] does to the program state.  The code of
    the pad is in the graphics libraries. *)
Definition Pad : Type := option (M unit).

(** [if (gPad) gPad->Modified();] *)
Definition notify (gPad : Pad) : M unit :=
  match gPad with
  | Some Modified => Modified
  | None => ret tt
  end.

Section MoreMethods.
Context `{Collaborators}.

(** *** Releasing and resizing (lines 679-703, 1552-1558) *)

(** [TGraph2D::Clear], whose option is unused.  The coordinate blocks live inside the
    object here, so [delete [] fX] has nothing to release beyond the
    assignment that follows it.  The two last blocks of the method release
    the list of fit functions and the directory entry, which are not among
    the modelled members. *)
Definition Clear : M unit :=
  update (set_fX None) ;;;
  update (set_fY None) ;;;
  update (set_fZ None) ;;;
  update (set_fNpoints 0) ;;;
  update (fun g => set_fSize (fNpoints g) g) ;;;
  g <- self ;;
  match fHistogram g with
  | Some a => if negb (fUserHisto g) then delete_cached a else ret tt
  | None => ret tt
  end.

(** [TGraph2D::Set(Int_t n)] *)
Definition TGraph2D_Set (n : Int_t) : M unit :=
  let n := if n <? 0 then 0 else n in
  g <- self ;;
  if n =? fNpoints g then ret tt
  else
    (if fNpoints g <? n then SetPoint n 0%float 0%float 0%float else ret tt) ;;;
    update (set_fNpoints n).

(** *** Arithmetic on the points (lines 640-664, 1530-1545) *)

(** [TGraph2D::Add(TF2 *f, Double_t c1)]: the loop
    [fZ[i] += c1*f->Eval(fX[i], fY[i], fZ[i])] and then the notification of
    the current pad, which is an argument here. *)
Definition Add (gPad : Pad) (f : TF2) (c1 : Double_t) : M unit :=
  g <- self ;;
  for_range 0 (fNpoints g) (fun i =>
    g <- self ;;
    x <- load (fX g) i ;;
    y <- load (fY g) i ;;
    z <- load (fZ g) i ;;
    az <- store (fZ g) i (z + c1 * f x y z)%float ;;
    update (set_fZ az)) ;;;
  notify gPad.

(** [TGraph2D::Apply(TF2 *f)]: the loop [fZ[i] = f->Eval(fX[i], fY[i], fZ[i])]
    and then the notification of the current pad. *)
Definition Apply (gPad : Pad) (f : TF2) : M unit :=
  g <- self ;;
  for_range 0 (fNpoints g) (fun i =>
    g <- self ;;
    x <- load (fX g) i ;;
    y <- load (fY g) i ;;
    z <- load (fZ g) i ;;
    az <- store (fZ g) i (f x y z) ;;
    update (set_fZ az)) ;;;
  notify gPad.

(** Modelled from the spec: the accessors [GetN], [GetX], [GetY] and [GetZ]
    are defined inline in TGraph2D.h; they hand out the number of samples of
    the point set and its three coordinate arrays. *)
Definition GetN (g : TGraph2D) : Int_t := fNpoints g.
Definition GetX (g : TGraph2D) : Array := fX g.
Definition GetY (g : TGraph2D) : Array := fY g.
Definition GetZ (g : TGraph2D) : Array := fZ g.

(** One of the three loops of [Scale]:
    [for (Int_t i=0; i<GetN(); i++) GetX()[i] *= c1;] *)
Definition scale_loop (get : TGraph2D -> Array) (put : Array -> TGraph2D -> TGraph2D)
    (c1 : Double_t) : M unit :=
  g <- self ;;
  for_range 0 (GetN g) (fun i =>
    g <- self ;;
    v <- load (get g) i ;;
    a <- store (get g) i (v * c1)%float ;;
    update (put a)).

(** [TGraph2D::Scale(Double_t c1, Option_t *option)] *)
Definition Scale (c1 : Double_t) (opt_arg : string) : M unit :=
  let opt := ToLower opt_arg in
  (if Contains opt "x" then scale_loop GetX set_fX c1 else ret tt) ;;;
  (if Contains opt "y" then scale_loop GetY set_fY c1 else ret tt) ;;;
  (if Contains opt "z" then scale_loop GetZ set_fZ c1 else ret tt).

(** *** Projections (lines 1337-1418) *)

(** The selection of the projection from the lower-cased option: each test
    overrides the ones before it. *)
Definition project_case (opt : string) : Int_t :=
  let pcase := 0 in
  let pcase := if Contains opt "x" then 1 else pcase in
  let pcase := if Contains opt "y" then 2 else pcase in
  let pcase := if Contains opt "xy" then 3 else pcase in
  if Contains opt "yx" then 4 else pcase.

(** [TH1D::Fill(x, w)] and [TH2D::Fill(x, y, w)] on a projection.  A cast to
    the wrong class does not occur: [h1] and [h2] are only used in the case
    that created them. *)
Definition Fill1 (x w : Double_t) (p : Projection) : M Projection :=
  match p with
  | ProjTH1D h => ret (ProjTH1D (mkTH1D (h1Nbins h) (h1Xmin h) (h1Xmax h)
                                        (h1Fills h ++ [(x, w)])))
  | ProjTH2D _ => undefined
  end.

Definition Fill2 (x y w : Double_t) (p : Projection) : M Projection :=
  match p with
  | ProjTH2D h => ret (ProjTH2D (set_hFills (hFills h ++ [(x, y, w)]) h))
  | ProjTH1D _ => undefined
  end.

(** The filling loop of [Project], entered at point [n] with [cnt] points to
    go: the histogram built so far and the running sum [entries]. *)
Fixpoint project_fill (cnt : nat) (n : Int_t) (pcase : Int_t)
    (p : Projection) (entries : Double_t) : M (Projection * Double_t) :=
  match cnt with
  | O => ret (p, entries)
  | S cnt' =>
      g <- self ;;
      p' <- (if pcase =? 1 then
               x <- load (fX g) n ;; z <- load (fZ g) n ;; Fill1 x z p
             else if pcase =? 2 then
               y <- load (fY g) n ;; z <- load (fZ g) n ;; Fill1 y z p
             else if pcase =? 3 then
               x <- load (fX g) n ;; y <- load (fY g) n ;; z <- load (fZ g) n ;;
               Fill2 x y z p
             else if pcase =? 4 then
               y <- load (fY g) n ;; x <- load (fX g) n ;; z <- load (fZ g) n ;;
               Fill2 y x z p
             else ret p) ;;
      z <- load (fZ g) n ;;
      project_fill cnt' (n + 1) pcase p' (entries + z)%float
  end.

(** [TGraph2D::Project(Option_t *option) const].  The result is the new
    histogram with the number of entries set on it, or [None] for the null
    pointer.  Name and title of the histogram are not modelled. *)
Definition Project (opt_arg : string) : M (option (Projection * Double_t)) :=
  g <- self ;;
  if fNpoints g <=? 0 then
    Error "Project" "Empty TGraph2D" [] ;;;
    ret None
  else
    let opt := ToLower opt_arg in
    let pcase := project_case opt in
    hxmin <- GetXmin ;;
    hxmax <- GetXmax ;;
    hymin <- GetYmin ;;
    hymax <- GetYmax ;;
    let h :=
      if pcase =? 1 then Some (ProjTH1D (mkTH1D (fNpx g) hxmin hxmax []))
      else if pcase =? 2 then Some (ProjTH1D (mkTH1D (fNpy g) hymin hymax []))
      else if pcase =? 3
      then Some (ProjTH2D (new_TH2D (fNpx g) hxmin hxmax (fNpy g) hymin hymax))
      else if pcase =? 4
      then Some (ProjTH2D (new_TH2D (fNpy g) hymin hymax (fNpx g) hxmin hxmax))
      else None in
    match h with
    | None => ret None
    | Some p =>
        r <- project_fill (Z.to_nat (fNpoints g)) 0 pcase p 0%float ;;
        ret (Some r)
    end.

(** *** A histogram supplied by the user, and the stored extrema
        (lines 1592-1603, 1643-1659) *)

(** [TGraph2D::SetHistogram(TH2 *h, Option_t *option)]; [None] is the null
    pointer, which the method dereferences. *)
Definition SetHistogram (h : option addr) (opt_arg : string) : M unit :=
  let opt := ToLower opt_arg in
  let oldInterp := Contains opt "old" in
  update (set_fUserHisto true) ;;;
  update (set_fHistogram h) ;;;
  match h with
  | None => undefined
  | Some a =>
      hh <- hist_at a ;;
      update (set_fNpx (hNbinsX hh)) ;;;
      hh <- hist_at a ;;
      update (set_fNpy (hNbinsY hh)) ;;;
      CreateInterpolator oldInterp
  end.

(** [TGraph2D::SetMaximum(Double_t maximum)], which calls [GetHistogram()]
    without an argument.  Modelled from the spec: the default value of the
    option is declared in TGraph2D.h, not in TGraph2D.cxx; it is the empty
    string, in line with the comment above [GetHistogram], for which the
    default call is the one that asks neither for "empty" nor for "old". *)
Definition SetMaximum (maximum : Double_t) : M unit :=
  update (set_fMaximum maximum) ;;;
  h <- GetHistogram EmptyString ;;
  match h with
  | Some a => hist_update a (set_hMaximum maximum)
  | None => ret tt
  end.

(** [TGraph2D::SetMinimum(Double_t minimum)] *)
Definition SetMinimum (minimum : Double_t) : M unit :=
  update (set_fMinimum minimum) ;;;
  h <- GetHistogram EmptyString ;;
  match h with
  | Some a => hist_update a (set_hMinimum minimum)
  | None => ret tt
  end.

(** *** Assignment (lines 557-595) *)

(** [TGraph2D::operator=(const TGraph2D &g)].  The argument is [None] when
    it is this very object, and otherwise the other graph, which the
    assignments to this one leave alone.  [TH2D_copy] is the copy
    constructor of TH2D, called on the histogram of the other graph; its code is in
    TH2.cxx. *)
Definition assign (TH2D_copy : addr -> M addr) (other : option TGraph2D) : M unit :=
  match other with
  | None => ret tt
  | Some g =>
      me <- self ;;
      match fHistogram me with
      | Some a => if negb (fUserHisto me) then delete_cached a else ret tt
      | None => ret tt
      end ;;;
      update (set_fNpoints (fNpoints g)) ;;;
      update (set_fNpx (fNpx g)) ;;;
      update (set_fNpy (fNpy g)) ;;;
      update (set_fMaxIter (fMaxIter g)) ;;;
      update (fun me => set_fSize (fNpoints me) me) ;;;
      update (fun me => set_fX (if 0 <? fSize me then new_array (fSize me) else None) me) ;;;
      update (fun me => set_fY (if 0 <? fSize me then new_array (fSize me) else None) me) ;;;
      update (fun me => set_fZ (if 0 <? fSize me then new_array (fSize me) else None) me) ;;;
      update (set_fMinimum (fMinimum g)) ;;;
      update (set_fMaximum (fMaximum g)) ;;;
      update (set_fMargin (fMargin g)) ;;;
      update (set_fZout (fZout g)) ;;;
      update (set_fUserHisto (fUserHisto g)) ;;;
      match fHistogram g with
      | Some a =>
          me <- self ;;
          if fUserHisto me then update (set_fHistogram (Some a))
          else c <- TH2D_copy a ;; update (set_fHistogram (Some c))
      | None => ret tt
      end ;;;
      me <- self ;;
      for_range 0 (fSize me) (copy_point (fX g) (fY g) (fZ g))
  end.

End MoreMethods.

(** ** The other constructors *)

(** A [Float_t] is an IEEE-754 binary32 value; it is held here as the
    binary64 value it widens to, the conversion in [fX[i] = x[i]] being
    exact. *)
Definition Float_t : Type := Double_t.
Definition Float2Double (v : Float_t) : Double_t := v.

(** What the constructor from a histogram asks of its argument, a [TH2*]:
    name and title, the numbers of bins, the first and last bin of the range
    of each axis ([GetXaxis()->GetFirst()] and so on), the centre of a bin on
    each axis, and the content and the error of a bin.  The code behind
    these calls is in TH1.cxx, TH2.cxx and TAxis.cxx. *)
Record TH2 := mkTH2 {
  h2Name : string;
  h2Title : string;
  h2NbinsX : Int_t;
  h2NbinsY : Int_t;
  h2XFirst : Int_t;
  h2XLast : Int_t;
  h2YFirst : Int_t;
  h2YLast : Int_t;
  h2XBinCenter : Int_t -> Double_t;
  h2YBinCenter : Int_t -> Double_t;
  h2BinContent : Int_t -> Int_t -> Double_t;
  h2BinError : Int_t -> Int_t -> Double_t
}.

(** The C and C++ libraries and the TString methods behind the constructor
    from a file, none of which has its code in TGraph2D.cxx:
    - [ifstream]: [gSystem->ExpandPathName] and the opening of the stream;
      [None] when the stream is not good, and otherwise the lines that the
      successive calls [std::getline(infile, line, '\n')] deliver;
    - [sscanf line format]: the value returned by
      [sscanf(line.c_str(), format, &x, &y, &z)] and the doubles that [x],
      [y] and [z] hold afterwards, which are read only when that value is 3;
      [None] when the call itself is undefined, as for a format that asks
      for a fourth conversion;
    - [ReplaceAll s from to], [IsDigit], [IsFloat], [Atof]: the TString
      methods of these names; [Atoi c]: [TString::Format("%c", c).Atoi()];
    - [strtok line delim]: the tokens that [R__STRTOK_R] returns for the
      line, one call after the other, before it returns the null pointer. *)
Class Library := {
  ifstream : string -> option (list string);
  sscanf : string -> string -> option (Int_t * (Double_t * Double_t * Double_t));
  ReplaceAll : string -> string -> string -> string;
  IsDigit : string -> bool;
  IsFloat : string -> bool;
  Atof : string -> Double_t;
  Atoi : ascii -> Int_t;
  strtok : string -> string -> list string
}.

(** The characters that cannot be written inside a string literal. *)
Definition tab : string := String (ascii_of_nat 9) EmptyString.
Definition quote : string := String (ascii_of_nat 34) EmptyString.
Definition CR : ascii := ascii_of_nat 13.

Section Constructors.
Context `{Collaborators} `{Library}.

(** Element access on an array argument of any element type. *)
Definition load_arg {A} (a : option (list A)) (i : Int_t) : M A :=
  match a with
  | Some l =>
      if i <? 0 then undefined
      else match l !! Z.to_nat i with
           | Some v => ret v
           | None => undefined
           end
  | None => undefined
  end.

(** One iteration of the copy loops of the constructors from [Int_t] and
    [Float_t] arrays, with the conversion to [Double_t]. *)
Definition copy_point_as {A} (conv : A -> Double_t) (x y z : option (list A))
    (i : Int_t) : M unit :=
  xi <- load_arg x i ;;
  g <- self ;; ax <- store (fX g) i (conv xi) ;; update (set_fX ax) ;;;
  yi <- load_arg y i ;;
  g <- self ;; ay <- store (fY g) i (conv yi) ;; update (set_fY ay) ;;;
  zi <- load_arg z i ;;
  g <- self ;; az <- store (fZ g) i (conv zi) ;; update (set_fZ az).

(** [TGraph2D::TGraph2D(Int_t n, Int_t *x, Int_t *y, Int_t *z)], lines 269-280 *)
Definition TGraph2D_ctor_ints (n : Int_t) (x y z : option (list Int_t)) : M unit :=
  TObject_ctor ;;;
  update (set_fNpoints n) ;;;
  Build n ;;;
  g <- self ;;
  for_range 0 (fNpoints g) (copy_point_as Int2Double x y z).

(** [TGraph2D::TGraph2D(Int_t n, Float_t *x, Float_t *y, Float_t *z)], lines 286-297 *)
Definition TGraph2D_ctor_floats (n : Int_t) (x y z : option (list Float_t)) : M unit :=
  TObject_ctor ;;;
  update (set_fNpoints n) ;;;
  Build n ;;;
  g <- self ;;
  for_range 0 (fNpoints g) (copy_point_as Float2Double x y z).

(** [TGraph2D::TGraph2D(const char *name, const char *title, Int_t n,
    Double_t *x, Double_t *y, Double_t *z)], lines 365-376.  Name and title go
    to the TNamed base class, which is not among the modelled members. *)
Definition TGraph2D_ctor_named (name title : string) (n : Int_t) (x y z : Array) : M unit :=
  TObject_ctor ;;;
  update (set_fNpoints n) ;;;
  Build n ;;;
  g <- self ;;
  for_range 0 (fNpoints g) (copy_point x y z).

(** [TGraph2D::SetName(const char *name)], lines 1664-1671: the name and the
    directory that it touches are not among the modelled members. *)
Definition SetName (name : string) : M unit := ret tt.

(** [TGraph2D::SetTitle(const char *title)], lines 1786-1790: the title goes
    to the histogram as well when there is one. *)
Definition SetTitle (title : string) : M unit :=
  g <- self ;;
  match fHistogram g with
  | Some a => hist_at a ;;; ret tt
  | None => ret tt
  end.

(** [k++] on an [Int_t]. *)
Definition incr (k : Int_t) : M Int_t :=
  if kMaxInt <=? k then undefined else ret (k + 1).

(** The inner loop of the constructor from a histogram, entered at bin [j]
    of column [i] with [cnt] bins to go and [k] points set so far. *)
Fixpoint th2_column (cnt : nat) (h2 : TH2) (i j k : Int_t) : M Int_t :=
  match cnt with
  | O => ret k
  | S cnt' =>
      let x := h2XBinCenter h2 i in
      let y := h2YBinCenter h2 j in
      let z := h2BinContent h2 i j in
      let ez := h2BinError h2 i j in
      k' <- (if dne z 0%float || dne ez 0%float
             then SetPoint k x y z ;;; incr k
             else ret k) ;;
      th2_column cnt' h2 i (j + 1) k'
  end.

(** The outer loop, entered at column [i] with [cnt] columns to go.  The
    increment of [j] that ends the inner loop overflows when the last bin of
    the range is [kMaxInt]. *)
Fixpoint th2_columns (cnt : nat) (h2 : TH2) (i k : Int_t) : M Int_t :=
  match cnt with
  | O => ret k
  | S cnt' =>
      k' <- (if h2YLast h2 <? h2YFirst h2 then ret k
             else if kMaxInt <=? h2YLast h2 then undefined
             else th2_column (Z.to_nat (h2YLast h2 + 1 - h2YFirst h2)) h2 i (h2YFirst h2) k) ;;
      th2_columns cnt' h2 (i + 1) k'
  end.

(** [TGraph2D::TGraph2D(TH2 *h2)], lines 322-352; [None] is the null
    pointer. *)
Definition TGraph2D_ctor_TH2 (h2 : option TH2) : M unit :=
  TObject_ctor ;;;
  update (set_fNpoints 0) ;;;
  match h2 with
  | None => undefined
  | Some h =>
      let n := h2NbinsX h * h2NbinsY h in
      if (kMaxInt <? n) || (n <? - kMaxInt - 1) then undefined
      else
        Build n ;;;
        SetName (String.append "Graph2D_from_" (h2Name h)) ;;;
        SetTitle (h2Title h) ;;;
        (if h2XLast h <? h2XFirst h then ret tt
         else if kMaxInt <=? h2XLast h then undefined
         else th2_columns (Z.to_nat (h2XLast h + 1 - h2XFirst h)) h (h2XFirst h) 0 ;;; ret tt)
  end.

(** The loop of the constructor from a file when no delimiter is given:
    a line that does not yield three numbers is skipped. *)
Fixpoint read_plain (format : string) (lines : list string) (np : Int_t) : M unit :=
  match lines with
  | [] => ret tt
  | line :: rest =>
      match sscanf line format with
      | None => undefined
      | Some (converted, (x, y, z)) =>
          if negb (3 =? converted) then read_plain format rest np
          else
            SetPoint np x y z ;;;
            np' <- incr np ;;
            read_plain format rest np'
      end
  end.

(** The loop that fills [isTokenToBeSaved] from the digits of the reduced
    format and counts the entries equal to 1; a [Bool_t] is 1 for every
    number but 0. *)
Fixpoint token_flags (format_ : list ascii) (ntokensToBeSaved : Int_t)
  : list bool * Int_t :=
  match format_ with
  | [] => ([], ntokensToBeSaved)
  | c :: rest =>
      let saved := negb (Atoi c =? 0) in
      let '(flags, n) := token_flags rest (if saved then ntokensToBeSaved + 1
                                           else ntokensToBeSaved) in
      (saved :: flags, n)
  end.

(** [isTokenToBeSaved[token_idx]] *)
Definition flag_at (isTokenToBeSaved : list bool) (token_idx : Int_t) : M bool :=
  if token_idx <? 0 then undefined
  else match isTokenToBeSaved !! Z.to_nat token_idx with
       | Some b => ret b
       | None => undefined
       end.

(** The loop over the tokens of one line,
    [while (token != nullptr && value_idx < 3)]: the result is
    [isLineToBeSkipped] with the buffer of values and the number of values
    read. *)
Fixpoint read_tokens (tokens : list string) (isTokenToBeSaved : list bool)
    (token_idx : Int_t) (value : Array) (value_idx : Int_t)
  : M (bool * (Array * Int_t)) :=
  match tokens with
  | [] => ret (false, (value, value_idx))
  | token :: rest =>
      if value_idx <? 3 then
        saved <- flag_at isTokenToBeSaved token_idx ;;
        if saved then
          let token_str := ReplaceAll token tab EmptyString in
          if negb (IsFloat token_str) then ret (true, (value, value_idx))
          else
            value' <- store value value_idx (Atof token_str) ;;
            read_tokens rest isTokenToBeSaved (token_idx + 1) value' (value_idx + 1)
        else read_tokens rest isTokenToBeSaved (token_idx + 1) value value_idx
      else ret (false, (value, value_idx))
  end.

(** [if (line[line.size() - 1] == char(13)) line.erase(line.end() - 1, line.end());]
    on a line that is not empty. *)
Fixpoint strip_CR (line : string) : string :=
  match line with
  | EmptyString => EmptyString
  | String c EmptyString => if Ascii.eqb c CR then EmptyString else line
  | String c rest => String c (strip_CR rest)
  end.

(** The loop of the constructor from a file when delimiters are given. *)
Fixpoint read_delimited (delimiters : string) (isTokenToBeSaved : list bool)
    (lines : list string) (value : Array) (np : Int_t) : M unit :=
  match lines with
  | [] => ret tt
  | line :: rest =>
      if negb (String.eqb line EmptyString) then
        let line' := strip_CR line in
        r <- read_tokens (strtok line' delimiters) isTokenToBeSaved 0 value 0 ;;
        let '(isLineToBeSkipped, (value', value_idx)) := r in
        if negb isLineToBeSkipped && (value_idx =? 3) then
          x <- load value' 0 ;;
          y <- load value' 1 ;;
          z <- load value' 2 ;;
          SetPoint np x y z ;;;
          np' <- incr np ;;
          read_delimited delimiters isTokenToBeSaved rest value' np'
        else read_delimited delimiters isTokenToBeSaved rest value' np
      else read_delimited delimiters isTokenToBeSaved rest value np
  end.

(** The format with its blanks, tabs and letters taken out and every tag
    turned into a digit: "%*" into 0, and then "%" into 1. *)
Definition reduced_format (format : string) : string :=
  ReplaceAll
    (ReplaceAll
       (ReplaceAll
          (ReplaceAll
             (ReplaceAll (ReplaceAll format " " EmptyString) tab EmptyString)
             "lg" EmptyString)
          "s" EmptyString)
       "%*" "0")
    "%" "1".

(** The three messages about the format. *)
Definition format_tags_text : string :=
  String.append "Incorrect input format! Allowed format tags are {"
    (String.append quote (String.append "%%lg"
      (String.append quote (String.append ","
        (String.append quote (String.append "%%*lg"
          (String.append quote (String.append " or "
            (String.append quote (String.append "%%*s"
              (String.append quote "}"))))))))))).

Definition format_few_text : string :=
  String.append "Incorrect input format! Only %d tag(s) in format whereas 3 "
    (String.append quote (String.append "%%lg"
      (String.append quote " tags are expected!"))).

Definition format_count_text : string :=
  String.append "Incorrect input format! There are %d "
    (String.append quote (String.append "%%lg"
      (String.append quote " tag(s) in format whereas 3 and only 3 are expected!"))).

(** [TGraph2D::TGraph2D(const char *filename, const char *format,
    Option_t *option)], lines 405-516.  The bit that [MakeZombie] sets and the
    file name that the first message prints are not modelled. *)
Definition TGraph2D_ctor_file (filename format opt_arg : string) : M unit :=
  TObject_ctor ;;;
  update (set_fNpoints 0) ;;;
  match ifstream filename with
  | None => Error "TGraph2D" "Cannot open file: %s, TGraph2D is Zombie" []
  | Some lines =>
      Build 100 ;;;
      if String.eqb opt_arg EmptyString then read_plain format lines 0
      else
        let format_ := reduced_format format in
        if negb (IsDigit format_) then Error "TGraph2D" format_tags_text []
        else
          let ntokens := Z.of_nat (String.length format_) in
          if ntokens <? 3 then Error "TGraph2D" format_few_text [ntokens]
          else
            let '(isTokenToBeSaved, ntokensToBeSaved) :=
              token_flags (list_ascii_of_string format_) 0 in
            if (3 <=? ntokens) && negb (ntokensToBeSaved =? 3)
            then Error "TGraph2D" format_count_text [ntokensToBeSaved]
            else read_delimited opt_arg isTokenToBeSaved lines (new_array 3) 0
  end.

End Constructors.

(** ** Invariants and specification-level views *)

(** The element [i] of a coordinate array, when there is one. *)
Definition coord (a : Array) (i : Int_t) : option Double_t :=
  match a with
  | Some l => if i <? 0 then None else l !! Z.to_nat i
  | None => None
  end.

(** The class invariant on the cache: [fHistogram], when set, points to a
    live histogram, and there is no interpolator without a histogram. *)
Definition cache_ok (w : World) : Prop :=
  match fHistogram (this w) with
  | Some a => exists h, heap w !! a = Some (ObjTH2D h)
  | None => fDelaunay (this w) = None
  end.

(** The class invariant on the points: the three arrays hold at least
    [fNpoints] elements, and they are null only on a graph without points. *)
Definition points_ok (g : TGraph2D) : Prop :=
  match fX g, fY g, fZ g with
  | Some lx, Some ly, Some lz =>
      fNpoints g <= Z.of_nat (length lx) /\
      fNpoints g <= Z.of_nat (length ly) /\
      fNpoints g <= Z.of_nat (length lz)
  | _, _, _ => fNpoints g <= 0
  end.

(** The heap after the objects of [l] have been deleted. *)
Definition release (l : list addr) (hp : gmap addr Object) : gmap addr Object :=
  fold_left (fun m a => delete a m) l hp.

(** The graph and the heap after the cached histogram has been dropped. *)
Definition dropped (g : TGraph2D) : TGraph2D :=
  match fHistogram g with
  | Some _ => set_fDelaunay None (set_fHistogram None g)
  | None => g
  end.

Definition released (g : TGraph2D) (hp : gmap addr Object) : gmap addr Object :=
  match fHistogram g with
  | Some a =>
      match hp !! a with
      | Some (ObjTH2D h) =>
          delete a (release (option_list (hPainter h)) (release (hFunctions h) hp))
      | _ => hp
      end
  | None => hp
  end.

Definition discarded (w : World) : World :=
  mkWorld (dropped (this w)) (released (this w) (heap w)) (brk w) (out w).

(** What the copy loops of the constructors keep: the two defaults and
    three blocks of the requested size. *)
Definition built (n : Int_t) (w : World) : Prop :=
  fZout (this w) = 0%float /\ fMaxIter (this w) = 100000 /\
  exists lx ly lz,
    fX (this w) = Some lx /\ fY (this w) = Some ly /\ fZ (this w) = Some lz /\
    Z.of_nat (length lx) = n /\ Z.of_nat (length ly) = n /\ Z.of_nat (length lz) = n.


(** The effect of [k] iterations of the shifting loop of [RemovePoint] that
    starts at index [i]: element [i] takes the value of element [i + 1], then
    element [i + 1] that of element [i + 2], and so on. *)
Fixpoint shift_down {A} (k i : nat) (l : list A) : list A :=
  match k with
  | O => l
  | S k' =>
      match l !! S i with
      | Some v => shift_down k' (S i) (<[i := v]> l)
      | None => l
      end
  end.

Definition with_arrays (lx ly lz : list Double_t) (g : TGraph2D) : TGraph2D :=
  set_fZ (Some lz) (set_fY (Some ly) (set_fX (Some lx) g)).

(** The samples of a graph, in index order. *)
Definition samples_of (g : TGraph2D) : list Sample :=
  match fX g, fY g, fZ g with
  | Some lx, Some ly, Some lz =>
      let n := Z.to_nat (fNpoints g) in
      zip3 (take n lx) (take n ly) (take n lz)
  | _, _, _ => []
  end.

(** The comparison of [RemoveDuplicates]: [x == fX[j] && y == fY[j]]. *)
Definition same_xy (x y : Double_t) (s : Sample) : bool :=
  deq x (sx s) && deq y (sy s).

Definition same_place (a b : Sample) : bool := same_xy (sx a) (sy a) b.

(** What the two nested loops of [RemoveDuplicates] compute on the list of
    samples: the head stays, the later samples at the same place go, and
    the rest is treated likewise. *)
Fixpoint dedup_n (n : nat) (l : list Sample) : list Sample :=
  match n, l with
  | S n', p :: t => p :: dedup_n n' (List.filter (fun q => negb (same_place p q)) t)
  | _, _ => []
  end.

Definition dedup (l : list Sample) : list Sample := dedup_n (length l) l.

(** The specification in the words of the claim: a sample survives exactly
    when no sample inserted before it ([seen], in insertion order) lies at
    the same place; survivors keep their order. *)
Fixpoint keep_first (seen l : list Sample) : list Sample :=
  match l with
  | [] => []
  | p :: t =>
      if existsb (fun s => same_place s p) seen
      then keep_first (seen ++ [p]) t
      else p :: keep_first (seen ++ [p]) t
  end.

(** No two samples of the list lie at the same place. *)
Definition distinct_places (l : list Sample) : Prop :=
  forall i j a b, (i < j)%nat -> l !! i = Some a -> l !! j = Some b ->
                  same_place a b = false.

(** The world after [RemovePoint(ip)] has removed a point. *)
Definition removed (ip : Int_t) (w : World) : World :=
  match fX (this w), fY (this w), fZ (this w) with
  | Some lx, Some ly, Some lz =>
      let k := Z.to_nat (fNpoints (this w) - 1 - ip) in
      let i := Z.to_nat ip in
      discarded
        (mkWorld (set_fNpoints (fNpoints (this w) - 1)
                    (with_arrays (shift_down k i lx) (shift_down k i ly)
                                 (shift_down k i lz) (this w)))
                 (heap w) (brk w) (out w))
  | _, _, _ => w
  end.

(** A sample from three optional coordinates. *)
Definition sample3 (x y z : option Double_t) : option Sample :=
  match x, y, z with
  | Some a, Some b, Some c => Some (mkSample a b c)
  | _, _, _ => None
  end.


(** Some sample of [seen] lies at the place of [q]. *)
Definition hits (seen : list Sample) (q : Sample) : bool :=
  existsb (fun s => same_place s q) seen.

(** The extremum that [extremum better a n] computes on the block [l]. *)
Definition extremum_of (better : Double_t -> Double_t -> bool)
    (l : list Double_t) (n : Int_t) : option Double_t :=
  match l with
  | [] => None
  | v :: t =>
      Some (fold_left (fun v a => if better a v then a else v)
                      (take (Z.to_nat (n - 1)) t) v)
  end.

(** The engine selected by the option of [GetHistogram]. *)
Definition engine_for (oldInterp : bool) : Engine :=
  if oldInterp then kDelaunay else kDelaunay2D.

(** The histogram and the interpolator right after [GetHistogram] has
    booked them, at the addresses [a] and [d], and the world they are in. *)
Definition booked_hist (g : TGraph2D) (lim : Double_t * Double_t * Double_t * Double_t)
    (d : addr) : TH2D :=
  let '(xlo, xhi, ylo, yhi) := lim in
  mkTH2D (fNpx g) xlo xhi (fNpy g) ylo yhi [] (-1111)%float (-1111)%float
         true false [d] None.

Definition booked_delaunay (g : TGraph2D) (oldInterp : bool) : TGraphDelaunay :=
  mkDelaunay (engine_for oldInterp) (if oldInterp then fMaxIter g else 100000)
             (fZout g) None.

Definition booked (oldInterp : bool) (lim : Double_t * Double_t * Double_t * Double_t)
    (w : World) : World :=
  let a := brk w in
  let d := S (brk w) in
  mkWorld (set_kOldInterpolation oldInterp
             (set_fDelaunay (Some d) (set_fHistogram (Some a) (this w))))
          (<[a := ObjTH2D (booked_hist (this w) lim d)]>
             (<[d := ObjDelaunay (booked_delaunay (this w) oldInterp)]> (heap w)))
          (S (S (brk w))) (out w).

(** The axis ranges of a newly booked histogram: the extrema of x and y,
    moved outwards by the margin and widened when degenerate. *)
Definition axis_range (margin lo hi : Double_t) : Double_t * Double_t :=
  widen (lo - margin * (hi - lo))%float (hi + margin * (hi - lo))%float.

Definition limits (margin xmin xmax ymin ymax : Double_t)
  : Double_t * Double_t * Double_t * Double_t :=
  (fst (axis_range margin xmin xmax), snd (axis_range margin xmin xmax),
   fst (axis_range margin ymin ymax), snd (axis_range margin ymin ymax)).

(** The values [lo], [lo + 1], ... of a loop variable over [n] iterations. *)
Definition Zrange (lo : Int_t) (n : nat) : list Int_t :=
  map (fun k => lo + Z.of_nat k) (seq 0 n).

(** The cell centres of a grid over the range [lim], column by column, as the
    two loops of [GetHistogram] visit them. *)
Definition column (lim : Double_t * Double_t * Double_t * Double_t) (nx ny : Int_t)
    (ix : Int_t) : list (Double_t * Double_t) :=
  let '(hxmin, hxmax, hymin, hymax) := lim in
  let dx := ((hxmax - hxmin) / Int2Double nx)%float in
  let dy := ((hymax - hymin) / Int2Double ny)%float in
  map (fun iy => (cell_centre hxmin dx ix, cell_centre hymin dy iy))
      (Zrange 1 (Z.to_nat ny)).

Definition cells (lim : Double_t * Double_t * Double_t * Double_t) (nx ny : Int_t)
  : list (Double_t * Double_t) :=
  flat_map (column lim nx ny) (Zrange 1 (Z.to_nat nx)).

(** The minima and maxima of x and y over the samples, as the getters
    compute them: (xmin, xmax, ymin, ymax). *)
Definition bounding_box (g : TGraph2D)
  : option (Double_t * Double_t * Double_t * Double_t) :=
  match fX g, fY g with
  | Some lx, Some ly =>
      match extremum_of smaller lx (fNpoints g), extremum_of greater lx (fNpoints g),
            extremum_of smaller ly (fNpoints g), extremum_of greater ly (fNpoints g) with
      | Some xmin, Some xmax, Some ymin, Some ymax => Some (xmin, xmax, ymin, ymax)
      | _, _, _, _ => None
      end
  | _, _ => None
  end.

(** The range in the words of the specification: the bounding box moved
    outwards by the margin, and nothing else. *)
Definition claimed_limits (margin xmin xmax ymin ymax : Double_t)
  : Double_t * Double_t * Double_t * Double_t :=
  ((xmin - margin * (xmax - xmin))%float, (xmax + margin * (xmax - xmin))%float,
   (ymin - margin * (ymax - ymin))%float, (ymax + margin * (ymax - ymin))%float).

(** The state of the fill loops: the graph is [g]; the histogram at [a] has
    the axes of [lim] and the fills [F]; the interpolator at [d] has engine
    [e], cap [mi] and outside value [zo], and its triangulation is either
    not built yet or built from the samples of [g]. *)
Definition filling (g : TGraph2D) (a d : addr)
    (lim : Double_t * Double_t * Double_t * Double_t)
    (e : Engine) (mi : Int_t) (zo : Double_t)
    (F : list (Double_t * Double_t * Double_t)) (w : World) : Prop :=
  this w = g /\ a <> d /\
  (exists h, heap w !! a = Some (ObjTH2D h) /\ hFills h = F /\
             (hXmin h, hXmax h, hYmin h, hYmax h) = lim) /\
  (exists dd, heap w !! d = Some (ObjDelaunay dd) /\
              dEngine dd = e /\ dMaxIter dd = mi /\ dZout dd = zo /\
              (dSnapshot dd = None \/ dSnapshot dd = Some (samples_of g))).

(** The fills that the interpolation at the given cell centres produces. *)
Definition fills_of `{Collaborators} (e : Engine) (snap : list Sample) (mi : Int_t)
    (zo : Double_t) (cs : list (Double_t * Double_t))
  : list (Double_t * Double_t * Double_t) :=
  map (fun c => (fst c, snd c, interpolate e snap mi zo (fst c) (snd c))) cs.

(** [GetHistogram] has to build the histogram: there is none, or the cached
    one has no entries yet, or it was made by the other engine. *)
Definition rebuilds (oldInterp : bool) (w : World) : Prop :=
  match fHistogram (this w) with
  | None => True
  | Some a =>
      exists h, heap w !! a = Some (ObjTH2D h) /\
                (hFills h = [] \/ kOldInterpolation (this w) <> oldInterp)
  end.

(** The state in which [Interpolate(x, y)] leaves a graph with points: the
    histogram exists, and either the interpolator [fDelaunay] points to has
    its triangulation built and [r] is its value at (x, y), or no
    interpolator can be found and [r] is NaN. *)
Definition settled `{Collaborators} (x y r : Double_t) (w : World) : Prop :=
  1 <= fNpoints (this w) /\ fHistogram (this w) <> None /\
  ((exists d D s,
      fDelaunay (this w) = Some d /\ heap w !! d = Some (ObjDelaunay D) /\
      dSnapshot D = Some s /\
      r = interpolate (dEngine D) s (dMaxIter D) (dZout D) x y)
   \/ (fDelaunay (this w) = None /\ r = QuietNaN /\
       find_interpolator w = Some (tt, w))).

(** The part of the world that holds the cache. *)
Definition cache_of (w : World) : option addr * option addr * gmap addr Object :=
  (fHistogram (this w), fDelaunay (this w), heap w).


(** ** Concrete graphs *)

(** The world a sequence of calls leaves behind, starting from raw storage. *)
Definition world_after (m : M unit) : World :=
  match exec m raw_world with
  | Some w => w
  | None => raw_world
  end.

(** A graph without points. *)
Definition empty_world : World := world_after TGraph2D_ctor.

(** The triangle (0,0,0), (1,0,1), (0,1,2). *)
Definition triangle : M unit :=
  TGraph2D_ctor ;;;
  SetPoint (H := reference) 0 0 0 0 ;;;
  SetPoint (H := reference) 1 1 0 1 ;;;
  SetPoint (H := reference) 2 0 1 2.

Definition triangle_world : World := world_after triangle.

(** The triangle after one interpolation: the histogram and the interpolator
    are cached, and the triangulation is built from the three points. *)
Definition cached_world : World :=
  world_after (triangle ;;; Interpolate (H := reference) 1 0 ;;; ret tt).

(** The triangle with a fourth point (5,5,5), never interpolated. *)
Definition square_world : World :=
  world_after (triangle ;;; SetPoint (H := reference) 3 5 5 5).

(** One sample at the origin, on a grid of 4 x 4 cells. *)
Definition single_point_world : World :=
  world_after (TGraph2D_ctor ;;; SetNpx 4 ;;; SetNpy 4 ;;;
               SetPoint (H := reference) 0 0 0 5).

(** Five samples at two places. *)
Definition duplicates_world : World :=
  world_after (TGraph2D_ctor ;;;
               SetPoint (H := reference) 0 0 0 5 ;;;
               SetPoint (H := reference) 1 0 0 6 ;;;
               SetPoint (H := reference) 2 1 0 6 ;;;
               SetPoint (H := reference) 3 0 0 6 ;;;
               SetPoint (H := reference) 4 1 0 9).

(** ** Storage of the points *)

(** The class invariant on the storage: the three blocks are allocated
    together, each holds [fSize] elements, and the points fit; without
    blocks the capacity is zero and there are no points. *)
Definition storage_ok (g : TGraph2D) : Prop :=
  match fX g, fY g, fZ g with
  | Some lx, Some ly, Some lz =>
      0 < fSize g /\
      Z.of_nat (length lx) = fSize g /\ Z.of_nat (length ly) = fSize g /\
      Z.of_nat (length lz) = fSize g /\ fNpoints g <= fSize g
  | None, None, None => fSize g = 0 /\ fNpoints g <= 0
  | _, _, _ => False
  end.

(** The capacity after [SetPoint(n, ...)]: unchanged when [n] fits, else the
    larger of twice the old capacity and [n + 1]. *)
Definition capacity_after (g : TGraph2D) (n : Int_t) : Int_t :=
  if fSize g <=? n then Z.max (2 * fSize g) (n + 1) else fSize g.

(** A block brought to [cap] elements the way [SetPoint] does it: the old
    elements followed by zeros, or an uninitialised block when there was
    none. *)
Definition extended `{Collaborators} (a : Array) (cap : Int_t) : list Double_t :=
  match a with
  | Some l => l ++ replicate (Z.to_nat (cap - Z.of_nat (length l))) 0%float
  | None => replicate (Z.to_nat cap) indeterminate
  end.

(** The graph after [SetPoint(n, x, y, z)]. *)
Definition with_point `{Collaborators} (n : Int_t) (x y z : Double_t) (g : TGraph2D)
  : TGraph2D :=
  let cap := capacity_after g n in
  set_fNpoints (Z.max (fNpoints g) (n + 1))
    (set_fSize cap
       (with_arrays (<[Z.to_nat n := x]> (extended (fX g) cap))
                    (<[Z.to_nat n := y]> (extended (fY g) cap))
                    (<[Z.to_nat n := z]> (extended (fZ g) cap)) g)).

(** The world with another graph in it. *)
Definition with_this (g : TGraph2D) (w : World) : World :=
  mkWorld g (heap w) (brk w) (out w).

(** The point at index [i], when the three arrays have one. *)
Definition point (g : TGraph2D) (i : Int_t) : option Sample :=
  sample3 (coord (fX g) i) (coord (fY g) i) (coord (fZ g) i).

(** The graph after [Clear] has released the points. *)
Definition cleared (g : TGraph2D) : TGraph2D :=
  set_fSize 0 (set_fNpoints 0 (set_fZ None (set_fY None (set_fX None g)))).

(** The graph that [Build(n)] leaves for [n >= 1]: every member it assigns
    has its default, the three blocks are new, and the number of points and
    the status bits are those the constructor has put there before. *)
Definition fresh_graph `{Collaborators} (n : Int_t) (g : TGraph2D) : TGraph2D :=
  mkTGraph2D (fNpoints g) 40 40 100000 n (new_array n) (new_array n) (new_array n)
             (-1111)%float (-1111)%float 0%float 0%float None None None false
             (kOldInterpolation g).

(** ** Arithmetic on the samples *)

(** What [Apply], [Add] and [Scale] do to one sample. *)
Definition applied (f : TF2) (s : Sample) : Sample :=
  mkSample (sx s) (sy s) (f (sx s) (sy s) (sz s)).

Definition added (f : TF2) (c1 : Double_t) (s : Sample) : Sample :=
  mkSample (sx s) (sy s) (sz s + c1 * f (sx s) (sy s) (sz s))%float.

Definition scaled (c1 : Double_t) (opt : string) (s : Sample) : Sample :=
  mkSample (if Contains opt "x" then (sx s * c1)%float else sx s)
           (if Contains opt "y" then (sy s * c1)%float else sy s)
           (if Contains opt "z" then (sz s * c1)%float else sz s).

(** ** Projections *)

(** The histogram [p] after the samples of [l] have been filled into it, for
    the projection [pcase]. *)
Definition add_fills (pcase : Int_t) (l : list Sample) (p : Projection) : Projection :=
  match p with
  | ProjTH1D h =>
      ProjTH1D (mkTH1D (h1Nbins h) (h1Xmin h) (h1Xmax h)
                  (h1Fills h ++ map (fun s => (if pcase =? 1 then sx s else sy s, sz s)) l))
  | ProjTH2D h =>
      ProjTH2D (set_hFills
                  (hFills h ++ map (fun s => if pcase =? 3 then (sx s, sy s, sz s)
                                             else (sy s, sx s, sz s)) l) h)
  end.

(** The sum that [Project] stores as the number of entries. *)
Definition sum_z (l : list Sample) (e : Double_t) : Double_t :=
  fold_left (fun e s => (e + sz s)%float) l e.

(** The empty histogram that [Project] books for the projection [pcase] over
    the bounding box (xmin, xmax, ymin, ymax). *)
Definition projection_frame (g : TGraph2D) (pcase : Int_t)
    (box : Double_t * Double_t * Double_t * Double_t) : option Projection :=
  let '(xmin, xmax, ymin, ymax) := box in
  if pcase =? 1 then Some (ProjTH1D (mkTH1D (fNpx g) xmin xmax []))
  else if pcase =? 2 then Some (ProjTH1D (mkTH1D (fNpy g) ymin ymax []))
  else if pcase =? 3 then Some (ProjTH2D (new_TH2D (fNpx g) xmin xmax (fNpy g) ymin ymax))
  else if pcase =? 4 then Some (ProjTH2D (new_TH2D (fNpy g) ymin ymax (fNpx g) xmin xmax))
  else None.

(** The result of [Project] on a graph with points: the frame over the exact
    bounding box of the samples, without margin, filled with every sample
    in index order and weighted by z, together with the sum of all z. *)
Definition projection_of (g : TGraph2D) (pcase : Int_t) : option (Projection * Double_t) :=
  match bounding_box g with
  | Some box =>
      match projection_frame g pcase box with
      | Some p => Some (add_fills pcase (samples_of g) p, sum_z (samples_of g) 0%float)
      | None => None
      end
  | None => None
  end.

(** The kind of histogram that goes with a projection case. *)
Definition fits_case (pcase : Int_t) (p : Projection) : Prop :=
  match p with
  | ProjTH1D _ => pcase = 1 \/ pcase = 2
  | ProjTH2D _ => pcase = 3 \/ pcase = 4
  end.

(** ** The histogram without interpolation *)

(** The z range that the option "empty" stores on the histogram: the two
    ends, moved apart when they are equal. *)
Definition z_range (lo hi : Double_t) : Double_t * Double_t :=
  if deq lo hi then
    if deq lo 0%float then ((-0.01)%float, 0.01%float)
    else ((lo - 0.01 * Abs lo)%float, (lo + 0.01 * Abs lo)%float)
  else (lo, hi).

(** Its ends are the stored extrema of the graph where they are set (not
    -1111), and the extrema of z over the samples otherwise. *)
Definition z_limits (g : TGraph2D) (zmin zmax : Double_t) : Double_t * Double_t :=
  z_range (if dne (fMinimum g) (-1111)%float then fMinimum g else zmin)
          (if dne (fMaximum g) (-1111)%float then fMaximum g else zmax).

(** The world with the histogram at [a] replaced. *)
Definition with_hist (a : addr) (h : TH2D) (w : World) : World :=
  mkWorld (this w) (<[a := ObjTH2D h]> (heap w)) (brk w) (out w).

(** The histogram that [GetHistogram] books on a graph without points. *)
Definition unit_hist (g : TGraph2D) : TH2D :=
  set_hNoStats true (new_TH2D (fNpx g) 0%float 1%float (fNpy g) 0%float 1%float).

(** ** Further concrete graphs *)

(** The single point on its 4 x 4 grid, after the histogram has been built. *)
Definition grid_world : World :=
  world_after (TGraph2D_ctor ;;; SetNpx 4 ;;; SetNpy 4 ;;;
               SetPoint (H := reference) 0 0 0 5 ;;;
               GetHistogram (H := reference) EmptyString ;;; ret tt).

(** The triangle next to a histogram of 5 x 5 bins over [0, 1] x [0, 1] that
    the user has made. *)
Definition user_world : World :=
  mkWorld (this triangle_world)
          (<[0%nat := ObjTH2D (new_TH2D 5 0 1 5 0 1)]> ∅) 1%nat [].

(** The same after the graph has been given that histogram. *)
Definition adopted_world : World :=
  match exec (SetHistogram (Some 0%nat) EmptyString) user_world with
  | Some w => w
  | None => user_world
  end.

(** A function for [Apply] and [Add]. *)
Definition plane : TF2 := fun x y z => (x + y + z)%float.

(** ** Graphs under construction *)

(** The graph while a constructor fills it through [SetPoint], after the
    points 0 to [k - 1] have been set: the storage is well formed and
    allocated, there are [k] points and no histogram, and the outside-hull
    value and the iteration cap are the defaults. *)
Definition ready (k : Int_t) (g : TGraph2D) : Prop :=
  storage_ok g /\ fX g <> None /\ fNpoints g = k /\ 0 <= k /\ fSize g <= kMaxInt /\
  fHistogram g = None /\ fZout g = 0%float /\ fMaxIter g = 100000.

(** There is room for [cnt] more points after the first [k]: they fit into
    the capacity, or the doubling of the capacity that [SetPoint] asks for
    stays inside the range of [Int_t]. *)
Definition room (k cnt : Z) (g : TGraph2D) : Prop :=
  k + cnt <= fSize g \/ 2 * (k + cnt) < kMaxInt.

(** The number of bins in the axis ranges of a histogram, which bounds the
    number of points that the constructor from a histogram sets. *)
Definition range_cells (h2 : TH2) : Z :=
  Z.max 0 (h2XLast h2 + 1 - h2XFirst h2) * Z.max 0 (h2YLast h2 + 1 - h2YFirst h2).

(** The number of tokens that a list of flags asks to save. *)
Definition saved_tokens (flags : list bool) : Z :=
  Z.of_nat (length (List.filter (fun b => b) flags)).

(** ** Concrete input for the constructors *)

(** A histogram of 2 x 2 bins with unit bin width whose two diagonal bins
    are filled. *)
Definition diagonal_hist : TH2 :=
  mkTH2 "diag" "diagonal" 2 2 1 2 1 2
        (fun i => (Int2Double i - 0.5)%float) (fun j => (Int2Double j - 0.5)%float)
        (fun i j => if i =? j then 1%float else 0%float)
        (fun i j => if i =? j then 1%float else 0%float).

(** A library in which one file exists, "points.txt", with three lines of
    numbers and one line without, read with the format "%lg %lg %lg".  The
    TString methods and the tokenizer serve files with delimiters only; they
    are given their behaviour on the text that such a file needs least:
    nothing is replaced, nothing is a number and every line is one token. *)
Definition reference_library : Library := {|
  ifstream := fun name =>
    if String.eqb name "points.txt"
    then Some ["0 0 0"; "1 0 1"; "# triangle"; "0 1 2"]%string
    else None;
  sscanf := fun line _ =>
    if String.eqb line "0 0 0" then Some (3, (0, 0, 0)%float)
    else if String.eqb line "1 0 1" then Some (3, (1, 0, 1)%float)
    else if String.eqb line "0 1 2" then Some (3, (0, 1, 2)%float)
    else Some (0, (0, 0, 0)%float);
  ReplaceAll := fun s _ _ => s;
  IsDigit := fun _ => false;
  IsFloat := fun _ => false;
  Atof := fun _ => 0%float;
  Atoi := fun _ => 0;
  strtok := fun line _ => [line]
|}.

(** * Properties *)

(** ** Comparisons of doubles *)

Lemma SFcompare_antisym (a b : spec_float) :
  SFcompare b a = option_map CompOpp (SFcompare a b).
Proof.
  destruct a as [sa | sa | | sa ma ea], b as [sb | sb | | sb mb eb];
    simpl; try reflexivity;
    try (destruct sa; reflexivity); try (destruct sb; reflexivity);
    try (destruct sa, sb; reflexivity).
  destruct sa, sb; simpl; try reflexivity;
    rewrite (Z.compare_antisym ea eb);
    destruct (ea ?= eb)%Z; simpl; try reflexivity;
    rewrite (Pos.compare_cont_antisym ma mb Eq); reflexivity.
Qed.

Lemma dle_not_dlt (a b : Double_t) : dle a b = true -> dlt b a = false.
Proof.
  unfold dle, dlt. rewrite FloatAxioms.leb_spec, FloatAxioms.ltb_spec. unfold SFleb, SFltb.
  rewrite (SFcompare_antisym (Prim2SF a) (Prim2SF b)).
  destruct (SFcompare (Prim2SF a) (Prim2SF b)) as [[]|]; simpl; congruence.
Qed.
Section Proofs.
Context `{Collaborators}.

(** ** Running the monad *)

Ltac run :=
  cbv [bind ret self update emit Error Warning new poke free hist_at
       hist_update with_histogram undefined]; simpl.

(** Call-by-value evaluation of a method on a graph given by its fields:
    every setter is applied to an evaluated record, so the term stays
    linear in the number of assignments. *)
Ltac eval_fields :=
  cbv [bind ret self update emit Error Warning new poke free hist_at
       delaunay_at painter_at hist_update delaunay_update with_histogram undefined
       this heap brk out
       set_fNpoints set_fNpx set_fNpy set_fMaxIter set_fSize set_fX set_fY set_fZ
       set_fMinimum set_fMaximum set_fMargin set_fZout set_fHistogram set_fDelaunay
       set_fPainter set_fUserHisto set_kOldInterpolation
       fNpoints fNpx fNpy fMaxIter fSize fX fY fZ fMinimum fMaximum fMargin fZout
       fHistogram fDelaunay fPainter fUserHisto kOldInterpolation].

Lemma free_all_spec (l : list addr) (w : World) :
  free_all l w = Some (tt, mkWorld (this w) (release l (heap w)) (brk w) (out w)).
Proof.
  revert w. induction l as [|a l IH]; intros [g hp b o]; simpl.
  - reflexivity.
  - run. rewrite IH. reflexivity.
Qed.

Lemma discard_histogram_spec (w : World) :
  cache_ok w -> discard_histogram w = Some (tt, discarded w).
Proof.
  destruct w as [g hp b o]. unfold cache_ok, discard_histogram, discarded, dropped, released.
  simpl. run. destruct (fHistogram g) as [a|] eqn:Hh; [|reflexivity].
  intros [h Hlook]. unfold delete_hist. run. rewrite Hlook.
  rewrite free_all_spec. simpl. rewrite free_all_spec. simpl. reflexivity.
Qed.

Lemma dropped_fHistogram (g : TGraph2D) : fHistogram (dropped g) = None.
Proof. unfold dropped. destruct (fHistogram g) eqn:E; [reflexivity | exact E]. Qed.

Lemma dropped_fDelaunay (g : TGraph2D) :
  (fHistogram g = None -> fDelaunay g = None) -> fDelaunay (dropped g) = None.
Proof.
  unfold dropped. destruct (fHistogram g); [reflexivity | auto].
Qed.

Lemma cache_ok_fDelaunay (w : World) :
  cache_ok w -> fHistogram (this w) = None -> fDelaunay (this w) = None.
Proof. unfold cache_ok. intros Hc Hn. rewrite Hn in Hc. exact Hc. Qed.

(** ** Counted loops *)

Lemma for_count_inv (P : Int_t -> World -> Prop) (body : Int_t -> M unit)
    (n : nat) (i : Int_t) (w : World) :
  P i w ->
  (forall j v, i <= j < i + Z.of_nat n -> P j v ->
     exists v', body j v = Some (tt, v') /\ P (j + 1) v') ->
  exists w', for_count n i body w = Some (tt, w') /\ P (i + Z.of_nat n) w'.
Proof.
  revert i w. induction n as [|n IH]; intros i w HP Hstep.
  - exists w. simpl. split; [reflexivity|]. replace (i + Z.of_nat 0) with i by lia. exact HP.
  - destruct (Hstep i w) as (v & Hv & HPv); [lia | exact HP |].
    destruct (IH (i + 1) v HPv) as (w' & Hw' & HPw').
    { intros j u Hj. apply Hstep. lia. }
    exists w'. split.
    + simpl. unfold bind. rewrite Hv. exact Hw'.
    + replace (i + Z.of_nat (S n)) with (i + 1 + Z.of_nat n) by lia. exact HPw'.
Qed.

Lemma store_in_bounds (l : list Double_t) (i : Int_t) (v : Double_t) (w : World) :
  0 <= i < Z.of_nat (length l) ->
  store (Some l) i v w = Some (Some (<[Z.to_nat i := v]> l), w).
Proof.
  intros Hi. unfold store.
  destruct (0 <=? i) eqn:E0; [|lia].
  destruct (i <? Z.of_nat (length l)) eqn:E1; [|lia]. reflexivity.
Qed.

(** ** Construction *)


Lemma Build_built (n : Int_t) (w : World) :
  1 <= n ->
  exists w', Build n w = Some (tt, w') /\ built n w' /\
             fNpoints (this w') = fNpoints (this w).
Proof.
  intros Hn. destruct w as [g hp b o]. destruct g. unfold Build.
  destruct (n <=? 0) eqn:E; [lia|]. eval_fields.
  eexists. split; [reflexivity|]. split; [|reflexivity].
  unfold built, new_array. simpl. split; [reflexivity|]. split; [reflexivity|].
  exists (replicate (Z.to_nat n) indeterminate), (replicate (Z.to_nat n) indeterminate),
         (replicate (Z.to_nat n) indeterminate).
  rewrite length_replicate. repeat split; lia.
Qed.

Lemma cache_ok_frame (w : World) (g' : TGraph2D) (o' : list Message) :
  cache_ok w -> fHistogram g' = fHistogram (this w) -> fDelaunay g' = fDelaunay (this w) ->
  cache_ok (mkWorld g' (heap w) (brk w) o').
Proof. unfold cache_ok. simpl. intros Hc -> ->. exact Hc. Qed.

Ltac dropped_field := intros g; unfold dropped; destruct (fHistogram g); reflexivity.

Lemma dropped_fNpx : forall g, fNpx (dropped g) = fNpx g.
Proof. dropped_field. Qed.
Lemma dropped_fNpy : forall g, fNpy (dropped g) = fNpy g.
Proof. dropped_field. Qed.
Lemma dropped_fMargin : forall g, fMargin (dropped g) = fMargin g.
Proof. dropped_field. Qed.
Lemma dropped_fZout : forall g, fZout (dropped g) = fZout g.
Proof. dropped_field. Qed.
Lemma dropped_fNpoints : forall g, fNpoints (dropped g) = fNpoints g.
Proof. dropped_field. Qed.
Lemma dropped_fX : forall g, fX (dropped g) = fX g.
Proof. dropped_field. Qed.
Lemma dropped_fY : forall g, fY (dropped g) = fY g.
Proof. dropped_field. Qed.
Lemma dropped_fZ : forall g, fZ (dropped g) = fZ g.
Proof. dropped_field. Qed.

Lemma released_gone (g : TGraph2D) (hp : gmap addr Object) (a : addr) (h : TH2D) :
  fHistogram g = Some a -> hp !! a = Some (ObjTH2D h) -> released g hp !! a = None.
Proof.
  intros Hg Hh. unfold released. rewrite Hg, Hh. apply lookup_delete_eq.
Qed.

(** After a setter has run, the shared block drops the cache. *)
Ltac drop_cache w :=
  eexists; split;
  [ apply discard_histogram_spec; apply (cache_ok_frame w); [assumption | reflexivity | reflexivity]
  | simpl ].

(** C8. [SetNpx] stores its argument when it lies in [4, 500], and otherwise
    stores 4 (below) or 500 (above) after one warning; it always returns.
    [SetNpy] does the same for the y resolution. *)
Theorem SetNpx_SetNpy_clamp (w : World) (n : Int_t) :
  cache_ok w ->
  (exists w', SetNpx n w = Some (tt, w') /\
     (4 <= n <= 500 -> fNpx (this w') = n /\ out w' = out w) /\
     (n < 4 -> fNpx (this w') = 4 /\
        exists m, out w' = out w ++ [m] /\ level m = kWarning) /\
     (500 < n -> fNpx (this w') = 500 /\
        exists m, out w' = out w ++ [m] /\ level m = kWarning)) /\
  (exists w', SetNpy n w = Some (tt, w') /\
     (4 <= n <= 500 -> fNpy (this w') = n /\ out w' = out w) /\
     (n < 4 -> fNpy (this w') = 4 /\
        exists m, out w' = out w ++ [m] /\ level m = kWarning) /\
     (500 < n -> fNpy (this w') = 500 /\
        exists m, out w' = out w ++ [m] /\ level m = kWarning)).
Proof.
  intros Hc. destruct w as [g hp b o]. split.
  - unfold SetNpx.
    destruct (n <? 4) eqn:E4; [|destruct (500 <? n) eqn:E5]; run;
      drop_cache (mkWorld g hp b o); rewrite dropped_fNpx; simpl;
      repeat split; intros; try lia; eauto.
  - unfold SetNpy.
    destruct (n <? 4) eqn:E4; [|destruct (500 <? n) eqn:E5]; run;
      drop_cache (mkWorld g hp b o); rewrite dropped_fNpy; simpl;
      repeat split; intros; try lia; eauto.
Qed.

(** C9. [SetMargin m] stores [m] when [0 <= m] and [m <= 1]; when [m < 0] or
    [m > 1] it stores the fixed value 0.1 after one warning.  Either way the
    cached histogram is deleted and both cache pointers are null. *)
Theorem SetMargin_fallback (w : World) (m : Double_t) :
  cache_ok w ->
  exists w', SetMargin m w = Some (tt, w') /\
    (dle 0 m = true /\ dle m 1 = true ->
       fMargin (this w') = m /\ out w' = out w) /\
    (dlt m 0 = true \/ dlt 1 m = true ->
       fMargin (this w') = 0.1%float /\
       exists msg, out w' = out w ++ [msg] /\ level msg = kWarning) /\
    fHistogram (this w') = None /\ fDelaunay (this w') = None /\
    (forall a, fHistogram (this w) = Some a -> heap w' !! a = None).
Proof.
  intros Hc. destruct w as [g hp b o]. unfold SetMargin.
  destruct (dlt m 0 || dlt 1 m) eqn:E; run.
  - drop_cache (mkWorld g hp b o). rewrite dropped_fMargin, dropped_fHistogram. simpl.
    split; [|split; [|split; [|split]]].
    + intros [H0 H1]. apply dle_not_dlt in H0, H1. rewrite H0, H1 in E. discriminate.
    + intros _. eauto.
    + reflexivity.
    + apply dropped_fDelaunay. exact (cache_ok_fDelaunay _ Hc).
    + intros a Ha. unfold cache_ok in Hc. simpl in Hc. rewrite Ha in Hc.
      destruct Hc as [h Hh]. apply (released_gone _ _ a h); [exact Ha | exact Hh].
  - drop_cache (mkWorld g hp b o). rewrite dropped_fMargin, dropped_fHistogram. simpl.
    apply orb_false_elim in E. destruct E as [E0 E1].
    split; [|split; [|split; [|split]]].
    + intros _. split; reflexivity.
    + intros [Hm | Hm]; congruence.
    + reflexivity.
    + apply dropped_fDelaunay. exact (cache_ok_fDelaunay _ Hc).
    + intros a Ha. unfold cache_ok in Hc. simpl in Hc. rewrite Ha in Hc.
      destruct Hc as [h Hh]. apply (released_gone _ _ a h); [exact Ha | exact Hh].
Qed.

(** ** Array access *)

Lemma load_coord (a : Array) (i : Int_t) (v : Double_t) (w : World) :
  coord a i = Some v -> load a i w = Some (v, w).
Proof.
  unfold coord, load. destruct a as [l|]; [|discriminate].
  destruct (i <? 0); [discriminate|]. intros ->. reflexivity.
Qed.

Lemma coord_in_bounds (l : list Double_t) (i : Int_t) :
  0 <= i < Z.of_nat (length l) -> exists v, coord (Some l) i = Some v.
Proof.
  intros Hi. unfold coord. destruct (i <? 0) eqn:E; [lia|].
  destruct (lookup_lt_is_Some_2 l (Z.to_nat i)) as [v Hv]; [lia|]. eauto.
Qed.

(** C10. [GetPoint] returns -1 and hands the three outputs back untouched
    when the index is negative, not below [fNpoints], or one of the arrays
    is null; otherwise it returns the index together with the stored
    coordinates, and such coordinates exist on every well-formed graph.  The
    graph is the same afterwards in all cases. *)
Theorem GetPoint_spec (w : World) (i : Int_t) (xyz : Double_t * Double_t * Double_t) :
  (i < 0 \/ fNpoints (this w) <= i \/
   fX (this w) = None \/ fY (this w) = None \/ fZ (this w) = None ->
     GetPoint i xyz w = Some ((-1, xyz), w)) /\
  (0 <= i < fNpoints (this w) ->
   fX (this w) <> None -> fY (this w) <> None -> fZ (this w) <> None ->
   points_ok (this w) ->
     exists x y z,
       coord (fX (this w)) i = Some x /\ coord (fY (this w)) i = Some y /\
       coord (fZ (this w)) i = Some z /\
       GetPoint i xyz w = Some ((i, (x, y, z)), w)).
Proof.
  destruct w as [g hp b o]. simpl. split.
  - intros Hcase. unfold GetPoint. run.
    destruct (i <? 0) eqn:E0; [reflexivity|].
    destruct (fNpoints g <=? i) eqn:E1; [reflexivity|]. simpl.
    destruct Hcase as [Hc | [Hc | [Hc | [Hc | Hc]]]]; try lia;
      rewrite Hc; simpl; rewrite ?orb_true_r; reflexivity.
  - intros Hi Hx Hy Hz Hok. unfold points_ok in Hok.
    destruct (fX g) as [lx|] eqn:Ex; [|congruence].
    destruct (fY g) as [ly|] eqn:Ey; [|congruence].
    destruct (fZ g) as [lz|] eqn:Ez; [|congruence].
    destruct Hok as (Hlx & Hly & Hlz).
    destruct (coord_in_bounds lx i) as [x Hcx]; [lia|].
    destruct (coord_in_bounds ly i) as [y Hcy]; [lia|].
    destruct (coord_in_bounds lz i) as [z Hcz]; [lia|].
    exists x, y, z. repeat split; try assumption.
    unfold GetPoint. run.
    destruct (i <? 0) eqn:E0; [lia|].
    destruct (fNpoints g <=? i) eqn:E1; [lia|]. simpl.
    rewrite Ex, Ey, Ez. simpl.
    rewrite (load_coord _ _ _ _ Hcx), (load_coord _ _ _ _ Hcy), (load_coord _ _ _ _ Hcz).
    reflexivity.
Qed.

Lemma load_in_bounds (l : list Double_t) (i : Int_t) (w : World) :
  0 <= i < Z.of_nat (length l) ->
  exists v, l !! Z.to_nat i = Some v /\ load (Some l) i w = Some (v, w).
Proof.
  intros Hi. destruct (coord_in_bounds l i Hi) as [v Hv].
  exists v. split; [|apply load_coord; exact Hv].
  unfold coord in Hv. destruct (i <? 0) eqn:E; [lia | exact Hv].
Qed.

Ltac built_fields Hb :=
  destruct Hb as (Hzout & Hiter & lx & ly & lz & Hx & Hy & Hz & Hlx & Hly & Hlz);
  simpl in Hzout, Hiter, Hx, Hy, Hz; subst.

Ltac built_again :=
  unfold built; simpl; split; [reflexivity|]; split; [reflexivity|];
  do 3 eexists; repeat (split; [reflexivity|]);
  rewrite !length_insert; repeat split; lia.

(** ** Queries on a graph without points *)

(** C1, as the code has it.  On a graph with [fNpoints <= 0] both queries
    return at once, for every argument, after one error message and without
    touching the graph or the heap: [Interpolate] returns 0, which is an
    ordinary double and not a NaN, and [GetContourList] returns the null
    list. *)
Theorem empty_graph_queries (w : World) (x y level : Double_t) :
  fNpoints (this w) <= 0 ->
  Interpolate x y w =
    Some (0%float,
          mkWorld (this w) (heap w) (brk w)
                  (out w ++ [mkMessage kError "Interpolate" "Empty TGraph2D" []])) /\
  is_nan 0%float = false /\
  GetContourList level w =
    Some (None,
          mkWorld (this w) (heap w) (brk w)
                  (out w ++ [mkMessage kError "GetContourList" "Empty TGraph2D" []])).
Proof.
  intros Hn. destruct w as [g hp b o]. simpl in Hn.
  unfold Interpolate, GetContourList. run.
  destruct (fNpoints g <=? 0) eqn:E; [|lia].
  repeat split.
Qed.

(** ** Removing a point *)

Lemma shift_down_length {A} (k i : nat) (l : list A) :
  length (shift_down k i l) = length l.
Proof.
  revert i l. induction k as [|k IH]; intros i l; simpl; [reflexivity|].
  destruct (l !! S i); [|reflexivity]. rewrite IH. apply length_insert.
Qed.

Lemma shift_down_lookup {A} (k i : nat) (l : list A) (j : nat) :
  (i + k < length l)%nat ->
  shift_down k i l !! j =
    if decide (i <= j < i + k)%nat then l !! S j else l !! j.
Proof.
  revert i l. induction k as [|k IH]; intros i l Hlen; simpl.
  - destruct (decide (i <= j < i + 0)%nat); [lia | reflexivity].
  - destruct (lookup_lt_is_Some_2 l (S i)) as [v Hv]; [lia|]. rewrite Hv.
    rewrite IH by (rewrite length_insert; lia).
    destruct (decide (S i <= j < S i + k)%nat) as [Hin|Hout].
    + destruct (decide (i <= j < i + S k)%nat); [|lia].
      apply list_lookup_insert_ne. lia.
    + destruct (decide (i <= j < i + S k)%nat) as [Hin'|Hout'].
      * assert (j = i) by lia. subst j. rewrite list_lookup_insert_eq by lia. congruence.
      * apply list_lookup_insert_ne. lia.
Qed.

Lemma load_succ (l : list Double_t) (i : nat) (v : Double_t) (w : World) :
  l !! S i = Some v -> load (Some l) (Z.of_nat i + 1) w = Some (v, w).
Proof.
  intros Hv. apply load_coord. unfold coord.
  destruct (Z.of_nat i + 1 <? 0) eqn:E; [lia|].
  replace (Z.to_nat (Z.of_nat i + 1)) with (S i) by lia. exact Hv.
Qed.

Lemma load_nat (l : list Double_t) (i : nat) (v : Double_t) (w : World) :
  l !! i = Some v -> load (Some l) (Z.of_nat i) w = Some (v, w).
Proof.
  intros Hv. apply load_coord. unfold coord.
  destruct (Z.of_nat i <? 0) eqn:E; [lia|]. rewrite Nat2Z.id. exact Hv.
Qed.

Lemma shift_loop (k : nat) :
  forall (i : nat) (g : TGraph2D) (lx ly lz : list Double_t) hp b o,
    fX g = Some lx -> fY g = Some ly -> fZ g = Some lz ->
    (i + k < length lx)%nat -> (i + k < length ly)%nat -> (i + k < length lz)%nat ->
    for_count k (Z.of_nat i) shift_point (mkWorld g hp b o) =
      Some (tt, mkWorld (with_arrays (shift_down k i lx) (shift_down k i ly)
                                     (shift_down k i lz) g) hp b o).
Proof.
  induction k as [|k IH]; intros i g lx ly lz hp b o Hx Hy Hz Hlx Hly Hlz.
  - destruct g. simpl in *. subst. reflexivity.
  - destruct (lookup_lt_is_Some_2 lx (S i)) as [vx Hvx]; [lia|].
    destruct (lookup_lt_is_Some_2 ly (S i)) as [vy Hvy]; [lia|].
    destruct (lookup_lt_is_Some_2 lz (S i)) as [vz Hvz]; [lia|].
    simpl shift_down. rewrite Hvx, Hvy, Hvz.
    simpl for_count. unfold bind at 1.
    assert (Hstep : shift_point (Z.of_nat i) (mkWorld g hp b o) =
              Some (tt, mkWorld (with_arrays (<[i:=vx]> lx) (<[i:=vy]> ly) (<[i:=vz]> lz) g)
                                hp b o)).
    { destruct g. simpl in Hx, Hy, Hz. subst. unfold shift_point, with_arrays. eval_fields.
      rewrite (load_succ _ _ _ _ Hvx). eval_fields.
      rewrite store_in_bounds by lia. eval_fields.
      rewrite (load_succ _ _ _ _ Hvy). eval_fields.
      rewrite store_in_bounds by lia. eval_fields.
      rewrite (load_succ _ _ _ _ Hvz). eval_fields.
      rewrite store_in_bounds by lia. eval_fields.
      rewrite Nat2Z.id. reflexivity. }
    rewrite Hstep. replace (Z.of_nat i + 1) with (Z.of_nat (S i)) by lia.
    rewrite (IH (S i) _ (<[i:=vx]> lx) (<[i:=vy]> ly) (<[i:=vz]> lz));
      try (rewrite length_insert; lia); try (destruct g; reflexivity).
Qed.

Lemma points_ok_arrays (g : TGraph2D) :
  points_ok g -> 0 < fNpoints g ->
  exists lx ly lz,
    fX g = Some lx /\ fY g = Some ly /\ fZ g = Some lz /\
    fNpoints g <= Z.of_nat (length lx) /\ fNpoints g <= Z.of_nat (length ly) /\
    fNpoints g <= Z.of_nat (length lz).
Proof.
  unfold points_ok. intros Hok Hn.
  destruct (fX g) as [lx|]; [|lia]. destruct (fY g) as [ly|]; [|lia].
  destruct (fZ g) as [lz|]; [|lia]. exists lx, ly, lz. tauto.
Qed.

Lemma RemovePoint_removed (w : World) (ip : Int_t) :
  0 <= ip < fNpoints (this w) -> points_ok (this w) -> cache_ok w ->
  RemovePoint ip w = Some (ip, removed ip w).
Proof.
  intros Hip Hok Hc. destruct w as [g hp b o]. simpl in Hip, Hok.
  destruct (points_ok_arrays g Hok) as (lx & ly & lz & Hx & Hy & Hz & Hlx & Hly & Hlz); [lia|].
  unfold RemovePoint, removed. simpl this. rewrite Hx, Hy, Hz.
  destruct (ip <? 0) eqn:E0; [lia|]. unfold bind at 1, self at 1. cbn [this heap brk out].
  destruct (fNpoints g <=? ip) eqn:E1; [lia|].
  unfold bind at 1, for_range. cbn [this heap brk out].
  replace ip with (Z.of_nat (Z.to_nat ip)) at 2 by lia.
  rewrite (shift_loop _ _ g lx ly lz hp b o Hx Hy Hz) by lia.
  unfold bind at 1, update at 1. cbv [this heap brk out].
  unfold bind at 1.
  rewrite discard_histogram_spec.
  - unfold ret. cbn [this heap brk out].
    replace (fNpoints (with_arrays (shift_down (Z.to_nat (fNpoints g - 1 - ip)) (Z.to_nat ip) lx)
          (shift_down (Z.to_nat (fNpoints g - 1 - ip)) (Z.to_nat ip) ly)
          (shift_down (Z.to_nat (fNpoints g - 1 - ip)) (Z.to_nat ip) lz) g)) with (fNpoints g)
      by (destruct g; reflexivity).
    reflexivity.
  - apply (cache_ok_frame (mkWorld g hp b o)); [exact Hc | destruct g; reflexivity ..].
Qed.

Lemma coord_shift_down (l : list Double_t) (n ip j : Int_t) :
  0 <= ip < n -> n <= Z.of_nat (length l) -> 0 <= j ->
  coord (Some (shift_down (Z.to_nat (n - 1 - ip)) (Z.to_nat ip) l)) j =
    if decide (ip <= j < n - 1) then coord (Some l) (j + 1) else coord (Some l) j.
Proof.
  intros Hip Hn Hj. unfold coord.
  destruct (j <? 0) eqn:E; [lia|]. destruct (j + 1 <? 0) eqn:E'; [lia|].
  rewrite shift_down_lookup by lia.
  destruct (decide (ip <= j < n - 1)) as [Hin|Hout].
  - destruct (decide (Z.to_nat ip <= Z.to_nat j < Z.to_nat ip + Z.to_nat (n - 1 - ip))%nat); [|lia].
    f_equal. lia.
  - destruct (decide (Z.to_nat ip <= Z.to_nat j < Z.to_nat ip + Z.to_nat (n - 1 - ip))%nat); [lia|].
    reflexivity.
Qed.

Lemma removed_fields (w : World) (ip : Int_t) (lx ly lz : list Double_t) :
  fX (this w) = Some lx -> fY (this w) = Some ly -> fZ (this w) = Some lz ->
  let k := Z.to_nat (fNpoints (this w) - 1 - ip) in
  let i := Z.to_nat ip in
  fNpoints (this (removed ip w)) = fNpoints (this w) - 1 /\
  fX (this (removed ip w)) = Some (shift_down k i lx) /\
  fY (this (removed ip w)) = Some (shift_down k i ly) /\
  fZ (this (removed ip w)) = Some (shift_down k i lz) /\
  fHistogram (this (removed ip w)) = None /\
  out (removed ip w) = out w /\ brk (removed ip w) = brk w.
Proof.
  intros Hx Hy Hz. unfold removed. rewrite Hx, Hy, Hz. unfold discarded.
  cbn [this heap brk out].
  rewrite dropped_fNpoints, dropped_fX, dropped_fY, dropped_fZ, dropped_fHistogram.
  destruct w as [g hp b o]. destruct g. repeat split.
Qed.

(** C6. With [0 <= ipoint < fNpoints], on a well-formed graph,
    [RemovePoint(ipoint)] returns [ipoint]; afterwards there is one point
    less, every point below [ipoint] is as before, and every point [i] from
    [ipoint] up to the new last index holds the former coordinates of point
    [i + 1].  With [ipoint < 0] or [ipoint >= fNpoints] it returns -1 and
    nothing changes. *)
Theorem RemovePoint_spec (w : World) (ip : Int_t) :
  (0 <= ip < fNpoints (this w) -> points_ok (this w) -> cache_ok w ->
   exists w', RemovePoint ip w = Some (ip, w') /\
     fNpoints (this w') = fNpoints (this w) - 1 /\
     (forall i, 0 <= i < ip ->
        coord (fX (this w')) i = coord (fX (this w)) i /\
        coord (fY (this w')) i = coord (fY (this w)) i /\
        coord (fZ (this w')) i = coord (fZ (this w)) i) /\
     (forall i, ip <= i < fNpoints (this w) - 1 ->
        coord (fX (this w')) i = coord (fX (this w)) (i + 1) /\
        coord (fY (this w')) i = coord (fY (this w)) (i + 1) /\
        coord (fZ (this w')) i = coord (fZ (this w)) (i + 1))) /\
  (ip < 0 \/ fNpoints (this w) <= ip -> RemovePoint ip w = Some (-1, w)).
Proof.
  split.
  - intros Hip Hok Hc. exists (removed ip w).
    split; [apply RemovePoint_removed; assumption|].
    destruct (points_ok_arrays _ Hok) as (lx & ly & lz & Hx & Hy & Hz & Hlx & Hly & Hlz); [lia|].
    destruct (removed_fields w ip lx ly lz Hx Hy Hz) as (Hn & Hx' & Hy' & Hz' & _).
    rewrite Hn, Hx', Hy', Hz', Hx, Hy, Hz. split; [reflexivity|]. split.
    + intros i Hi.
      rewrite !(coord_shift_down _ (fNpoints (this w))) by lia.
      destruct (decide (ip <= i < fNpoints (this w) - 1)); [lia|]. repeat split.
    + intros i Hi.
      rewrite !(coord_shift_down _ (fNpoints (this w))) by lia.
      destruct (decide (ip <= i < fNpoints (this w) - 1)); [|lia]. repeat split.
  - intros Hcase. destruct w as [g hp b o]. simpl in Hcase. unfold RemovePoint.
    destruct (ip <? 0) eqn:E0; [reflexivity|].
    unfold bind, self. cbn [this].
    destruct (fNpoints g <=? ip) eqn:E1; [reflexivity | lia].
Qed.

(** ** The samples as a list *)

Lemma zip3_lookup (xs ys zs : list Double_t) (j : nat) :
  zip3 xs ys zs !! j = sample3 (xs !! j) (ys !! j) (zs !! j).
Proof.
  revert ys zs j. induction xs as [|x xs IH]; intros ys zs j.
  - simpl. unfold sample3. rewrite lookup_nil. reflexivity.
  - destruct ys as [|y ys].
    + simpl. unfold sample3. rewrite lookup_nil. destruct ((x :: xs) !! j); reflexivity.
    + destruct zs as [|z zs].
      * simpl. unfold sample3. rewrite lookup_nil.
        destruct ((x :: xs) !! j); [destruct ((y :: ys) !! j)|]; reflexivity.
      * destruct j as [|j]; simpl; [reflexivity | apply IH].
Qed.

Lemma samples_lookup (g : TGraph2D) (lx ly lz : list Double_t) (j : nat) :
  fX g = Some lx -> fY g = Some ly -> fZ g = Some lz ->
  samples_of g !! j =
    if decide (j < Z.to_nat (fNpoints g))%nat
    then sample3 (lx !! j) (ly !! j) (lz !! j) else None.
Proof.
  intros Hx Hy Hz. unfold samples_of. rewrite Hx, Hy, Hz, zip3_lookup.
  destruct (decide (j < Z.to_nat (fNpoints g))%nat).
  - rewrite !lookup_take_lt by assumption. reflexivity.
  - rewrite !lookup_take_ge by lia. reflexivity.
Qed.

Lemma samples_length (g : TGraph2D) :
  points_ok g -> 0 <= fNpoints g -> Z.of_nat (length (samples_of g)) = fNpoints g.
Proof.
  intros Hok Hn. unfold points_ok in Hok. unfold samples_of.
  destruct (fX g) as [lx|]; [|simpl; lia]. destruct (fY g) as [ly|]; [|simpl; lia].
  destruct (fZ g) as [lz|]; [|simpl; lia]. destruct Hok as (Hlx & Hly & Hlz).
  assert (Hlen : forall xs ys zs : list Double_t,
             length xs = length ys -> length ys = length zs ->
             length (zip3 xs ys zs) = length xs).
  { induction xs as [|x xs IH]; intros [|y ys] [|z zs] H1 H2; simpl in *; try lia.
    rewrite IH; lia. }
  rewrite Hlen; rewrite !length_take_le by lia; lia.
Qed.

Lemma samples_removed (w : World) (ip : Int_t) :
  0 <= ip < fNpoints (this w) -> points_ok (this w) ->
  samples_of (this (removed ip w)) = delete (Z.to_nat ip) (samples_of (this w)).
Proof.
  intros Hip Hok.
  destruct (points_ok_arrays _ Hok) as (lx & ly & lz & Hx & Hy & Hz & Hlx & Hly & Hlz); [lia|].
  destruct (removed_fields w ip lx ly lz Hx Hy Hz) as (Hn & Hx' & Hy' & Hz' & _).
  apply list_eq. intros j.
  rewrite (samples_lookup _ _ _ _ j Hx' Hy' Hz'), Hn.
  rewrite !shift_down_lookup by lia.
  destruct (decide (j < Z.to_nat ip)%nat) as [Hlt|Hge].
  - rewrite list_lookup_delete_lt by assumption.
    rewrite (samples_lookup _ _ _ _ j Hx Hy Hz).
    destruct (decide (j < Z.to_nat (fNpoints (this w) - 1))%nat); [|lia].
    destruct (decide (j < Z.to_nat (fNpoints (this w)))%nat); [|lia].
    destruct (decide (Z.to_nat ip <= j < Z.to_nat ip + Z.to_nat (fNpoints (this w) - 1 - ip))%nat);
      [lia | reflexivity].
  - rewrite list_lookup_delete_ge by lia.
    rewrite (samples_lookup _ _ _ _ (S j) Hx Hy Hz).
    destruct (decide (j < Z.to_nat (fNpoints (this w) - 1))%nat);
      destruct (decide (S j < Z.to_nat (fNpoints (this w)))%nat); try lia; [|reflexivity].
    destruct (decide (Z.to_nat ip <= j < Z.to_nat ip + Z.to_nat (fNpoints (this w) - 1 - ip))%nat);
      [reflexivity | lia].
Qed.

Lemma removed_ok (w : World) (ip : Int_t) :
  0 <= ip < fNpoints (this w) -> points_ok (this w) -> cache_ok w ->
  points_ok (this (removed ip w)) /\ cache_ok (removed ip w).
Proof.
  intros Hip Hok Hc.
  destruct (points_ok_arrays _ Hok) as (lx & ly & lz & Hx & Hy & Hz & Hlx & Hly & Hlz); [lia|].
  destruct (removed_fields w ip lx ly lz Hx Hy Hz) as (Hn & Hx' & Hy' & Hz' & Hh & _).
  split.
  - unfold points_ok. rewrite Hx', Hy', Hz', Hn, !shift_down_length. lia.
  - unfold cache_ok. rewrite Hh.
    unfold removed. rewrite Hx, Hy, Hz. unfold discarded. cbn [this].
    apply dropped_fDelaunay. intros Hnone.
    pose proof (cache_ok_fDelaunay w Hc) as Hd.
    destruct w as [g hp b o]. destruct g. simpl in *. auto.
Qed.

Lemma samples_length_nat (g : TGraph2D) :
  points_ok g -> length (samples_of g) = Z.to_nat (fNpoints g).
Proof.
  intros Hok. destruct (Z_lt_le_dec (fNpoints g) 0) as [Hneg|Hpos].
  - unfold samples_of. replace (Z.to_nat (fNpoints g)) with 0%nat by lia.
    destruct (fX g), (fY g), (fZ g); reflexivity.
  - pose proof (samples_length g Hok Hpos). lia.
Qed.

Lemma samples_coords (g : TGraph2D) (j : nat) (s : Sample) :
  samples_of g !! j = Some s ->
  coord (fX g) (Z.of_nat j) = Some (sx s) /\ coord (fY g) (Z.of_nat j) = Some (sy s) /\
  coord (fZ g) (Z.of_nat j) = Some (sz s).
Proof.
  unfold samples_of, coord. destruct (Z.of_nat j <? 0) eqn:E; [lia|]. clear E.
  rewrite Nat2Z.id.
  destruct (fX g) as [lx|]; [|rewrite lookup_nil; discriminate].
  destruct (fY g) as [ly|]; [|rewrite lookup_nil; discriminate].
  destruct (fZ g) as [lz|]; [|rewrite lookup_nil; discriminate].
  rewrite zip3_lookup. unfold sample3.
  destruct (take _ lx !! j) as [a|] eqn:Ea; [|discriminate].
  destruct (take _ ly !! j) as [b|] eqn:Eb; [|discriminate].
  destruct (take _ lz !! j) as [c|] eqn:Ec; [|discriminate].
  intros [= <-]. simpl.
  apply lookup_take_Some in Ea, Eb, Ec. tauto.
Qed.

Lemma filter_drop_step (P : Sample -> bool) (l : list Sample) (j : nat) (s : Sample) :
  l !! j = Some s ->
  take j l ++ List.filter P (drop j l) =
    if P s then take (S j) l ++ List.filter P (drop (S j) l)
    else take j (delete j l) ++ List.filter P (drop j (delete j l)).
Proof.
  intros Hs. rewrite (drop_S l s j Hs). simpl.
  destruct (P s) eqn:EP.
  - rewrite (take_S_r l j s Hs), <- app_assoc. reflexivity.
  - rewrite delete_take_drop.
    assert (Hlen : length (take j l) = j).
    { apply length_take_le. apply lookup_lt_Some in Hs. lia. }
    rewrite take_app_le by lia. rewrite (take_ge (take j l) j) by lia.
    rewrite drop_app_ge by lia. rewrite Hlen, Nat.sub_diag. reflexivity.
Qed.

Lemma dup_scan_spec (fuel : nat) :
  forall (x y : Double_t) (j : Int_t) (w : World),
    0 <= j -> points_ok (this w) -> cache_ok w ->
    (Z.to_nat (fNpoints (this w) - j) <= fuel)%nat ->
    exists w', dup_scan fuel x y j w = Some (tt, w') /\
      points_ok (this w') /\ cache_ok w' /\ out w' = out w /\
      (j <= fNpoints (this w) -> j <= fNpoints (this w')) /\
      samples_of (this w') =
        take (Z.to_nat j) (samples_of (this w)) ++
        List.filter (fun s => negb (same_xy x y s)) (drop (Z.to_nat j) (samples_of (this w))).
Proof.
  induction fuel as [|fuel IH]; intros x y j w Hj Hok Hc Hfuel.
  - exists w. destruct w as [g hp b o]. simpl in *. unfold bind, self. cbn [this].
    destruct (j <? fNpoints g) eqn:E; [lia|]. repeat split; try assumption; try tauto.
    rewrite take_ge, drop_ge by (rewrite samples_length_nat by assumption; lia).
    simpl. rewrite app_nil_r. reflexivity.
  - destruct (Z_lt_le_dec j (fNpoints (this w))) as [Hlt|Hge].
    + destruct (lookup_lt_is_Some_2 (samples_of (this w)) (Z.to_nat j)) as [s Hs].
      { rewrite samples_length_nat by assumption. lia. }
      destruct (samples_coords _ _ _ Hs) as (Hcx & Hcy & _).
      rewrite Z2Nat.id in Hcx, Hcy by lia.
      rewrite (filter_drop_step _ _ _ _ Hs).
      simpl dup_scan. unfold bind at 1, self at 1.
      destruct (j <? fNpoints (this w)) eqn:E; [clear E|lia].
      unfold bind at 1. rewrite (load_coord _ _ _ _ Hcx).
      unfold bind at 1.
      assert (Hsame : (if deq x (sx s)
                       then yj <- load (fY (this w)) j;; ret (deq y yj)
                       else ret false) w = Some (same_xy x y s, w)).
      { unfold same_xy. destruct (deq x (sx s)); [|reflexivity].
        unfold bind. rewrite (load_coord _ _ _ _ Hcy). reflexivity. }
      rewrite Hsame. destruct (same_xy x y s) eqn:Es; simpl negb; cbv iota.
      * unfold bind at 1. rewrite RemovePoint_removed by (assumption || lia).
        destruct (removed_ok w j) as [Hok' Hc']; try assumption; [lia|].
        destruct (points_ok_arrays _ Hok) as (lx & ly & lz & Hx & Hy & Hz & _); [lia|].
        destruct (removed_fields w j lx ly lz Hx Hy Hz) as (Hn & _ & _ & _ & _ & Ho & _).
        destruct (IH x y (j - 1 + 1) (removed j w))
          as (w' & Hrun & Hok'' & Hc'' & Hout & Hlow & Hsam);
          try assumption; [lia | rewrite Hn; lia |].
        exists w'. split; [exact Hrun|]. split; [exact Hok''|]. split; [exact Hc''|].
        split; [congruence|]. split; [intros _; rewrite Hn in Hlow; lia|].
        rewrite Hsam. replace (j - 1 + 1) with j by lia.
        rewrite samples_removed by (assumption || lia). reflexivity.
      * destruct (IH x y (j + 1) w) as (w' & Hrun & Hok'' & Hc'' & Hout & Hlow & Hsam);
          try assumption; [lia | lia |].
        exists w'. split; [exact Hrun|]. split; [exact Hok''|]. split; [exact Hc''|].
        split; [exact Hout|]. split; [intros _; lia|].
        rewrite Hsam. replace (Z.to_nat (j + 1)) with (S (Z.to_nat j)) by lia. reflexivity.
    + exists w. destruct w as [g hp b o]. simpl in *. unfold bind, self. cbn [this].
      destruct (j <? fNpoints g) eqn:E; [lia|]. repeat split; try assumption; try tauto.
      rewrite take_ge, drop_ge by (rewrite samples_length_nat by assumption; lia).
      simpl. rewrite app_nil_r. reflexivity.
Qed.

(** ** Equality of doubles is transitive *)

Lemma SFcompare_Eq_trans (a b c : spec_float) :
  SFcompare a b = Some Eq -> SFcompare b c = Some Eq -> SFcompare a c = Some Eq.
Proof.
  destruct a as [sa | sa | | sa ma ea], b as [sb | sb | | sb mb eb],
           c as [sc | sc | | sc mc ec]; simpl;
    try discriminate; try reflexivity;
    try (destruct sa; discriminate); try (destruct sb; discriminate);
    try (destruct sc; discriminate);
    try (destruct sa, sb; discriminate); try (destruct sb, sc; discriminate).
  - destruct sa, sb, sc; try discriminate; reflexivity.
  - destruct sa, sb; try discriminate; destruct sc; try discriminate;
      destruct (ea ?= eb)%Z eqn:Eab; try discriminate;
      destruct (eb ?= ec)%Z eqn:Ebc; try discriminate;
      apply Z.compare_eq in Eab, Ebc; subst; rewrite Z.compare_refl;
      intros [= Hab] [= Hbc].
    + apply (f_equal CompOpp) in Hab, Hbc. rewrite CompOpp_involutive in Hab, Hbc.
      simpl in Hab, Hbc. apply Pos.compare_eq in Hab, Hbc. subst.
      change (Pos.compare_cont Eq mc mc) with (Pos.compare mc mc).
      rewrite Pos.compare_refl. reflexivity.
    + apply Pos.compare_eq in Hab, Hbc. subst.
      change (Pos.compare_cont Eq mc mc) with (Pos.compare mc mc).
      rewrite Pos.compare_refl. reflexivity.
Qed.

Lemma deq_trans (a b c : Double_t) :
  deq a b = true -> deq b c = true -> deq a c = true.
Proof.
  unfold deq. rewrite !FloatAxioms.eqb_spec. unfold SFeqb.
  destruct (SFcompare (Prim2SF a) (Prim2SF b)) as [[]|] eqn:Eab; try discriminate.
  destruct (SFcompare (Prim2SF b) (Prim2SF c)) as [[]|] eqn:Ebc; try discriminate.
  rewrite (SFcompare_Eq_trans _ _ _ Eab Ebc). reflexivity.
Qed.

Lemma same_place_trans (a b c : Sample) :
  same_place a b = true -> same_place b c = true -> same_place a c = true.
Proof.
  unfold same_place, same_xy. rewrite !andb_true_iff.
  intros [Hx Hy] [Hx' Hy']. split; eapply deq_trans; eassumption.
Qed.

(** ** The list-level view of [RemoveDuplicates] *)

Lemma dedup_n_fuel (n : nat) :
  forall (m : nat) (l : list Sample),
    (length l <= n)%nat -> (length l <= m)%nat -> dedup_n n l = dedup_n m l.
Proof.
  induction n as [|n IH]; intros m l Hn Hm.
  - destruct l; [|simpl in Hn; lia]. destruct m; reflexivity.
  - destruct l as [|p t]; [destruct m; reflexivity|].
    destruct m as [|m]; [simpl in Hm; lia|]. simpl. f_equal.
    simpl in Hn, Hm.
    pose proof (List.filter_length_le (fun q => negb (same_place p q)) t).
    apply IH; lia.
Qed.

Lemma dedup_cons (p : Sample) (t : list Sample) :
  dedup (p :: t) = p :: dedup (List.filter (fun q => negb (same_place p q)) t).
Proof.
  unfold dedup. simpl. f_equal.
  pose proof (List.filter_length_le (fun q => negb (same_place p q)) t).
  apply dedup_n_fuel; lia.
Qed.

Lemma dedup_nil : dedup [] = [].
Proof. reflexivity. Qed.

Lemma hits_app (seen : list Sample) (p q : Sample) :
  hits (seen ++ [p]) q = hits seen q || same_place p q.
Proof. unfold hits. rewrite existsb_app. simpl. rewrite orb_false_r. reflexivity. Qed.

Lemma keep_first_ext (l : list Sample) :
  forall seen1 seen2,
    (forall q, hits seen1 q = hits seen2 q) ->
    keep_first seen1 l = keep_first seen2 l.
Proof.
  induction l as [|p t IH]; intros seen1 seen2 Heq; simpl; [reflexivity|].
  fold (hits seen1 p). fold (hits seen2 p). rewrite (Heq p).
  rewrite (IH (seen1 ++ [p]) (seen2 ++ [p])); [reflexivity|].
  intros q. rewrite !hits_app, Heq. reflexivity.
Qed.

Lemma keep_first_filter (p : Sample) (l : list Sample) :
  forall seen,
    (forall q, same_place p q = true -> hits seen q = true) ->
    keep_first seen l =
    keep_first seen (List.filter (fun q => negb (same_place p q)) l).
Proof.
  induction l as [|q t IH]; intros seen Hcover; simpl; [reflexivity|].
  fold (hits seen q).
  assert (Hcover' : forall r, same_place p r = true -> hits (seen ++ [q]) r = true).
  { intros r Hr. rewrite hits_app, (Hcover r Hr). reflexivity. }
  destruct (same_place p q) eqn:Epq; simpl.
  - rewrite (Hcover q Epq). rewrite (IH _ Hcover').
    apply keep_first_ext. intros r. rewrite hits_app.
    destruct (same_place q r) eqn:Eqr; [|apply orb_false_r].
    rewrite (Hcover r (same_place_trans _ _ _ Epq Eqr)). reflexivity.
  - fold (hits seen q). rewrite (IH _ Hcover'). reflexivity.
Qed.

Lemma dedup_keep_first (n : nat) :
  forall (l seen : list Sample),
    (length l <= n)%nat ->
    (forall q, In q l -> hits seen q = false) ->
    dedup_n n l = keep_first seen l.
Proof.
  induction n as [|n IH]; intros l seen Hlen Hfresh.
  - destruct l; [reflexivity | simpl in Hlen; lia].
  - destruct l as [|p t]; [reflexivity|]. simpl.
    fold (hits seen p). rewrite (Hfresh p) by (left; reflexivity).
    f_equal. rewrite (keep_first_filter p t (seen ++ [p])).
    + apply IH.
      * pose proof (List.filter_length_le (fun q => negb (same_place p q)) t).
        simpl in Hlen. lia.
      * intros q Hq. apply filter_In in Hq. destruct Hq as [Hq Hpq].
        rewrite hits_app, (Hfresh q) by (right; exact Hq).
        apply negb_true_iff in Hpq. rewrite Hpq. reflexivity.
    + intros q Hq. rewrite hits_app, Hq. apply orb_true_r.
Qed.

Lemma dedup_n_In (n : nat) :
  forall (l : list Sample) (q : Sample), In q (dedup_n n l) -> In q l.
Proof.
  induction n as [|n IH]; intros l q; [destruct l; simpl; tauto|].
  destruct l as [|p t]; simpl; [tauto|].
  intros [Hq | Hq]; [left; exact Hq | right].
  apply IH in Hq. apply filter_In in Hq. tauto.
Qed.

Lemma dedup_n_distinct (n : nat) :
  forall l : list Sample, distinct_places (dedup_n n l).
Proof.
  induction n as [|n IH]; intros l i j a b Hij Ha Hb.
  - destruct l; simpl in Ha; rewrite lookup_nil in Ha; discriminate.
  - destruct l as [|p t]; [simpl in Ha; rewrite lookup_nil in Ha; discriminate|].
    simpl in Ha, Hb. destruct j as [|j]; [lia|]. simpl in Hb.
    destruct i as [|i].
    + simpl in Ha. injection Ha as <-.
      apply list_elem_of_lookup_2, list_elem_of_In, dedup_n_In, filter_In in Hb.
      destruct Hb as [_ Hb]. apply negb_true_iff in Hb. exact Hb.
    + simpl in Ha. eapply (IH _ i j a b); [lia | exact Ha | exact Hb].
Qed.

Lemma filter_sublist (P : Sample -> bool) (l : list Sample) :
  sublist (List.filter P l) l.
Proof.
  induction l as [|p t IH]; simpl; [constructor|].
  destruct (P p); [apply sublist_skip | apply sublist_cons]; exact IH.
Qed.

Lemma dedup_n_sublist (n : nat) :
  forall l : list Sample, sublist (dedup_n n l) l.
Proof.
  induction n as [|n IH]; intros l; [destruct l; apply sublist_nil_l|].
  destruct l as [|p t]; [constructor|]. simpl. apply sublist_skip.
  etransitivity; [apply IH | apply filter_sublist].
Qed.

Lemma dup_outer_spec (fuel : nat) :
  forall (i : Int_t) (w : World),
    0 <= i -> points_ok (this w) -> cache_ok w ->
    (Z.to_nat (fNpoints (this w) - i) <= fuel)%nat ->
    exists w', dup_outer fuel i w = Some (tt, w') /\
      points_ok (this w') /\ cache_ok w' /\ out w' = out w /\
      (i <= fNpoints (this w) -> i <= fNpoints (this w')) /\
      samples_of (this w') =
        take (Z.to_nat i) (samples_of (this w)) ++ dedup (drop (Z.to_nat i) (samples_of (this w))).
Proof.
  induction fuel as [|fuel IH]; intros i w Hi Hok Hc Hfuel.
  - exists w. destruct w as [g hp b o]. simpl in *. unfold bind, self. cbn [this].
    destruct (i <? fNpoints g) eqn:E; [lia|]. repeat split; try assumption; try tauto.
    rewrite take_ge, drop_ge by (rewrite samples_length_nat by assumption; lia).
    rewrite dedup_nil, app_nil_r. reflexivity.
  - destruct (Z_lt_le_dec i (fNpoints (this w))) as [Hlt|Hge].
    + destruct (lookup_lt_is_Some_2 (samples_of (this w)) (Z.to_nat i)) as [s Hs].
      { rewrite samples_length_nat by assumption. lia. }
      destruct (samples_coords _ _ _ Hs) as (Hcx & Hcy & _).
      rewrite Z2Nat.id in Hcx, Hcy by lia.
      simpl dup_outer. unfold bind at 1, self at 1.
      destruct (i <? fNpoints (this w)) eqn:E; [clear E|lia].
      unfold bind at 1. rewrite (load_coord _ _ _ _ Hcx).
      unfold bind at 1. rewrite (load_coord _ _ _ _ Hcy).
      unfold bind at 1.
      destruct (dup_scan_spec (Z.to_nat (fNpoints (this w) - (i + 1))) (sx s) (sy s) (i + 1) w)
        as (w1 & Hrun1 & Hok1 & Hc1 & Hout1 & Hlow1 & Hsam1); try assumption; [lia | lia |].
      rewrite Hrun1.
      assert (Htake : length (take (Z.to_nat (i + 1)) (samples_of (this w))) = Z.to_nat (i + 1)).
      { apply length_take_le. rewrite samples_length_nat by assumption. lia. }
      assert (Hlen1 : (Z.to_nat (fNpoints (this w1)) <= Z.to_nat (fNpoints (this w)))%nat).
      { rewrite <- !samples_length_nat by assumption. rewrite Hsam1, length_app.
        pose proof (List.filter_length_le (fun s0 => negb (same_xy (sx s) (sy s) s0))
                      (drop (Z.to_nat (i + 1)) (samples_of (this w)))) as Hf.
        pose proof (length_app (take (Z.to_nat (i + 1)) (samples_of (this w)))
                               (drop (Z.to_nat (i + 1)) (samples_of (this w)))) as Hsplit.
        rewrite take_drop in Hsplit. lia. }
      destruct (IH (i + 1) w1) as (w' & Hrun & Hok' & Hc' & Hout & Hlow & Hsam);
        try assumption; [lia | lia |].
      exists w'. split; [exact Hrun|]. split; [exact Hok'|]. split; [exact Hc'|].
      split; [congruence|]. split; [lia|].
      rewrite Hsam, Hsam1.
      rewrite take_app_le by lia.
      rewrite (take_ge (take (Z.to_nat (i + 1)) (samples_of (this w)))) by lia.
      rewrite drop_app_ge by lia. rewrite Htake, Nat.sub_diag. simpl drop.
      replace (Z.to_nat (i + 1)) with (S (Z.to_nat i)) by lia.
      rewrite (take_S_r _ _ _ Hs), <- app_assoc. simpl.
      rewrite (drop_S _ _ _ Hs), dedup_cons. reflexivity.
    + exists w. destruct w as [g hp b o]. simpl in *. unfold bind, self. cbn [this].
      destruct (i <? fNpoints g) eqn:E; [lia|]. repeat split; try assumption; try tauto.
      rewrite take_ge, drop_ge by (rewrite samples_length_nat by assumption; lia).
      rewrite dedup_nil, app_nil_r. reflexivity.
Qed.

(** C7. On a well-formed graph [RemoveDuplicates] returns, and afterwards:
    a sample has survived exactly when no sample inserted before it lay at
    the same (x, y), so of every group at one place the first inserted is
    the one left; no two remaining samples compare equal in both x and y;
    the survivors are in their old relative order; and the value returned
    is the new number of points.  The comparison is the [==] of the code,
    under which a NaN coordinate equals nothing. *)
Theorem RemoveDuplicates_spec (w : World) :
  points_ok (this w) -> cache_ok w ->
  exists n w', RemoveDuplicates w = Some (n, w') /\
    samples_of (this w') = keep_first [] (samples_of (this w)) /\
    distinct_places (samples_of (this w')) /\
    sublist (samples_of (this w')) (samples_of (this w)) /\
    n = fNpoints (this w') /\
    (0 <= fNpoints (this w) -> n = Z.of_nat (length (samples_of (this w')))).
Proof.
  intros Hok Hc.
  destruct (dup_outer_spec (Z.to_nat (fNpoints (this w))) 0 w)
    as (w' & Hrun & Hok' & Hc' & Hout & Hlow & Hsam); try assumption; [lia | lia |].
  simpl in Hsam. rewrite drop_0 in Hsam.
  exists (fNpoints (this w')), w'. split.
  { unfold RemoveDuplicates. unfold bind at 1, self at 1. unfold bind at 1.
    rewrite Hrun. reflexivity. }
  split; [|split; [|split; [|split]]].
  - rewrite Hsam. unfold dedup. apply dedup_keep_first; [lia | reflexivity].
  - rewrite Hsam. apply dedup_n_distinct.
  - rewrite Hsam. apply dedup_n_sublist.
  - reflexivity.
  - intros Hn. rewrite samples_length_nat by assumption. specialize (Hlow Hn). lia.
Qed.

(** ** Reading the extrema *)

Lemma scan_from_spec (better : Double_t -> Double_t -> bool) (l : list Double_t) (cnt : nat) :
  forall (i : nat) (v : Double_t) (w : World),
    (i + cnt <= length l)%nat ->
    scan_from cnt (Z.of_nat i) better (Some l) v w =
      Some (fold_left (fun v a => if better a v then a else v) (take cnt (drop i l)) v, w).
Proof.
  induction cnt as [|cnt IH]; intros i v w Hlen; simpl; [reflexivity|].
  destruct (lookup_lt_is_Some_2 l i) as [a Ha]; [lia|].
  unfold bind. rewrite (load_nat _ _ _ _ Ha).
  replace (Z.of_nat i + 1) with (Z.of_nat (S i)) by lia.
  rewrite IH by lia. rewrite (drop_S _ _ _ Ha). reflexivity.
Qed.

Lemma extremum_spec (better : Double_t -> Double_t -> bool) (l : list Double_t)
    (n : Int_t) (w : World) :
  1 <= n <= Z.of_nat (length l) ->
  exists v, extremum_of better l n = Some v /\
            extremum better (Some l) n w = Some (v, w).
Proof.
  intros Hn. destruct l as [|v0 t]; [simpl in Hn; lia|].
  eexists. split; [reflexivity|]. unfold extremum, bind.
  change 0 with (Z.of_nat 0). rewrite (load_nat (v0 :: t) 0 v0 w) by reflexivity.
  change 1 with (Z.of_nat 1).
  rewrite (scan_from_spec better (v0 :: t) _ 1 v0 w) by (simpl in *; lia).
  reflexivity.
Qed.

Lemma load_pure (a : Array) (i : Int_t) (w w' : World) (v : Double_t) :
  load a i w = Some (v, w') -> w' = w.
Proof.
  unfold load. destruct a as [l|]; [|discriminate].
  destruct (i <? 0); [discriminate|].
  destruct (l !! Z.to_nat i); [|discriminate]. intros [= _ <-]. reflexivity.
Qed.

Lemma scan_from_pure (better : Double_t -> Double_t -> bool) (a : Array) (cnt : nat) :
  forall (i : Int_t) (v r : Double_t) (w w' : World),
    scan_from cnt i better a v w = Some (r, w') -> w' = w.
Proof.
  induction cnt as [|cnt IH]; intros i v r w w'; simpl.
  - intros [= _ <-]. reflexivity.
  - unfold bind. destruct (load a i w) as [[ai w1]|] eqn:El; [|discriminate].
    apply load_pure in El. subst w1. apply IH.
Qed.

Lemma extremum_pure (better : Double_t -> Double_t -> bool) (a : Array) (n : Int_t)
    (w w' : World) (r : Double_t) :
  extremum better a n w = Some (r, w') -> w' = w.
Proof.
  unfold extremum, bind. destruct (load a 0 w) as [[v w1]|] eqn:El; [|discriminate].
  apply load_pure in El. subst w1. apply scan_from_pure.
Qed.

(** The six getters read the graph and leave the world alone. *)
Lemma getter_pure (m : M Double_t) (w w' : World) (r : Double_t) :
  m = GetXmaxE \/ m = GetXminE \/ m = GetYmaxE \/ m = GetYminE \/
  m = GetZmaxE \/ m = GetZminE ->
  m w = Some (r, w') -> w' = w.
Proof.
  intros Hm Hrun.
  assert (Hext : exists better a n, m w = extremum better a n w).
  { destruct Hm as [-> | [-> | [-> | [-> | [-> | ->]]]]];
      unfold GetXmaxE, GetXminE, GetYmaxE, GetYminE, GetZmaxE, GetZminE,
             GetXmax, GetXmin, GetYmax, GetYmin, GetZmax, GetZmin, bind, self;
      eauto. }
  destruct Hext as (better & a & n & Heq). rewrite Heq in Hrun.
  eapply extremum_pure. exact Hrun.
Qed.

(** ** Booking the histogram *)

Ltac eval_objects :=
  cbv [dEngine dMaxIter dZout dSnapshot SetMaxIter Delaunay_SetMarginBinsContent
       new_Delaunay new_TH2D
       hNbinsX hXmin hXmax hNbinsY hYmin hYmax hFills hMinimum hMaximum hNoStats
       hSumw2 hFunctions hPainter
       set_hNbinsX set_hXmin set_hXmax set_hNbinsY set_hYmin set_hYmax set_hFills
       set_hMinimum set_hMaximum set_hNoStats set_hSumw2 set_hFunctions set_hPainter].

Ltac heap_step :=
  eval_fields; eval_objects; cbn [FindObject is_null];
  repeat (rewrite lookup_insert_eq || rewrite lookup_insert_ne by lia).

Lemma book_fresh (w : World) (oldInterp : bool) (xmin xmax ymin ymax : Double_t) :
  fHistogram (this w) = None -> fUserHisto (this w) = false ->
  GetXmaxE w = Some (xmax, w) -> GetYmaxE w = Some (ymax, w) ->
  GetXminE w = Some (xmin, w) -> GetYminE w = Some (ymin, w) ->
  GetHistogram_book oldInterp w =
    Some (limits (fMargin (this w)) xmin xmax ymin ymax,
          booked oldInterp (limits (fMargin (this w)) xmin xmax ymin ymax) w).
Proof.
  intros Hnone Huser Hxmax Hymax Hxmin Hymin.
  unfold GetHistogram_book. unfold bind at 1, self at 1. rewrite Huser. cbn [negb].
  unfold bind at 1. rewrite Hxmax. unfold bind at 1. rewrite Hymax.
  unfold bind at 1. rewrite Hxmin. unfold bind at 1. rewrite Hymin.
  rewrite Hnone. clear Hxmax Hymax Hxmin Hymin.
  unfold limits, axis_range, booked, booked_hist, booked_delaunay, engine_for.
  set (hx := widen _ _). set (hy := widen _ _).
  destruct w as [g hp b o]. destruct g. simpl in Hnone, Huser. subst.
  unfold CreateInterpolator.
  destruct oldInterp.
  - do 12 heap_step. rewrite !insert_insert_eq.
    rewrite (insert_insert_ne _ (S b) b) by lia. rewrite insert_insert_eq. reflexivity.
  - do 12 heap_step. rewrite !insert_insert_eq.
    rewrite (insert_insert_ne _ (S b) b) by lia. rewrite insert_insert_eq. reflexivity.
Qed.

(** ** The fill loops *)

(** Evaluation of the monad operations on a world whose graph is opaque. *)
Ltac mrun :=
  cbv [bind ret self update emit Error Warning new poke free hist_at
       delaunay_at painter_at hist_update delaunay_update with_histogram undefined
       this heap brk out].

Lemma block_spec (a : Array) (n : Int_t) (w : World) :
  match a with Some l => n <= Z.of_nat (length l) | None => n <= 0 end ->
  block a n w =
    Some (match a with Some l => take (Z.to_nat n) l | None => [] end, w).
Proof.
  unfold block. destruct a as [l|]; intros Hn.
  - destruct (n <=? Z.of_nat (length l)) eqn:E; [reflexivity | lia].
  - destruct (n <=? 0) eqn:E; [reflexivity | lia].
Qed.

Lemma graph_samples_spec (w : World) :
  points_ok (this w) -> graph_samples w = Some (samples_of (this w), w).
Proof.
  intros Hok. unfold graph_samples, samples_of, points_ok in *.
  unfold bind at 1, self at 1.
  destruct (fX (this w)) as [lx|] eqn:Ex, (fY (this w)) as [ly|] eqn:Ey,
           (fZ (this w)) as [lz|] eqn:Ez;
    unfold bind; rewrite !block_spec by (simpl; lia); try reflexivity;
    replace (Z.to_nat (fNpoints (this w))) with 0%nat by lia;
    rewrite ?take_0; try reflexivity;
    repeat match goal with |- context [zip3 ?a ?b ?c] => destruct a, b, c end; reflexivity.
Qed.

Lemma fill_cell (g : TGraph2D) (a d : addr) lim (e : Engine) (mi : Int_t) (zo : Double_t)
    (F : list (Double_t * Double_t * Double_t)) (x y : Double_t) (w : World) :
  points_ok g -> fHistogram g = Some a -> fDelaunay g = Some d ->
  filling g a d lim e mi zo F w ->
  exists w',
    (z <- ComputeZ_as e x y ;; Fill x y z) w = Some (tt, w') /\
    filling g a d lim e mi zo
      (F ++ [(x, y, interpolate e (samples_of g) mi zo x y)]) w'.
Proof.
  intros Hok Hh Hd (Hthis & Hne & (h & Hha & HF & Hlim) & (dd & Hhd & He & Hmi & Hzo & Hsnap)).
  destruct w as [g' hp b o]. simpl in Hthis. subst g'. cbn [heap] in Hha, Hhd.
  destruct dd as [e' mi' zo' snap']. simpl in He, Hmi, Hzo, Hsnap. subst e' mi' zo'.
  assert (He : Engine_eqb e e = true) by (destruct e; reflexivity).
  unfold ComputeZ_as, ComputeZ, Fill.
  destruct Hsnap as [-> | ->]; mrun; rewrite Hd, Hhd; cbv [dEngine dSnapshot dMaxIter dZout];
    rewrite He, Hhd.
  1: (pose proof (graph_samples_spec (mkWorld g hp b o) Hok) as Hgs; cbn [this] in Hgs;
      rewrite Hgs).
  all: rewrite Hh; rewrite lookup_insert_ne by congruence; rewrite Hha.
  all: eexists; (split; [reflexivity|]);
    unfold filling; cbn [this heap];
    (split; [reflexivity|]); (split; [exact Hne|]); split;
    [ eexists; rewrite lookup_insert_eq; (split; [reflexivity|]);
      destruct h; simpl in *; subst; split; [reflexivity | first [assumption | reflexivity]]
    | eexists; rewrite lookup_insert_ne by exact Hne; rewrite lookup_insert_eq;
      (split; [reflexivity|]); simpl; repeat split; right; reflexivity ].
Qed.

Lemma Zrange_snoc (lo : Int_t) (n : nat) :
  Zrange lo (S n) = Zrange lo n ++ [lo + Z.of_nat n].
Proof. unfold Zrange. rewrite seq_S, map_app. reflexivity. Qed.

Lemma Zrange_next (j : Int_t) :
  1 <= j -> Zrange 1 (Z.to_nat (j + 1 - 1)) = Zrange 1 (Z.to_nat (j - 1)) ++ [j].
Proof.
  intros Hj. replace (Z.to_nat (j + 1 - 1)) with (S (Z.to_nat (j - 1))) by lia.
  rewrite Zrange_snoc. do 2 f_equal. lia.
Qed.

Lemma fills_of_app (e : Engine) (snap : list Sample) (mi : Int_t) (zo : Double_t)
    (l1 l2 : list (Double_t * Double_t)) :
  fills_of e snap mi zo (l1 ++ l2) = fills_of e snap mi zo l1 ++ fills_of e snap mi zo l2.
Proof. unfold fills_of. apply map_app. Qed.

Lemma fill_loops (g : TGraph2D) (a d : addr) (lim : Double_t * Double_t * Double_t * Double_t)
    (e : Engine) (mi : Int_t) (zo : Double_t)
    (F : list (Double_t * Double_t * Double_t)) (w : World) :
  points_ok g -> fHistogram g = Some a -> fDelaunay g = Some d ->
  filling g a d lim e mi zo F w ->
  let '(hxmin, hxmax, hymin, hymax) := lim in
  let dx := ((hxmax - hxmin) / Int2Double (fNpx g))%float in
  let dy := ((hymax - hymin) / Int2Double (fNpy g))%float in
  exists w',
    for_range 1 (fNpx g + 1) (fun ix =>
      let x := cell_centre hxmin dx ix in
      for_range 1 (fNpy g + 1) (fun iy =>
        let y := cell_centre hymin dy iy in
        z <- ComputeZ_as e x y ;; Fill x y z)) w = Some (tt, w') /\
    filling g a d lim e mi zo
      (F ++ fills_of e (samples_of g) mi zo (cells lim (fNpx g) (fNpy g))) w'.
Proof.
  intros Hok Hh Hd Hfill. destruct lim as [[[hxmin hxmax] hymin] hymax]. intros dx dy.
  unfold for_range.
  match goal with |- context [for_count ?n ?i ?body w] =>
    destruct (for_count_inv
      (fun ix v => filling g a d (hxmin, hxmax, hymin, hymax) e mi zo
         (F ++ fills_of e (samples_of g) mi zo
            (flat_map (column (hxmin, hxmax, hymin, hymax) (fNpx g) (fNpy g))
                      (Zrange 1 (Z.to_nat (ix - 1))))) v) body n i w)
      as (w' & Hrun & Hinv)
  end.
  - simpl. rewrite app_nil_r. exact Hfill.
  - intros ix v Hix Hv. cbv beta.
    match goal with |- context [for_count ?n ?i ?body v] =>
      destruct (for_count_inv
        (fun iy u => filling g a d (hxmin, hxmax, hymin, hymax) e mi zo
           ((F ++ fills_of e (samples_of g) mi zo
              (flat_map (column (hxmin, hxmax, hymin, hymax) (fNpx g) (fNpy g))
                        (Zrange 1 (Z.to_nat (ix - 1))))) ++
            fills_of e (samples_of g) mi zo
              (map (fun iy => (cell_centre hxmin dx ix, cell_centre hymin dy iy))
                   (Zrange 1 (Z.to_nat (iy - 1))))) u) body n i v)
        as (v' & Hrun' & Hinv')
    end.
    + simpl. rewrite app_nil_r. exact Hv.
    + intros iy u Hiy Hu.
      destruct (fill_cell g a d _ e mi zo _ (cell_centre hxmin dx ix)
                  (cell_centre hymin dy iy) u Hok Hh Hd Hu) as (u' & Hrun'' & Hinv'').
      exists u'. split; [exact Hrun''|].
      rewrite Zrange_next by lia. rewrite map_app, fills_of_app, app_assoc. exact Hinv''.
    + exists v'. split; [exact Hrun'|].
      rewrite Zrange_next by lia. rewrite flat_map_app, fills_of_app, app_assoc.
      simpl flat_map. rewrite app_nil_r.
      replace (Z.to_nat (1 + Z.of_nat (Z.to_nat (fNpy g + 1 - 1)) - 1))
        with (Z.to_nat (fNpy g)) in Hinv' by lia.
      exact Hinv'.
  - exists w'. split; [exact Hrun|].
    replace (Z.to_nat (1 + Z.of_nat (Z.to_nat (fNpx g + 1 - 1)) - 1))
      with (Z.to_nat (fNpx g)) in Hinv by lia.
    exact Hinv.
Qed.

Lemma hist_update_filling (g : TGraph2D) (a d : addr) lim (e : Engine) (mi : Int_t)
    (zo : Double_t) (F : list (Double_t * Double_t * Double_t))
    (f : TH2D -> TH2D) (w : World) :
  (forall h, hFills (f h) = hFills h /\
             (hXmin (f h), hXmax (f h), hYmin (f h), hYmax (f h)) =
             (hXmin h, hXmax h, hYmin h, hYmax h)) ->
  filling g a d lim e mi zo F w ->
  exists w', hist_update a f w = Some (tt, w') /\ filling g a d lim e mi zo F w'.
Proof.
  intros Hf (Hthis & Hne & (h & Hha & HF & Hlim) & (dd & Hhd & Hrest)).
  destruct w as [g' hp b o]. simpl in Hthis. subst g'. cbn [heap] in Hha, Hhd.
  unfold hist_update. mrun. rewrite Hha. eexists. split; [reflexivity|].
  unfold filling. cbn [this heap]. split; [reflexivity|]. split; [exact Hne|]. split.
  - exists (f h). rewrite lookup_insert_eq. split; [reflexivity|].
    destruct (Hf h) as [-> ->]. split; assumption.
  - exists dd. rewrite lookup_insert_ne by exact Hne. split; assumption.
Qed.

Lemma set_extremum_keeps (v : Double_t) :
  (forall h, hFills (set_hMinimum v h) = hFills h /\
             (hXmin (set_hMinimum v h), hXmax (set_hMinimum v h),
              hYmin (set_hMinimum v h), hYmax (set_hMinimum v h)) =
             (hXmin h, hXmax h, hYmin h, hYmax h)) /\
  (forall h, hFills (set_hMaximum v h) = hFills h /\
             (hXmin (set_hMaximum v h), hXmax (set_hMaximum v h),
              hYmin (set_hMaximum v h), hYmax (set_hMaximum v h)) =
             (hXmin h, hXmax h, hYmin h, hYmax h)).
Proof. split; intros h; destruct h; split; reflexivity. Qed.

Lemma with_histogram_filling {A} (g : TGraph2D) (a d : addr) lim (e : Engine) (mi : Int_t)
    (zo : Double_t) (F : list (Double_t * Double_t * Double_t))
    (k : addr -> M A) (w : World) :
  fHistogram g = Some a -> filling g a d lim e mi zo F w ->
  with_histogram k w = k a w.
Proof.
  intros Hh (Hthis & _). unfold with_histogram, bind, self. rewrite Hthis, Hh. reflexivity.
Qed.

Lemma hist_at_filling (g : TGraph2D) (a d : addr) lim (e : Engine) (mi : Int_t)
    (zo : Double_t) (F : list (Double_t * Double_t * Double_t)) (w : World) :
  filling g a d lim e mi zo F w -> exists h, hist_at a w = Some (h, w).
Proof.
  intros (_ & _ & (h & Hha & _) & _). exists h. unfold hist_at. rewrite Hha. reflexivity.
Qed.

Lemma getters_ok (w : World) :
  points_ok (this w) -> 1 <= fNpoints (this w) ->
  exists lx ly lz xmin xmax ymin ymax zmin zmax,
    fX (this w) = Some lx /\ fY (this w) = Some ly /\ fZ (this w) = Some lz /\
    extremum_of smaller lx (fNpoints (this w)) = Some xmin /\
    extremum_of greater lx (fNpoints (this w)) = Some xmax /\
    extremum_of smaller ly (fNpoints (this w)) = Some ymin /\
    extremum_of greater ly (fNpoints (this w)) = Some ymax /\
    GetXminE w = Some (xmin, w) /\ GetXmaxE w = Some (xmax, w) /\
    GetYminE w = Some (ymin, w) /\ GetYmaxE w = Some (ymax, w) /\
    GetZminE w = Some (zmin, w) /\ GetZmaxE w = Some (zmax, w).
Proof.
  intros Hok Hn.
  destruct (points_ok_arrays _ Hok) as (lx & ly & lz & Hx & Hy & Hz & Hlx & Hly & Hlz); [lia|].
  destruct (extremum_spec smaller lx (fNpoints (this w)) w) as (xmin & Exmin & Hxmin); [lia|].
  destruct (extremum_spec greater lx (fNpoints (this w)) w) as (xmax & Exmax & Hxmax); [lia|].
  destruct (extremum_spec smaller ly (fNpoints (this w)) w) as (ymin & Eymin & Hymin); [lia|].
  destruct (extremum_spec greater ly (fNpoints (this w)) w) as (ymax & Eymax & Hymax); [lia|].
  destruct (extremum_spec smaller lz (fNpoints (this w)) w) as (zmin & Ezmin & Hzmin); [lia|].
  destruct (extremum_spec greater lz (fNpoints (this w)) w) as (zmax & Ezmax & Hzmax); [lia|].
  exists lx, ly, lz, xmin, xmax, ymin, ymax, zmin, zmax.
  unfold GetXminE, GetXmaxE, GetYminE, GetYmaxE, GetZminE, GetZmaxE,
         GetXmin, GetXmax, GetYmin, GetYmax, GetZmin, GetZmax, bind, self.
  rewrite Hx, Hy, Hz. repeat split; assumption.
Qed.

Lemma GetHistogram_fill_spec (g : TGraph2D) (a d : addr)
    (lim : Double_t * Double_t * Double_t * Double_t) (oldInterp : bool)
    (mi : Int_t) (zo : Double_t) (F : list (Double_t * Double_t * Double_t)) (w : World) :
  1 <= fNpoints g -> points_ok g -> fHistogram g = Some a -> fDelaunay g = Some d ->
  filling g a d lim (engine_for oldInterp) mi zo F w ->
  exists w', GetHistogram_fill oldInterp lim w = Some (Some a, w') /\
    filling g a d lim (engine_for oldInterp) mi zo
      (F ++ fills_of (engine_for oldInterp) (samples_of g) mi zo
              (cells lim (fNpx g) (fNpy g))) w'.
Proof.
  intros Hn Hok Hh Hd Hfill.
  pose proof (fill_loops g a d lim (engine_for oldInterp) mi zo F w Hok Hh Hd Hfill) as Hloops.
  unfold GetHistogram_fill. destruct lim as [[[hxmin hxmax] hymin] hymax].
  destruct Hloops as (w1 & Hrun1 & Hfill1).
  assert (Hthis : this w = g) by apply Hfill.
  unfold bind at 1, self at 1. rewrite Hthis.
  unfold bind at 1. unfold engine_for in Hrun1. rewrite Hrun1.
  assert (Hthis1 : this w1 = g) by apply Hfill1.
  destruct (getters_ok w1) as (lx & ly & lz & xmin & xmax & ymin & ymax & zmin & zmax & Hg);
    [rewrite Hthis1; assumption | rewrite Hthis1; assumption |].
  destruct Hg as (_ & _ & _ & _ & _ & _ & _ & _ & _ & _ & _ & Hzmin & Hzmax).
  unfold bind at 1. rewrite Hzmin. unfold bind at 1. rewrite Hzmax.
  destruct (set_extremum_keeps zmin) as [Kmin _].
  destruct (set_extremum_keeps zmax) as [_ Kmax].
  (* the two adjustments to the extrema of the data *)
  assert (Hstep2 : exists w2,
    with_histogram (fun a0 => h <- hist_at a0 ;;
       if dlt zmin (TH1_GetMinimum h) then hist_update a0 (set_hMinimum zmin) else ret tt) w1
      = Some (tt, w2) /\
    filling g a d (hxmin, hxmax, hymin, hymax) (engine_for oldInterp) mi zo
      (F ++ fills_of (engine_for oldInterp) (samples_of g) mi zo
              (cells (hxmin, hxmax, hymin, hymax) (fNpx g) (fNpy g))) w2).
  { rewrite (with_histogram_filling _ _ _ _ _ _ _ _ _ _ Hh Hfill1).
    destruct (hist_at_filling _ _ _ _ _ _ _ _ _ Hfill1) as [h Hat].
    unfold bind. rewrite Hat.
    destruct (dlt zmin (TH1_GetMinimum h)).
    - apply hist_update_filling; assumption.
    - exists w1. split; [reflexivity | assumption]. }
  destruct Hstep2 as (w2 & Hrun2 & Hfill2).
  unfold bind at 1. rewrite Hrun2.
  assert (Hstep3 : exists w3,
    with_histogram (fun a0 => h <- hist_at a0 ;;
       if dlt (TH1_GetMaximum h) zmax then hist_update a0 (set_hMaximum zmax) else ret tt) w2
      = Some (tt, w3) /\
    filling g a d (hxmin, hxmax, hymin, hymax) (engine_for oldInterp) mi zo
      (F ++ fills_of (engine_for oldInterp) (samples_of g) mi zo
              (cells (hxmin, hxmax, hymin, hymax) (fNpx g) (fNpy g))) w3).
  { rewrite (with_histogram_filling _ _ _ _ _ _ _ _ _ _ Hh Hfill2).
    destruct (hist_at_filling _ _ _ _ _ _ _ _ _ Hfill2) as [h Hat].
    unfold bind. rewrite Hat.
    destruct (dlt (TH1_GetMaximum h) zmax).
    - apply hist_update_filling; assumption.
    - exists w2. split; [reflexivity | assumption]. }
  destruct Hstep3 as (w3 & Hrun3 & Hfill3).
  unfold bind at 1. rewrite Hrun3.
  (* the two user-set extrema *)
  assert (Hstep4 : exists w4,
    (if dne (fMinimum g) (-1111)%float
     then with_histogram (fun a0 => hist_update a0 (set_hMinimum (fMinimum g)))
     else ret tt) w3 = Some (tt, w4) /\
    filling g a d (hxmin, hxmax, hymin, hymax) (engine_for oldInterp) mi zo
      (F ++ fills_of (engine_for oldInterp) (samples_of g) mi zo
              (cells (hxmin, hxmax, hymin, hymax) (fNpx g) (fNpy g))) w4).
  { destruct (dne (fMinimum g) (-1111)%float).
    - rewrite (with_histogram_filling _ _ _ _ _ _ _ _ _ _ Hh Hfill3).
      apply hist_update_filling; [apply set_extremum_keeps | assumption].
    - exists w3. split; [reflexivity | assumption]. }
  destruct Hstep4 as (w4 & Hrun4 & Hfill4).
  unfold bind at 1. rewrite Hrun4.
  assert (Hstep5 : exists w5,
    (if dne (fMaximum g) (-1111)%float
     then with_histogram (fun a0 => hist_update a0 (set_hMaximum (fMaximum g)))
     else ret tt) w4 = Some (tt, w5) /\
    filling g a d (hxmin, hxmax, hymin, hymax) (engine_for oldInterp) mi zo
      (F ++ fills_of (engine_for oldInterp) (samples_of g) mi zo
              (cells (hxmin, hxmax, hymin, hymax) (fNpx g) (fNpy g))) w5).
  { destruct (dne (fMaximum g) (-1111)%float).
    - rewrite (with_histogram_filling _ _ _ _ _ _ _ _ _ _ Hh Hfill4).
      apply hist_update_filling; [apply set_extremum_keeps | assumption].
    - exists w4. split; [reflexivity | assumption]. }
  destruct Hstep5 as (w5 & Hrun5 & Hfill5).
  unfold bind at 1. rewrite Hrun5.
  exists w5. split; [|exact Hfill5].
  unfold bind, self, ret. replace (this w5) with g by (symmetry; apply Hfill5).
  rewrite Hh. reflexivity.
Qed.

(** ** [GetHistogram] as a whole *)

Lemma dropped_fUserHisto : forall g, fUserHisto (dropped g) = fUserHisto g.
Proof. dropped_field. Qed.
Lemma dropped_fMaxIter : forall g, fMaxIter (dropped g) = fMaxIter g.
Proof. dropped_field. Qed.

Lemma discarded_none (w : World) : fHistogram (this w) = None -> discarded w = w.
Proof.
  intros Hn. destruct w as [g hp b o]. unfold discarded, dropped, released. simpl in *.
  rewrite Hn. reflexivity.
Qed.

Lemma cached_rebuilds (w : World) (oldInterp : bool) :
  fUserHisto (this w) = false -> rebuilds oldInterp w ->
  GetHistogram_cached false oldInterp w = Some (false, discarded w).
Proof.
  intros Huser Hre. unfold rebuilds in Hre. unfold GetHistogram_cached.
  unfold bind at 1, self at 1.
  destruct (fHistogram (this w)) as [a|] eqn:Eh.
  - destruct Hre as (h & Hha & Hcase).
    assert (Hdel : delete_cached a w = Some (tt, discarded w)).
    { rewrite <- (discard_histogram_spec w).
      - unfold discard_histogram, delete_cached. unfold bind, self. cbv beta iota.
        rewrite Eh. reflexivity.
      - unfold cache_ok. rewrite Eh. eauto. }
    unfold bind at 1, hist_at at 1. rewrite Hha. cbn [negb andb]. rewrite Huser. cbn [negb].
    destruct (GetEntries h =? 0) eqn:Een.
    + unfold bind. rewrite Hdel. reflexivity.
    + destruct Hcase as [Hnil | Hkind].
      { unfold GetEntries in Een. rewrite Hnil in Een. simpl in Een. lia. }
      destruct (kOldInterpolation (this w)), oldInterp; try congruence; simpl;
        unfold bind; rewrite Hdel; reflexivity.
  - rewrite discarded_none by exact Eh. reflexivity.
Qed.

Lemma samples_of_ext (g g' : TGraph2D) :
  fNpoints g' = fNpoints g -> fX g' = fX g -> fY g' = fY g -> fZ g' = fZ g ->
  samples_of g' = samples_of g.
Proof. intros Hn Hx Hy Hz. unfold samples_of. rewrite Hn, Hx, Hy, Hz. reflexivity. Qed.

Lemma booked_filling (oldInterp : bool) (lim : Double_t * Double_t * Double_t * Double_t)
    (w : World) :
  filling (this (booked oldInterp lim w)) (brk w) (S (brk w)) lim
          (engine_for oldInterp) (if oldInterp then fMaxIter (this w) else 100000)
          (fZout (this w)) [] (booked oldInterp lim w).
Proof.
  unfold filling, booked. cbn [this heap].
  split; [reflexivity|]. split; [lia|]. split.
  - eexists. rewrite lookup_insert_eq. split; [reflexivity|].
    destruct lim as [[[a b] c] d]. split; reflexivity.
  - eexists. rewrite lookup_insert_ne by lia. rewrite lookup_insert_eq.
    split; [reflexivity|]. repeat split. left. reflexivity.
Qed.

(** C3, as the code has it.  On a well-formed graph with at least one
    sample and no user histogram, a call of [GetHistogram] without "empty"
    that has to build the histogram (none is cached, or the cached one has
    no entries, or it is of the other engine) returns a histogram whose
    axes span the bounding box of the samples, moved outwards by the margin
    and widened when the two ends are equal within a relative 1e-9, and
    whose fills are, for ix = 1..fNpx and iy = 1..fNpy in that order, the
    interpolator's value at the cell centre
    (hxmin + (ix - 0.5) dx, hymin + (iy - 0.5) dy), taken on the samples the
    graph holds. *)
Theorem GetHistogram_fills (w : World) (opt : string) :
  1 <= fNpoints (this w) -> points_ok (this w) -> fUserHisto (this w) = false ->
  Contains (ToLower opt) "empty" = false ->
  rebuilds (Contains (ToLower opt) "old") w ->
  exists xmin xmax ymin ymax a h w',
    bounding_box (this w) = Some (xmin, xmax, ymin, ymax) /\
    GetHistogram opt w = Some (Some a, w') /\
    fHistogram (this w') = Some a /\
    heap w' !! a = Some (ObjTH2D h) /\
    let lim := limits (fMargin (this w)) xmin xmax ymin ymax in
    let old := Contains (ToLower opt) "old" in
    (hXmin h, hXmax h, hYmin h, hYmax h) = lim /\
    hFills h =
      fills_of (engine_for old) (samples_of (this w))
               (if old then fMaxIter (this w) else 100000) (fZout (this w))
               (cells lim (fNpx (this w)) (fNpy (this w))).
Proof.
  intros Hn Hok Huser Hempty Hre.
  set (old := Contains (ToLower opt) "old") in *.
  pose proof (cached_rebuilds w old Huser Hre) as Hcached.
  set (wd := discarded w) in *.
  assert (Hd_n : fNpoints (this wd) = fNpoints (this w)) by apply dropped_fNpoints.
  assert (Hd_x : fX (this wd) = fX (this w)) by apply dropped_fX.
  assert (Hd_y : fY (this wd) = fY (this w)) by apply dropped_fY.
  assert (Hd_z : fZ (this wd) = fZ (this w)) by apply dropped_fZ.
  assert (Hd_h : fHistogram (this wd) = None) by apply dropped_fHistogram.
  assert (Hd_u : fUserHisto (this wd) = false).
  { unfold wd, discarded. cbn [this]. rewrite dropped_fUserHisto. exact Huser. }
  assert (Hd_m : fMargin (this wd) = fMargin (this w)) by apply dropped_fMargin.
  assert (Hd_px : fNpx (this wd) = fNpx (this w)) by apply dropped_fNpx.
  assert (Hd_py : fNpy (this wd) = fNpy (this w)) by apply dropped_fNpy.
  assert (Hd_it : fMaxIter (this wd) = fMaxIter (this w)) by apply dropped_fMaxIter.
  assert (Hd_zo : fZout (this wd) = fZout (this w)) by apply dropped_fZout.
  assert (Hd_ok : points_ok (this wd)).
  { unfold points_ok. rewrite Hd_n, Hd_x, Hd_y, Hd_z. exact Hok. }
  destruct (getters_ok wd Hd_ok) as
    (lx & ly & lz & xmin & xmax & ymin & ymax & zmin & zmax &
     Hx & Hy & Hz & Exmin & Exmax & Eymin & Eymax & Gxmin & Gxmax & Gymin & Gymax & _);
    [lia|].
  pose proof (book_fresh wd old xmin xmax ymin ymax Hd_h Hd_u Gxmax Gymax Gxmin Gymin) as Hbook.
  rewrite Hd_m in Hbook.
  set (lim := limits (fMargin (this w)) xmin xmax ymin ymax) in *.
  set (wb := booked old lim wd) in *.
  pose proof (booked_filling old lim wd) as Hfill. fold wb in Hfill.
  assert (Hb_n : fNpoints (this wb) = fNpoints (this w)).
  { rewrite <- Hd_n. unfold wb, booked. cbn [this]. destruct (this wd); reflexivity. }
  assert (Hb_x : fX (this wb) = fX (this w)).
  { rewrite <- Hd_x. unfold wb, booked. cbn [this]. destruct (this wd); reflexivity. }
  assert (Hb_y : fY (this wb) = fY (this w)).
  { rewrite <- Hd_y. unfold wb, booked. cbn [this]. destruct (this wd); reflexivity. }
  assert (Hb_z : fZ (this wb) = fZ (this w)).
  { rewrite <- Hd_z. unfold wb, booked. cbn [this]. destruct (this wd); reflexivity. }
  assert (Hb_px : fNpx (this wb) = fNpx (this w)).
  { rewrite <- Hd_px. unfold wb, booked. cbn [this]. destruct (this wd); reflexivity. }
  assert (Hb_py : fNpy (this wb) = fNpy (this w)).
  { rewrite <- Hd_py. unfold wb, booked. cbn [this]. destruct (this wd); reflexivity. }
  assert (Hb_h : fHistogram (this wb) = Some (brk wd)).
  { unfold wb, booked. cbn [this]. destruct (this wd); reflexivity. }
  assert (Hb_d : fDelaunay (this wb) = Some (S (brk wd))).
  { unfold wb, booked. cbn [this]. destruct (this wd); reflexivity. }
  assert (Hb_ok : points_ok (this wb)).
  { unfold points_ok. rewrite Hb_n, Hb_x, Hb_y, Hb_z. exact Hok. }
  destruct (GetHistogram_fill_spec (this wb) (brk wd) (S (brk wd)) lim old
              (if old then fMaxIter (this wd) else 100000) (fZout (this wd)) [] wb)
    as (w' & Hrun & Hfill'); try assumption; [lia|].
  destruct Hfill' as (Hthis' & _ & (h & Hha & HF & Hlim) & _).
  exists xmin, xmax, ymin, ymax, (brk wd), h, w'.
  split.
  { unfold bounding_box. rewrite <- Hd_x, <- Hd_y, <- Hd_n, Hx, Hy.
    rewrite Exmin, Exmax, Eymin, Eymax. reflexivity. }
  split.
  { unfold GetHistogram. unfold bind at 1, self at 1.
    destruct (fNpoints (this w) <=? 0) eqn:E0; [lia|].
    cbv zeta. rewrite Hempty. fold old. unfold bind at 1. rewrite Hcached.
    unfold bind at 1. rewrite Hbook. exact Hrun. }
  split; [rewrite Hthis'; exact Hb_h|].
  split; [exact Hha|].
  cbv zeta. split; [exact Hlim|].
  rewrite HF, app_nil_l, Hb_px, Hb_py, Hd_it, Hd_zo.
  rewrite (samples_of_ext (this w) (this wb) Hb_n Hb_x Hb_y Hb_z). reflexivity.
Qed.

(** ** Repeated interpolation *)

Lemma block_pure (a : Array) (n : Int_t) (w w' : World) (l : list Double_t) :
  block a n w = Some (l, w') -> w' = w.
Proof.
  unfold block. destruct a as [l0|].
  - destruct (n <=? Z.of_nat (length l0)); [|discriminate]. intros [= _ <-]. reflexivity.
  - destruct (n <=? 0); [|discriminate]. intros [= _ <-]. reflexivity.
Qed.

Lemma graph_samples_pure (w w' : World) (s : list Sample) :
  graph_samples w = Some (s, w') -> w' = w.
Proof.
  unfold graph_samples, bind, self.
  destruct (block (fX (this w)) (fNpoints (this w)) w) as [[xs w1]|] eqn:E1; [|discriminate].
  apply block_pure in E1. subst w1.
  destruct (block (fY (this w)) (fNpoints (this w)) w) as [[ys w2]|] eqn:E2; [|discriminate].
  apply block_pure in E2. subst w2.
  destruct (block (fZ (this w)) (fNpoints (this w)) w) as [[zs w3]|] eqn:E3; [|discriminate].
  apply block_pure in E3. subst w3.
  intros [= _ <-]. reflexivity.
Qed.

Lemma ComputeZ_settles (d : addr) (x y r : Double_t) (w w1 : World) :
  ComputeZ d x y w = Some (r, w1) ->
  this w1 = this w /\
  exists D s, heap w1 !! d = Some (ObjDelaunay D) /\ dSnapshot D = Some s /\
              r = interpolate (dEngine D) s (dMaxIter D) (dZout D) x y.
Proof.
  unfold ComputeZ. unfold bind at 1, delaunay_at at 1.
  destruct (heap w !! d) as [[h|D|p]|] eqn:Ed; try discriminate.
  unfold bind at 1.
  destruct ((match dSnapshot D with Some s => ret s | None => graph_samples end) w)
    as [[s w2]|] eqn:Es; [|discriminate].
  assert (w2 = w).
  { destruct (dSnapshot D); [injection Es as _ <-; reflexivity
                             | eapply graph_samples_pure; exact Es]. }
  subst w2. unfold bind, poke, ret. intros [= <- <-]. cbn [this heap].
  split; [reflexivity|].
  eexists. exists s. rewrite lookup_insert_eq. split; [reflexivity|].
  split; reflexivity.
Qed.

Lemma ComputeZ_again (d : addr) (D : TGraphDelaunay) (s : list Sample)
    (x y : Double_t) (w : World) :
  heap w !! d = Some (ObjDelaunay D) -> dSnapshot D = Some s ->
  ComputeZ d x y w = Some (interpolate (dEngine D) s (dMaxIter D) (dZout D) x y, w).
Proof.
  intros Hd Hs. unfold ComputeZ, bind, delaunay_at, poke, ret. rewrite Hd, Hs.
  destruct w as [g hp b o]. cbn [this heap brk out] in *.
  rewrite insert_id; [reflexivity|].
  rewrite Hd. destruct D. simpl in Hs. subst. reflexivity.
Qed.

Lemma FindObject_pure (name : string) (l : list addr) :
  forall (w w' : World) (r : option addr),
    FindObject name l w = Some (r, w') ->
    w' = w /\ forall v, heap v = heap w -> FindObject name l v = Some (r, v).
Proof.
  induction l as [|a l IH]; intros w w' r; simpl.
  - intros [= <- <-]. split; [reflexivity|]. intros v _. reflexivity.
  - unfold bind.
    destruct (heap w !! a) as [o|] eqn:Ea; [|discriminate].
    destruct (String.eqb (object_name o) name) eqn:En.
    + intros [= <- <-]. split; [reflexivity|]. intros v Hv. rewrite Hv, Ea, En. reflexivity.
    + intros Hrest. destruct (IH _ _ _ Hrest) as [-> Hagain]. split; [reflexivity|].
      intros v Hv. rewrite Hv, Ea, En. apply Hagain. exact Hv.
Qed.

Lemma settled_fix (x y r : Double_t) (w : World) :
  settled x y r w -> Interpolate x y w = Some (r, w).
Proof.
  intros (Hn & Hh & Hcase). unfold Interpolate.
  unfold bind at 1, self at 1.
  destruct (fNpoints (this w) <=? 0) eqn:E0; [lia|].
  destruct (fHistogram (this w)) as [a|] eqn:Eh; [|congruence].
  cbn [is_null]. unfold bind at 1, ret at 1. unfold bind at 1.
  destruct Hcase as [(d & D & s & Hd & Hhd & Hs & ->) | (Hd & -> & Hfind)].
  - unfold find_interpolator. unfold bind at 1, self at 1. rewrite Hd. cbn [is_null].
    unfold ret at 1. unfold bind at 1, self at 1. rewrite Hd.
    unfold bind at 1, delaunay_at at 1. rewrite Hhd.
    assert (Hm : (match dEngine D with
                  | kDelaunay => ComputeZ d x y
                  | kDelaunay2D => ComputeZ d x y
                  end) = ComputeZ d x y) by (destruct (dEngine D); reflexivity).
    rewrite Hm. apply (ComputeZ_again d D s x y w Hhd Hs).
  - rewrite Hfind. unfold bind, self. rewrite Hd. reflexivity.
Qed.

Lemma book_inv (w : World) (oldInterp : bool) lim (wb : World) :
  fHistogram (this w) = None ->
  GetHistogram_book oldInterp w = Some (lim, wb) ->
  exists lim', wb = booked oldInterp lim' w.
Proof.
  intros Hnone Hrun.
  destruct (fUserHisto (this w)) eqn:Huser.
  - exfalso. revert Hrun. unfold GetHistogram_book, with_histogram, bind, self.
    cbv beta iota. rewrite Huser. cbn [negb]. cbv beta iota. rewrite Hnone. discriminate.
  - destruct (GetXmaxE w) as [[xmax w1]|] eqn:E1.
    2: { exfalso. revert Hrun. unfold GetHistogram_book. unfold bind at 1, self at 1.
         rewrite Huser. cbn [negb]. unfold bind at 1. rewrite E1. discriminate. }
    assert (w1 = w) by (eapply getter_pure; [|exact E1]; tauto). subst w1.
    destruct (GetYmaxE w) as [[ymax w1]|] eqn:E2.
    2: { exfalso. revert Hrun. unfold GetHistogram_book. unfold bind at 1, self at 1.
         rewrite Huser. cbn [negb]. unfold bind at 1. rewrite E1.
         unfold bind at 1. rewrite E2. discriminate. }
    assert (w1 = w) by (eapply getter_pure; [|exact E2]; tauto). subst w1.
    destruct (GetXminE w) as [[xmin w1]|] eqn:E3.
    2: { exfalso. revert Hrun. unfold GetHistogram_book. unfold bind at 1, self at 1.
         rewrite Huser. cbn [negb]. unfold bind at 1. rewrite E1.
         unfold bind at 1. rewrite E2. unfold bind at 1. rewrite E3. discriminate. }
    assert (w1 = w) by (eapply getter_pure; [|exact E3]; tauto). subst w1.
    destruct (GetYminE w) as [[ymin w1]|] eqn:E4.
    2: { exfalso. revert Hrun. unfold GetHistogram_book. unfold bind at 1, self at 1.
         rewrite Huser. cbn [negb]. unfold bind at 1. rewrite E1.
         unfold bind at 1. rewrite E2. unfold bind at 1. rewrite E3.
         unfold bind at 1. rewrite E4. discriminate. }
    assert (w1 = w) by (eapply getter_pure; [|exact E4]; tauto). subst w1.
    rewrite (book_fresh w oldInterp xmin xmax ymin ymax Hnone Huser E1 E2 E3 E4) in Hrun.
    injection Hrun as _ <-. eauto.
Qed.

Lemma with_hist_update_this (f : TH2D -> TH2D) (w w' : World) :
  with_histogram (fun a => hist_update a f) w = Some (tt, w') -> this w' = this w.
Proof.
  unfold with_histogram, hist_update, hist_at, poke, bind, self.
  destruct (fHistogram (this w)) as [a|]; [|discriminate].
  destruct (heap w !! a) as [[h|d|p]|]; try discriminate.
  intros [= <-]. reflexivity.
Qed.

Lemma GetHistogram_empty_this (w w' : World) (r : option addr) :
  GetHistogram_empty w = Some (r, w') -> this w' = this w.
Proof.
  unfold GetHistogram_empty. unfold bind at 1, self at 1. unfold bind at 1.
  destruct ((if dne (fMinimum (this w)) (-1111)%float then ret (fMinimum (this w))
             else GetZminE) w) as [[hzmin w1]|] eqn:E1; [|discriminate].
  assert (w1 = w).
  { destruct (dne (fMinimum (this w)) (-1111)%float);
      [injection E1 as _ <-; reflexivity | eapply getter_pure; [|exact E1]; tauto]. }
  subst w1. unfold bind at 1.
  destruct ((if dne (fMaximum (this w)) (-1111)%float then ret (fMaximum (this w))
             else GetZmaxE) w) as [[hzmax w1]|] eqn:E2; [|discriminate].
  assert (w1 = w).
  { destruct (dne (fMaximum (this w)) (-1111)%float);
      [injection E2 as _ <-; reflexivity | eapply getter_pure; [|exact E2]; tauto]. }
  subst w1. cbv zeta. unfold bind at 1.
  match goal with |- context [with_histogram ?k w] =>
    destruct (with_histogram k w) as [[[] w2]|] eqn:E3; [|discriminate] end.
  apply with_hist_update_this in E3. unfold bind at 1.
  match goal with |- context [with_histogram ?k w2] =>
    destruct (with_histogram k w2) as [[[] w3]|] eqn:E4; [|discriminate] end.
  apply with_hist_update_this in E4.
  unfold bind, self, ret. intros [= _ <-]. congruence.
Qed.

Lemma GetHistogram_empty_option_post (w w2 : World) (r0 : option addr) :
  fHistogram (this w) = None -> 1 <= fNpoints (this w) ->
  GetHistogram "empty" w = Some (r0, w2) ->
  fNpoints (this w2) = fNpoints (this w) /\
  fHistogram (this w2) <> None /\ fDelaunay (this w2) <> None.
Proof.
  intros Hnone Hn. unfold GetHistogram. unfold bind at 1, self at 1.
  destruct (fNpoints (this w) <=? 0) eqn:E0; [lia|]. cbv zeta.
  assert (He : Contains (ToLower "empty") "empty" = true) by reflexivity.
  assert (Ho : Contains (ToLower "empty") "old" = false) by reflexivity.
  rewrite He, Ho. unfold bind at 1.
  assert (Hc : GetHistogram_cached true false w = Some (false, w)).
  { unfold GetHistogram_cached, bind, self. rewrite Hnone. reflexivity. }
  rewrite Hc. unfold bind at 1.
  destruct (GetHistogram_book false w) as [[lim wb]|] eqn:Eb; [|discriminate].
  destruct (book_inv _ _ _ _ Hnone Eb) as [lim' ->].
  intros Hrun. apply GetHistogram_empty_this in Hrun. rewrite Hrun.
  unfold booked. cbn [this]. destruct (this w). simpl. repeat split; discriminate.
Qed.

Lemma find_interpolator_post (w w2 : World) :
  find_interpolator w = Some (tt, w2) ->
  fNpoints (this w2) = fNpoints (this w) /\
  fHistogram (this w2) = fHistogram (this w) /\
  (fDelaunay (this w2) = None -> find_interpolator w2 = Some (tt, w2)).
Proof.
  unfold find_interpolator at 1. unfold bind at 1, self at 1.
  destruct (fDelaunay (this w)) as [d|] eqn:Ed; cbn [is_null].
  - intros [= <-]. repeat split. congruence.
  - unfold with_histogram. unfold bind at 1, self at 1.
    destruct (fHistogram (this w)) as [a|] eqn:Eh; [|discriminate].
    unfold bind at 1, hist_at at 1.
    destruct (heap w !! a) as [[h|dd|p]|] eqn:Ea; try discriminate.
    (* the two lookups, whatever their order *)
    assert (Hgen : forall n1 n2,
      (d <- FindObject n1 (hFunctions h) ;;
       update (set_fDelaunay d) ;;;
       (if is_null d
        then d' <- FindObject n2 (hFunctions h) ;; update (set_fDelaunay d')
        else ret tt)) w = Some (tt, w2) ->
      fNpoints (this w2) = fNpoints (this w) /\
      fHistogram (this w2) = Some a /\
      (fDelaunay (this w2) = None ->
       (d <- FindObject n1 (hFunctions h) ;;
        update (set_fDelaunay d) ;;;
        (if is_null d
         then d' <- FindObject n2 (hFunctions h) ;; update (set_fDelaunay d')
         else ret tt)) w2 = Some (tt, w2) /\
       heap w2 = heap w /\ kOldInterpolation (this w2) = kOldInterpolation (this w))).
    { intros n1 n2. unfold bind at 1.
      destruct (FindObject n1 (hFunctions h) w) as [[od w']|] eqn:E1; [|discriminate].
      destruct (FindObject_pure _ _ _ _ _ E1) as [-> Hagain1].
      unfold bind at 1, update at 1.
      destruct od as [d1|]; cbn [is_null].
      - intros [= <-]. cbn [this]. destruct w as [g hp b o]. destruct g.
        simpl in *. subst. repeat split; discriminate.
      - unfold bind at 1.
        match goal with |- context [FindObject n2 (hFunctions h) ?v] =>
          destruct (FindObject n2 (hFunctions h) v) as [[od' w'']|] eqn:E2; [|discriminate];
          destruct (FindObject_pure _ _ _ _ _ E2) as [-> Hagain2]
        end.
        unfold update. intros [= <-]. cbn [this heap].
        destruct w as [g hp b o]. destruct g. simpl in Ed, Eh, Ea. subst.
        cbn [this heap] in *. split; [reflexivity|]. split; [reflexivity|].
        simpl. intros ->. split; [|split; reflexivity].
        unfold bind at 1. rewrite Hagain1 by reflexivity.
        unfold bind at 1. cbn [is_null this heap brk out].
        unfold bind at 1. rewrite Hagain2 by reflexivity. reflexivity. }
    destruct (kOldInterpolation (this w)) eqn:Ek; cbn [negb]; intros Hrun;
      destruct (Hgen _ _ Hrun) as (Hn & Hh & Hrep);
      (split; [exact Hn|]); (split; [exact Hh|]);
      intros Hd2; destruct (Hrep Hd2) as (Hrun2 & Hheap & Hk);
      unfold find_interpolator, with_histogram;
      unfold bind at 1, self at 1; rewrite Hd2; cbn [is_null];
      unfold bind at 1, self at 1; rewrite Hh;
      unfold bind at 1, hist_at at 1; rewrite Hheap, Ea, Hk; cbn [negb];
      exact Hrun2.
Qed.

Lemma Interpolate_settles (w w1 : World) (x y r : Double_t) :
  1 <= fNpoints (this w) -> Interpolate x y w = Some (r, w1) -> settled x y r w1.
Proof.
  intros Hn. unfold Interpolate. unfold bind at 1, self at 1.
  destruct (fNpoints (this w) <=? 0) eqn:E0; [lia|]. unfold bind at 1.
  (* the histogram exists once the first step is over *)
  destruct ((if is_null (fHistogram (this w)) then GetHistogram "empty" ;;; ret tt
             else ret tt) w) as [[[] wa]|] eqn:Ea; [|discriminate].
  assert (Hwa : fNpoints (this wa) = fNpoints (this w) /\ fHistogram (this wa) <> None).
  { destruct (fHistogram (this w)) as [a|] eqn:Eh; cbn [is_null] in Ea.
    - injection Ea as <-. rewrite Eh. split; [reflexivity | discriminate].
    - unfold bind in Ea.
      destruct (GetHistogram "empty" w) as [[r0 w0]|] eqn:Eg; [|discriminate].
      injection Ea as <-.
      destruct (GetHistogram_empty_option_post _ _ _ Eh Hn Eg) as (H1 & H2 & _).
      split; assumption. }
  destruct Hwa as [Hna Hha]. unfold bind at 1.
  destruct (find_interpolator wa) as [[[] wf]|] eqn:Ef; [|discriminate].
  destruct (find_interpolator_post _ _ Ef) as (Hnf & Hhf & Hrep).
  unfold bind at 1, self at 1.
  destruct (fDelaunay (this wf)) as [d|] eqn:Ed.
  - unfold bind at 1, delaunay_at at 1.
    destruct (heap wf !! d) as [[h|D|p]|] eqn:Ehd; try discriminate.
    assert (Hm : (match dEngine D with
                  | kDelaunay => ComputeZ d x y
                  | kDelaunay2D => ComputeZ d x y
                  end) = ComputeZ d x y) by (destruct (dEngine D); reflexivity).
    rewrite Hm. intros Hc. destruct (ComputeZ_settles _ _ _ _ _ _ Hc) as (Hthis & D' & s & H1 & H2 & H3).
    unfold settled. rewrite Hthis. split; [lia|]. split; [congruence|].
    left. exists d, D', s. repeat split; assumption.
  - unfold ret. intros [= <- <-]. unfold settled. split; [lia|]. split; [congruence|].
    right. repeat split; [exact Ed | apply Hrep; reflexivity].
Qed.

(** C4. On a graph with at least one sample, when [Interpolate(x, y)] has
    returned a value, a second call with the same arguments returns the same
    value and leaves everything as the first call left it: the same
    histogram and interpolator objects, nothing allocated and nothing
    rebuilt. *)
Theorem Interpolate_idempotent (w w1 : World) (x y r : Double_t) :
  1 <= fNpoints (this w) ->
  Interpolate x y w = Some (r, w1) ->
  Interpolate x y w1 = Some (r, w1) /\ fHistogram (this w1) <> None.
Proof.
  intros Hn Hrun. pose proof (Interpolate_settles w w1 x y r Hn Hrun) as Hs.
  split; [apply settled_fix; exact Hs | apply Hs].
Qed.

(** ** Mutations and the cache *)

Lemma store_pure (a : Array) (i : Int_t) (v : Double_t) (w w' : World) (a' : Array) :
  store a i v w = Some (a', w') -> w' = w.
Proof.
  unfold store. destruct a as [l|]; [|discriminate].
  destruct ((0 <=? i) && (i <? Z.of_nat (length l))); [|discriminate].
  intros [= _ <-]. reflexivity.
Qed.

Lemma regrow_pure (a : Array) (s n : Int_t) (w w' : World) (a' : Array) :
  regrow a s n w = Some (a', w') -> w' = w.
Proof.
  unfold regrow. destruct a as [l|].
  - destruct (s =? 0); [intros [= _ <-]; reflexivity|].
    destruct ((0 <? s) && (s <=? Z.of_nat (length l)) && (s <=? n)); [|discriminate].
    intros [= _ <-]. reflexivity.
  - intros [= _ <-]. reflexivity.
Qed.

Lemma bind_inv {A B} (m : M A) (k : A -> M B) (w : World) (r : B * World) :
  bind m k w = Some r -> exists a w1, m w = Some (a, w1) /\ k a w1 = Some r.
Proof.
  unfold bind. destruct (m w) as [[a w1]|]; [|discriminate]. eauto.
Qed.

Ltac bind_inv H a w1 Hm :=
  apply bind_inv in H; destruct H as (a & w1 & Hm & H).

(** C2, the part the code does not keep.  [SetPoint], whenever it returns,
    leaves [fHistogram], [fDelaunay] and the heap exactly as they were: a
    cached histogram and its interpolator, with the triangulation it has
    memoized, survive the addition or change of a point. *)
Theorem SetPoint_keeps_cache (w w' : World) (n : Int_t) (x y z : Double_t) :
  SetPoint n x y z w = Some (tt, w') ->
  fHistogram (this w') = fHistogram (this w) /\
  fDelaunay (this w') = fDelaunay (this w) /\
  heap w' = heap w.
Proof.
  intros Hrun.
  assert (Hcache : cache_of w' = cache_of w).
  { unfold SetPoint in Hrun. destruct (n <? 0); [injection Hrun as <-; reflexivity|].
    bind_inv Hrun g w0 Hself. injection Hself as <- <-.
    bind_inv Hrun u w1 Hgrow.
    assert (H1 : cache_of w1 = cache_of w).
    { destruct (is_null (fX (this w)) || is_null (fY (this w)) || is_null (fZ (this w))
                || (fSize (this w) <=? n)); [|injection Hgrow as _ <-; reflexivity].
      destruct ((kMaxInt <? 2 * fSize (this w)) || (2 * fSize (this w) <? - kMaxInt - 1)
                || (kMaxInt <? n + 1)); [discriminate|].
      cbv zeta in Hgrow.
      bind_inv Hgrow savex v1 E1. apply regrow_pure in E1. subst v1.
      bind_inv Hgrow savey v2 E2. apply regrow_pure in E2. subst v2.
      bind_inv Hgrow savez v3 E3. apply regrow_pure in E3. subst v3.
      unfold bind, update in Hgrow. injection Hgrow as _ <-.
      unfold cache_of. cbn [this heap]. destruct (this w); reflexivity. }
    rewrite <- H1. clear H1 Hgrow.
    bind_inv Hrun g1 v Hs. injection Hs as <- <-.
    bind_inv Hrun ax v Hst. apply store_pure in Hst. subst v.
    bind_inv Hrun ux v Hu. unfold update in Hu. injection Hu as <- <-.
    bind_inv Hrun g2 v Hs. injection Hs as <- <-.
    bind_inv Hrun ay v Hst. apply store_pure in Hst. subst v.
    bind_inv Hrun uy v Hu. unfold update in Hu. injection Hu as <- <-.
    bind_inv Hrun g3 v Hs. injection Hs as <- <-.
    bind_inv Hrun az v Hst. apply store_pure in Hst. subst v.
    bind_inv Hrun uz v Hu. unfold update in Hu. injection Hu as <- <-.
    unfold update in Hrun. injection Hrun as <-.
    unfold cache_of. cbn [this heap]. destruct (this w1); reflexivity. }
  unfold cache_of in Hcache. injection Hcache as -> -> ->. repeat split.
Qed.

(** The sibling mutators do drop the cache: on a well-formed graph
    [SetMargin], [SetMarginBinsContent] and a successful [RemovePoint] all
    end with both cache pointers null and the old histogram deleted. *)
Lemma siblings_discard_cache (w : World) :
  cache_ok w ->
  (forall m, exists w', SetMargin m w = Some (tt, w') /\
     fHistogram (this w') = None /\ fDelaunay (this w') = None) /\
  (forall z, exists w', SetMarginBinsContent z w = Some (tt, w') /\
     fZout (this w') = z /\
     fHistogram (this w') = None /\ fDelaunay (this w') = None) /\
  (forall ip, 0 <= ip < fNpoints (this w) -> points_ok (this w) ->
     exists w', RemovePoint ip w = Some (ip, w') /\
     fHistogram (this w') = None /\ fDelaunay (this w') = None).
Proof.
  intros Hc. split; [|split].
  - intros m. destruct w as [g hp b o]. unfold SetMargin.
    destruct (dlt m 0 || dlt 1 m); run; drop_cache (mkWorld g hp b o);
      (split; [apply dropped_fHistogram
              | apply dropped_fDelaunay; exact (cache_ok_fDelaunay _ Hc)]).
  - intros z. destruct w as [g hp b o]. unfold SetMarginBinsContent. run.
    drop_cache (mkWorld g hp b o). rewrite dropped_fZout. split; [reflexivity|].
    split; [apply dropped_fHistogram
           | apply dropped_fDelaunay; exact (cache_ok_fDelaunay _ Hc)].
  - intros ip Hip Hok. exists (removed ip w).
    split; [apply RemovePoint_removed; assumption|].
    destruct (removed_ok w ip Hip Hok Hc) as [_ Hc'].
    destruct (points_ok_arrays _ Hok) as (lx & ly & lz & Hx & Hy & Hz & _); [lia|].
    destruct (removed_fields w ip lx ly lz Hx Hy Hz) as (_ & _ & _ & _ & Hh & _).
    split; [exact Hh|]. apply (cache_ok_fDelaunay _ Hc' Hh).
Qed.
(** ** Storage and [SetPoint] *)

Lemma storage_points_ok (g : TGraph2D) : storage_ok g -> points_ok g.
Proof.
  unfold storage_ok, points_ok.
  destruct (fX g), (fY g), (fZ g); try contradiction; lia.
Qed.

Ltac open_graph g :=
  destruct g as [np npx npy mi sz ax ay az mn mx mg zo hh dd pp uh ko].

(** Settling the integer comparisons of the goal that the context decides. *)
Ltac cmp_lia :=
  repeat match goal with
  | |- context [?a <? ?b] =>
      first [ replace (a <? b) with false by (symmetry; apply Z.ltb_ge; lia)
            | replace (a <? b) with true by (symmetry; apply Z.ltb_lt; lia) ]
  | |- context [?a <=? ?b] =>
      first [ replace (a <=? b) with false by (symmetry; apply Z.leb_gt; lia)
            | replace (a <=? b) with true by (symmetry; apply Z.leb_le; lia) ]
  | |- context [?a =? ?b] =>
      first [ replace (a =? b) with false by (symmetry; apply Z.eqb_neq; lia)
            | replace (a =? b) with true by (symmetry; apply Z.eqb_eq; lia) ]
  end.

Lemma regrow_extended (a : Array) (size newN : Int_t) (w : World) :
  match a with
  | Some l => 0 < size /\ Z.of_nat (length l) = size
  | None => True
  end ->
  size <= newN ->
  regrow a size newN w = Some (Some (extended a newN), w).
Proof.
  intros Ha Hle. unfold regrow, extended, new_array. destruct a as [l|]; [|reflexivity].
  destruct Ha as [Hpos Hlen].
  destruct (size =? 0) eqn:E0; [lia|].
  destruct (0 <? size) eqn:E1; [|lia].
  destruct (size <=? Z.of_nat (length l)) eqn:E2; [|lia].
  destruct (size <=? newN) eqn:E3; [|lia]. simpl.
  rewrite take_ge by lia. rewrite Hlen. reflexivity.
Qed.

Lemma extended_fits (l : list Double_t) (cap : Int_t) :
  cap = Z.of_nat (length l) -> extended (Some l) cap = l.
Proof.
  intros ->. unfold extended. rewrite Z.sub_diag. simpl. apply app_nil_r.
Qed.

Lemma extended_length (a : Array) (cap : Int_t) :
  match a with Some l => Z.of_nat (length l) <= cap | None => 0 <= cap end ->
  Z.of_nat (length (extended a cap)) = cap.
Proof.
  unfold extended. destruct a as [l|]; intros Hc.
  - rewrite length_app, length_replicate. lia.
  - rewrite length_replicate. lia.
Qed.

Lemma SetPoint_with_point (w : World) (n : Int_t) (x y z : Double_t) :
  storage_ok (this w) -> 0 <= n < kMaxInt -> 2 * fSize (this w) <= kMaxInt ->
  SetPoint n x y z w = Some (tt, with_this (with_point n x y z (this w)) w).
Proof.
  destruct w as [g hp b o]. open_graph g.
  unfold storage_ok, with_this, with_point, capacity_after, with_arrays, kMaxInt.
  cbn [this fX fY fZ fSize fNpoints heap brk out].
  intros Hs Hn Hcap.
  unfold SetPoint, kMaxInt. cmp_lia.
  unfold bind at 1, self at 1. cbn [this fX fY fZ fSize is_null].
  destruct ax as [lx|], ay as [ly|], az as [lz|]; try contradiction; cbn [is_null orb].
  - destruct Hs as (Hpos & Hlx & Hly & Hlz & Hnp).
    destruct (Z.leb_spec sz n) as [En|En]; cmp_lia; cbn [orb].
    + eval_fields.
      do 3 (rewrite regrow_extended by (try split; lia); eval_fields).
      do 3 (rewrite store_in_bounds by (rewrite extended_length; lia); eval_fields).
      reflexivity.
    + eval_fields.
      do 3 (rewrite store_in_bounds by lia; eval_fields).
      rewrite !extended_fits by lia. reflexivity.
  - destruct Hs as (Hsz & Hnp). subst sz. cmp_lia. cbn [orb].
    eval_fields.
    do 3 (rewrite regrow_extended by (try split; lia); eval_fields).
    do 3 (rewrite store_in_bounds by (rewrite extended_length; lia); eval_fields).
    reflexivity.
Qed.

(** Case analysis on the decisions of the goal, arithmetic closing the
    impossible cases. *)
Ltac split_decide :=
  repeat match goal with
  | |- context [@decide ?P ?d] => destruct (@decide P d); try lia; try contradiction
  end.

Lemma with_point_fields (n : Int_t) (x y z : Double_t) (g : TGraph2D) :
  let cap := capacity_after g n in
  let g' := with_point n x y z g in
  fX g' = Some (<[Z.to_nat n := x]> (extended (fX g) cap)) /\
  fY g' = Some (<[Z.to_nat n := y]> (extended (fY g) cap)) /\
  fZ g' = Some (<[Z.to_nat n := z]> (extended (fZ g) cap)) /\
  fSize g' = cap /\ fNpoints g' = Z.max (fNpoints g) (n + 1) /\
  fHistogram g' = fHistogram g /\ fDelaunay g' = fDelaunay g /\
  fPainter g' = fPainter g /\ fUserHisto g' = fUserHisto g /\
  kOldInterpolation g' = kOldInterpolation g /\
  fNpx g' = fNpx g /\ fNpy g' = fNpy g /\ fMaxIter g' = fMaxIter g /\
  fMargin g' = fMargin g /\ fZout g' = fZout g /\
  fMinimum g' = fMinimum g /\ fMaximum g' = fMaximum g.
Proof. destruct g. cbv zeta. unfold with_point, with_arrays. simpl. repeat split. Qed.

Lemma capacity_after_bounds (g : TGraph2D) (n : Int_t) :
  0 <= fSize g -> 0 <= n ->
  fSize g <= capacity_after g n /\ n < capacity_after g n /\
  (fSize g <= n -> 2 * fSize g <= capacity_after g n) /\
  (n < fSize g -> capacity_after g n = fSize g).
Proof.
  intros Hs Hn. unfold capacity_after.
  destruct (Z.leb_spec (fSize g) n); repeat split; lia.
Qed.

Lemma storage_size_nonneg (g : TGraph2D) : storage_ok g -> 0 <= fSize g.
Proof.
  unfold storage_ok. destruct (fX g), (fY g), (fZ g); try contradiction; lia.
Qed.

Lemma coord_insert (l : list Double_t) (n i : Int_t) (v : Double_t) :
  0 <= n -> 0 <= i ->
  coord (Some (<[Z.to_nat n := v]> l)) i =
    if decide (i = n) then (if decide (n < Z.of_nat (length l)) then Some v else None)
    else coord (Some l) i.
Proof.
  intros Hn Hi. unfold coord. cmp_lia.
  destruct (decide (i = n)) as [->|Hne].
  - destruct (decide (n < Z.of_nat (length l))).
    + apply list_lookup_insert_eq. lia.
    + rewrite lookup_ge_None_2; [reflexivity|]. rewrite length_insert. lia.
  - apply list_lookup_insert_ne. lia.
Qed.

Lemma coord_extended (a : Array) (cap i : Int_t) :
  0 <= i ->
  match a with Some l => Z.of_nat (length l) <= cap | None => 0 <= cap end ->
  coord (Some (extended a cap)) i =
    match a with
    | Some l => if decide (i < Z.of_nat (length l)) then coord (Some l) i
                else if decide (i < cap) then Some 0%float else None
    | None => if decide (i < cap) then Some indeterminate else None
    end.
Proof.
  intros Hi Hc. unfold coord, extended. cmp_lia. destruct a as [l|].
  - destruct (decide (i < Z.of_nat (length l))).
    + apply lookup_app_l. lia.
    + rewrite lookup_app_r by lia.
      destruct (decide (i < cap)).
      * apply lookup_replicate_2. lia.
      * apply lookup_ge_None_2. rewrite length_replicate. lia.
  - destruct (decide (i < cap)).
    + apply lookup_replicate_2. lia.
    + apply lookup_ge_None_2. rewrite length_replicate. lia.
Qed.

(** The point [n] of the graph after [SetPoint(n, x, y, z)], and the others. *)
Lemma with_point_point (g : TGraph2D) (n i : Int_t) (x y z : Double_t) :
  storage_ok g -> 0 <= n -> 0 <= i ->
  point (with_point n x y z g) i =
    if decide (i = n) then Some (mkSample x y z)
    else if decide (i < fSize g) then point g i
    else if decide (i < capacity_after g n)
         then Some (match fX g with
                    | Some _ => mkSample 0 0 0
                    | None => mkSample indeterminate indeterminate indeterminate
                    end)
         else None.
Proof.
  intros Hs Hn Hi.
  destruct (with_point_fields n x y z g) as (Hx & Hy & Hz & _). cbv zeta in *.
  pose proof (capacity_after_bounds g n (storage_size_nonneg g Hs) Hn) as (Hc1 & Hc2 & _).
  unfold point. rewrite Hx, Hy, Hz. clear Hx Hy Hz.
  unfold storage_ok in Hs.
  destruct (fX g) as [lx|] eqn:Ex, (fY g) as [ly|] eqn:Ey, (fZ g) as [lz|] eqn:Ez;
    try contradiction.
  - destruct Hs as (Hpos & Hlx & Hly & Hlz & Hnp).
    rewrite !coord_insert by lia.
    rewrite !extended_length by lia.
    destruct (decide (i = n)) as [->|Hne].
    + destruct (decide (n < capacity_after g n)); [reflexivity | lia].
    + rewrite !coord_extended by lia. rewrite Hlx, Hly, Hlz.
      destruct (decide (i < fSize g)); [reflexivity|].
      destruct (decide (i < capacity_after g n)); reflexivity.
  - destruct Hs as (Hsz & Hnp).
    rewrite !coord_insert by lia.
    rewrite !extended_length by lia.
    destruct (decide (i = n)) as [->|Hne].
    + destruct (decide (n < capacity_after g n)); [reflexivity | lia].
    + rewrite !coord_extended by lia.
      destruct (decide (i < fSize g)); [lia|].
      destruct (decide (i < capacity_after g n)); reflexivity.
Qed.

Lemma with_point_storage (g : TGraph2D) (n : Int_t) (x y z : Double_t) :
  storage_ok g -> 0 <= n -> storage_ok (with_point n x y z g).
Proof.
  intros Hs Hn.
  destruct (with_point_fields n x y z g) as (Hx & Hy & Hz & Hsz & Hnp & _). cbv zeta in *.
  pose proof (capacity_after_bounds g n (storage_size_nonneg g Hs) Hn) as (Hc1 & Hc2 & _ & Hc4).
  unfold storage_ok in *. rewrite Hx, Hy, Hz, Hsz, Hnp. rewrite !length_insert.
  destruct (fX g) as [lx|], (fY g) as [ly|], (fZ g) as [lz|]; try contradiction;
    rewrite !extended_length by lia; lia.
Qed.

(** What [GetPoint] returns for a point that exists. *)
Lemma GetPoint_point (w : World) (i : Int_t) (s : Sample)
    (xyz : Double_t * Double_t * Double_t) :
  0 <= i < fNpoints (this w) -> point (this w) i = Some s ->
  GetPoint i xyz w = Some ((i, (sx s, sy s, sz s)), w).
Proof.
  intros Hi Hp. unfold point, sample3 in Hp.
  destruct (coord (fX (this w)) i) as [x|] eqn:Ex; [|discriminate].
  destruct (coord (fY (this w)) i) as [y|] eqn:Ey; [|discriminate].
  destruct (coord (fZ (this w)) i) as [z|] eqn:Ez; [|discriminate].
  injection Hp as <-. simpl.
  unfold GetPoint. unfold bind at 1, self at 1. cmp_lia. cbn [orb].
  destruct (fX (this w)) as [lx|]; [|discriminate].
  destruct (fY (this w)) as [ly|]; [|discriminate].
  destruct (fZ (this w)) as [lz|]; [|discriminate]. cbn [is_null orb].
  unfold bind. rewrite (load_coord _ _ _ _ Ex), (load_coord _ _ _ _ Ey), (load_coord _ _ _ _ Ez).
  reflexivity.
Qed.

(** X1. A point written by [SetPoint] is read back by [GetPoint]: on a graph
    with well-formed storage and an index that does not overflow,
    [SetPoint(n, x, y, z)] returns, the number of points becomes the larger
    of the old number and [n + 1], and [GetPoint(n, ...)] then returns [n]
    with exactly (x, y, z). *)
Theorem SetPoint_GetPoint (w : World) (n : Int_t) (x y z : Double_t)
    (xyz : Double_t * Double_t * Double_t) :
  storage_ok (this w) -> 0 <= n < kMaxInt -> 2 * fSize (this w) <= kMaxInt ->
  exists w', SetPoint n x y z w = Some (tt, w') /\
    fNpoints (this w') = Z.max (fNpoints (this w)) (n + 1) /\
    GetPoint n xyz w' = Some ((n, (x, y, z)), w').
Proof.
  intros Hs Hn Hcap. eexists. split; [apply SetPoint_with_point; assumption|].
  destruct (with_point_fields n x y z (this w)) as (_ & _ & _ & _ & Hnp & _). cbv zeta in Hnp.
  split; [exact Hnp|].
  apply (GetPoint_point _ n (mkSample x y z)).
  - cbn [this with_this]. rewrite Hnp. lia.
  - cbn [this with_this]. rewrite with_point_point by (assumption || lia).
    destruct (decide (n = n)); [reflexivity | contradiction].
Qed.

(** X2. [SetPoint(n, ...)] changes no other point: every index below the
    old capacity other than [n] holds the same coordinates as before, and
    the build parameters, the stored extrema and the messages are as they
    were. *)
Theorem SetPoint_other_points (w : World) (n : Int_t) (x y z : Double_t) :
  storage_ok (this w) -> 0 <= n < kMaxInt -> 2 * fSize (this w) <= kMaxInt ->
  exists w', SetPoint n x y z w = Some (tt, w') /\
    (forall i, 0 <= i < fSize (this w) -> i <> n ->
       point (this w') i = point (this w) i) /\
    fNpx (this w') = fNpx (this w) /\ fNpy (this w') = fNpy (this w) /\
    fMargin (this w') = fMargin (this w) /\ fZout (this w') = fZout (this w) /\
    fMaxIter (this w') = fMaxIter (this w) /\
    fMinimum (this w') = fMinimum (this w) /\ fMaximum (this w') = fMaximum (this w) /\
    out w' = out w.
Proof.
  intros Hs Hn Hcap. eexists. split; [apply SetPoint_with_point; assumption|].
  destruct (with_point_fields n x y z (this w))
    as (_ & _ & _ & _ & _ & _ & _ & _ & _ & _ & Hpx & Hpy & Hmi & Hmg & Hzo & Hmn & Hmx).
  cbv zeta in *. cbn [this with_this out].
  split; [|repeat split; assumption].
  intros i Hi Hne. rewrite with_point_point by (assumption || lia).
  split_decide. reflexivity.
Qed.

(** X3. [SetPoint] keeps the storage well formed and grows it geometrically:
    the capacity stays when [n] fits, and otherwise becomes the larger of
    twice the old capacity and [n + 1]; it never shrinks. *)
Theorem SetPoint_capacity (w : World) (n : Int_t) (x y z : Double_t) :
  storage_ok (this w) -> 0 <= n < kMaxInt -> 2 * fSize (this w) <= kMaxInt ->
  exists w', SetPoint n x y z w = Some (tt, w') /\
    storage_ok (this w') /\
    fSize (this w') = (if fSize (this w) <=? n
                       then Z.max (2 * fSize (this w)) (n + 1) else fSize (this w)) /\
    fSize (this w) <= fSize (this w') /\ n < fSize (this w').
Proof.
  intros Hs Hn Hcap. eexists. split; [apply SetPoint_with_point; assumption|].
  destruct (with_point_fields n x y z (this w)) as (_ & _ & _ & Hsz & _). cbv zeta in Hsz.
  pose proof (capacity_after_bounds (this w) n (storage_size_nonneg _ Hs) (proj1 Hn))
    as (Hc1 & Hc2 & _).
  cbn [this with_this]. split; [apply with_point_storage; [assumption | lia]|].
  rewrite Hsz. split; [reflexivity|]. split; assumption.
Qed.

(** X4. The elements that [SetPoint] adds to the storage besides point [n]
    when it enlarges the blocks of a graph that has them: they are zero in
    all three coordinates. *)
Theorem SetPoint_new_elements (w : World) (n : Int_t) (x y z : Double_t) :
  storage_ok (this w) -> fX (this w) <> None ->
  0 <= n < kMaxInt -> 2 * fSize (this w) <= kMaxInt ->
  exists w', SetPoint n x y z w = Some (tt, w') /\
    forall i, fSize (this w) <= i < fSize (this w') -> i <> n ->
      point (this w') i = Some (mkSample 0 0 0).
Proof.
  intros Hs Hx Hn Hcap. eexists. split; [apply SetPoint_with_point; assumption|].
  destruct (with_point_fields n x y z (this w)) as (_ & _ & _ & Hsz & _). cbv zeta in Hsz.
  cbn [this with_this]. rewrite Hsz. intros i Hi Hne.
  pose proof (storage_size_nonneg _ Hs).
  rewrite with_point_point by (assumption || lia).
  split_decide. destruct (fX (this w)); [reflexivity | contradiction].
Qed.

(** ** [Set] and [Clear] *)

Lemma Set_result (w : World) (n : Int_t) :
  storage_ok (this w) -> n < kMaxInt -> 2 * fSize (this w) <= kMaxInt ->
  TGraph2D_Set n w =
    Some (tt, if decide (Z.max n 0 = fNpoints (this w)) then w
              else if decide (fNpoints (this w) < Z.max n 0)
                   then with_this (set_fNpoints (Z.max n 0)
                                     (with_point (Z.max n 0) 0 0 0 (this w))) w
                   else with_this (set_fNpoints (Z.max n 0) (this w)) w).
Proof.
  intros Hs Hn Hcap. unfold TGraph2D_Set. cbv zeta.
  replace (if n <? 0 then 0 else n) with (Z.max n 0) by (destruct (Z.ltb_spec n 0); lia).
  unfold bind at 1, self at 1.
  destruct (decide (Z.max n 0 = fNpoints (this w))) as [He|Hne].
  - rewrite He, Z.eqb_refl. destruct w; reflexivity.
  - cmp_lia. destruct (decide (fNpoints (this w) < Z.max n 0)) as [Hlt|Hge]; cmp_lia.
    + unfold bind at 1. rewrite SetPoint_with_point by (unfold kMaxInt in *; assumption || lia).
      reflexivity.
    + destruct w; reflexivity.
Qed.

Lemma set_fNpoints_storage (g : TGraph2D) (k : Int_t) :
  storage_ok g -> k <= fSize g -> (fX g = None -> k <= 0) ->
  storage_ok (set_fNpoints k g) /\ fSize (set_fNpoints k g) = fSize g /\
  fNpoints (set_fNpoints k g) = k /\
  forall i, point (set_fNpoints k g) i = point g i.
Proof.
  unfold storage_ok. open_graph g; cbn. intros Hs Hk Hnull. repeat split; try reflexivity.
  destruct ax, ay, az; try contradiction; try lia.
Qed.

Lemma storage_points_fit (g : TGraph2D) : storage_ok g -> fNpoints g <= fSize g.
Proof.
  unfold storage_ok. destruct (fX g), (fY g), (fZ g); try contradiction; lia.
Qed.

Lemma storage_null_empty (g : TGraph2D) : storage_ok g -> fX g = None -> fNpoints g <= 0.
Proof.
  unfold storage_ok. destruct (fX g), (fY g), (fZ g); try contradiction;
    try discriminate; lia.
Qed.

(** X5. [Set(n)] makes the number of points [n], or 0 for a negative [n].
    It keeps the storage well formed, leaves every point below both the old
    and the new number of points as it was, and touches neither the cached
    histogram nor the interpolator nor the messages. *)
Theorem Set_spec (w : World) (n : Int_t) :
  storage_ok (this w) -> n < kMaxInt -> 2 * fSize (this w) <= kMaxInt ->
  exists w', TGraph2D_Set n w = Some (tt, w') /\
    fNpoints (this w') = Z.max n 0 /\
    storage_ok (this w') /\
    (forall i, 0 <= i < fNpoints (this w) -> i < n ->
       point (this w') i = point (this w) i) /\
    fHistogram (this w') = fHistogram (this w) /\
    fDelaunay (this w') = fDelaunay (this w) /\
    heap w' = heap w /\ out w' = out w.
Proof.
  intros Hs Hn Hcap. eexists. split; [apply Set_result; assumption|].
  pose proof (storage_size_nonneg _ Hs) as Hsz.
  pose proof (storage_points_fit _ Hs) as Hfit.
  destruct (decide (Z.max n 0 = fNpoints (this w))) as [He|Hne].
  { rewrite He. repeat split; auto. }
  set (m := Z.max n 0) in *.
  destruct (decide (fNpoints (this w) < m)) as [Hlt|Hge].
  - destruct (with_point_fields m 0 0 0 (this w))
      as (Hx & Hy & Hz & Hcp & Hnp & Hh & Hd & _). cbv zeta in *.
    pose proof (with_point_storage (this w) m 0 0 0 Hs ltac:(lia)) as Hs'.
    pose proof (capacity_after_bounds (this w) m Hsz ltac:(lia)) as (Hc1 & Hc2 & _).
    destruct (set_fNpoints_storage (with_point m 0 0 0 (this w)) m Hs')
      as (Hs2 & _ & Hnp2 & Hpt2); [lia | rewrite Hx; discriminate |].
    cbn [this with_this heap out].
    split; [exact Hnp2|]. split; [exact Hs2|].
    split.
    { intros i Hi Hin. rewrite Hpt2, with_point_point by (assumption || lia).
      split_decide. reflexivity. }
    rewrite <- Hh, <- Hd.
    destruct (with_point m 0 0 0 (this w)); repeat split.
  - destruct (set_fNpoints_storage (this w) m Hs)
      as (Hs2 & _ & Hnp2 & Hpt2); [lia | intros Hnull; pose proof (storage_null_empty _ Hs Hnull); lia |].
    cbn [this with_this heap out].
    split; [exact Hnp2|]. split; [exact Hs2|].
    split; [intros i Hi Hin; apply Hpt2|].
    destruct (this w); repeat split.
Qed.

(** X6. [Set] does not erase what it cuts off.  Shrinking a graph of N
    points to [k] points and setting it back to N points gives N points
    with the coordinates they had before: the doubles beyond the new end
    stay in the blocks and come back. *)
Theorem Set_shrink_restore (w : World) (k : Int_t) :
  storage_ok (this w) -> 0 <= k <= fNpoints (this w) ->
  fNpoints (this w) < kMaxInt -> 2 * fSize (this w) <= kMaxInt ->
  exists w', (TGraph2D_Set k ;;; TGraph2D_Set (fNpoints (this w))) w = Some (tt, w') /\
    fNpoints (this w') = fNpoints (this w) /\
    forall i, 0 <= i < fNpoints (this w) -> point (this w') i = point (this w) i.
Proof.
  intros Hs Hk Hn Hcap.
  pose proof (storage_points_fit _ Hs) as Hfit.
  unfold bind. rewrite (Set_result w k Hs ltac:(lia) Hcap).
  replace (Z.max k 0) with k by lia.
  remember (fNpoints (this w)) as N eqn:HN.
  destruct (Z.eq_dec k N) as [He|Hne].
  { split_decide. rewrite (Set_result w N Hs Hn Hcap). rewrite <- HN.
    replace (Z.max N 0) with N by lia. split_decide. eauto. }
  split_decide.
  destruct (set_fNpoints_storage (this w) k Hs) as (Hs1 & Hsz1 & Hnp1 & Hpt1);
    [lia | intros Hnull; pose proof (storage_null_empty _ Hs Hnull); lia |].
  rewrite Set_result; cbn [this with_this]; [|assumption|assumption|rewrite Hsz1; assumption].
  rewrite Hnp1. replace (Z.max N 0) with N by lia. split_decide.
  eexists. split; [reflexivity|]. cbn [this with_this].
  split.
  - destruct (with_point N 0 0 0 (set_fNpoints k (this w))); reflexivity.
  - intros i Hi.
    transitivity (point (with_point N 0 0 0 (set_fNpoints k (this w))) i).
    { destruct (with_point N 0 0 0 (set_fNpoints k (this w))); reflexivity. }
    rewrite with_point_point by (assumption || lia). rewrite Hsz1.
    split_decide. apply Hpt1.
Qed.

(** X7. What [Set(n)] puts into the points it adds, on a graph that has its
    blocks and fewer than [n] points: a new point at or beyond the old
    capacity is (0, 0, 0), while a new point below the old capacity shows
    the doubles that were left in the blocks. *)
Theorem Set_new_points (w : World) (n : Int_t) :
  storage_ok (this w) -> fX (this w) <> None ->
  fNpoints (this w) < n < kMaxInt -> 2 * fSize (this w) <= kMaxInt ->
  exists w', TGraph2D_Set n w = Some (tt, w') /\
    (forall i, fSize (this w) <= i < n -> point (this w') i = Some (mkSample 0 0 0)) /\
    (forall i, 0 <= i < fSize (this w) -> i < n -> point (this w') i = point (this w) i).
Proof.
  intros Hs Hx Hn Hcap. eexists. split; [apply Set_result; assumption || lia|].
  pose proof (storage_size_nonneg _ Hs) as Hsz.
  destruct (decide (Z.max n 0 = fNpoints (this w))); [lia|].
  destruct (decide (fNpoints (this w) < Z.max n 0)); [|lia].
  cbn [this with_this].
  assert (Hpt : forall i, point (set_fNpoints (Z.max n 0)
                                   (with_point (Z.max n 0) 0 0 0 (this w))) i =
                          point (with_point (Z.max n 0) 0 0 0 (this w)) i).
  { intros i. destruct (with_point (Z.max n 0) 0 0 0 (this w)); reflexivity. }
  pose proof (capacity_after_bounds (this w) (Z.max n 0) Hsz ltac:(lia)) as (Hc1 & Hc2 & _).
  split; intros i Hi.
  - rewrite Hpt, with_point_point by (assumption || lia).
    split_decide. destruct (fX (this w)); [reflexivity | congruence].
  - intros Hin. rewrite Hpt, with_point_point by (assumption || lia).
    split_decide. reflexivity.
Qed.

Lemma cleared_fields (g : TGraph2D) :
  fX (cleared g) = None /\ fY (cleared g) = None /\ fZ (cleared g) = None /\
  fNpoints (cleared g) = 0 /\ fSize (cleared g) = 0 /\
  fHistogram (cleared g) = fHistogram g /\ fDelaunay (cleared g) = fDelaunay g /\
  fUserHisto (cleared g) = fUserHisto g /\ fPainter (cleared g) = fPainter g.
Proof. destruct g. repeat split. Qed.

Lemma Clear_result (w : World) :
  cache_ok w ->
  Clear w =
    Some (tt, if fUserHisto (this w) then with_this (cleared (this w)) w
              else discarded (with_this (cleared (this w)) w)).
Proof.
  intros Hc. destruct w as [g hp b o]. unfold cache_ok in Hc. cbn [this heap] in Hc.
  unfold Clear, with_this, cleared. cbn [this heap brk out].
  open_graph g. cbn [fHistogram fDelaunay fUserHisto] in *. eval_fields.
  destruct uh.
  - destruct hh; reflexivity.
  - destruct hh as [a|]; [|reflexivity]. cbn [negb].
    destruct Hc as [h Hh].
    unfold discarded, dropped, released. cbn [this heap brk out fHistogram].
    rewrite Hh. unfold delete_cached, delete_hist. eval_fields. rewrite Hh.
    rewrite free_all_spec. cbv beta iota. cbn [this heap brk out].
    rewrite free_all_spec. reflexivity.
Qed.

Lemma dropped_fSize : forall g, fSize (dropped g) = fSize g.
Proof. dropped_field. Qed.

(** On a graph without points [GetPoint] has no valid index. *)
Lemma GetPoint_none (w : World) (i : Int_t) (xyz : Double_t * Double_t * Double_t) :
  fNpoints (this w) <= 0 -> GetPoint i xyz w = Some ((-1, xyz), w).
Proof.
  intros Hn. unfold GetPoint. unfold bind at 1, self at 1.
  destruct (Z.ltb_spec i 0); [reflexivity|]. cmp_lia. reflexivity.
Qed.

(** [Clear] changes nothing on a graph that is already clear. *)
Lemma Clear_fixed (w : World) :
  fX (this w) = None -> fY (this w) = None -> fZ (this w) = None ->
  fNpoints (this w) = 0 -> fSize (this w) = 0 ->
  fHistogram (this w) = None \/ fUserHisto (this w) = true ->
  Clear w = Some (tt, w).
Proof.
  destruct w as [g hp b o]. open_graph g. cbn. intros -> -> -> -> -> Hh.
  unfold Clear. eval_fields. destruct Hh as [-> | ->]; [reflexivity|].
  destruct hh; reflexivity.
Qed.

(** X8. [Clear] leaves a graph without points and without storage: the
    three blocks are released, the number of points and the capacity are 0,
    [GetPoint] answers -1 for every index, and a second [Clear] changes
    nothing. *)
Theorem Clear_empties (w : World) :
  cache_ok w ->
  exists w', Clear w = Some (tt, w') /\
    fNpoints (this w') = 0 /\ fSize (this w') = 0 /\
    fX (this w') = None /\ fY (this w') = None /\ fZ (this w') = None /\
    storage_ok (this w') /\
    (forall i xyz, GetPoint i xyz w' = Some ((-1, xyz), w')) /\
    Clear w' = Some (tt, w').
Proof.
  intros Hc. eexists. split; [apply Clear_result; exact Hc|].
  destruct (cleared_fields (this w)) as (Hx & Hy & Hz & Hnp & Hsz & Hh & Hd & Hu & _).
  set (w' := if fUserHisto (this w) then with_this (cleared (this w)) w
             else discarded (with_this (cleared (this w)) w)).
  assert (Hf : fX (this w') = None /\ fY (this w') = None /\ fZ (this w') = None /\
               fNpoints (this w') = 0 /\ fSize (this w') = 0 /\
               (fHistogram (this w') = None \/ fUserHisto (this w') = true)).
  { unfold w'. destruct (fUserHisto (this w)) eqn:Eu.
    - cbn [this with_this]. rewrite Hu. auto 10.
    - unfold discarded. cbn [this with_this].
      rewrite dropped_fX, dropped_fY, dropped_fZ, dropped_fNpoints, dropped_fSize,
              dropped_fHistogram. auto 10. }
  destruct Hf as (Hx' & Hy' & Hz' & Hnp' & Hsz' & Hh').
  repeat (split; [assumption|]).
  split.
  { unfold storage_ok. rewrite Hx', Hy', Hz'. lia. }
  split.
  { intros i xyz. apply GetPoint_none. lia. }
  apply Clear_fixed; assumption.
Qed.

(** X9. [Clear] and the cache pointers.  A histogram that the graph owns
    is deleted and both [fHistogram] and [fDelaunay] become null; when the
    histogram is the user's, the graph keeps both pointers as they are.
    The ownership flag itself is never changed. *)
Theorem Clear_cache (w : World) :
  cache_ok w ->
  exists w', Clear w = Some (tt, w') /\
    fUserHisto (this w') = fUserHisto (this w) /\
    (fUserHisto (this w) = false ->
       fHistogram (this w') = None /\ fDelaunay (this w') = None /\
       forall a, fHistogram (this w) = Some a -> heap w' !! a = None) /\
    (fUserHisto (this w) = true ->
       fHistogram (this w') = fHistogram (this w) /\
       fDelaunay (this w') = fDelaunay (this w)).
Proof.
  intros Hc. eexists. split; [apply Clear_result; exact Hc|].
  destruct (cleared_fields (this w)) as (_ & _ & _ & _ & _ & Hh & Hd & _).
  split.
  { destruct (fUserHisto (this w)) eqn:Hu; cbn [this with_this];
      [|unfold discarded; cbn [this]; rewrite dropped_fUserHisto];
      destruct (this w); cbn in *; congruence. }
  split; intros Hu; rewrite Hu.
  - unfold discarded. cbn [this with_this heap].
    split; [apply dropped_fHistogram|].
    split.
    { apply dropped_fDelaunay. rewrite Hh, Hd. apply cache_ok_fDelaunay. exact Hc. }
    intros a Ha. unfold cache_ok in Hc. rewrite Ha in Hc. destruct Hc as [h Hlook].
    apply (released_gone _ _ a h); [rewrite Hh; exact Ha | exact Hlook].
  - cbn [this with_this heap]. auto.
Qed.

(** ** The constructors *)

Lemma Build_result (n : Int_t) (w : World) :
  1 <= n -> Build n w = Some (tt, with_this (fresh_graph n (this w)) w).
Proof.
  intros Hn. destruct w as [g hp b o]. open_graph g. unfold Build. cmp_lia.
  eval_fields. reflexivity.
Qed.

Lemma with_arrays_again (lx ly lz lx' ly' lz' : list Double_t) (g : TGraph2D) :
  with_arrays lx' ly' lz' (with_arrays lx ly lz g) = with_arrays lx' ly' lz' g.
Proof. destruct g; reflexivity. Qed.

Lemma with_arrays_fields (lx ly lz : list Double_t) (g : TGraph2D) :
  let g' := with_arrays lx ly lz g in
  fX g' = Some lx /\ fY g' = Some ly /\ fZ g' = Some lz /\
  fNpoints g' = fNpoints g /\ fSize g' = fSize g /\
  fHistogram g' = fHistogram g /\ fDelaunay g' = fDelaunay g /\
  fUserHisto g' = fUserHisto g /\ fPainter g' = fPainter g.
Proof. destruct g; repeat split. Qed.

(** One iteration of the copy loop of the array constructors. *)
Lemma copy_point_step (x y z lx ly lz : list Double_t) (g : TGraph2D) (j : Int_t)
    hp b o :
  0 <= j -> j < Z.of_nat (length x) -> j < Z.of_nat (length y) -> j < Z.of_nat (length z) ->
  j < Z.of_nat (length lx) -> j < Z.of_nat (length ly) -> j < Z.of_nat (length lz) ->
  exists vx vy vz,
    x !! Z.to_nat j = Some vx /\ y !! Z.to_nat j = Some vy /\ z !! Z.to_nat j = Some vz /\
    copy_point (Some x) (Some y) (Some z) j (mkWorld (with_arrays lx ly lz g) hp b o) =
      Some (tt, mkWorld (with_arrays (<[Z.to_nat j := vx]> lx) (<[Z.to_nat j := vy]> ly)
                                     (<[Z.to_nat j := vz]> lz) g) hp b o).
Proof.
  intros H0 Hx Hy Hz Hlx Hly Hlz.
  destruct (load_in_bounds x j (mkWorld (with_arrays lx ly lz g) hp b o)) as (vx & Ex & _); [lia|].
  destruct (load_in_bounds y j (mkWorld (with_arrays lx ly lz g) hp b o)) as (vy & Ey & _); [lia|].
  destruct (load_in_bounds z j (mkWorld (with_arrays lx ly lz g) hp b o)) as (vz & Ez & _); [lia|].
  exists vx, vy, vz. repeat (split; [assumption|]).
  open_graph g. unfold copy_point, with_arrays. eval_fields.
  unfold load. cmp_lia. rewrite Ex, Ey, Ez. eval_fields.
  do 3 (rewrite store_in_bounds by lia; eval_fields).
  reflexivity.
Qed.

(** A loop over the first [n] points whose iteration [j] reads the graph
    and writes point [j] only: afterwards point [j] holds what iteration
    [j] wrote, for every [j < n], and the rest of the blocks is as before.
    The values written may depend on the blocks as they were before the
    loop, since iteration [j] still finds the elements from [j] on
    untouched. *)
Lemma point_loop (body : Int_t -> M unit) (vx vy vz : nat -> Double_t)
    (g : TGraph2D) hp b o (lx ly lz : list Double_t) (n : nat) :
  (forall (j : nat) lx' ly' lz',
     (j < n)%nat ->
     length lx' = length lx -> length ly' = length ly -> length lz' = length lz ->
     (forall i, (j <= i)%nat -> lx' !! i = lx !! i /\ ly' !! i = ly !! i /\ lz' !! i = lz !! i) ->
     body (Z.of_nat j) (mkWorld (with_arrays lx' ly' lz' g) hp b o) =
       Some (tt, mkWorld (with_arrays (<[j := vx j]> lx') (<[j := vy j]> ly')
                                      (<[j := vz j]> lz') g) hp b o)) ->
  (n <= length lx)%nat -> (n <= length ly)%nat -> (n <= length lz)%nat ->
  exists lx' ly' lz',
    for_count n 0 body (mkWorld (with_arrays lx ly lz g) hp b o) =
      Some (tt, mkWorld (with_arrays lx' ly' lz' g) hp b o) /\
    length lx' = length lx /\ length ly' = length ly /\ length lz' = length lz /\
    (forall i, (i < n)%nat ->
       lx' !! i = Some (vx i) /\ ly' !! i = Some (vy i) /\ lz' !! i = Some (vz i)) /\
    (forall i, (n <= i)%nat ->
       lx' !! i = lx !! i /\ ly' !! i = ly !! i /\ lz' !! i = lz !! i).
Proof.
  intros Hstep Hnx Hny Hnz.
  destruct (for_count_inv
    (fun j v => exists lx' ly' lz',
       v = mkWorld (with_arrays lx' ly' lz' g) hp b o /\
       length lx' = length lx /\ length ly' = length ly /\ length lz' = length lz /\
       (forall i, (Z.of_nat i < j) ->
          lx' !! i = Some (vx i) /\ ly' !! i = Some (vy i) /\ lz' !! i = Some (vz i)) /\
       (forall i, (j <= Z.of_nat i) ->
          lx' !! i = lx !! i /\ ly' !! i = ly !! i /\ lz' !! i = lz !! i))
    body n 0 (mkWorld (with_arrays lx ly lz g) hp b o)) as (w' & Hrun & Hpost).
  - exists lx, ly, lz. repeat split; try reflexivity; lia.
  - intros j v Hj (lx' & ly' & lz' & -> & Hlx & Hly & Hlz & Hdone & Hrest).
    eexists. split.
    + replace j with (Z.of_nat (Z.to_nat j)) at 1 by lia.
      apply Hstep; try assumption; [lia|]. intros i Hi. apply Hrest. lia.
    + exists (<[Z.to_nat j := vx (Z.to_nat j)]> lx'), (<[Z.to_nat j := vy (Z.to_nat j)]> ly'),
             (<[Z.to_nat j := vz (Z.to_nat j)]> lz').
      split; [reflexivity|]. rewrite !length_insert.
      repeat (split; [assumption|]). split.
      * intros i Hi. destruct (decide (i = Z.to_nat j)) as [->|Hne].
        -- rewrite !list_lookup_insert_eq by lia. auto.
        -- rewrite !list_lookup_insert_ne by lia. apply Hdone. lia.
      * intros i Hi. rewrite !list_lookup_insert_ne by lia. apply Hrest. lia.
  - destruct Hpost as (lx' & ly' & lz' & -> & Hlx & Hly & Hlz & Hdone & Hrest).
    exists lx', ly', lz'. split; [exact Hrun|].
    repeat (split; [assumption|]). split.
    + intros i Hi. apply Hdone. lia.
    + intros i Hi. apply Hrest. lia.
Qed.

Lemma fresh_graph_arrays (n : Int_t) (g : TGraph2D) :
  fresh_graph n g =
    with_arrays (replicate (Z.to_nat n) indeterminate) (replicate (Z.to_nat n) indeterminate)
                (replicate (Z.to_nat n) indeterminate) (fresh_graph n g).
Proof. reflexivity. Qed.

Lemma fresh_graph_fields (n : Int_t) (g : TGraph2D) :
  fNpoints (fresh_graph n g) = fNpoints g /\ fSize (fresh_graph n g) = n /\
  fHistogram (fresh_graph n g) = None /\ fDelaunay (fresh_graph n g) = None /\
  fUserHisto (fresh_graph n g) = false.
Proof. repeat split. Qed.

(** The start of the constructors that take a number of points. *)
Lemma ctor_prologue (n : Int_t) (w : World) (k : M unit) :
  1 <= n ->
  (TObject_ctor ;;; update (set_fNpoints n) ;;; Build n ;;; k) w =
    k (with_this (fresh_graph n (set_fNpoints n (set_kOldInterpolation false (this w)))) w).
Proof.
  intros Hn. destruct w as [g hp b o].
  unfold bind at 1. unfold TObject_ctor, update at 1. cbn [this heap brk out].
  unfold bind at 1. unfold update at 1. cbn [this heap brk out].
  unfold bind at 1. rewrite Build_result by assumption. reflexivity.
Qed.

(** X10. The constructors from a number of points reject [n <= 0]: they
    print "Invalid number of points" and return having assigned nothing but
    the number of points itself, so every other member, the capacity, the
    three block pointers and the defaults included, is left as the raw
    storage had it. *)
Theorem constructor_invalid_size (w : World) (n : Int_t) (x y z : Array) :
  n <= 0 ->
  let w' := mkWorld (set_fNpoints n (set_kOldInterpolation false (this w))) (heap w) (brk w)
                    (out w ++ [mkMessage kError "TGraph2D" "Invalid number of points (%d)" [n]]) in
  TGraph2D_ctor_n n w = Some (tt, w') /\
  TGraph2D_ctor_arrays n x y z w = Some (tt, w').
Proof.
  intros Hn. destruct w as [g hp b o]. open_graph g. cbv zeta.
  unfold TGraph2D_ctor_n, TGraph2D_ctor_arrays, TObject_ctor, Build, for_range. cmp_lia.
  eval_fields. replace (Z.to_nat (n - 0)) with 0%nat by lia.
  split; reflexivity.
Qed.

(** X11. The constructor from three arrays copies their first [n] elements:
    for [n >= 1] it returns a graph of [n] points with capacity [n] and
    well-formed storage, point [i] is (x[i], y[i], z[i]) for every [i < n],
    and the pointers to the cached histogram and interpolator are null. *)
Theorem constructor_copies_arrays (w : World) (n : Int_t) (x y z : list Double_t) :
  1 <= n ->
  n <= Z.of_nat (length x) -> n <= Z.of_nat (length y) -> n <= Z.of_nat (length z) ->
  exists w', TGraph2D_ctor_arrays n (Some x) (Some y) (Some z) w = Some (tt, w') /\
    fNpoints (this w') = n /\ fSize (this w') = n /\ storage_ok (this w') /\
    fHistogram (this w') = None /\ fDelaunay (this w') = None /\
    (forall i, 0 <= i < n ->
       point (this w') i =
         sample3 (coord (Some x) i) (coord (Some y) i) (coord (Some z) i)).
Proof.
  intros Hn Hx Hy Hz. unfold TGraph2D_ctor_arrays. rewrite ctor_prologue by assumption.
  set (g0 := fresh_graph n (set_fNpoints n (set_kOldInterpolation false (this w)))).
  assert (Hnp0 : fNpoints g0 = n) by (unfold g0; destruct (this w); reflexivity).
  unfold bind at 1, self at 1. cbn [this with_this]. rewrite Hnp0.
  unfold for_range, with_this. rewrite Z.sub_0_r.
  unfold g0 at 1. rewrite fresh_graph_arrays. fold g0.
  destruct (point_loop (copy_point (Some x) (Some y) (Some z))
              (fun i => match x !! i with Some v => v | None => 0%float end)
              (fun i => match y !! i with Some v => v | None => 0%float end)
              (fun i => match z !! i with Some v => v | None => 0%float end)
              g0 (heap w) (brk w) (out w)
              (replicate (Z.to_nat n) indeterminate) (replicate (Z.to_nat n) indeterminate)
              (replicate (Z.to_nat n) indeterminate) (Z.to_nat n))
    as (lx & ly & lz & Hrun & Hlx & Hly & Hlz & Hdone & _).
  { intros j lx' ly' lz' Hj Hlx Hly Hlz _. rewrite length_replicate in Hlx, Hly, Hlz.
    destruct (copy_point_step x y z lx' ly' lz' g0 (Z.of_nat j) (heap w) (brk w) (out w))
      as (vx & vy & vz & Ex & Ey & Ez & Hstep); try lia.
    cbv beta. rewrite Nat2Z.id in *. rewrite Ex, Ey, Ez. exact Hstep. }
  { rewrite length_replicate. lia. }
  { rewrite length_replicate. lia. }
  { rewrite length_replicate. lia. }
  rewrite length_replicate in Hlx, Hly, Hlz.
  eexists. split; [exact Hrun|]. cbn [this heap out].
  destruct (with_arrays_fields lx ly lz g0) as (Ex & Ey & Ez & Enp & Esz & Eh & Ed & _).
  cbv zeta in *.
  destruct (fresh_graph_fields n (set_fNpoints n (set_kOldInterpolation false (this w))))
    as (_ & Hsz0 & Hh0 & Hd0 & _). fold g0 in Hsz0, Hh0, Hd0.
  split; [congruence|]. split; [congruence|]. split.
  { unfold storage_ok. rewrite Ex, Ey, Ez, Enp, Esz, Hnp0, Hsz0. lia. }
  split; [congruence|]. split; [congruence|].
  intros i Hi. unfold point. rewrite Ex, Ey, Ez. unfold coord. cmp_lia.
  destruct (Hdone (Z.to_nat i)) as (Dx & Dy & Dz); [lia|]. rewrite Dx, Dy, Dz.
  destruct (lookup_lt_is_Some_2 x (Z.to_nat i)) as [vx Vx]; [lia|].
  destruct (lookup_lt_is_Some_2 y (Z.to_nat i)) as [vy Vy]; [lia|].
  destruct (lookup_lt_is_Some_2 z (Z.to_nat i)) as [vz Vz]; [lia|].
  rewrite Vx, Vy, Vz. reflexivity.
Qed.

(** X12. The constructor from a number of points gives [n] points at the
    origin: for [n >= 1] every point below [n] is (0, 0, 0), the capacity
    is [n], and the pointers to the cached histogram and interpolator are
    null. *)
Theorem constructor_zero_points (w : World) (n : Int_t) :
  1 <= n ->
  exists w', TGraph2D_ctor_n n w = Some (tt, w') /\
    fNpoints (this w') = n /\ fSize (this w') = n /\ storage_ok (this w') /\
    fHistogram (this w') = None /\ fDelaunay (this w') = None /\
    (forall i, 0 <= i < n -> point (this w') i = Some (mkSample 0 0 0)).
Proof.
  intros Hn. unfold TGraph2D_ctor_n. rewrite ctor_prologue by assumption.
  set (g0 := fresh_graph n (set_fNpoints n (set_kOldInterpolation false (this w)))).
  assert (Hnp0 : fNpoints g0 = n) by (unfold g0; destruct (this w); reflexivity).
  unfold bind at 1, self at 1. cbn [this with_this]. rewrite Hnp0.
  unfold for_range, with_this. rewrite Z.sub_0_r.
  unfold g0 at 1. rewrite fresh_graph_arrays. fold g0.
  match goal with |- context [for_count _ 0 ?body _] =>
    destruct (point_loop body (fun _ => 0%float) (fun _ => 0%float) (fun _ => 0%float)
                g0 (heap w) (brk w) (out w)
                (replicate (Z.to_nat n) indeterminate) (replicate (Z.to_nat n) indeterminate)
                (replicate (Z.to_nat n) indeterminate) (Z.to_nat n))
      as (lx & ly & lz & Hrun & Hlx & Hly & Hlz & Hdone & _)
  end.
  { intros j lx' ly' lz' Hj Hlx Hly Hlz _. rewrite length_replicate in Hlx, Hly, Hlz.
    generalize g0. intros g. open_graph g. unfold with_arrays. eval_fields.
    do 3 (rewrite store_in_bounds by lia; eval_fields).
    rewrite Nat2Z.id. reflexivity. }
  { rewrite length_replicate. lia. }
  { rewrite length_replicate. lia. }
  { rewrite length_replicate. lia. }
  rewrite length_replicate in Hlx, Hly, Hlz.
  eexists. split; [exact Hrun|]. cbn [this heap out].
  destruct (with_arrays_fields lx ly lz g0) as (Ex & Ey & Ez & Enp & Esz & Eh & Ed & _).
  cbv zeta in *.
  destruct (fresh_graph_fields n (set_fNpoints n (set_kOldInterpolation false (this w))))
    as (_ & Hsz0 & Hh0 & Hd0 & _). fold g0 in Hsz0, Hh0, Hd0.
  split; [congruence|]. split; [congruence|]. split.
  { unfold storage_ok. rewrite Ex, Ey, Ez, Enp, Esz, Hnp0, Hsz0. lia. }
  split; [congruence|]. split; [congruence|].
  intros i Hi. unfold point. rewrite Ex, Ey, Ez. unfold coord. cmp_lia.
  destruct (Hdone (Z.to_nat i)) as (Dx & Dy & Dz); [lia|]. rewrite Dx, Dy, Dz.
  reflexivity.
Qed.

(** ** Loops over the samples *)

Lemma with_arrays_id (lx ly lz : list Double_t) (g : TGraph2D) :
  fX g = Some lx -> fY g = Some ly -> fZ g = Some lz -> with_arrays lx ly lz g = g.
Proof. open_graph g. cbn. intros -> -> ->. reflexivity. Qed.

(** A loop over the points whose iteration [j] replaces sample [j] by [F]
    of it maps [F] over the samples and changes nothing else. *)
Lemma sample_loop (body : Int_t -> M unit) (F : Sample -> Sample) (w : World) :
  (forall (j : nat) lx' ly' lz' s g hp b o,
     lx' !! j = Some (sx s) -> ly' !! j = Some (sy s) -> lz' !! j = Some (sz s) ->
     body (Z.of_nat j) (mkWorld (with_arrays lx' ly' lz' g) hp b o) =
       Some (tt, mkWorld (with_arrays (<[j := sx (F s)]> lx') (<[j := sy (F s)]> ly')
                                      (<[j := sz (F s)]> lz') g) hp b o)) ->
  points_ok (this w) ->
  exists w', for_range 0 (fNpoints (this w)) body w = Some (tt, w') /\
    samples_of (this w') = map F (samples_of (this w)) /\
    points_ok (this w') /\
    fNpoints (this w') = fNpoints (this w) /\
    fHistogram (this w') = fHistogram (this w) /\
    fDelaunay (this w') = fDelaunay (this w) /\
    heap w' = heap w /\ brk w' = brk w /\ out w' = out w.
Proof.
  intros Hstep Hok. unfold for_range. rewrite Z.sub_0_r.
  destruct (Z.le_gt_cases (fNpoints (this w)) 0) as [Hn|Hn].
  { replace (Z.to_nat (fNpoints (this w))) with 0%nat by lia. exists w.
    split; [reflexivity|]. split; [|auto 10].
    unfold samples_of. destruct (fX (this w)), (fY (this w)), (fZ (this w)); try reflexivity.
    replace (Z.to_nat (fNpoints (this w))) with 0%nat by lia. reflexivity. }
  destruct (points_ok_arrays _ Hok Hn) as (lx & ly & lz & Hx & Hy & Hz & Hlx & Hly & Hlz).
  set (n := Z.to_nat (fNpoints (this w))).
  set (samp := fun i => match sample3 (lx !! i) (ly !! i) (lz !! i) with
                        | Some s => s
                        | None => mkSample 0 0 0
                        end).
  destruct w as [g hp b o]. cbn [this heap brk out] in *.
  replace (mkWorld g hp b o) with (mkWorld (with_arrays lx ly lz g) hp b o)
    by (rewrite with_arrays_id; auto).
  destruct (point_loop body (fun i => sx (F (samp i))) (fun i => sy (F (samp i)))
              (fun i => sz (F (samp i))) g hp b o lx ly lz n)
    as (lx' & ly' & lz' & Hrun & Hlx' & Hly' & Hlz' & Hdone & _); try (unfold n; lia).
  { intros j lx1 ly1 lz1 Hj H1 H2 H3 Hrest.
    destruct (Hrest j (Nat.le_refl j)) as (Rx & Ry & Rz).
    destruct (lookup_lt_is_Some_2 lx j) as [vx Vx]; [unfold n in Hj; lia|].
    destruct (lookup_lt_is_Some_2 ly j) as [vy Vy]; [unfold n in Hj; lia|].
    destruct (lookup_lt_is_Some_2 lz j) as [vz Vz]; [unfold n in Hj; lia|].
    assert (Hs : samp j = mkSample vx vy vz) by (unfold samp; rewrite Vx, Vy, Vz; reflexivity).
    rewrite Hs. apply Hstep; cbn [sx sy sz]; congruence. }
  eexists. split; [exact Hrun|]. cbn [this heap brk out].
  destruct (with_arrays_fields lx' ly' lz' g) as (Ex & Ey & Ez & Enp & _ & Eh & Ed & _).
  cbv zeta in *.
  split.
  { apply list_eq. intros i. rewrite list_lookup_fmap.
    rewrite (samples_lookup _ lx' ly' lz' i Ex Ey Ez), (samples_lookup g lx ly lz i Hx Hy Hz).
    rewrite Enp. fold n.
    destruct (decide (i < n)%nat) as [Hi|Hi]; [|reflexivity].
    destruct (Hdone i Hi) as (Dx & Dy & Dz). rewrite Dx, Dy, Dz.
    destruct (lookup_lt_is_Some_2 lx i) as [vx Vx]; [unfold n in Hi; lia|].
    destruct (lookup_lt_is_Some_2 ly i) as [vy Vy]; [unfold n in Hi; lia|].
    destruct (lookup_lt_is_Some_2 lz i) as [vz Vz]; [unfold n in Hi; lia|].
    unfold samp. rewrite Vx, Vy, Vz. simpl.
    destruct (F (mkSample vx vy vz)) as [a1 a2 a3]. reflexivity. }
  split.
  { unfold points_ok. rewrite Ex, Ey, Ez, Enp. lia. }
  auto 10.
Qed.

Ltac loop_step g :=
  open_graph g; unfold with_arrays; eval_fields;
  repeat (first [ erewrite load_nat by eassumption
                | rewrite store_in_bounds
                    by (split; [lia | apply Nat2Z.inj_lt; eapply lookup_lt_Some; eassumption]) ];
          eval_fields);
  rewrite ?Nat2Z.id; cbn [sx sy sz];
  repeat match goal with
         | Hl : ?l !! ?j = Some ?v |- context [<[?j := ?v]> ?l] =>
             rewrite (list_insert_id l j v Hl)
         end;
  reflexivity.

(** X13. [Apply(f)] on a well-formed graph.  Its loop replaces the z of
    every sample by f(x, y, z) computed from the old coordinates of that
    sample and leaves x, y, the number of points, the pointers to the cached
    histogram and interpolator, the objects and the messages as they were, so
    the cache is not invalidated.  The method then ends with the
    notification of the current pad, when there is one, on the state [w1]
    that the loop has left; without a pad that state is the result. *)
Theorem Apply_spec (gPad : Pad) (f : TF2) (w : World) :
  points_ok (this w) ->
  exists w1,
    samples_of (this w1) = map (applied f) (samples_of (this w)) /\
    fNpoints (this w1) = fNpoints (this w) /\
    fHistogram (this w1) = fHistogram (this w) /\
    fDelaunay (this w1) = fDelaunay (this w) /\
    heap w1 = heap w /\ out w1 = out w /\
    Apply gPad f w = match gPad with
                     | Some Modified => Modified w1
                     | None => Some (tt, w1)
                     end.
Proof.
  intros Hok. unfold Apply. unfold bind at 1, self at 1.
  match goal with |- context [for_range 0 _ ?body] =>
    destruct (sample_loop body (applied f) w)
      as (w' & Hrun & Hs & _ & Hn & Hh & Hd & Hhp & _ & Ho);
      [|exact Hok|exists w'; repeat (split; [assumption|]);
                  unfold bind at 1; rewrite Hrun; destruct gPad; reflexivity]
  end.
  intros j lx' ly' lz' s g hp b o Hx Hy Hz. unfold applied. loop_step g.
Qed.

(** X14. [Add(f, c1)] on a well-formed graph.  Its loop replaces the z of
    every sample by z + c1 f(x, y, z), with x, y, the number of points, the
    pointers to the cached histogram and interpolator, the objects and the
    messages as they were; like [Apply] it then ends with the notification
    of the current pad, when there is one, on the state [w1] that the loop
    has left. *)
Theorem Add_spec (gPad : Pad) (f : TF2) (c1 : Double_t) (w : World) :
  points_ok (this w) ->
  exists w1,
    samples_of (this w1) = map (added f c1) (samples_of (this w)) /\
    fNpoints (this w1) = fNpoints (this w) /\
    fHistogram (this w1) = fHistogram (this w) /\
    fDelaunay (this w1) = fDelaunay (this w) /\
    heap w1 = heap w /\ out w1 = out w /\
    Add gPad f c1 w = match gPad with
                      | Some Modified => Modified w1
                      | None => Some (tt, w1)
                      end.
Proof.
  intros Hok. unfold Add. unfold bind at 1, self at 1.
  match goal with |- context [for_range 0 _ ?body] =>
    destruct (sample_loop body (added f c1) w)
      as (w' & Hrun & Hs & _ & Hn & Hh & Hd & Hhp & _ & Ho);
      [|exact Hok|exists w'; repeat (split; [assumption|]);
                  unfold bind at 1; rewrite Hrun; destruct gPad; reflexivity]
  end.
  intros j lx' ly' lz' s g hp b o Hx Hy Hz. unfold added. loop_step g.
Qed.

Lemma scale_loop_x (c1 : Double_t) (w : World) :
  points_ok (this w) ->
  exists w', scale_loop GetX set_fX c1 w = Some (tt, w') /\
    samples_of (this w') =
      map (fun s => mkSample (sx s * c1) (sy s) (sz s)) (samples_of (this w)) /\
    points_ok (this w') /\ fNpoints (this w') = fNpoints (this w) /\
    fHistogram (this w') = fHistogram (this w) /\
    fDelaunay (this w') = fDelaunay (this w) /\
    heap w' = heap w /\ brk w' = brk w /\ out w' = out w.
Proof.
  intros Hok. unfold scale_loop, GetN. unfold bind at 1, self at 1.
  apply sample_loop; [|exact Hok].
  intros j lx' ly' lz' s g hp b o Hx Hy Hz. unfold GetX. loop_step g.
Qed.

Lemma scale_loop_y (c1 : Double_t) (w : World) :
  points_ok (this w) ->
  exists w', scale_loop GetY set_fY c1 w = Some (tt, w') /\
    samples_of (this w') =
      map (fun s => mkSample (sx s) (sy s * c1) (sz s)) (samples_of (this w)) /\
    points_ok (this w') /\ fNpoints (this w') = fNpoints (this w) /\
    fHistogram (this w') = fHistogram (this w) /\
    fDelaunay (this w') = fDelaunay (this w) /\
    heap w' = heap w /\ brk w' = brk w /\ out w' = out w.
Proof.
  intros Hok. unfold scale_loop, GetN. unfold bind at 1, self at 1.
  apply sample_loop; [|exact Hok].
  intros j lx' ly' lz' s g hp b o Hx Hy Hz. unfold GetY. loop_step g.
Qed.

Lemma scale_loop_z (c1 : Double_t) (w : World) :
  points_ok (this w) ->
  exists w', scale_loop GetZ set_fZ c1 w = Some (tt, w') /\
    samples_of (this w') =
      map (fun s => mkSample (sx s) (sy s) (sz s * c1)) (samples_of (this w)) /\
    points_ok (this w') /\ fNpoints (this w') = fNpoints (this w) /\
    fHistogram (this w') = fHistogram (this w) /\
    fDelaunay (this w') = fDelaunay (this w) /\
    heap w' = heap w /\ brk w' = brk w /\ out w' = out w.
Proof.
  intros Hok. unfold scale_loop, GetN. unfold bind at 1, self at 1.
  apply sample_loop; [|exact Hok].
  intros j lx' ly' lz' s g hp b o Hx Hy Hz. unfold GetZ. loop_step g.
Qed.

(** One of the three optional loops of [Scale]. *)
Lemma scale_step (on : bool) (loop : M unit) (F : Sample -> Sample) (w : World) :
  (forall v, points_ok (this v) ->
     exists v', loop v = Some (tt, v') /\
       samples_of (this v') = map F (samples_of (this v)) /\
       points_ok (this v') /\ fNpoints (this v') = fNpoints (this v) /\
       fHistogram (this v') = fHistogram (this v) /\
       fDelaunay (this v') = fDelaunay (this v) /\
       heap v' = heap v /\ brk v' = brk v /\ out v' = out v) ->
  points_ok (this w) ->
  exists w', (if on then loop else ret tt) w = Some (tt, w') /\
    samples_of (this w') = map (fun s => if on then F s else s) (samples_of (this w)) /\
    points_ok (this w') /\ fNpoints (this w') = fNpoints (this w) /\
    fHistogram (this w') = fHistogram (this w) /\
    fDelaunay (this w') = fDelaunay (this w) /\
    heap w' = heap w /\ brk w' = brk w /\ out w' = out w.
Proof.
  intros Hloop Hok. destruct on.
  - apply Hloop. exact Hok.
  - exists w. split; [reflexivity|]. split; [|auto 10].
    symmetry. apply map_id.
Qed.

(** X15. [Scale(c1, option)] multiplies by [c1] the x of every sample when
    the option contains an x, the y when it contains a y and the z when it
    contains a z, in upper or lower case, and nothing when it contains none
    of them; the number of points stays and the cache is left alone. *)
Theorem Scale_spec (c1 : Double_t) (opt : string) (w : World) :
  points_ok (this w) ->
  exists w', Scale c1 opt w = Some (tt, w') /\
    samples_of (this w') = map (scaled c1 (ToLower opt)) (samples_of (this w)) /\
    fNpoints (this w') = fNpoints (this w) /\
    fHistogram (this w') = fHistogram (this w) /\
    fDelaunay (this w') = fDelaunay (this w) /\
    heap w' = heap w /\ out w' = out w.
Proof.
  intros Hok. unfold Scale. cbv zeta.
  destruct (scale_step (Contains (ToLower opt) "x") _ _ w (scale_loop_x c1) Hok)
    as (w1 & R1 & S1 & Ok1 & N1 & H1 & D1 & P1 & _ & O1).
  destruct (scale_step (Contains (ToLower opt) "y") _ _ w1 (scale_loop_y c1) Ok1)
    as (w2 & R2 & S2 & Ok2 & N2 & H2 & D2 & P2 & _ & O2).
  destruct (scale_step (Contains (ToLower opt) "z") _ _ w2 (scale_loop_z c1) Ok2)
    as (w3 & R3 & S3 & Ok3 & N3 & H3 & D3 & P3 & _ & O3).
  exists w3. split.
  { unfold bind. rewrite R1, R2. exact R3. }
  split.
  { rewrite S3, S2, S1, !map_map. apply map_ext. intros [x y z]. unfold scaled. cbn.
    destruct (Contains (ToLower opt) "x"), (Contains (ToLower opt) "y"),
             (Contains (ToLower opt) "z"); reflexivity. }
  repeat split; congruence.
Qed.

(** ** Projections *)

Lemma zip3_take_drop_S (lx ly lz : list Double_t) (n cnt : nat) (x y z : Double_t) :
  lx !! n = Some x -> ly !! n = Some y -> lz !! n = Some z ->
  take (S cnt) (drop n (zip3 lx ly lz)) =
    mkSample x y z :: take cnt (drop (S n) (zip3 lx ly lz)).
Proof.
  intros Hx Hy Hz.
  assert (Hs : zip3 lx ly lz !! n = Some (mkSample x y z)).
  { rewrite zip3_lookup, Hx, Hy, Hz. reflexivity. }
  rewrite (drop_S _ _ _ Hs). reflexivity.
Qed.

Lemma add_fills_cons (pcase : Int_t) (s : Sample) (l : list Sample) (p : Projection) :
  add_fills pcase (s :: l) p = add_fills pcase l (add_fills pcase [s] p).
Proof.
  destruct p as [h|h]; unfold add_fills; cbn [map].
  - cbn [h1Nbins h1Xmin h1Xmax h1Fills]. rewrite <- app_assoc. reflexivity.
  - destruct h. cbn. rewrite <- app_assoc. reflexivity.
Qed.

Lemma fits_case_add (pcase : Int_t) (l : list Sample) (p : Projection) :
  fits_case pcase p -> fits_case pcase (add_fills pcase l p).
Proof. destruct p; exact id. Qed.

Lemma project_fill_spec (pcase : Int_t) (lx ly lz : list Double_t) (w : World) (cnt : nat) :
  fX (this w) = Some lx -> fY (this w) = Some ly -> fZ (this w) = Some lz ->
  forall (n : nat) (p : Projection) (e : Double_t),
    fits_case pcase p ->
    (n + cnt <= length lx)%nat -> (n + cnt <= length ly)%nat -> (n + cnt <= length lz)%nat ->
    project_fill cnt (Z.of_nat n) pcase p e w =
      Some ((add_fills pcase (take cnt (drop n (zip3 lx ly lz))) p,
             sum_z (take cnt (drop n (zip3 lx ly lz))) e), w).
Proof.
  intros Hx Hy Hz. induction cnt as [|cnt IH]; intros n p e Hfit Hlx Hly Hlz.
  - cbn. destruct p as [h|h]; unfold add_fills, sum_z; cbn; rewrite app_nil_r.
    + destruct h; reflexivity.
    + destruct h; reflexivity.
  - destruct (lookup_lt_is_Some_2 lx n) as [x Vx]; [lia|].
    destruct (lookup_lt_is_Some_2 ly n) as [y Vy]; [lia|].
    destruct (lookup_lt_is_Some_2 lz n) as [z Vz]; [lia|].
    rewrite (zip3_take_drop_S lx ly lz n cnt x y z Vx Vy Vz).
    rewrite add_fills_cons. cbn [project_fill].
    unfold bind at 1, self at 1. rewrite Hx, Hy, Hz.
    assert (Hstep :
      (if pcase =? 1 then
         x <- load (Some lx) (Z.of_nat n) ;; z <- load (Some lz) (Z.of_nat n) ;; Fill1 x z p
       else if pcase =? 2 then
         y <- load (Some ly) (Z.of_nat n) ;; z <- load (Some lz) (Z.of_nat n) ;; Fill1 y z p
       else if pcase =? 3 then
         x <- load (Some lx) (Z.of_nat n) ;; y <- load (Some ly) (Z.of_nat n) ;;
         z <- load (Some lz) (Z.of_nat n) ;; Fill2 x y z p
       else if pcase =? 4 then
         y <- load (Some ly) (Z.of_nat n) ;; x <- load (Some lx) (Z.of_nat n) ;;
         z <- load (Some lz) (Z.of_nat n) ;; Fill2 y x z p
       else ret p) w = Some (add_fills pcase [mkSample x y z] p, w)).
    { destruct p as [h|h]; destruct Hfit as [-> | ->]; simpl (_ =? _); unfold bind;
        repeat (first [ rewrite (load_nat lx n x w Vx) | rewrite (load_nat ly n y w Vy)
                      | rewrite (load_nat lz n z w Vz) ]; cbv beta iota);
        reflexivity. }
    unfold bind at 1. rewrite Hstep. unfold bind at 1. rewrite (load_nat lz n z w Vz).
    replace (Z.of_nat n + 1) with (Z.of_nat (S n)) by lia.
    rewrite IH; [reflexivity | apply fits_case_add; exact Hfit | lia | lia | lia].
Qed.

Lemma zip3_take (n : nat) :
  forall lx ly lz : list Double_t,
    zip3 (take n lx) (take n ly) (take n lz) = take n (zip3 lx ly lz).
Proof.
  induction n as [|n IH]; intros lx ly lz.
  - destruct lx, ly, lz; reflexivity.
  - destruct lx as [|x lx], ly as [|y ly], lz as [|z lz]; try reflexivity;
      cbn; try (destruct (take n lx); reflexivity);
      try (destruct (take n lx), (take n ly); reflexivity).
    rewrite IH. reflexivity.
Qed.

(** A string that contains a two-letter pattern contains each letter. *)
Lemma substring_split (s : string) :
  forall (m k : nat) (c : ascii) (r : string),
    substring m (S k) s = String c r ->
    substring m 1 s = String c EmptyString /\ substring (S m) k s = r.
Proof.
  induction s as [|a s IH]; intros m k c r Hs.
  - destruct m; discriminate Hs.
  - destruct m as [|m].
    + cbn in Hs. injection Hs as -> <-. split; [|reflexivity].
      cbn. destruct s; reflexivity.
    + cbn in Hs. apply IH in Hs. exact Hs.
Qed.

Lemma Contains_letters (s : string) (c d : ascii) :
  Contains s (String c (String d EmptyString)) = true ->
  Contains s (String c EmptyString) = true /\ Contains s (String d EmptyString) = true.
Proof.
  unfold Contains. destruct (String.index 0 (String c (String d EmptyString)) s) as [m|] eqn:E;
    [|discriminate]. intros _.
  apply index_correct1 in E. cbn [String.length] in E.
  destruct (substring_split s m 1 c (String d EmptyString) E) as [Hc Hd].
  destruct (substring_split s (S m) 0 d EmptyString Hd) as [Hd' _].
  split.
  - destruct (String.index 0 (String c EmptyString) s) eqn:Ec; [reflexivity|].
    exfalso. apply (index_correct3 0 m _ _ Ec); [discriminate | lia | exact Hc].
  - destruct (String.index 0 (String d EmptyString) s) eqn:Ed; [reflexivity|].
    exfalso. apply (index_correct3 0 (S m) _ _ Ed); [discriminate | lia | exact Hd'].
Qed.

Lemma project_case_none (o : string) :
  Contains o "x" = false -> Contains o "y" = false -> project_case o = 0.
Proof.
  intros Hx Hy. unfold project_case. rewrite Hx, Hy.
  destruct (Contains o "xy") eqn:Exy.
  { apply Contains_letters in Exy. destruct Exy as [E _]. congruence. }
  destruct (Contains o "yx") eqn:Eyx.
  { apply Contains_letters in Eyx. destruct Eyx as [E _]. congruence. }
  reflexivity.
Qed.

Lemma Project_result (opt : string) (w : World) :
  points_ok (this w) -> 1 <= fNpoints (this w) ->
  Project opt w = Some (projection_of (this w) (project_case (ToLower opt)), w).
Proof.
  intros Hok Hn.
  destruct (getters_ok w Hok Hn) as
    (lx & ly & lz & xmin & xmax & ymin & ymax & zmin & zmax &
     Hx & Hy & Hz & Exmin & Exmax & Eymin & Eymax & Gxmin & Gxmax & Gymin & Gymax & _).
  unfold GetXminE in Gxmin. unfold GetXmaxE in Gxmax.
  unfold GetYminE in Gymin. unfold GetYmaxE in Gymax.
  unfold Project. unfold bind at 1, self at 1. cmp_lia. cbv zeta.
  unfold bind at 1. rewrite Gxmin. unfold bind at 1. rewrite Gxmax.
  unfold bind at 1. rewrite Gymin. unfold bind at 1. rewrite Gymax.
  unfold projection_of, bounding_box. rewrite Hx, Hy, Exmin, Exmax, Eymin, Eymax.
  unfold projection_frame.
  set (pc := project_case (ToLower opt)).
  assert (Hs : samples_of (this w) =
               take (Z.to_nat (fNpoints (this w))) (drop 0 (zip3 lx ly lz))).
  { unfold samples_of. rewrite Hx, Hy, Hz. apply zip3_take. }
  pose proof (points_ok_arrays _ Hok ltac:(lia)) as (lx' & ly' & lz' & Hx' & Hy' & Hz' & Lx & Ly & Lz).
  rewrite Hx in Hx'. rewrite Hy in Hy'. rewrite Hz in Hz'.
  injection Hx' as <-. injection Hy' as <-. injection Hz' as <-.
  assert (Hfill : forall p, fits_case pc p ->
    (r <- project_fill (Z.to_nat (fNpoints (this w))) 0 pc p 0%float ;; ret (Some r)) w =
      Some (Some (add_fills pc (samples_of (this w)) p, sum_z (samples_of (this w)) 0%float), w)).
  { intros p Hfit. unfold bind.
    rewrite (project_fill_spec pc lx ly lz w _ Hx Hy Hz 0%nat p 0%float Hfit) by lia.
    rewrite Hs. reflexivity. }
  destruct (pc =? 1) eqn:E1; [apply Hfill; left; lia|].
  destruct (pc =? 2) eqn:E2; [apply Hfill; right; lia|].
  destruct (pc =? 3) eqn:E3; [apply Hfill; left; lia|].
  destruct (pc =? 4) eqn:E4; [apply Hfill; right; lia|].
  reflexivity.
Qed.

(** X16. When [Project] gives no histogram.  On a graph without points it
    prints "Empty TGraph2D" and returns the null pointer; on a graph with
    points it returns the null pointer, silently, when the option contains
    neither an x nor a y in either case.  The graph is never changed. *)
Theorem Project_null (opt : string) (w : World) :
  (fNpoints (this w) <= 0 ->
     Project opt w =
       Some (None, mkWorld (this w) (heap w) (brk w)
                           (out w ++ [mkMessage kError "Project" "Empty TGraph2D" []]))) /\
  (points_ok (this w) -> 1 <= fNpoints (this w) ->
   Contains (ToLower opt) "x" = false -> Contains (ToLower opt) "y" = false ->
     Project opt w = Some (None, w)).
Proof.
  split.
  - intros Hn. unfold Project. unfold bind at 1, self at 1. cmp_lia. reflexivity.
  - intros Hok Hn Hx Hy. rewrite Project_result by assumption.
    rewrite project_case_none by assumption.
    unfold projection_of. destruct (bounding_box (this w)) as [[[[? ?] ?] ?]|]; reflexivity.
Qed.

(** X17. What [Project] builds on a well-formed graph with points.  The
    option, in either case, selects the projection: "yx" wins over "xy",
    which wins over "y", which wins over "x".  The histogram spans the
    exact bounding box of the samples, without margin, with [fNpx] bins
    for x and [fNpy] bins for y (for "yx" the y axis comes first); it is
    filled once per sample, in index order, at x, at y, at (x, y) or at
    (y, x), with weight z; and the number of entries stored on it is the
    sum of all z, not the number of samples.  The graph is left as it was. *)
Theorem Project_spec (opt : string) (w : World) :
  points_ok (this w) -> 1 <= fNpoints (this w) ->
  let o := ToLower opt in
  let pcase := if Contains o "yx" then 4 else if Contains o "xy" then 3
               else if Contains o "y" then 2 else if Contains o "x" then 1 else 0 in
  Project opt w = Some (projection_of (this w) pcase, w) /\
  forall r, projection_of (this w) pcase = Some r ->
    exists xmin xmax ymin ymax p,
      bounding_box (this w) = Some (xmin, xmax, ymin, ymax) /\
      projection_frame (this w) pcase (xmin, xmax, ymin, ymax) = Some p /\
      r = (add_fills pcase (samples_of (this w)) p, sum_z (samples_of (this w)) 0%float).
Proof.
  intros Hok Hn. cbv zeta. split.
  - rewrite Project_result by assumption. unfold project_case.
    destruct (Contains (ToLower opt) "yx"), (Contains (ToLower opt) "xy"),
             (Contains (ToLower opt) "y"), (Contains (ToLower opt) "x"); reflexivity.
  - intros r Hr. unfold projection_of in Hr.
    destruct (bounding_box (this w)) as [[[[xmin xmax] ymin] ymax]|]; [|discriminate].
    destruct (projection_frame (this w) _ (xmin, xmax, ymin, ymax)) as [p|] eqn:Ep;
      [|discriminate].
    injection Hr as <-. exists xmin, xmax, ymin, ymax, p. auto.
Qed.

(** ** The order of doubles is transitive *)

Lemma SFcompare_Lt_trans (a b c : spec_float) :
  SFcompare a b = Some Lt -> SFcompare b c = Some Lt -> SFcompare a c = Some Lt.
Proof.
  destruct a as [sa | sa | | sa ma ea], b as [sb | sb | | sb mb eb],
           c as [sc | sc | | sc mc ec]; simpl;
    try discriminate; try reflexivity;
    try (destruct sa; discriminate); try (destruct sb; discriminate);
    try (destruct sc; discriminate);
    try (destruct sa, sb; discriminate); try (destruct sb, sc; discriminate);
    try (destruct sa, sb, sc; (discriminate || reflexivity)).
  destruct sa, sb, sc; try discriminate; try reflexivity;
    change (Pos.compare_cont Eq ma mb) with (Pos.compare ma mb);
    change (Pos.compare_cont Eq mb mc) with (Pos.compare mb mc);
    change (Pos.compare_cont Eq ma mc) with (Pos.compare ma mc);
    destruct (Z.compare_spec ea eb), (Z.compare_spec eb ec), (Z.compare_spec ea ec);
    try discriminate; try reflexivity; try lia;
    destruct (Pos.compare_spec ma mb), (Pos.compare_spec mb mc), (Pos.compare_spec ma mc);
    simpl; try discriminate; try reflexivity; try lia.
Qed.

Lemma dlt_trans (a b c : Double_t) :
  dlt a b = true -> dlt b c = true -> dlt a c = true.
Proof.
  unfold dlt. rewrite !FloatAxioms.ltb_spec. unfold SFltb.
  destruct (SFcompare (Prim2SF a) (Prim2SF b)) as [[]|] eqn:Eab; try discriminate.
  destruct (SFcompare (Prim2SF b) (Prim2SF c)) as [[]|] eqn:Ebc; try discriminate.
  rewrite (SFcompare_Lt_trans _ _ _ Eab Ebc). reflexivity.
Qed.

Lemma dlt_irrefl (a : Double_t) : dlt a a = false.
Proof.
  unfold dlt. rewrite FloatAxioms.ltb_spec. unfold SFltb.
  pose proof (SFcompare_antisym (Prim2SF a) (Prim2SF a)) as Ha.
  destruct (SFcompare (Prim2SF a) (Prim2SF a)) as [[]|]; try reflexivity; discriminate Ha.
Qed.

(** ** The extrema of the coordinates *)

Lemma fold_extremum_In (better : Double_t -> Double_t -> bool) (t : list Double_t) :
  forall v, In (fold_left (fun v a => if better a v then a else v) t v) (v :: t).
Proof.
  induction t as [|b t IH]; intros v; [left; reflexivity|].
  cbn [fold_left]. destruct (IH (if better b v then b else v)) as [Hin|Hin].
  - rewrite <- Hin. destruct (better b v); [right; left | left]; reflexivity.
  - right. right. exact Hin.
Qed.

Lemma fold_greater_mono (t : list Double_t) :
  forall v u, dlt v u = false ->
    dlt (fold_left (fun v a => if greater a v then a else v) t v) u = false.
Proof.
  induction t as [|b t IH]; intros v u Hu; [exact Hu|].
  cbn [fold_left]. apply IH. unfold greater. destruct (dlt v b) eqn:Evb; [|exact Hu].
  destruct (dlt b u) eqn:Ebu; [|reflexivity].
  rewrite (dlt_trans v b u Evb Ebu) in Hu. discriminate Hu.
Qed.

Lemma fold_greater_dominates (t : list Double_t) :
  forall v a, In a (v :: t) ->
    dlt (fold_left (fun v a => if greater a v then a else v) t v) a = false.
Proof.
  induction t as [|b t IH]; intros v a Hin.
  - destruct Hin as [<-|[]]. apply dlt_irrefl.
  - cbn [fold_left]. destruct Hin as [<-|[<-|Hin]].
    + apply fold_greater_mono. unfold greater. destruct (dlt v b) eqn:E.
      * destruct (dlt b v) eqn:E'; [|reflexivity].
        pose proof (dlt_trans v b v E E') as Hc. rewrite dlt_irrefl in Hc. discriminate Hc.
      * apply dlt_irrefl.
    + apply fold_greater_mono. unfold greater. destruct (dlt v b) eqn:E; [apply dlt_irrefl | exact E].
    + apply IH. right. exact Hin.
Qed.

Lemma fold_smaller_mono (t : list Double_t) :
  forall v u, dlt u v = false ->
    dlt u (fold_left (fun v a => if smaller a v then a else v) t v) = false.
Proof.
  induction t as [|b t IH]; intros v u Hu; [exact Hu|].
  cbn [fold_left]. apply IH. unfold smaller. destruct (dlt b v) eqn:Ebv; [|exact Hu].
  destruct (dlt u b) eqn:Eub; [|reflexivity].
  rewrite (dlt_trans u b v Eub Ebv) in Hu. discriminate Hu.
Qed.

Lemma fold_smaller_dominates (t : list Double_t) :
  forall v a, In a (v :: t) ->
    dlt a (fold_left (fun v a => if smaller a v then a else v) t v) = false.
Proof.
  induction t as [|b t IH]; intros v a Hin.
  - destruct Hin as [<-|[]]. apply dlt_irrefl.
  - cbn [fold_left]. destruct Hin as [<-|[<-|Hin]].
    + apply fold_smaller_mono. unfold smaller. destruct (dlt b v) eqn:E.
      * destruct (dlt v b) eqn:E'; [|reflexivity].
        pose proof (dlt_trans v b v E' E) as Hc. rewrite dlt_irrefl in Hc. discriminate Hc.
      * apply dlt_irrefl.
    + apply fold_smaller_mono. unfold smaller. destruct (dlt b v) eqn:E; [apply dlt_irrefl | exact E].
    + apply IH. right. exact Hin.
Qed.

(** The elements that [extremum_of] looks at are the first [n]. *)
Lemma extremum_of_scope (better : Double_t -> Double_t -> bool) (l : list Double_t)
    (n : Int_t) (r : Double_t) :
  1 <= n -> extremum_of better l n = Some r ->
  exists v t, take (Z.to_nat n) l = v :: t /\
    r = fold_left (fun v a => if better a v then a else v) t v.
Proof.
  intros Hn. unfold extremum_of. destruct l as [|v t]; [discriminate|].
  intros [= <-]. exists v, (take (Z.to_nat (n - 1)) t). split; [|reflexivity].
  replace (Z.to_nat n) with (S (Z.to_nat (n - 1))) by lia. reflexivity.
Qed.

Lemma samples_columns (g : TGraph2D) (lx ly lz : list Double_t) :
  fX g = Some lx -> fY g = Some ly -> fZ g = Some lz ->
  fNpoints g <= Z.of_nat (length lx) -> fNpoints g <= Z.of_nat (length ly) ->
  fNpoints g <= Z.of_nat (length lz) ->
  map sx (samples_of g) = take (Z.to_nat (fNpoints g)) lx /\
  map sy (samples_of g) = take (Z.to_nat (fNpoints g)) ly /\
  map sz (samples_of g) = take (Z.to_nat (fNpoints g)) lz.
Proof.
  intros Hx Hy Hz Lx Ly Lz. unfold samples_of. rewrite Hx, Hy, Hz.
  set (n := Z.to_nat (fNpoints g)).
  assert (Hlen : length (take n lx) = n /\ length (take n ly) = n /\ length (take n lz) = n).
  { rewrite !length_take. unfold n. lia. }
  destruct Hlen as (Hlx & Hly & Hlz).
  revert Hlx Hly Hlz. generalize (take n lx) (take n ly) (take n lz). clear.
  induction n as [|n IH]; intros xs ys zs Hxs Hys Hzs.
  - destruct xs, ys, zs; try discriminate. auto.
  - destruct xs as [|x xs], ys as [|y ys], zs as [|z zs]; try discriminate.
    cbn in *. destruct (IH xs ys zs) as (Ix & Iy & Iz); try lia.
    rewrite Ix, Iy, Iz. auto.
Qed.

Lemma extremum_attained (better : Double_t -> Double_t -> bool) (l : list Double_t)
    (n : Int_t) (r : Double_t) :
  1 <= n -> extremum_of better l n = Some r -> In r (take (Z.to_nat n) l).
Proof.
  intros Hn He. destruct (extremum_of_scope better l n r Hn He) as (v & t & -> & ->).
  apply fold_extremum_In.
Qed.

Lemma maximum_dominates (l : list Double_t) (n : Int_t) (r a : Double_t) :
  1 <= n -> extremum_of greater l n = Some r -> In a (take (Z.to_nat n) l) ->
  dlt r a = false.
Proof.
  intros Hn He. destruct (extremum_of_scope greater l n r Hn He) as (v & t & -> & ->).
  apply fold_greater_dominates.
Qed.

Lemma minimum_dominates (l : list Double_t) (n : Int_t) (r a : Double_t) :
  1 <= n -> extremum_of smaller l n = Some r -> In a (take (Z.to_nat n) l) ->
  dlt a r = false.
Proof.
  intros Hn He. destruct (extremum_of_scope smaller l n r Hn He) as (v & t & -> & ->).
  apply fold_smaller_dominates.
Qed.

(** What one getter returns, in terms of the coordinate it scans. *)
Lemma getter_result (better : Double_t -> Double_t -> bool) (a : Array) (l : list Double_t)
    (w : World) :
  a = Some l -> 1 <= fNpoints (this w) <= Z.of_nat (length l) ->
  exists r, extremum better a (fNpoints (this w)) w = Some (r, w) /\
            extremum_of better l (fNpoints (this w)) = Some r.
Proof.
  intros -> Hn. destruct (extremum_spec better l (fNpoints (this w)) w Hn) as (v & Hv & Hrun).
  exists v. auto.
Qed.

(** X18. [GetXmax], [GetYmax] and [GetZmax] on a well-formed graph with
    points return a coordinate of one of the samples, and no sample has a
    greater one.  The comparison is the [>] of the code: a NaN is never
    greater, so it is passed over, and nothing is greater than a NaN, so a
    NaN in the first sample is what comes back.  The graph is unchanged. *)
Theorem maxima_spec (w : World) :
  points_ok (this w) -> 1 <= fNpoints (this w) ->
  exists xmax ymax zmax,
    GetXmax w = Some (xmax, w) /\ GetYmax w = Some (ymax, w) /\
    GetZmax w = Some (zmax, w) /\
    In xmax (map sx (samples_of (this w))) /\
    In ymax (map sy (samples_of (this w))) /\
    In zmax (map sz (samples_of (this w))) /\
    forall s, In s (samples_of (this w)) ->
      dlt xmax (sx s) = false /\ dlt ymax (sy s) = false /\ dlt zmax (sz s) = false.
Proof.
  intros Hok Hn.
  destruct (points_ok_arrays _ Hok ltac:(lia)) as (lx & ly & lz & Hx & Hy & Hz & Lx & Ly & Lz).
  destruct (samples_columns _ lx ly lz Hx Hy Hz Lx Ly Lz) as (Cx & Cy & Cz).
  destruct (getter_result greater (fX (this w)) lx w Hx ltac:(lia)) as (xmax & Rx & Ex).
  destruct (getter_result greater (fY (this w)) ly w Hy ltac:(lia)) as (ymax & Ry & Ey).
  destruct (getter_result greater (fZ (this w)) lz w Hz ltac:(lia)) as (zmax & Rz & Ez).
  exists xmax, ymax, zmax.
  split; [exact Rx|]. split; [exact Ry|]. split; [exact Rz|].
  rewrite Cx, Cy, Cz.
  split; [apply (extremum_attained greater); [lia | exact Ex]|].
  split; [apply (extremum_attained greater); [lia | exact Ey]|].
  split; [apply (extremum_attained greater); [lia | exact Ez]|].
  intros s Hs.
  split; [|split].
  - apply (maximum_dominates lx (fNpoints (this w))); [lia | exact Ex|].
    rewrite <- Cx. apply in_map. exact Hs.
  - apply (maximum_dominates ly (fNpoints (this w))); [lia | exact Ey|].
    rewrite <- Cy. apply in_map. exact Hs.
  - apply (maximum_dominates lz (fNpoints (this w))); [lia | exact Ez|].
    rewrite <- Cz. apply in_map. exact Hs.
Qed.

(** X19. [GetXmin], [GetYmin] and [GetZmin] on a well-formed graph with
    points return a coordinate of one of the samples, and no sample has a
    smaller one, under the [<] of the code.  The graph is unchanged. *)
Theorem minima_spec (w : World) :
  points_ok (this w) -> 1 <= fNpoints (this w) ->
  exists xmin ymin zmin,
    GetXmin w = Some (xmin, w) /\ GetYmin w = Some (ymin, w) /\
    GetZmin w = Some (zmin, w) /\
    In xmin (map sx (samples_of (this w))) /\
    In ymin (map sy (samples_of (this w))) /\
    In zmin (map sz (samples_of (this w))) /\
    forall s, In s (samples_of (this w)) ->
      dlt (sx s) xmin = false /\ dlt (sy s) ymin = false /\ dlt (sz s) zmin = false.
Proof.
  intros Hok Hn.
  destruct (points_ok_arrays _ Hok ltac:(lia)) as (lx & ly & lz & Hx & Hy & Hz & Lx & Ly & Lz).
  destruct (samples_columns _ lx ly lz Hx Hy Hz Lx Ly Lz) as (Cx & Cy & Cz).
  destruct (getter_result smaller (fX (this w)) lx w Hx ltac:(lia)) as (xmin & Rx & Ex).
  destruct (getter_result smaller (fY (this w)) ly w Hy ltac:(lia)) as (ymin & Ry & Ey).
  destruct (getter_result smaller (fZ (this w)) lz w Hz ltac:(lia)) as (zmin & Rz & Ez).
  exists xmin, ymin, zmin.
  split; [exact Rx|]. split; [exact Ry|]. split; [exact Rz|].
  rewrite Cx, Cy, Cz.
  split; [apply (extremum_attained smaller); [lia | exact Ex]|].
  split; [apply (extremum_attained smaller); [lia | exact Ey]|].
  split; [apply (extremum_attained smaller); [lia | exact Ez]|].
  intros s Hs.
  split; [|split].
  - apply (minimum_dominates lx (fNpoints (this w))); [lia | exact Ex|].
    rewrite <- Cx. apply in_map. exact Hs.
  - apply (minimum_dominates ly (fNpoints (this w))); [lia | exact Ey|].
    rewrite <- Cy. apply in_map. exact Hs.
  - apply (minimum_dominates lz (fNpoints (this w))); [lia | exact Ez|].
    rewrite <- Cz. apply in_map. exact Hs.
Qed.

(** ** [GetHistogram] without interpolation *)

Lemma hist_update_at (a : addr) (h : TH2D) (f : TH2D -> TH2D) (w : World) :
  fHistogram (this w) = Some a -> heap w !! a = Some (ObjTH2D h) ->
  with_histogram (fun a => hist_update a f) w = Some (tt, with_hist a (f h) w).
Proof.
  intros Ha Hh. unfold with_histogram, hist_update, hist_at, poke, bind, self.
  rewrite Ha, Hh. reflexivity.
Qed.

Lemma with_hist_lookup (a : addr) (h : TH2D) (w : World) :
  heap (with_hist a h w) !! a = Some (ObjTH2D h) /\ this (with_hist a h w) = this w.
Proof. unfold with_hist. cbn. rewrite lookup_insert_eq. auto. Qed.

Lemma with_hist_twice (a : addr) (h h' : TH2D) (w : World) :
  with_hist a h' (with_hist a h w) = with_hist a h' w.
Proof. unfold with_hist. cbn. rewrite insert_insert_eq. reflexivity. Qed.

(** The tail of [GetHistogram] for the option "empty". *)
Lemma GetHistogram_empty_result (a : addr) (h : TH2D) (zmin zmax : Double_t) (w : World) :
  fHistogram (this w) = Some a -> heap w !! a = Some (ObjTH2D h) ->
  GetZminE w = Some (zmin, w) -> GetZmaxE w = Some (zmax, w) ->
  GetHistogram_empty w =
    Some (Some a,
          with_hist a (set_hMaximum (snd (z_limits (this w) zmin zmax))
                         (set_hMinimum (fst (z_limits (this w) zmin zmax)) h)) w).
Proof.
  intros Ha Hh Gmin Gmax. unfold GetHistogram_empty.
  unfold bind at 1, self at 1. unfold bind at 1.
  assert (E1 : (if dne (fMinimum (this w)) (-1111)%float then ret (fMinimum (this w))
                else GetZminE) w =
               Some (if dne (fMinimum (this w)) (-1111)%float then fMinimum (this w) else zmin, w)).
  { destruct (dne (fMinimum (this w)) (-1111)%float); [reflexivity | exact Gmin]. }
  rewrite E1. unfold bind at 1.
  assert (E2 : (if dne (fMaximum (this w)) (-1111)%float then ret (fMaximum (this w))
                else GetZmaxE) w =
               Some (if dne (fMaximum (this w)) (-1111)%float then fMaximum (this w) else zmax, w)).
  { destruct (dne (fMaximum (this w)) (-1111)%float); [reflexivity | exact Gmax]. }
  rewrite E2. cbv zeta. unfold bind at 1.
  rewrite (hist_update_at a h _ w Ha Hh). unfold bind at 1.
  match goal with |- context [with_hist a ?h1 w] =>
    destruct (with_hist_lookup a h1 w) as [Hl Ht];
    rewrite (hist_update_at a h1 _ _ (eq_trans (f_equal fHistogram Ht) Ha) Hl)
  end.
  rewrite with_hist_twice. unfold bind, self, ret. cbn [this with_hist].
  rewrite Ha. reflexivity.
Qed.

Lemma booked_fields (oldInterp : bool) (lim : Double_t * Double_t * Double_t * Double_t)
    (w : World) :
  let wb := booked oldInterp lim w in
  fHistogram (this wb) = Some (brk w) /\ fDelaunay (this wb) = Some (S (brk w)) /\
  fNpoints (this wb) = fNpoints (this w) /\
  fX (this wb) = fX (this w) /\ fY (this wb) = fY (this w) /\ fZ (this wb) = fZ (this w) /\
  fMinimum (this wb) = fMinimum (this w) /\ fMaximum (this wb) = fMaximum (this w) /\
  fZout (this wb) = fZout (this w) /\ fUserHisto (this wb) = fUserHisto (this w) /\
  kOldInterpolation (this wb) = oldInterp /\
  heap wb !! brk w = Some (ObjTH2D (booked_hist (this w) lim (S (brk w)))) /\
  heap wb !! S (brk w) = Some (ObjDelaunay (booked_delaunay (this w) oldInterp)) /\
  out wb = out w.
Proof.
  cbv zeta. unfold booked. cbn [this heap out].
  rewrite lookup_insert_eq, lookup_insert_ne by lia. rewrite lookup_insert_eq.
  destruct (this w); repeat split.
Qed.

Lemma load_frame (a : Array) (i : Int_t) (w v : World) (r : Double_t) :
  load a i w = Some (r, w) -> load a i v = Some (r, v).
Proof.
  unfold load. destruct a as [l|]; [|discriminate].
  destruct (i <? 0); [discriminate|].
  destruct (l !! Z.to_nat i); [|discriminate]. intros [= ->]. reflexivity.
Qed.

Lemma scan_from_frame (better : Double_t -> Double_t -> bool) (a : Array) (cnt : nat) :
  forall (i : Int_t) (x r : Double_t) (w v : World),
    scan_from cnt i better a x w = Some (r, w) -> scan_from cnt i better a x v = Some (r, v).
Proof.
  induction cnt as [|cnt IH]; intros i x r w v.
  - cbn. intros [= ->]. reflexivity.
  - cbn [scan_from]. unfold bind.
    destruct (load a i w) as [[ai w1]|] eqn:E; [|discriminate].
    pose proof (load_pure _ _ _ _ _ E) as ->.
    rewrite (load_frame _ _ _ v _ E). apply IH.
Qed.

Lemma extremum_frame (better : Double_t -> Double_t -> bool) (a : Array) (n : Int_t)
    (w v : World) (r : Double_t) :
  extremum better a n w = Some (r, w) -> extremum better a n v = Some (r, v).
Proof.
  unfold extremum, bind.
  destruct (load a 0 w) as [[x w1]|] eqn:E; [|discriminate].
  pose proof (load_pure _ _ _ _ _ E) as ->.
  rewrite (load_frame _ _ _ v _ E). apply scan_from_frame.
Qed.

(** The extrema of z are the same in two worlds with the same points. *)
Lemma z_getters_frame (w v : World) (zmin zmax : Double_t) :
  fNpoints (this v) = fNpoints (this w) -> fZ (this v) = fZ (this w) ->
  GetZminE w = Some (zmin, w) -> GetZmaxE w = Some (zmax, w) ->
  GetZminE v = Some (zmin, v) /\ GetZmaxE v = Some (zmax, v).
Proof.
  intros Hn Hz. unfold GetZminE, GetZmaxE, GetZmin, GetZmax, bind, self.
  rewrite Hn, Hz. intros Gmin Gmax.
  split; eapply extremum_frame; eassumption.
Qed.

(** X20. On a graph without points [GetHistogram] ignores its option.  When
    there is no histogram yet it books one over [0, 1] x [0, 1] with
    [fNpx] x [fNpy] bins and no statistics box, creates no interpolator and
    fills nothing; when there is one it hands it out as it is.  A second
    call, with any option, returns the same histogram and changes nothing. *)
Theorem GetHistogram_no_points (w : World) (opt opt' : string) :
  fNpoints (this w) <= 0 ->
  (fHistogram (this w) = None ->
     let w' := mkWorld (set_fHistogram (Some (brk w)) (this w))
                       (<[brk w := ObjTH2D (unit_hist (this w))]> (heap w))
                       (S (brk w)) (out w) in
     GetHistogram opt w = Some (Some (brk w), w') /\
     fDelaunay (this w') = fDelaunay (this w) /\
     GetHistogram opt' w' = Some (Some (brk w), w')) /\
  (forall a, fHistogram (this w) = Some a -> GetHistogram opt w = Some (Some a, w)).
Proof.
  intros Hn. split.
  - intros Hnone. cbv zeta.
    assert (Hrun : forall o v a, fNpoints (this v) <= 0 -> fHistogram (this v) = Some a ->
                     GetHistogram o v = Some (Some a, v)).
    { intros o v a Hv Ha. unfold GetHistogram. unfold bind at 1, self at 1. cmp_lia.
      rewrite Ha. cbn [is_null]. unfold bind, ret, self. rewrite Ha. reflexivity. }
    split; [|split].
    + unfold GetHistogram. unfold bind at 1, self at 1. cmp_lia. rewrite Hnone. cbn [is_null].
      destruct w as [g hp b o]. open_graph g. cbn in Hnone. subst hh.
      unfold unit_hist. eval_fields. rewrite lookup_insert_eq. rewrite insert_insert_eq.
      reflexivity.
    + destruct (this w); reflexivity.
    + apply Hrun; cbn [this]; destruct (this w); [exact Hn | reflexivity].
  - intros a Ha. unfold GetHistogram. unfold bind at 1, self at 1. cmp_lia.
    rewrite Ha. cbn [is_null]. unfold bind, ret, self. rewrite Ha. reflexivity.
Qed.

(** X21. The option "empty" on a well-formed graph with points, no
    histogram yet and no user histogram.  [GetHistogram] books the
    histogram over the bounding box of the samples (with margin, widened
    when degenerate) and creates the interpolator of the engine the option
    asks for, but it fills no bin and builds no triangulation.  The z range
    stored on the histogram runs from [fMinimum] to [fMaximum], each
    replaced by the extremum of z over the samples while it is unset; when
    the two ends are equal they are moved to -0.01 and 0.01 around zero,
    and otherwise apart by one percent of their size on both sides. *)
Theorem GetHistogram_empty_option (w : World) (opt : string) :
  points_ok (this w) -> 1 <= fNpoints (this w) ->
  fHistogram (this w) = None -> fUserHisto (this w) = false ->
  Contains (ToLower opt) "empty" = true ->
  exists xmin xmax ymin ymax zmin zmax h D w',
    bounding_box (this w) = Some (xmin, xmax, ymin, ymax) /\
    GetZmin w = Some (zmin, w) /\ GetZmax w = Some (zmax, w) /\
    GetHistogram opt w = Some (Some (brk w), w') /\
    fHistogram (this w') = Some (brk w) /\
    heap w' !! brk w = Some (ObjTH2D h) /\
    hFills h = [] /\
    (hXmin h, hXmax h, hYmin h, hYmax h) = limits (fMargin (this w)) xmin xmax ymin ymax /\
    (hMinimum h, hMaximum h) = z_limits (this w) zmin zmax /\
    fDelaunay (this w') = Some (S (brk w)) /\
    heap w' !! S (brk w) = Some (ObjDelaunay D) /\
    dEngine D = engine_for (Contains (ToLower opt) "old") /\ dSnapshot D = None.
Proof.
  intros Hok Hn Hnone Huser Hempty.
  set (old := Contains (ToLower opt) "old").
  destruct (getters_ok w Hok Hn) as
    (lx & ly & lz & xmin & xmax & ymin & ymax & zmin & zmax &
     Hx & Hy & Hz & Exmin & Exmax & Eymin & Eymax & Gxmin & Gxmax & Gymin & Gymax & Gzmin & Gzmax).
  pose proof (book_fresh w old xmin xmax ymin ymax Hnone Huser Gxmax Gymax Gxmin Gymin) as Hbook.
  set (lim := limits (fMargin (this w)) xmin xmax ymin ymax) in *.
  set (wb := booked old lim w) in *.
  destruct (booked_fields old lim w)
    as (Bh & Bd & Bn & Bx & By & Bz & Bmin & Bmax & _ & _ & _ & Bha & Bhd & _).
  cbv zeta in *. fold wb in Bh, Bd, Bn, Bx, By, Bz, Bmin, Bmax, Bha, Bhd.
  destruct (z_getters_frame w wb zmin zmax Bn Bz Gzmin Gzmax) as [Gzmin' Gzmax'].
  pose proof (GetHistogram_empty_result (brk w) _ zmin zmax wb Bh Bha Gzmin' Gzmax') as Hrun.
  set (h := set_hMaximum _ (set_hMinimum _ _)) in Hrun.
  exists xmin, xmax, ymin, ymax, zmin, zmax, h, (booked_delaunay (this w) old),
         (with_hist (brk w) h wb).
  split.
  { unfold bounding_box. rewrite Hx, Hy, Exmin, Exmax, Eymin, Eymax. reflexivity. }
  split; [exact Gzmin|]. split; [exact Gzmax|].
  split.
  { unfold GetHistogram. unfold bind at 1, self at 1. cmp_lia. cbv zeta.
    rewrite Hempty. fold old. unfold bind at 1.
    assert (Hc : GetHistogram_cached true old w = Some (false, w)).
    { unfold GetHistogram_cached, bind, self. rewrite Hnone. reflexivity. }
    rewrite Hc. unfold bind at 1. rewrite Hbook. exact Hrun. }
  destruct (with_hist_lookup (brk w) h wb) as [Hl Ht].
  split; [rewrite Ht; exact Bh|]. split; [exact Hl|].
  assert (Hzl : z_limits (this wb) zmin zmax = z_limits (this w) zmin zmax).
  { unfold z_limits. rewrite Bmin, Bmax. reflexivity. }
  split; [reflexivity|].
  split; [unfold h, lim; destruct (limits _ _ _ _ _) as [[[? ?] ?] ?]; reflexivity|].
  split.
  { unfold h. rewrite Hzl. destruct (z_limits (this w) zmin zmax).
    unfold booked_hist. destruct lim as [[[? ?] ?] ?]. reflexivity. }
  split; [rewrite Ht; exact Bd|].
  split.
  { unfold with_hist. cbn [heap]. rewrite lookup_insert_ne by lia. exact Bhd. }
  split; reflexivity.
Qed.

(** ** [GetHistogram] as a total function *)

Lemma discarded_fields (w : World) :
  cache_ok w ->
  let wd := discarded w in
  fHistogram (this wd) = None /\ fDelaunay (this wd) = None /\
  fNpoints (this wd) = fNpoints (this w) /\
  fX (this wd) = fX (this w) /\ fY (this wd) = fY (this w) /\ fZ (this wd) = fZ (this w) /\
  fMinimum (this wd) = fMinimum (this w) /\ fMaximum (this wd) = fMaximum (this w) /\
  fUserHisto (this wd) = fUserHisto (this w) /\
  brk wd = brk w /\ out wd = out w.
Proof.
  intros Hc. cbv zeta. unfold discarded. cbn [this brk out].
  split; [apply dropped_fHistogram|].
  split; [apply dropped_fDelaunay; apply cache_ok_fDelaunay; exact Hc|].
  unfold dropped. destruct (fHistogram (this w)); destruct (this w); repeat split.
Qed.

(** The path of [GetHistogram] that builds the histogram, in terms of the
    world it leaves. *)
Lemma GetHistogram_builds (w : World) (opt : string) :
  1 <= fNpoints (this w) -> points_ok (this w) -> fUserHisto (this w) = false ->
  Contains (ToLower opt) "empty" = false ->
  rebuilds (Contains (ToLower opt) "old") w ->
  exists lim h w',
    GetHistogram opt w = Some (Some (brk w), w') /\
    this w' = this (booked (Contains (ToLower opt) "old") lim (discarded w)) /\
    heap w' !! brk w = Some (ObjTH2D h).
Proof.
  intros Hn Hok Huser Hempty Hre.
  set (old := Contains (ToLower opt) "old") in *.
  pose proof (cached_rebuilds w old Huser Hre) as Hcached.
  set (wd := discarded w) in *.
  assert (Hd_n : fNpoints (this wd) = fNpoints (this w)) by apply dropped_fNpoints.
  assert (Hd_x : fX (this wd) = fX (this w)) by apply dropped_fX.
  assert (Hd_y : fY (this wd) = fY (this w)) by apply dropped_fY.
  assert (Hd_z : fZ (this wd) = fZ (this w)) by apply dropped_fZ.
  assert (Hd_h : fHistogram (this wd) = None) by apply dropped_fHistogram.
  assert (Hd_u : fUserHisto (this wd) = false).
  { unfold wd, discarded. cbn [this]. rewrite dropped_fUserHisto. exact Huser. }
  assert (Hd_ok : points_ok (this wd)).
  { unfold points_ok. rewrite Hd_n, Hd_x, Hd_y, Hd_z. exact Hok. }
  destruct (getters_ok wd Hd_ok) as
    (lx & ly & lz & xmin & xmax & ymin & ymax & zmin & zmax &
     Hx & Hy & Hz & Exmin & Exmax & Eymin & Eymax & Gxmin & Gxmax & Gymin & Gymax & _);
    [lia|].
  pose proof (book_fresh wd old xmin xmax ymin ymax Hd_h Hd_u Gxmax Gymax Gxmin Gymin) as Hbook.
  set (lim := limits (fMargin (this wd)) xmin xmax ymin ymax) in *.
  set (wb := booked old lim wd) in *.
  pose proof (booked_filling old lim wd) as Hfill. fold wb in Hfill.
  destruct (booked_fields old lim wd) as (Bh & Bd & Bn & Bx & By & Bz & _). cbv zeta in *.
  fold wb in Bh, Bd, Bn, Bx, By, Bz.
  assert (Hb_ok : points_ok (this wb)).
  { unfold points_ok. rewrite Bn, Bx, By, Bz. exact Hd_ok. }
  destruct (GetHistogram_fill_spec (this wb) (brk wd) (S (brk wd)) lim old
              (if old then fMaxIter (this wd) else 100000) (fZout (this wd)) [] wb)
    as (w' & Hrun & Hfill'); try assumption; [lia|].
  destruct Hfill' as (Hthis' & _ & (h & Hha & _) & _).
  exists lim, h, w'.
  split.
  { unfold GetHistogram. unfold bind at 1, self at 1. cmp_lia.
    cbv zeta. rewrite Hempty. fold old. unfold bind at 1. rewrite Hcached.
    unfold bind at 1. rewrite Hbook. exact Hrun. }
  split; [exact Hthis'|]. exact Hha.
Qed.

(** ** [GetHistogram] under any option *)

Lemma hist_update_run (a : addr) (h : TH2D) (f : TH2D -> TH2D) (w : World) :
  heap w !! a = Some (ObjTH2D h) ->
  hist_update a f w = Some (tt, with_hist a (f h) w).
Proof.
  intros Hh. unfold hist_update, hist_at, poke, bind. rewrite Hh. reflexivity.
Qed.

(** The booking step on a histogram that is kept: only its axis limits
    and two of its flags are set again. *)
Lemma book_existing (w : World) (oldInterp : bool) (a : addr) (h : TH2D)
    (xmin xmax ymin ymax : Double_t) :
  fHistogram (this w) = Some a -> heap w !! a = Some (ObjTH2D h) ->
  fUserHisto (this w) = false ->
  GetXmaxE w = Some (xmax, w) -> GetYmaxE w = Some (ymax, w) ->
  GetXminE w = Some (xmin, w) -> GetYminE w = Some (ymin, w) ->
  exists h',
    GetHistogram_book oldInterp w =
      Some (limits (fMargin (this w)) xmin xmax ymin ymax, with_hist a h' w).
Proof.
  intros Ha Hh Huser Hxmax Hymax Hxmin Hymin.
  unfold GetHistogram_book. unfold bind at 1, self at 1. rewrite Huser. cbn [negb].
  unfold bind at 1. rewrite Hxmax. unfold bind at 1. rewrite Hymax.
  unfold bind at 1. rewrite Hxmin. unfold bind at 1. rewrite Hymin.
  rewrite Ha. cbv zeta.
  set (hx := widen _ _). set (hy := widen _ _).
  unfold bind at 1. unfold bind at 1. unfold bind at 1.
  rewrite (hist_update_run a h _ w Hh).
  match goal with |- context [with_hist a ?h1 w] =>
    destruct (with_hist_lookup a h1 w) as [Hl1 Ht1];
    rewrite (hist_update_run a h1 _ _ Hl1); rewrite with_hist_twice
  end.
  match goal with |- context [with_hist a ?h2 w] =>
    destruct (with_hist_lookup a h2 w) as [Hl2 Ht2];
    rewrite (hist_update_at a h2 _ _ (eq_trans (f_equal fHistogram Ht2) Ha) Hl2);
    rewrite with_hist_twice
  end.
  unfold bind at 1.
  match goal with |- context [with_hist a ?h3 w] =>
    destruct (with_hist_lookup a h3 w) as [Hl3 Ht3];
    rewrite (hist_update_at a h3 _ _ (eq_trans (f_equal fHistogram Ht3) Ha) Hl3);
    rewrite with_hist_twice
  end.
  eexists. unfold ret, limits, axis_range. fold hx hy. reflexivity.
Qed.

(** What the option "empty" leaves of a graph without user histogram. *)
Lemma GetHistogram_empty_live (w : World) (opt : string) :
  cache_ok w -> points_ok (this w) -> 1 <= fNpoints (this w) ->
  fUserHisto (this w) = false -> Contains (ToLower opt) "empty" = true ->
  exists a h w',
    GetHistogram opt w = Some (Some a, w') /\
    fHistogram (this w') = Some a /\ heap w' !! a = Some (ObjTH2D h) /\
    fNpoints (this w') = fNpoints (this w) /\
    fX (this w') = fX (this w) /\ fY (this w') = fY (this w) /\ fZ (this w') = fZ (this w) /\
    fMinimum (this w') = fMinimum (this w) /\ fMaximum (this w') = fMaximum (this w) /\
    fUserHisto (this w') = false.
Proof.
  intros Hc Hok Hn Huser Hempty.
  set (old := Contains (ToLower opt) "old").
  (* on a graph without histogram *)
  assert (Hfresh : forall v : World,
    points_ok (this v) -> 1 <= fNpoints (this v) ->
    fHistogram (this v) = None -> fUserHisto (this v) = false ->
    exists lim h,
      (lim0 <- GetHistogram_book old ;; GetHistogram_empty) v =
        Some (Some (brk v), with_hist (brk v) h (booked old lim v))).
  { intros v Vok Vn Vnone Vuser.
    destruct (getters_ok v Vok Vn) as
      (lx & ly & lz & xmin & xmax & ymin & ymax & zmin & zmax &
       Hx & Hy & Hz & _ & _ & _ & _ & Gxmin & Gxmax & Gymin & Gymax & Gzmin & Gzmax).
    pose proof (book_fresh v old xmin xmax ymin ymax Vnone Vuser Gxmax Gymax Gxmin Gymin)
      as Hbook.
    set (lim := limits (fMargin (this v)) xmin xmax ymin ymax) in *.
    set (vb := booked old lim v) in *.
    destruct (booked_fields old lim v)
      as (Bh & Bd & Bn & Bx & By & Bz & Bmin & Bmax & _ & _ & _ & Bha & Bhd & _).
    cbv zeta in *. fold vb in Bh, Bd, Bn, Bx, By, Bz, Bmin, Bmax, Bha, Bhd.
    destruct (z_getters_frame v vb zmin zmax Bn Bz Gzmin Gzmax) as [Gzmin' Gzmax'].
    pose proof (GetHistogram_empty_result (brk v) _ zmin zmax vb Bh Bha Gzmin' Gzmax') as Hrun.
    eexists lim, _. unfold bind at 1. rewrite Hbook. exact Hrun. }
  assert (Hunfold : GetHistogram opt w =
    (cached <- GetHistogram_cached true old ;;
     if cached then g <- self ;; ret (fHistogram g)
     else lim0 <- GetHistogram_book old ;; GetHistogram_empty) w).
  { unfold GetHistogram. unfold bind at 1, self at 1. cmp_lia. cbv zeta.
    rewrite Hempty. fold old. reflexivity. }
  rewrite Hunfold. clear Hunfold.
  destruct (fHistogram (this w)) as [a|] eqn:Hh.
  2: { (* no histogram *)
    destruct (Hfresh w Hok Hn Hh Huser) as (lim & h & Hrun).
    assert (Hcd : GetHistogram_cached true old w = Some (false, w)).
    { unfold GetHistogram_cached, bind, self. rewrite Hh. reflexivity. }
    unfold bind at 1. rewrite Hcd. rewrite Hrun.
    destruct (booked_fields old lim w)
      as (Bh & _ & Bn & Bx & By & Bz & Bmin & Bmax & _ & Bu & _). cbv zeta in *.
    destruct (with_hist_lookup (brk w) h (booked old lim w)) as [Hl Ht].
    exists (brk w), h, (with_hist (brk w) h (booked old lim w)).
    split; [reflexivity|]. rewrite Ht. split; [exact Bh|]. split; [exact Hl|].
    repeat split; congruence. }
  pose proof Hc as Hc'. unfold cache_ok in Hc'. rewrite Hh in Hc'. destruct Hc' as [h Hl].
  destruct (hFills h) as [|f F] eqn:HF.
  { (* a histogram without entries is kept *)
    assert (Hcd : GetHistogram_cached true old w = Some (false, w)).
    { unfold GetHistogram_cached. unfold bind at 1, self at 1. rewrite Hh.
      unfold bind at 1, hist_at. rewrite Hl. unfold GetEntries. rewrite HF.
      cbn [length negb andb]. reflexivity. }
    unfold bind at 1. rewrite Hcd.
    destruct (getters_ok w Hok Hn) as
      (lx & ly & lz & xmin & xmax & ymin & ymax & zmin & zmax &
       Hx & Hy & Hz & _ & _ & _ & _ & Gxmin & Gxmax & Gymin & Gymax & Gzmin & Gzmax).
    destruct (book_existing w old a h xmin xmax ymin ymax Hh Hl Huser Gxmax Gymax Gxmin Gymin)
      as (h' & Hbook).
    unfold bind at 1. rewrite Hbook.
    destruct (with_hist_lookup a h' w) as [Hl' Ht'].
    destruct (z_getters_frame w (with_hist a h' w) zmin zmax
                (f_equal fNpoints Ht') (f_equal fZ Ht') Gzmin Gzmax) as [Gzmin' Gzmax'].
    rewrite (GetHistogram_empty_result a h' zmin zmax _
               (eq_trans (f_equal fHistogram Ht') Hh) Hl' Gzmin' Gzmax').
    rewrite with_hist_twice.
    match goal with |- context [with_hist a ?h2 w] =>
      destruct (with_hist_lookup a h2 w) as [Hl2 Ht2]; exists a, h2, (with_hist a h2 w)
    end.
    split; [reflexivity|]. rewrite Ht2. split; [exact Hh|]. split; [exact Hl2|].
    repeat split. exact Huser. }
  destruct (Bool.bool_dec (kOldInterpolation (this w)) old) as [Hk|Hk].
  { (* made by the engine asked for: handed out as it is *)
    exists a, h, w. split; [|auto 10].
    unfold bind at 1. unfold GetHistogram_cached. unfold bind at 1, self at 1.
    rewrite Hh. unfold bind at 1, hist_at. rewrite Hl.
    unfold GetEntries. rewrite HF, Hk. cbn [length negb andb orb].
    replace (Z.of_nat (S (length F)) =? 0) with false by (symmetry; apply Z.eqb_neq; lia).
    destruct old; cbn [negb andb orb]; unfold ret, bind, self; rewrite Hh; reflexivity. }
  (* made by the other engine: deleted and booked again *)
  assert (Hdel : delete_cached a w = Some (tt, discarded w)).
  { rewrite <- (discard_histogram_spec w Hc).
    unfold discard_histogram, delete_cached. unfold bind, self. cbv beta iota.
    rewrite Hh. reflexivity. }
  assert (Hcd : GetHistogram_cached true old w = Some (false, discarded w)).
  { unfold GetHistogram_cached. unfold bind at 1, self at 1. rewrite Hh.
    unfold bind at 1, hist_at. rewrite Hl. unfold GetEntries. rewrite HF.
    cbn [length negb andb].
    replace (Z.of_nat (S (length F)) =? 0) with false by (symmetry; apply Z.eqb_neq; lia).
    destruct (kOldInterpolation (this w)), old; try congruence; cbn [negb andb orb];
      unfold bind; rewrite Hdel; reflexivity. }
  unfold bind at 1. rewrite Hcd.
  destruct (discarded_fields w Hc) as (Dh & _ & Dn & Dx & Dy & Dz & Dmin & Dmax & Du & Db & _).
  cbv zeta in *.
  assert (Dok : points_ok (this (discarded w))).
  { unfold points_ok. rewrite Dn, Dx, Dy, Dz. exact Hok. }
  destruct (Hfresh (discarded w) Dok ltac:(lia) Dh ltac:(congruence)) as (lim & h1 & Hrun).
  rewrite Hrun.
  destruct (booked_fields old lim (discarded w))
    as (Bh & _ & Bn & Bx & By & Bz & Bmin & Bmax & _ & Bu & _). cbv zeta in *.
  destruct (with_hist_lookup (brk (discarded w)) h1 (booked old lim (discarded w))) as [Hl1 Ht1].
  exists (brk (discarded w)), h1, (with_hist (brk (discarded w)) h1 (booked old lim (discarded w))).
  split; [reflexivity|]. rewrite Ht1. split; [exact Bh|]. split; [exact Hl1|].
  repeat split; congruence.
Qed.

(** [GetHistogram] on a well-formed graph without user histogram, under
    any option: it returns a live histogram and leaves the points, the
    stored extrema and the ownership flag alone. *)
Lemma GetHistogram_live (w : World) (opt : string) :
  cache_ok w -> points_ok (this w) -> fUserHisto (this w) = false ->
  exists a h w',
    GetHistogram opt w = Some (Some a, w') /\
    fHistogram (this w') = Some a /\ heap w' !! a = Some (ObjTH2D h) /\
    fNpoints (this w') = fNpoints (this w) /\
    fX (this w') = fX (this w) /\ fY (this w') = fY (this w) /\ fZ (this w') = fZ (this w) /\
    fMinimum (this w') = fMinimum (this w) /\ fMaximum (this w') = fMaximum (this w) /\
    fUserHisto (this w') = false.
Proof.
  intros Hc Hok Huser.
  destruct (Z.le_gt_cases (fNpoints (this w)) 0) as [Hn|Hn].
  - (* no points *)
    destruct (fHistogram (this w)) as [a|] eqn:Hh.
    + unfold cache_ok in Hc. rewrite Hh in Hc. destruct Hc as [h Hl].
      exists a, h, w. split; [|auto 10].
      unfold GetHistogram. unfold bind at 1, self at 1. cmp_lia.
      rewrite Hh. cbn [is_null]. unfold bind, ret, self. rewrite Hh. reflexivity.
    + destruct w as [g hp b o]. open_graph g. cbn in Hh, Huser, Hn. subst hh.
      eexists b, _, _. split.
      { unfold GetHistogram. unfold bind at 1, self at 1. cbn [this fNpoints]. cmp_lia.
        cbn [fHistogram is_null].
        eval_fields. rewrite lookup_insert_eq. rewrite insert_insert_eq. reflexivity. }
      cbn. rewrite lookup_insert_eq. auto 10.
  - (* points *)
    destruct (Contains (ToLower opt) "empty") eqn:Hempty.
    { apply GetHistogram_empty_live; try assumption. lia. }
    set (old := Contains (ToLower opt) "old").
    assert (Hbuild : rebuilds old w ->
      exists a h w',
        GetHistogram opt w = Some (Some a, w') /\
        fHistogram (this w') = Some a /\ heap w' !! a = Some (ObjTH2D h) /\
        fNpoints (this w') = fNpoints (this w) /\
        fX (this w') = fX (this w) /\ fY (this w') = fY (this w) /\
        fZ (this w') = fZ (this w) /\
        fMinimum (this w') = fMinimum (this w) /\ fMaximum (this w') = fMaximum (this w) /\
        fUserHisto (this w') = false).
    { intros Hre.
      destruct (GetHistogram_builds w opt ltac:(lia) Hok Huser Hempty Hre)
        as (lim & h & w' & Hrun & Hthis & Hl).
      fold old in Hthis.
      destruct (discarded_fields w Hc) as (_ & _ & Dn & Dx & Dy & Dz & Dmin & Dmax & Du & Db & _).
      destruct (booked_fields old lim (discarded w))
        as (Bh & _ & Bn & Bx & By & Bz & Bmin & Bmax & _ & Bu & _).
      cbv zeta in *.
      exists (brk w), h, w'. split; [exact Hrun|]. rewrite Hthis.
      split; [rewrite Bh, Db; reflexivity|]. split; [exact Hl|].
      repeat split; congruence. }
    destruct (fHistogram (this w)) as [a|] eqn:Hh.
    2: { apply Hbuild. unfold rebuilds. rewrite Hh. exact I. }
    pose proof Hc as Hc'. unfold cache_ok in Hc'. rewrite Hh in Hc'. destruct Hc' as [h Hl].
    destruct (hFills h) as [|f F] eqn:HF.
    { apply Hbuild. unfold rebuilds. rewrite Hh. exists h. auto. }
    destruct (Bool.bool_dec (kOldInterpolation (this w)) old) as [Hk|Hk].
    2: { apply Hbuild. unfold rebuilds. rewrite Hh. exists h. auto. }
    exists a, h, w. split; [|auto 10].
    unfold GetHistogram. unfold bind at 1, self at 1. cmp_lia. cbv zeta.
    rewrite Hempty. fold old.
    unfold bind at 1. unfold GetHistogram_cached. unfold bind at 1, self at 1.
    rewrite Hh. unfold bind at 1, hist_at. rewrite Hl.
    unfold GetEntries. rewrite HF, Hk. cbn [length negb andb orb].
    replace (Z.of_nat (S (length F)) =? 0) with false by (symmetry; apply Z.eqb_neq; lia).
    destruct old; cbn [negb andb orb]; unfold ret, bind, self; rewrite Hh; reflexivity.
Qed.

(** X22. [GetHistogram] is memoized.  On a graph with points, a histogram
    that has entries and was made by the engine the option asks for is
    returned as it is, whatever else the option says, "empty" included:
    nothing is deleted, booked or interpolated again. *)
Theorem GetHistogram_memoized (w : World) (opt : string) (a : addr) (h : TH2D) :
  1 <= fNpoints (this w) ->
  fHistogram (this w) = Some a -> heap w !! a = Some (ObjTH2D h) -> hFills h <> [] ->
  kOldInterpolation (this w) = Contains (ToLower opt) "old" ->
  GetHistogram opt w = Some (Some a, w).
Proof.
  intros Hn Hh Hl HF Hk.
  unfold GetHistogram. unfold bind at 1, self at 1. cmp_lia. cbv zeta.
  unfold bind at 1. unfold GetHistogram_cached. unfold bind at 1, self at 1.
  rewrite Hh. unfold bind at 1, hist_at. rewrite Hl.
  unfold GetEntries. destruct (hFills h) as [|f F]; [contradiction|]. cbn [length].
  replace (Z.of_nat (S (length F)) =? 0) with false by (symmetry; apply Z.eqb_neq; lia).
  rewrite andb_false_r. rewrite Hk.
  destruct (Contains (ToLower opt) "old"); cbn [negb andb orb];
    unfold ret, bind, self; rewrite Hh; reflexivity.
Qed.

(** X23. [GetHistogram] never fails and never returns a null pointer on a
    well-formed graph that owns its histogram, whatever the option: it
    returns a live histogram, which the graph points to afterwards, building
    or rebuilding it when it has to, and leaves the points, the stored
    extrema and the ownership flag as they were. *)
Theorem GetHistogram_total (w : World) (opt : string) :
  cache_ok w -> points_ok (this w) -> fUserHisto (this w) = false ->
  exists a h w',
    GetHistogram opt w = Some (Some a, w') /\
    fHistogram (this w') = Some a /\ heap w' !! a = Some (ObjTH2D h) /\
    samples_of (this w') = samples_of (this w) /\
    fMinimum (this w') = fMinimum (this w) /\ fMaximum (this w') = fMaximum (this w) /\
    fUserHisto (this w') = false.
Proof.
  intros Hc Hok Huser.
  destruct (GetHistogram_live w opt Hc Hok Huser)
    as (a & h & w' & Hrun & Hh & Hl & Hn & Hx & Hy & Hz & Hmin & Hmax & Hu).
  exists a, h, w'. repeat (split; [assumption|]).
  split; [apply samples_of_ext; assumption|]. auto.
Qed.

Lemma set_extremum_world (m : Double_t) (w : World) :
  let wmax := with_this (set_fMaximum m (this w)) w in
  let wmin := with_this (set_fMinimum m (this w)) w in
  (cache_ok w -> cache_ok wmax /\ cache_ok wmin) /\
  (points_ok (this w) -> points_ok (this wmax) /\ points_ok (this wmin)) /\
  fUserHisto (this wmax) = fUserHisto (this w) /\
  fUserHisto (this wmin) = fUserHisto (this w) /\
  samples_of (this wmax) = samples_of (this w) /\
  samples_of (this wmin) = samples_of (this w) /\
  fMaximum (this wmax) = m /\ fMinimum (this wmax) = fMinimum (this w) /\
  fMinimum (this wmin) = m /\ fMaximum (this wmin) = fMaximum (this w).
Proof.
  destruct w as [g hp b o]. open_graph g. cbv zeta. unfold cache_ok, points_ok, samples_of.
  cbn. auto 20.
Qed.

(** X24. [SetMaximum(m)] and [SetMinimum(m)] on a well-formed graph that
    owns its histogram.  Each stores [m] in the graph, then fetches the
    histogram with the default option, which builds it by interpolation if
    it has to, and stores [m] on the histogram as well.  So the call always
    returns, the graph has a live histogram afterwards, both hold [m], and
    the samples and the other stored extremum are unchanged. *)
Theorem stored_extrema_spec (w : World) (m : Double_t) :
  cache_ok w -> points_ok (this w) -> fUserHisto (this w) = false ->
  (exists a h w', SetMaximum m w = Some (tt, w') /\
     fMaximum (this w') = m /\ fMinimum (this w') = fMinimum (this w) /\
     fHistogram (this w') = Some a /\ heap w' !! a = Some (ObjTH2D h) /\
     hMaximum h = m /\ samples_of (this w') = samples_of (this w)) /\
  (exists a h w', SetMinimum m w = Some (tt, w') /\
     fMinimum (this w') = m /\ fMaximum (this w') = fMaximum (this w) /\
     fHistogram (this w') = Some a /\ heap w' !! a = Some (ObjTH2D h) /\
     hMinimum h = m /\ samples_of (this w') = samples_of (this w)).
Proof.
  intros Hc Hok Huser.
  destruct (set_extremum_world m w)
    as (Wc & Wok & Umax & Umin & Smax & Smin & Mmax & Mmin & Nmin & Nmax). cbv zeta in *.
  destruct (Wc Hc) as [Hc1 Hc2]. destruct (Wok Hok) as [Hok1 Hok2].
  split.
  - destruct (GetHistogram_live _ EmptyString Hc1 Hok1 ltac:(congruence))
      as (a & h & w1 & Hrun & Hh & Hl & Hn & Hx & Hy & Hz & Hmin & Hmax & _).
    exists a, (set_hMaximum m h), (with_hist a (set_hMaximum m h) w1).
    destruct (with_hist_lookup a (set_hMaximum m h) w1) as [Hl' Ht].
    split.
    { unfold SetMaximum. unfold bind at 1, update at 1. unfold bind at 1.
      fold (with_this (set_fMaximum m (this w)) w). rewrite Hrun.
      unfold hist_update, bind, hist_at, poke. rewrite Hl. reflexivity. }
    rewrite Ht. split; [congruence|]. split; [congruence|]. split; [exact Hh|].
    split; [exact Hl'|]. split; [destruct h; reflexivity|].
    rewrite <- Smax. apply samples_of_ext; assumption.
  - destruct (GetHistogram_live _ EmptyString Hc2 Hok2 ltac:(congruence))
      as (a & h & w1 & Hrun & Hh & Hl & Hn & Hx & Hy & Hz & Hmin & Hmax & _).
    exists a, (set_hMinimum m h), (with_hist a (set_hMinimum m h) w1).
    destruct (with_hist_lookup a (set_hMinimum m h) w1) as [Hl' Ht].
    split.
    { unfold SetMinimum. unfold bind at 1, update at 1. unfold bind at 1.
      fold (with_this (set_fMinimum m (this w)) w). rewrite Hrun.
      unfold hist_update, bind, hist_at, poke. rewrite Hl. reflexivity. }
    rewrite Ht. split; [congruence|]. split; [congruence|]. split; [exact Hh|].
    split; [exact Hl'|]. split; [destruct h; reflexivity|].
    rewrite <- Smin. apply samples_of_ext; assumption.
Qed.

(** ** Interpolation on a graph without cache *)

(** The world that [GetHistogram("empty")] leaves on such a graph. *)
Lemma GetHistogram_empty_run (w : World) :
  points_ok (this w) -> 1 <= fNpoints (this w) ->
  fHistogram (this w) = None -> fUserHisto (this w) = false ->
  exists lim h,
    GetHistogram "empty" w =
      Some (Some (brk w), with_hist (brk w) h (booked false lim w)).
Proof.
  intros Hok Hn Hnone Huser.
  destruct (getters_ok w Hok Hn) as
    (lx & ly & lz & xmin & xmax & ymin & ymax & zmin & zmax &
     Hx & Hy & Hz & Exmin & Exmax & Eymin & Eymax & Gxmin & Gxmax & Gymin & Gymax & Gzmin & Gzmax).
  pose proof (book_fresh w false xmin xmax ymin ymax Hnone Huser Gxmax Gymax Gxmin Gymin) as Hbook.
  set (lim := limits (fMargin (this w)) xmin xmax ymin ymax) in *.
  set (wb := booked false lim w) in *.
  destruct (booked_fields false lim w)
    as (Bh & Bd & Bn & Bx & By & Bz & Bmin & Bmax & _ & _ & _ & Bha & Bhd & _).
  cbv zeta in *. fold wb in Bh, Bd, Bn, Bx, By, Bz, Bmin, Bmax, Bha, Bhd.
  destruct (z_getters_frame w wb zmin zmax Bn Bz Gzmin Gzmax) as [Gzmin' Gzmax'].
  pose proof (GetHistogram_empty_result (brk w) _ zmin zmax wb Bh Bha Gzmin' Gzmax') as Hrun.
  eexists lim, _.
  unfold GetHistogram. unfold bind at 1, self at 1. cmp_lia. cbv zeta.
  change (Contains (ToLower "empty") "empty") with true.
  change (Contains (ToLower "empty") "old") with false.
  unfold bind at 1.
  assert (Hc : GetHistogram_cached true false w = Some (false, w)).
  { unfold GetHistogram_cached, bind, self. rewrite Hnone. reflexivity. }
  rewrite Hc. unfold bind at 1. rewrite Hbook. exact Hrun.
Qed.

(** X25. [Interpolate] on a well-formed graph with points that has no
    histogram (a new graph, or one whose cache a mutator has dropped) and no
    user histogram.  It books the histogram without filling it, creates the
    interpolator of the new engine with the outside value [fZout], and
    returns that engine's value at (x, y) on the samples the graph holds at
    this moment.  [fMaxIter] plays no part: [CreateInterpolator] passes it
    to the old engine only. *)
Theorem Interpolate_fresh (w : World) (x y : Double_t) :
  points_ok (this w) -> 1 <= fNpoints (this w) ->
  fHistogram (this w) = None -> fUserHisto (this w) = false ->
  exists w',
    Interpolate x y w =
      Some (interpolate kDelaunay2D (samples_of (this w)) 100000 (fZout (this w)) x y, w') /\
    samples_of (this w') = samples_of (this w) /\
    fHistogram (this w') = Some (brk w) /\ fDelaunay (this w') = Some (S (brk w)).
Proof.
  intros Hok Hn Hnone Huser.
  destruct (GetHistogram_empty_run w Hok Hn Hnone Huser) as (lim & h & Hrun).
  set (wb := booked false lim w) in *.
  set (w1 := with_hist (brk w) h wb) in *.
  destruct (booked_fields false lim w)
    as (Bh & Bd & Bn & Bx & By & Bz & _ & _ & _ & _ & _ & _ & Bhd & _).
  cbv zeta in *. fold wb in Bh, Bd, Bn, Bx, By, Bz, Bhd.
  destruct (with_hist_lookup (brk w) h wb) as [_ Ht]. fold w1 in Ht.
  assert (Hd1 : heap w1 !! S (brk w) = Some (ObjDelaunay (booked_delaunay (this w) false))).
  { unfold w1, with_hist. cbn [heap]. rewrite lookup_insert_ne by lia. exact Bhd. }
  assert (Hda : delaunay_at (S (brk w)) w1 = Some (booked_delaunay (this w) false, w1)).
  { unfold delaunay_at. unfold addr in *. rewrite Hd1. reflexivity. }
  assert (Hs1 : samples_of (this w1) = samples_of (this w)).
  { rewrite Ht. apply samples_of_ext; assumption. }
  assert (Hok1 : points_ok (this w1)).
  { unfold points_ok. rewrite Ht, Bn, Bx, By, Bz. exact Hok. }
  eexists. split.
  { unfold Interpolate. unfold bind at 1, self at 1. cmp_lia. rewrite Hnone. cbn [is_null].
    unfold bind at 1. unfold bind at 1. rewrite Hrun. unfold ret at 1.
    unfold bind at 1. unfold find_interpolator. unfold bind at 1, self at 1.
    rewrite Ht, Bd. cbn [is_null]. unfold ret at 1.
    unfold bind at 1, self at 1. rewrite Ht, Bd.
    unfold bind at 1. rewrite Hda.
    cbn [booked_delaunay engine_for dEngine].
    unfold ComputeZ. unfold bind at 1. rewrite Hda.
    cbn [booked_delaunay engine_for dEngine dSnapshot dMaxIter dZout].
    unfold bind at 1. rewrite (graph_samples_spec w1 Hok1).
    unfold bind, poke, ret. rewrite Hs1. reflexivity. }
  cbn [this]. rewrite Ht. split; [rewrite <- Ht; exact Hs1|]. auto.
Qed.

(** ** A histogram supplied by the user *)

(** X26. [SetHistogram(h, option)] for a live histogram without functions,
    when the allocation pointer is free.  The graph marks the histogram as
    the user's, points to it, and takes over its numbers of bins as [fNpx]
    and [fNpy] as they are, without the clamp to [4, 500] of [SetNpx] and
    [SetNpy].  It then creates an interpolator: the old engine with
    [fMaxIter] when the option contains "old", the new one otherwise, with
    the outside value [fZout] and no triangulation yet, and enters it in
    the histogram's list of functions.  The samples are unchanged.  A null
    histogram is dereferenced. *)
Theorem SetHistogram_spec (w : World) (a : addr) (hu : TH2D) (opt : string) :
  heap w !! a = Some (ObjTH2D hu) -> hFunctions hu = [] -> heap w !! brk w = None ->
  let old := Contains (ToLower opt) "old" in
  (exists w', SetHistogram (Some a) opt w = Some (tt, w') /\
     fUserHisto (this w') = true /\ fHistogram (this w') = Some a /\
     fNpx (this w') = hNbinsX hu /\ fNpy (this w') = hNbinsY hu /\
     fDelaunay (this w') = Some (brk w) /\ kOldInterpolation (this w') = old /\
     heap w' !! brk w = Some (ObjDelaunay (booked_delaunay (this w) old)) /\
     heap w' !! a = Some (ObjTH2D (set_hFunctions [brk w] hu)) /\
     samples_of (this w') = samples_of (this w)) /\
  SetHistogram None opt w = None.
Proof.
  intros Hl Hf Hfree. cbv zeta.
  assert (Hne : a <> brk w) by (intros ->; congruence).
  split; [|reflexivity].
  destruct w as [g hp b o]. open_graph g. cbn [heap brk this] in *.
  unfold SetHistogram. cbv zeta. unfold CreateInterpolator, booked_delaunay, engine_for, samples_of.
  destruct hu as [nx x0 x1 ny y0 y1 F mn' mx' ns sw fs pt]. cbn in Hf. subst fs.
  destruct (Contains (ToLower opt) "old").
  - repeat (heap_step; try rewrite Hl).
    eexists. split; [reflexivity|]. cbn.
    rewrite lookup_insert_eq, lookup_insert_ne by congruence.
    rewrite lookup_insert_eq. repeat split.
  - repeat (heap_step; try rewrite Hl).
    eexists. split; [reflexivity|]. cbn.
    rewrite lookup_insert_eq, lookup_insert_ne by congruence.
    rewrite lookup_insert_eq. repeat split.
Qed.

(** X27. [GetHistogram] on a histogram of the user.  When the graph has
    points, the user's histogram has no entries yet and the interpolator is
    of the engine the option asks for, [GetHistogram] without "empty" keeps
    the histogram and its axes as the user made them and fills it at the
    centres of [fNpx] x [fNpy] cells laid over the histogram's own x and y
    ranges, not over the bounding box of the samples, with the
    interpolator's value there. *)
Theorem GetHistogram_user_histogram (w : World) (opt : string) (a d : addr)
    (hu : TH2D) (D : TGraphDelaunay) :
  1 <= fNpoints (this w) -> points_ok (this w) -> fUserHisto (this w) = true ->
  fHistogram (this w) = Some a -> fDelaunay (this w) = Some d -> a <> d ->
  heap w !! a = Some (ObjTH2D hu) -> hFills hu = [] ->
  heap w !! d = Some (ObjDelaunay D) ->
  dEngine D = engine_for (Contains (ToLower opt) "old") -> dSnapshot D = None ->
  Contains (ToLower opt) "empty" = false ->
  exists h w',
    GetHistogram opt w = Some (Some a, w') /\
    fHistogram (this w') = Some a /\ heap w' !! a = Some (ObjTH2D h) /\
    (hXmin h, hXmax h, hYmin h, hYmax h) = (hXmin hu, hXmax hu, hYmin hu, hYmax hu) /\
    hFills h =
      fills_of (dEngine D) (samples_of (this w)) (dMaxIter D) (dZout D)
               (cells (hXmin hu, hXmax hu, hYmin hu, hYmax hu)
                      (fNpx (this w)) (fNpy (this w))).
Proof.
  intros Hn Hok Huser Hh Hd Hne Hla HF Hld He Hs Hempty.
  set (old := Contains (ToLower opt) "old") in *.
  set (lim := (hXmin hu, hXmax hu, hYmin hu, hYmax hu)).
  destruct (GetHistogram_fill_spec (this w) a d lim old (dMaxIter D) (dZout D) [] w)
    as (w' & Hrun & Hfill); try assumption.
  { unfold filling. split; [reflexivity|]. split; [exact Hne|]. split.
    - exists hu. auto.
    - exists D. auto 10. }
  destruct Hfill as (Hthis & _ & (h & Hlh & HFh & Hlim) & _).
  exists h, w'. split.
  { assert (Hc : GetHistogram_cached false old w = Some (false, w)).
    { unfold GetHistogram_cached, bind, self, hist_at. rewrite Hh, Hla.
      unfold GetEntries. rewrite HF, Huser. reflexivity. }
    assert (Hb : GetHistogram_book old w = Some (lim, w)).
    { unfold GetHistogram_book, with_histogram, bind, self, hist_at.
      rewrite Huser. cbn [negb]. rewrite Hh, Hla. reflexivity. }
    unfold GetHistogram. unfold bind at 1, self at 1. cmp_lia. cbv zeta.
    rewrite Hempty. fold old. unfold bind at 1. rewrite Hc.
    unfold bind at 1. rewrite Hb. exact Hrun. }
  split; [rewrite Hthis; exact Hh|]. split; [exact Hlh|]. split; [exact Hlim|].
  rewrite HFh, app_nil_l, <- He. reflexivity.
Qed.

(** ** Assignment *)

(** The block that [Clear] and the assignment share: an owned histogram is
    deleted, a user histogram is kept. *)
Lemma owned_discard (w : World) :
  cache_ok w ->
  match fHistogram (this w) with
  | Some a => if negb (fUserHisto (this w)) then delete_cached a else ret tt
  | None => ret tt
  end w = Some (tt, if fUserHisto (this w) then w else discarded w).
Proof.
  intros Hc. destruct (fHistogram (this w)) as [a|] eqn:Hh.
  - destruct (fUserHisto (this w)); [reflexivity|]. cbn [negb].
    unfold delete_cached. unfold bind at 1.
    pose proof (discard_histogram_spec w Hc) as Hd.
    unfold discard_histogram in Hd. unfold bind at 1, self at 1 in Hd. rewrite Hh in Hd.
    exact Hd.
  - rewrite discarded_none by exact Hh. destruct (fUserHisto (this w)); reflexivity.
Qed.

(** Two graphs with the same number of points whose blocks agree on the
    points have the same samples. *)
Lemma samples_agree (g g' : TGraph2D) (lx ly lz lx' ly' lz' : list Double_t) :
  fX g = Some lx -> fY g = Some ly -> fZ g = Some lz ->
  fX g' = Some lx' -> fY g' = Some ly' -> fZ g' = Some lz' ->
  fNpoints g' = fNpoints g ->
  (forall i, (i < Z.to_nat (fNpoints g))%nat ->
     lx' !! i = lx !! i /\ ly' !! i = ly !! i /\ lz' !! i = lz !! i) ->
  samples_of g' = samples_of g.
Proof.
  intros Hx Hy Hz Hx' Hy' Hz' Hn Hagree. apply list_eq. intros i.
  rewrite (samples_lookup g' lx' ly' lz' i Hx' Hy' Hz'), (samples_lookup g lx ly lz i Hx Hy Hz).
  rewrite Hn. destruct (decide (i < Z.to_nat (fNpoints g))%nat) as [Hi|Hi]; [|reflexivity].
  destruct (Hagree i Hi) as (-> & -> & ->). reflexivity.
Qed.

Lemma samples_none (g : TGraph2D) : fNpoints g <= 0 -> samples_of g = [].
Proof.
  intros Hn. unfold samples_of. destruct (fX g), (fY g), (fZ g); try reflexivity.
  replace (Z.to_nat (fNpoints g)) with 0%nat by lia. reflexivity.
Qed.

Lemma assign_result (TH2D_copy : addr -> M addr) (w : World) (g : TGraph2D) :
  cache_ok w -> points_ok g -> fHistogram g = None \/ fUserHisto g = true ->
  exists w', assign TH2D_copy (Some g) w = Some (tt, w') /\
    samples_of (this w') = samples_of g /\
    fNpoints (this w') = fNpoints g /\ fSize (this w') = fNpoints g /\
    fNpx (this w') = fNpx g /\ fNpy (this w') = fNpy g /\
    fMaxIter (this w') = fMaxIter g /\
    fMinimum (this w') = fMinimum g /\ fMaximum (this w') = fMaximum g /\
    fMargin (this w') = fMargin g /\ fZout (this w') = fZout g /\
    fUserHisto (this w') = fUserHisto g /\
    (forall a, fHistogram g = Some a -> fHistogram (this w') = Some a).
Proof.
  intros Hc Hok Hhist. unfold assign.
  unfold bind at 1, self at 1. unfold bind at 1. rewrite (owned_discard w Hc).
  generalize (if fUserHisto (this w) then w else discarded w). clear w Hc.
  intros [me hp b o]. open_graph me.
  destruct g as [gnp gnpx gnpy gmi gsz gx gy gz gmn gmx gmg gzo gh gd gp gu gk].
  cbn [fHistogram fUserHisto] in Hhist.
  set (G := mkTGraph2D gnp gnpx gnpy gmi gsz gx gy gz gmn gmx gmg gzo gh gd gp gu gk) in *.
  destruct (Z.ltb_spec 0 gnp) as [Hn|Hn].
  - (* points to copy *)
    destruct (points_ok_arrays G Hok Hn) as (lx & ly & lz & Hx & Hy & Hz & Lx & Ly & Lz).
    cbn in Hx, Hy, Hz, Lx, Ly, Lz. subst gx gy gz.
    assert (Hloop : forall hist',
      exists lx' ly' lz',
        for_range 0 gnp (copy_point (Some lx) (Some ly) (Some lz))
          (mkWorld (mkTGraph2D gnp gnpx gnpy gmi gnp (new_array gnp) (new_array gnp)
                      (new_array gnp) gmn gmx gmg gzo hist' dd pp gu ko) hp b o) =
        Some (tt, mkWorld (mkTGraph2D gnp gnpx gnpy gmi gnp (Some lx') (Some ly') (Some lz')
                             gmn gmx gmg gzo hist' dd pp gu ko) hp b o) /\
        forall i, (i < Z.to_nat gnp)%nat ->
          lx' !! i = lx !! i /\ ly' !! i = ly !! i /\ lz' !! i = lz !! i).
    { intros hist'. unfold for_range, new_array. rewrite Z.sub_0_r.
      set (g0 := mkTGraph2D gnp gnpx gnpy gmi gnp None None None gmn gmx gmg gzo hist' dd pp gu ko).
      destruct (point_loop (copy_point (Some lx) (Some ly) (Some lz))
                  (fun i => match lx !! i with Some v => v | None => 0%float end)
                  (fun i => match ly !! i with Some v => v | None => 0%float end)
                  (fun i => match lz !! i with Some v => v | None => 0%float end)
                  g0 hp b o
                  (replicate (Z.to_nat gnp) indeterminate) (replicate (Z.to_nat gnp) indeterminate)
                  (replicate (Z.to_nat gnp) indeterminate) (Z.to_nat gnp))
        as (lx' & ly' & lz' & Hrun & _ & _ & _ & Hdone & _).
      { intros j lx1 ly1 lz1 Hj L1 L2 L3 _. rewrite length_replicate in L1, L2, L3.
        destruct (copy_point_step lx ly lz lx1 ly1 lz1 g0 (Z.of_nat j) hp b o)
          as (vx & vy & vz & Ex & Ey & Ez & Hstep); try lia.
        cbv beta. rewrite Nat2Z.id in *. rewrite Ex, Ey, Ez. exact Hstep. }
      { rewrite length_replicate. lia. }
      { rewrite length_replicate. lia. }
      { rewrite length_replicate. lia. }
      exists lx', ly', lz'. split; [exact Hrun|].
      intros i Hi. destruct (Hdone i Hi) as (Dx & Dy & Dz). rewrite Dx, Dy, Dz.
      destruct (lookup_lt_is_Some_2 lx i) as [vx Vx]; [lia|].
      destruct (lookup_lt_is_Some_2 ly i) as [vy Vy]; [lia|].
      destruct (lookup_lt_is_Some_2 lz i) as [vz Vz]; [lia|].
      rewrite Vx, Vy, Vz. auto. }
    assert (Hfin : forall hist' lx' ly' lz',
      (forall i, (i < Z.to_nat gnp)%nat ->
         lx' !! i = lx !! i /\ ly' !! i = ly !! i /\ lz' !! i = lz !! i) ->
      samples_of (mkTGraph2D gnp gnpx gnpy gmi gnp (Some lx') (Some ly') (Some lz')
                             gmn gmx gmg gzo hist' dd pp gu ko) = samples_of G).
    { intros hist' lx' ly' lz' Hag.
      eapply samples_agree; try reflexivity. exact Hag. }
    destruct gh as [a|].
    + destruct Hhist as [Hhist|Hhist]; [discriminate|]. subst gu.
      destruct (Hloop (Some a)) as (lx' & ly' & lz' & Hrun & Hag).
      eexists. split.
      { unfold G. eval_fields. replace (0 <? gnp) with true by (symmetry; apply Z.ltb_lt; lia).
        exact Hrun. }
      cbn [this]. split; [apply Hfin; exact Hag|]. cbn. repeat split; auto.
    + destruct (Hloop hh) as (lx' & ly' & lz' & Hrun & Hag).
      eexists. split.
      { unfold G. eval_fields. replace (0 <? gnp) with true by (symmetry; apply Z.ltb_lt; lia).
        exact Hrun. }
      cbn [this]. split; [apply Hfin; exact Hag|]. cbn. repeat split; auto. discriminate.
  - (* nothing to copy *)
    assert (Hs : samples_of G = []) by (apply samples_none; exact Hn).
    destruct gh as [a|].
    + destruct Hhist as [Hhist|Hhist]; [discriminate|]. subst gu.
      eexists. split.
      { unfold G. eval_fields. replace (0 <? gnp) with false by (symmetry; apply Z.ltb_ge; lia).
        unfold for_range. replace (Z.to_nat (gnp - 0)) with 0%nat by lia. reflexivity. }
      cbn [this]. rewrite Hs. split; [apply samples_none; exact Hn|]. cbn. repeat split; auto.
    + eexists. split.
      { unfold G. eval_fields. replace (0 <? gnp) with false by (symmetry; apply Z.ltb_ge; lia).
        unfold for_range. replace (Z.to_nat (gnp - 0)) with 0%nat by lia. reflexivity. }
      cbn [this]. rewrite Hs. split; [apply samples_none; exact Hn|]. cbn.
      repeat split; auto. discriminate.
Qed.

(** X28. The assignment [*this = g] from another well-formed graph that has
    no histogram, or whose histogram is the user's.  This graph gets the
    samples of [g], in blocks of exactly [g.fNpoints] elements, so spare
    capacity is not carried over, together with the build parameters, the
    stored extrema and the ownership flag of [g]; a user histogram of [g]
    is shared, not copied.  Assigning a graph to itself changes nothing. *)
Theorem assignment_spec (TH2D_copy : addr -> M addr) (w : World) (g : TGraph2D) :
  cache_ok w -> points_ok g -> fHistogram g = None \/ fUserHisto g = true ->
  (exists w', assign TH2D_copy (Some g) w = Some (tt, w') /\
     samples_of (this w') = samples_of g /\
     fNpoints (this w') = fNpoints g /\ fSize (this w') = fNpoints g /\
     fNpx (this w') = fNpx g /\ fNpy (this w') = fNpy g /\
     fMaxIter (this w') = fMaxIter g /\
     fMinimum (this w') = fMinimum g /\ fMaximum (this w') = fMaximum g /\
     fMargin (this w') = fMargin g /\ fZout (this w') = fZout g /\
     fUserHisto (this w') = fUserHisto g /\
     (forall a, fHistogram g = Some a -> fHistogram (this w') = Some a)) /\
  assign TH2D_copy None w = Some (tt, w).
Proof.
  intros Hc Hok Hh. split; [apply assign_result; assumption | reflexivity].
Qed.

(** ** [RemoveDuplicates] twice *)

Lemma RemoveDuplicates_run (w : World) :
  points_ok (this w) -> cache_ok w ->
  exists w', RemoveDuplicates w = Some (fNpoints (this w'), w') /\
    points_ok (this w') /\ cache_ok w' /\
    (0 <= fNpoints (this w) -> 0 <= fNpoints (this w')) /\
    samples_of (this w') = dedup (samples_of (this w)).
Proof.
  intros Hok Hc.
  destruct (dup_outer_spec (Z.to_nat (fNpoints (this w))) 0 w ltac:(lia) Hok Hc ltac:(lia))
    as (w' & Hrun & Hok' & Hc' & _ & Hpos & Hs).
  exists w'. split.
  { unfold RemoveDuplicates. unfold bind at 1, self at 1. unfold bind at 1. rewrite Hrun.
    reflexivity. }
  split; [exact Hok'|]. split; [exact Hc'|]. split; [exact Hpos|]. exact Hs.
Qed.

Lemma distinct_places_tail (p : Sample) (t : list Sample) :
  distinct_places (p :: t) ->
  distinct_places t /\ forall q, In q t -> same_place p q = false.
Proof.
  intros Hd. split.
  - intros i j a b Hij Ha Hb. apply (Hd (S i) (S j) a b); [lia | exact Ha | exact Hb].
  - intros q Hq. apply list_elem_of_In in Hq. apply list_elem_of_lookup in Hq.
    destruct Hq as [j Hj]. apply (Hd 0%nat (S j) p q); [lia | reflexivity | exact Hj].
Qed.

Lemma filter_all (P : Sample -> bool) (l : list Sample) :
  (forall q, In q l -> P q = true) -> List.filter P l = l.
Proof.
  induction l as [|a l IH]; intros Hall; [reflexivity|].
  cbn. rewrite (Hall a (or_introl eq_refl)). f_equal. apply IH.
  intros q Hq. apply Hall. right. exact Hq.
Qed.

Lemma dedup_distinct (l : list Sample) : distinct_places l -> dedup l = l.
Proof.
  induction l as [|p t IH]; intros Hd; [reflexivity|].
  destruct (distinct_places_tail p t Hd) as [Ht Hp].
  rewrite dedup_cons. rewrite filter_all.
  - f_equal. apply IH. exact Ht.
  - intros q Hq. rewrite (Hp q Hq). reflexivity.
Qed.

(** X29. [RemoveDuplicates] is idempotent: on a well-formed graph a second
    call right after the first removes nothing, returns the same number and
    leaves the samples as the first call left them. *)
Theorem RemoveDuplicates_idempotent (w : World) :
  points_ok (this w) -> cache_ok w ->
  exists n w1 w2,
    RemoveDuplicates w = Some (n, w1) /\ RemoveDuplicates w1 = Some (n, w2) /\
    samples_of (this w2) = samples_of (this w1).
Proof.
  intros Hok Hc.
  destruct (RemoveDuplicates_run w Hok Hc) as (w1 & Hrun1 & Hok1 & Hc1 & _ & Hs1).
  destruct (RemoveDuplicates_run w1 Hok1 Hc1) as (w2 & Hrun2 & Hok2 & Hc2 & Hpos & Hs2).
  assert (Hsame : samples_of (this w2) = samples_of (this w1)).
  { rewrite Hs2. apply dedup_distinct. rewrite Hs1. apply dedup_n_distinct. }
  exists (fNpoints (this w1)), w1, w2. split; [exact Hrun1|]. split; [|exact Hsame].
  destruct (Z.le_gt_cases 0 (fNpoints (this w1))) as [Hn|Hn].
  - assert (Hn2 : fNpoints (this w2) = fNpoints (this w1)).
    { rewrite <- (samples_length _ Hok2 (Hpos Hn)), <- (samples_length _ Hok1 Hn), Hsame.
      reflexivity. }
    rewrite <- Hn2. exact Hrun2.
  - assert (Hcomp : RemoveDuplicates w1 = Some (fNpoints (this w1), w1)).
    { unfold RemoveDuplicates. unfold bind at 1, self at 1.
      replace (Z.to_nat (fNpoints (this w1))) with 0%nat by lia.
      cbn [dup_outer]. unfold bind at 1. unfold bind at 1, self at 1.
      replace (0 <? fNpoints (this w1)) with false by (symmetry; apply Z.ltb_ge; lia).
      reflexivity. }
    rewrite Hcomp in Hrun2. injection Hrun2 as _ <-. exact Hcomp.
Qed.

(** ** A user histogram and the mutators that drop the cache *)

Lemma SetNpx_discards (w : World) (n : Int_t) :
  cache_ok w ->
  exists g' o', SetNpx n w = Some (tt, discarded (mkWorld g' (heap w) (brk w) o')) /\
    fHistogram g' = fHistogram (this w) /\ fDelaunay g' = fDelaunay (this w) /\
    fUserHisto g' = fUserHisto (this w) /\ fNpoints g' = fNpoints (this w).
Proof.
  intros Hc. destruct w as [g hp b o]. unfold SetNpx.
  destruct (n <? 4); [|destruct (500 <? n)]; run;
    (eexists _, _; split;
     [ apply discard_histogram_spec;
       apply (cache_ok_frame (mkWorld g hp b o)); [assumption | reflexivity | reflexivity]
     | destruct g; repeat split ]).
Qed.

(** Without a histogram, a graph with points that is marked as having a
    user histogram cannot produce one. *)
Lemma GetHistogram_lost (w : World) (opt : string) :
  1 <= fNpoints (this w) -> fUserHisto (this w) = true -> fHistogram (this w) = None ->
  GetHistogram opt w = None.
Proof.
  intros Hn Hu Hh. unfold GetHistogram. unfold bind at 1, self at 1. cmp_lia. cbv zeta.
  unfold bind at 1. unfold GetHistogram_cached. unfold bind at 1, self at 1. rewrite Hh.
  unfold ret at 1. unfold bind at 1. unfold GetHistogram_book. unfold bind at 1, self at 1.
  rewrite Hu. cbn [negb]. unfold with_histogram. unfold bind at 1, self at 1. rewrite Hh.
  reflexivity.
Qed.

(** X30. The mutators that drop the cache do not look at the ownership
    flag.  On a graph with points and a histogram of the user, [SetNpx]
    deletes that histogram although the graph does not own it, and leaves
    the graph marked as having a user histogram; from then on
    [GetHistogram], with any option, and [Interpolate] go through a null
    pointer, which is undefined behaviour. *)
Theorem user_histogram_lost (w : World) (n : Int_t) :
  cache_ok w -> 1 <= fNpoints (this w) -> fUserHisto (this w) = true ->
  exists w', SetNpx n w = Some (tt, w') /\
    fUserHisto (this w') = true /\ fHistogram (this w') = None /\
    (forall a, fHistogram (this w) = Some a -> heap w' !! a = None) /\
    (forall opt, GetHistogram opt w' = None) /\
    (forall x y, Interpolate x y w' = None).
Proof.
  intros Hc Hn Hu.
  destruct (SetNpx_discards w n Hc) as (g' & o' & Hrun & Hh & Hd & Hu' & Hn').
  eexists. split; [exact Hrun|].
  set (w0 := mkWorld g' (heap w) (brk w) o') in *.
  assert (Hc0 : cache_ok w0).
  { apply (cache_ok_frame w); assumption. }
  destruct (discarded_fields w0 Hc0) as (Dh & _ & Dn & _ & _ & _ & _ & _ & Du & _).
  cbv zeta in *. cbn [this w0] in Dn, Du.
  assert (Hu1 : fUserHisto (this (discarded w0)) = true) by congruence.
  assert (Hn1 : 1 <= fNpoints (this (discarded w0))) by (rewrite Dn, Hn'; exact Hn).
  split; [exact Hu1|]. split; [exact Dh|]. split.
  { intros a Ha. unfold cache_ok in Hc. rewrite Ha in Hc. destruct Hc as [h Hl].
    unfold discarded. cbn [heap]. apply (released_gone _ _ a h); [|exact Hl].
    cbn [this w0]. rewrite Hh. exact Ha. }
  split.
  { intros opt. apply GetHistogram_lost; assumption. }
  intros x y. unfold Interpolate. unfold bind at 1, self at 1. cmp_lia.
  rewrite Dh. cbn [is_null]. unfold bind at 1. unfold bind at 1.
  rewrite GetHistogram_lost by assumption. reflexivity.
Qed.

(** ** What every constructor builds *)

Context `{Library}.

Lemma SetPoint_in_capacity (w : World) (n : Int_t) (x y z : Double_t) :
  storage_ok (this w) -> fX (this w) <> None -> 0 <= n < fSize (this w) ->
  SetPoint n x y z w = Some (tt, with_this (with_point n x y z (this w)) w).
Proof.
  destruct w as [g hp b o]. open_graph g.
  unfold storage_ok, with_this, with_point, capacity_after, with_arrays.
  cbn [this fX fY fZ fSize fNpoints heap brk out].
  intros Hs Hx Hn.
  unfold SetPoint. cmp_lia.
  unfold bind at 1, self at 1. cbn [this fX fY fZ fSize is_null].
  destruct ax as [lx|], ay as [ly|], az as [lz|]; try contradiction; cbn [is_null orb].
  destruct Hs as (Hpos & Hlx & Hly & Hlz & Hnp).
  cmp_lia. cbn [orb]. eval_fields.
  do 3 (rewrite store_in_bounds by lia; eval_fields).
  rewrite !extended_fits by lia. reflexivity.
Qed.

(** One more point on a graph under construction. *)
Lemma SetPoint_ready (w : World) (k cnt : Int_t) (x y z : Double_t) :
  ready k (this w) -> 1 <= cnt -> room k cnt (this w) ->
  exists w', SetPoint k x y z w = Some (tt, w') /\ ready (k + 1) (this w') /\
             room (k + 1) (cnt - 1) (this w') /\ k < kMaxInt.
Proof.
  intros (Hs & Hx & Hnp & Hk & Hcap & Hh & Hzo & Hmi) Hcnt Hroom.
  pose proof (storage_points_fit _ Hs) as Hfit.
  pose proof (storage_size_nonneg _ Hs) as Hsz0.
  assert (Hcase : k < fSize (this w) \/ (k = fSize (this w) /\ 2 * k < kMaxInt - 1)).
  { unfold room in Hroom. lia. }
  exists (with_this (with_point k x y z (this w)) w).
  destruct (with_point_fields k x y z (this w))
    as (Ex & _ & _ & Esz & Enp & Eh & _ & _ & _ & _ & _ & _ & Emi & _ & Ezo & _).
  cbv zeta in *. cbn [this with_this].
  pose proof (capacity_after_bounds (this w) k Hsz0 Hk) as (Hc1 & Hc2 & _ & Hc4).
  assert (Hnew : capacity_after (this w) k <= kMaxInt).
  { unfold capacity_after. destruct (Z.leb_spec (fSize (this w)) k); lia. }
  split.
  { destruct Hcase as [Hin|[Heq Hb]].
    - apply SetPoint_in_capacity; [assumption | assumption | lia].
    - apply SetPoint_with_point; [assumption | unfold kMaxInt in *; lia | lia]. }
  split.
  { unfold ready.
    split; [apply with_point_storage; [assumption | lia]|].
    split; [rewrite Ex; discriminate|].
    split; [rewrite Enp; lia|]. split; [lia|]. split; [rewrite Esz; exact Hnew|].
    split; [congruence|]. split; congruence. }
  split; [|lia].
  unfold room in *. rewrite Esz. lia.
Qed.

Lemma room_less (k cnt cnt' : Z) (g : TGraph2D) :
  cnt' <= cnt -> room k cnt g -> room k cnt' g.
Proof. unfold room. lia. Qed.

Lemma incr_ok (k : Int_t) (w : World) : k < kMaxInt -> incr k w = Some (k + 1, w).
Proof. intros Hk. unfold incr. cmp_lia. reflexivity. Qed.

(** The graph that [Build] leaves is ready for its first point. *)
Lemma Build_ready (n : Int_t) (w : World) :
  1 <= n <= kMaxInt -> fNpoints (this w) = 0 ->
  exists w', Build n w = Some (tt, w') /\ ready 0 (this w') /\ fSize (this w') = n.
Proof.
  intros Hn Hnp. exists (with_this (fresh_graph n (this w)) w).
  split; [apply Build_result; lia|].
  cbn [this with_this]. unfold ready, storage_ok, fresh_graph, new_array.
  cbn [fX fY fZ fSize fNpoints fHistogram fZout fMaxIter].
  rewrite !length_replicate. rewrite Hnp.
  repeat split; try lia; try discriminate.
Qed.

(** *** The constructor from a histogram *)

Lemma th2_column_ready (h2 : TH2) (cnt : nat) :
  forall (i j k : Int_t) (more : Z) (w : World),
    ready k (this w) -> 0 <= more -> room k (Z.of_nat cnt + more) (this w) ->
    exists k' w', th2_column cnt h2 i j k w = Some (k', w') /\
                  ready k' (this w') /\ room k' more (this w').
Proof.
  induction cnt as [|cnt IH]; intros i j k more w Hr Hm Hroom.
  - exists k, w. cbn. split; [reflexivity|]. split; [exact Hr|].
    eapply room_less; [|exact Hroom]. lia.
  - cbn [th2_column]. cbv zeta.
    destruct (dne (h2BinContent h2 i j) 0 || dne (h2BinError h2 i j) 0).
    + destruct (SetPoint_ready w k (Z.of_nat (S cnt) + more) (h2XBinCenter h2 i)
                  (h2YBinCenter h2 j) (h2BinContent h2 i j) Hr ltac:(lia) Hroom)
        as (w1 & Hset & Hr' & Hroom' & Hk).
      destruct (IH i (j + 1) (k + 1) more w1 Hr' Hm) as (k' & w' & Hrun & Hk' & Hle).
      { eapply room_less; [|exact Hroom']. lia. }
      exists k', w'. split; [|split; assumption].
      unfold bind at 1. unfold bind at 1. rewrite Hset.
      rewrite incr_ok by exact Hk. exact Hrun.
    + destruct (IH i (j + 1) k more w Hr Hm) as (k' & w' & Hrun & Hk' & Hle).
      { eapply room_less; [|exact Hroom]. lia. }
      exists k', w'. split; [|split; assumption].
      unfold bind at 1. unfold ret at 1. exact Hrun.
Qed.

Lemma th2_columns_ready (h2 : TH2) (cnt : nat) :
  forall (i k : Int_t) (w : World),
    ready k (this w) -> h2YLast h2 < kMaxInt ->
    room k (Z.of_nat cnt * Z.max 0 (h2YLast h2 + 1 - h2YFirst h2)) (this w) ->
    exists k' w', th2_columns cnt h2 i k w = Some (k', w') /\ ready k' (this w').
Proof.
  induction cnt as [|cnt IH]; intros i k w Hr Hy Hroom.
  - exists k, w. cbn. split; [reflexivity | exact Hr].
  - cbn [th2_columns].
    set (cy := Z.max 0 (h2YLast h2 + 1 - h2YFirst h2)) in *.
    assert (Hcol : exists k1 w1,
      (if h2YLast h2 <? h2YFirst h2 then ret k
       else if kMaxInt <=? h2YLast h2 then undefined
       else th2_column (Z.to_nat (h2YLast h2 + 1 - h2YFirst h2)) h2 i (h2YFirst h2) k) w
        = Some (k1, w1) /\
      ready k1 (this w1) /\ room k1 (Z.of_nat cnt * cy) (this w1)).
    { destruct (Z.ltb_spec (h2YLast h2) (h2YFirst h2)) as [Hlt|Hge].
      - exists k, w. split; [reflexivity|]. split; [exact Hr|].
        eapply room_less; [|exact Hroom]. unfold cy. nia.
      - cmp_lia.
        apply th2_column_ready; [exact Hr | unfold cy; nia |].
        eapply room_less; [|exact Hroom]. unfold cy. nia. }
    destruct Hcol as (k1 & w1 & Hrun1 & Hr1 & Hroom1).
    destruct (IH (i + 1) k1 w1 Hr1 Hy Hroom1) as (k' & w' & Hrun & Hk').
    exists k', w'. split; [|exact Hk'].
    unfold bind at 1. rewrite Hrun1. exact Hrun.
Qed.

Lemma TGraph2D_ctor_TH2_ready (h2 : TH2) (w : World) :
  1 <= h2NbinsX h2 * h2NbinsY h2 <= kMaxInt ->
  h2XLast h2 < kMaxInt -> h2YLast h2 < kMaxInt ->
  range_cells h2 <= h2NbinsX h2 * h2NbinsY h2 \/ 2 * range_cells h2 < kMaxInt ->
  exists k w', TGraph2D_ctor_TH2 (Some h2) w = Some (tt, w') /\ ready k (this w').
Proof.
  intros Hn Hx Hy Hc. unfold TGraph2D_ctor_TH2, TObject_ctor.
  unfold bind at 1, update at 1. unfold bind at 1, update at 1. cbn [this heap brk out].
  set (v := mkWorld (set_fNpoints 0 (set_kOldInterpolation false (this w)))
                    (heap w) (brk w) (out w)).
  destruct (Build_ready (h2NbinsX h2 * h2NbinsY h2) v) as (w1 & Hb & Hr1 & Hsz1);
    [lia | unfold v; cbn [this]; destruct (this w); reflexivity |].
  unfold kMaxInt in Hn. unfold kMaxInt at 1 2. cmp_lia. cbn [orb].
  unfold bind at 1. rewrite Hb.
  unfold bind at 1, SetName at 1, ret at 1.
  assert (Ht : SetTitle (h2Title h2) w1 = Some (tt, w1)).
  { unfold SetTitle, bind, self. destruct Hr1 as (_ & _ & _ & _ & _ & Hh & _). rewrite Hh.
    reflexivity. }
  unfold bind at 1. rewrite Ht.
  destruct (Z.ltb_spec (h2XLast h2) (h2XFirst h2)) as [Hlt|Hge].
  - exists 0, w1. split; [reflexivity | exact Hr1].
  - cmp_lia.
    destruct (th2_columns_ready h2 (Z.to_nat (h2XLast h2 + 1 - h2XFirst h2))
                (h2XFirst h2) 0 w1 Hr1 Hy) as (k' & w' & Hrun & Hk').
    { unfold room. rewrite Hsz1. unfold range_cells in Hc. rewrite Z2Nat.id by lia.
      rewrite (Z.max_r 0 (h2XLast h2 + 1 - h2XFirst h2)) in Hc by lia. lia. }
    exists k', w'. split; [|exact Hk'].
    unfold bind at 1. rewrite Hrun. reflexivity.
Qed.

(** *** The constructor from a file *)

Lemma read_plain_ready (format : string) (lines : list string) :
  forall (np : Int_t) (w : World),
    ready np (this w) -> room np (Z.of_nat (length lines)) (this w) ->
    (forall line, In line lines -> sscanf line format <> None) ->
    exists k w', read_plain format lines np w = Some (tt, w') /\ ready k (this w').
Proof.
  induction lines as [|line rest IH]; intros np w Hr Hb Hdef.
  - exists np, w. split; [reflexivity | exact Hr].
  - cbn [read_plain].
    destruct (sscanf line format) as [[converted [[x y] z]]|] eqn:Es.
    2: { exfalso. apply (Hdef line); [left; reflexivity | exact Es]. }
    assert (Hrest : forall l, In l rest -> sscanf l format <> None).
    { intros l Hl. apply Hdef. right. exact Hl. }
    destruct (3 =? converted).
    + cbn [negb].
      destruct (SetPoint_ready w np (Z.of_nat (S (length rest))) x y z Hr ltac:(lia) Hb)
        as (w1 & Hset & Hr1 & Hroom1 & Hlt).
      destruct (IH (np + 1) w1 Hr1) as (k & w' & Hrun & Hk); [|exact Hrest|].
      { eapply room_less; [|exact Hroom1]. lia. }
      exists k, w'. split; [|exact Hk].
      unfold bind at 1. rewrite Hset. unfold bind at 1.
      rewrite incr_ok by exact Hlt. exact Hrun.
    + cbn [negb]. apply IH; [exact Hr | | exact Hrest].
      eapply room_less; [|exact Hb]. cbn [length]. lia.
Qed.

Lemma token_flags_count (cs : list ascii) :
  forall (n : Int_t) (flags : list bool) (m : Int_t),
    token_flags cs n = (flags, m) -> m = n + saved_tokens flags.
Proof.
  induction cs as [|c cs IH]; intros n flags m.
  - cbn. intros [= <- <-]. unfold saved_tokens. cbn. lia.
  - cbn [token_flags]. cbv zeta.
    destruct (token_flags cs (if negb (Atoi c =? 0) then n + 1 else n)) as [l k] eqn:E.
    intros [= <- <-]. apply IH in E. subst k.
    unfold saved_tokens. cbn [List.filter].
    destruct (negb (Atoi c =? 0)); cbn [length]; lia.
Qed.

Lemma saved_tokens_take_S (flags : list bool) (t : nat) (b : bool) :
  flags !! t = Some b ->
  saved_tokens (take (S t) flags) = saved_tokens (take t flags) + (if b then 1 else 0).
Proof.
  intros Hb. rewrite (take_S_r _ _ _ Hb). unfold saved_tokens.
  rewrite List.filter_app, length_app. cbn [List.filter].
  destruct b; cbn [length]; lia.
Qed.

(** The loop over the tokens of a line never reads past the flags: once
    every flag has been passed, the three values have been read. *)
Lemma read_tokens_ok (flags : list bool) (tokens : list string) :
  saved_tokens flags = 3 ->
  forall (t : nat) (lv : list Double_t) (v : Int_t) (w : World),
    length lv = 3%nat -> v = saved_tokens (take t flags) ->
    exists skip lv' v',
      read_tokens tokens flags (Z.of_nat t) (Some lv) v w = Some ((skip, (Some lv', v')), w) /\
      length lv' = 3%nat.
Proof.
  intros Hthree. induction tokens as [|token rest IH]; intros t lv v w Hlv Hv.
  - exists false, lv, v. split; [reflexivity | exact Hlv].
  - cbn [read_tokens]. destruct (Z.ltb_spec v 3) as [Hlt|Hge].
    2: { exists false, lv, v. split; [reflexivity | exact Hlv]. }
    assert (Ht : (t < length flags)%nat).
    { destruct (Nat.lt_ge_cases t (length flags)) as [Hin|Hout]; [exact Hin|].
      rewrite take_ge in Hv by lia. lia. }
    destruct (lookup_lt_is_Some_2 flags t Ht) as [b Hb].
    assert (Hflag : flag_at flags (Z.of_nat t) w = Some (b, w)).
    { unfold flag_at. cmp_lia. rewrite Nat2Z.id, Hb. reflexivity. }
    unfold bind at 1. rewrite Hflag.
    pose proof (saved_tokens_take_S flags t b Hb) as Hnext.
    assert (Hv0 : 0 <= v) by (subst v; unfold saved_tokens; lia).
    replace (Z.of_nat t + 1) with (Z.of_nat (S t)) by lia.
    destruct b.
    + cbv zeta. destruct (IsFloat (ReplaceAll token tab EmptyString)); cbn [negb].
      * unfold bind at 1. rewrite store_in_bounds by lia.
        apply IH; [rewrite length_insert; exact Hlv | lia].
      * exists true, lv, v. split; [reflexivity | exact Hlv].
    + apply IH; [exact Hlv | lia].
Qed.

Lemma read_delimited_ready (delimiters : string) (flags : list bool) (lines : list string) :
  saved_tokens flags = 3 ->
  forall (lv : list Double_t) (np : Int_t) (w : World),
    ready np (this w) -> length lv = 3%nat ->
    room np (Z.of_nat (length lines)) (this w) ->
    exists k w', read_delimited delimiters flags lines (Some lv) np w = Some (tt, w') /\
                 ready k (this w').
Proof.
  intros Hthree. induction lines as [|line rest IH]; intros lv np w Hr Hlv Hb.
  - exists np, w. split; [reflexivity | exact Hr].
  - cbn [read_delimited].
    destruct (String.eqb line EmptyString); cbn [negb].
    { apply IH; [exact Hr | exact Hlv |]. eapply room_less; [|exact Hb]. cbn [length]. lia. }
    cbv zeta.
    destruct (read_tokens_ok flags (strtok (strip_CR line) delimiters) Hthree
                0%nat lv 0 w Hlv) as (skip & lv' & v' & Htok & Hlv').
    { rewrite take_0. reflexivity. }
    unfold bind at 1. change (Z.of_nat 0) with 0 in Htok. rewrite Htok.
    destruct (negb skip && (v' =? 3)).
    + destruct lv' as [|x [|y [|z [|]]]]; try discriminate Hlv'.
      unfold bind at 1. change (load (Some [x; y; z]) 0 w) with (Some (x, w)). cbv beta iota.
      unfold bind at 1. change (load (Some [x; y; z]) 1 w) with (Some (y, w)). cbv beta iota.
      unfold bind at 1. change (load (Some [x; y; z]) 2 w) with (Some (z, w)). cbv beta iota.
      destruct (SetPoint_ready w np (Z.of_nat (S (length rest))) x y z Hr ltac:(lia) Hb)
        as (w1 & Hset & Hr1 & Hroom1 & Hlt).
      destruct (IH [x; y; z] (np + 1) w1 Hr1 eq_refl) as (k & w' & Hrun & Hk).
      { eapply room_less; [|exact Hroom1]. lia. }
      exists k, w'. split; [|exact Hk].
      unfold bind at 1. rewrite Hset. unfold bind at 1.
      rewrite incr_ok by exact Hlt. exact Hrun.
    + apply IH; [exact Hr | exact Hlv' |]. eapply room_less; [|exact Hb]. cbn [length]. lia.
Qed.

Lemma TGraph2D_ctor_file_ready (filename format opt_arg : string) (lines : list string)
    (w : World) :
  ifstream filename = Some lines ->
  2 * Z.of_nat (length lines) < kMaxInt ->
  (opt_arg = EmptyString -> forall line, In line lines -> sscanf line format <> None) ->
  exists k w', TGraph2D_ctor_file filename format opt_arg w = Some (tt, w') /\
               ready k (this w').
Proof.
  intros Hopen Hb Hscan. unfold TGraph2D_ctor_file, TObject_ctor.
  unfold bind at 1, update at 1. unfold bind at 1, update at 1. cbn [this heap brk out].
  rewrite Hopen.
  set (v := mkWorld (set_fNpoints 0 (set_kOldInterpolation false (this w)))
                    (heap w) (brk w) (out w)).
  destruct (Build_ready 100 v) as (w1 & Hbuild & Hr1 & Hsz1);
    [unfold kMaxInt; lia | unfold v; cbn [this]; destruct (this w); reflexivity |].
  assert (Hroom : room 0 (Z.of_nat (length lines)) (this w1)) by (unfold room; lia).
  unfold bind at 1. rewrite Hbuild.
  assert (Hmsg : forall txt a, exists k w', Error "TGraph2D" txt a w1 = Some (tt, w') /\
                                            ready k (this w')).
  { intros txt a. exists 0, (mkWorld (this w1) (heap w1) (brk w1)
                                      (out w1 ++ [mkMessage kError "TGraph2D" txt a])).
    split; [reflexivity | exact Hr1]. }
  destruct (String.eqb_spec opt_arg EmptyString) as [Hempty|Hdelim].
  - apply read_plain_ready; [exact Hr1 | exact Hroom | apply Hscan; exact Hempty].
  - cbv zeta. destruct (IsDigit (reduced_format format)); cbn [negb]; [|apply Hmsg].
    destruct (Z.of_nat (String.length (reduced_format format)) <? 3) eqn:Elen; [apply Hmsg|].
    destruct (token_flags (list_ascii_of_string (reduced_format format)) 0)
      as [flags n] eqn:Ef.
    apply token_flags_count in Ef.
    replace (3 <=? Z.of_nat (String.length (reduced_format format))) with true
      by (symmetry; apply Z.leb_le; lia).
    cbn [andb]. destruct (Z.eqb_spec n 3) as [Hn|Hn]; cbn [negb]; [|apply Hmsg].
    unfold new_array.
    apply read_delimited_ready; [lia | exact Hr1 | reflexivity | exact Hroom].
Qed.

(** *** The constructors from arrays *)

Lemma load_arg_in_bounds {A} (l : list A) (i : Int_t) (w : World) :
  0 <= i < Z.of_nat (length l) ->
  exists v, load_arg (Some l) i w = Some (v, w).
Proof.
  intros Hi. unfold load_arg. cmp_lia.
  destruct (lookup_lt_is_Some_2 l (Z.to_nat i)) as [v Hv]; [lia|].
  exists v. rewrite Hv. reflexivity.
Qed.

(** The copy loop runs through when the three arguments hold [n] elements,
    and it keeps what [Build] has set. *)
Lemma copy_loop_built {A} (conv : A -> Double_t) (x y z : list A) (n : Int_t) (w : World) :
  n <= Z.of_nat (length x) -> n <= Z.of_nat (length y) -> n <= Z.of_nat (length z) ->
  built n w ->
  exists w', for_count (Z.to_nat n) 0 (copy_point_as conv (Some x) (Some y) (Some z)) w
               = Some (tt, w') /\ built n w'.
Proof.
  intros Hinx Hiny Hinz Hbuilt.
  edestruct (for_count_inv (fun _ v => built n v)) as (w2 & Hloop & Hw2);
    [exact Hbuilt | | exists w2; split; [exact Hloop | exact Hw2]].
  intros j [g' hp' b' o'] Hj Hbj. destruct g'. built_fields Hbj.
  unfold copy_point_as.
  match goal with |- context [bind (load_arg (Some x) j) ?k ?v] =>
    destruct (load_arg_in_bounds x j v) as (vx & Hvx); [lia|];
    unfold bind at 1; rewrite Hvx end.
  eval_fields. rewrite store_in_bounds by lia. eval_fields.
  match goal with |- context [load_arg (Some y) j ?v] =>
    destruct (load_arg_in_bounds y j v) as (vy & Hvy); [lia|]; rewrite Hvy end.
  eval_fields. rewrite store_in_bounds by lia. eval_fields.
  match goal with |- context [load_arg (Some z) j ?v] =>
    destruct (load_arg_in_bounds z j v) as (vz & Hvz); [lia|]; rewrite Hvz end.
  eval_fields. rewrite store_in_bounds by lia. eval_fields.
  eexists. split; [reflexivity|]. built_again.
Qed.

Lemma ready_defaults (k : Int_t) (g : TGraph2D) :
  ready k g -> fZout g = 0%float /\ fMaxIter g = 100000.
Proof. intros (_ & _ & _ & _ & _ & _ & Hz & Hm). split; assumption. Qed.

Lemma array_ctor_built {A} (conv : A -> Double_t) (x y z : list A) (n : Int_t) (w : World) :
  1 <= n ->
  n <= Z.of_nat (length x) -> n <= Z.of_nat (length y) -> n <= Z.of_nat (length z) ->
  exists w',
    (TObject_ctor ;;; update (set_fNpoints n) ;;; Build n ;;;
     g <- self ;;
     for_range 0 (fNpoints g) (copy_point_as conv (Some x) (Some y) (Some z))) w
      = Some (tt, w') /\ built n w'.
Proof.
  intros Hn Hinx Hiny Hinz. unfold TObject_ctor. destruct w as [g hp b o].
  unfold bind at 1. unfold bind at 1. unfold update at 1 2. cbv [this heap brk out].
  unfold bind at 1.
  destruct (Build_built n (mkWorld (set_fNpoints n (set_kOldInterpolation false g)) hp b o) Hn)
    as (w1 & Hb & Hbuilt & Hnp).
  rewrite Hb. simpl in Hnp. unfold bind at 1, self at 1. rewrite Hnp. clear Hnp Hb.
  unfold for_range. rewrite Z.sub_0_r.
  apply copy_loop_built; assumption.
Qed.

(** C5. Every constructor that builds the data structure leaves the
    outside-hull value at 0 and the iteration cap at 100000: the default
    constructor, [Build] itself for [n >= 1], and through it the
    constructors from a number of points, from arrays of doubles, ints and
    floats, with and without a name, from a histogram with at least one bin
    and from a file that can be opened.  Each of them returns under the
    conditions stated, which keep the copy loops inside the arrays and the
    numbers of points inside the range of [Int_t]. *)
Theorem constructor_defaults (w : World) (n : Int_t) (x y z : list Double_t)
    (xi yi zi : list Int_t) (xf yf zf : list Float_t) (name title : string)
    (h2 : TH2) (filename format opt_arg : string) (lines : list string) :
  (exists w', TGraph2D_ctor w = Some (tt, w') /\
     fZout (this w') = 0%float /\ fMaxIter (this w') = 100000) /\
  (1 <= n ->
     exists w', TGraph2D_ctor_n n w = Some (tt, w') /\
       fZout (this w') = 0%float /\ fMaxIter (this w') = 100000) /\
  (1 <= n ->
   n <= Z.of_nat (length x) -> n <= Z.of_nat (length y) -> n <= Z.of_nat (length z) ->
     exists w', TGraph2D_ctor_arrays n (Some x) (Some y) (Some z) w = Some (tt, w') /\
       fZout (this w') = 0%float /\ fMaxIter (this w') = 100000) /\
  (1 <= n ->
     exists w', Build n w = Some (tt, w') /\
       fZout (this w') = 0%float /\ fMaxIter (this w') = 100000) /\
  (1 <= n ->
   n <= Z.of_nat (length xi) -> n <= Z.of_nat (length yi) -> n <= Z.of_nat (length zi) ->
     exists w', TGraph2D_ctor_ints n (Some xi) (Some yi) (Some zi) w = Some (tt, w') /\
       fZout (this w') = 0%float /\ fMaxIter (this w') = 100000) /\
  (1 <= n ->
   n <= Z.of_nat (length xf) -> n <= Z.of_nat (length yf) -> n <= Z.of_nat (length zf) ->
     exists w', TGraph2D_ctor_floats n (Some xf) (Some yf) (Some zf) w = Some (tt, w') /\
       fZout (this w') = 0%float /\ fMaxIter (this w') = 100000) /\
  (1 <= n ->
   n <= Z.of_nat (length x) -> n <= Z.of_nat (length y) -> n <= Z.of_nat (length z) ->
     exists w', TGraph2D_ctor_named name title n (Some x) (Some y) (Some z) w
                  = Some (tt, w') /\
       fZout (this w') = 0%float /\ fMaxIter (this w') = 100000) /\
  (1 <= h2NbinsX h2 * h2NbinsY h2 <= kMaxInt ->
   h2XLast h2 < kMaxInt -> h2YLast h2 < kMaxInt ->
   range_cells h2 <= h2NbinsX h2 * h2NbinsY h2 \/ 2 * range_cells h2 < kMaxInt ->
     exists w', TGraph2D_ctor_TH2 (Some h2) w = Some (tt, w') /\
       fZout (this w') = 0%float /\ fMaxIter (this w') = 100000) /\
  (ifstream filename = Some lines -> 2 * Z.of_nat (length lines) < kMaxInt ->
   (opt_arg = EmptyString -> forall line, In line lines -> sscanf line format <> None) ->
     exists w', TGraph2D_ctor_file filename format opt_arg w = Some (tt, w') /\
       fZout (this w') = 0%float /\ fMaxIter (this w') = 100000).
Proof.
  assert (Harrays : 1 <= n ->
    n <= Z.of_nat (length x) -> n <= Z.of_nat (length y) -> n <= Z.of_nat (length z) ->
    exists w', TGraph2D_ctor_arrays n (Some x) (Some y) (Some z) w = Some (tt, w') /\
      fZout (this w') = 0%float /\ fMaxIter (this w') = 100000).
  { intros Hn Hinx Hiny Hinz. unfold TGraph2D_ctor_arrays, TObject_ctor. destruct w as [g hp b o].
    unfold bind at 1. unfold bind at 1. unfold update at 1 2. cbv [this heap brk out].
    unfold bind at 1.
    destruct (Build_built n (mkWorld (set_fNpoints n (set_kOldInterpolation false g)) hp b o) Hn)
      as (w1 & Hb & Hbuilt & Hnp).
    rewrite Hb. simpl in Hnp. unfold bind at 1, self at 1. rewrite Hnp. clear Hnp Hb.
    unfold for_range.
    edestruct (for_count_inv (fun _ v => built n v)) as (w2 & Hloop & Hw2);
      [exact Hbuilt | | exists w2; split; [exact Hloop | split; apply Hw2]].
    intros j [g' hp' b' o'] Hj Hbj. destruct g'. built_fields Hbj.
    unfold copy_point.
    eval_fields.
    match goal with |- context [load (Some x) j ?w] =>
      destruct (load_in_bounds x j w) as (vx & _ & Hvx); [lia|]; rewrite Hvx end.
    eval_fields.
    rewrite store_in_bounds by lia. eval_fields.
    match goal with |- context [load (Some y) j ?w] =>
      destruct (load_in_bounds y j w) as (vy & _ & Hvy); [lia|]; rewrite Hvy end.
    eval_fields. rewrite store_in_bounds by lia. eval_fields.
    match goal with |- context [load (Some z) j ?w] =>
      destruct (load_in_bounds z j w) as (vz & _ & Hvz); [lia|]; rewrite Hvz end.
    eval_fields. rewrite store_in_bounds by lia. eval_fields.
    eexists. split; [reflexivity|]. built_again. }
  split; [|split; [|split; [exact Harrays|split; [|split; [|split; [|split; [|split]]]]]]].
  - destruct w as [g hp b o]. destruct g. unfold TGraph2D_ctor, TObject_ctor. eval_fields.
    eexists. split; [reflexivity|]. split; reflexivity.
  - intros Hn. unfold TGraph2D_ctor_n, TObject_ctor. destruct w as [g hp b o].
    unfold bind at 1. unfold bind at 1. unfold update at 1 2. cbv [this heap brk out].
    unfold bind at 1.
    destruct (Build_built n (mkWorld (set_fNpoints n (set_kOldInterpolation false g)) hp b o) Hn)
      as (w1 & Hb & Hbuilt & Hnp).
    rewrite Hb. simpl in Hnp. unfold bind at 1, self at 1. rewrite Hnp. clear Hnp Hb.
    unfold for_range.
    edestruct (for_count_inv (fun _ v => built n v)) as (w2 & Hloop & Hw2);
      [exact Hbuilt | | exists w2; split; [exact Hloop | split; apply Hw2]].
    intros j [g' hp' b' o'] Hj Hbj. destruct g'. built_fields Hbj.
    eval_fields.
    rewrite store_in_bounds by lia. eval_fields.
    rewrite store_in_bounds by lia. eval_fields.
    rewrite store_in_bounds by lia. eval_fields.
    eexists. split; [reflexivity|]. built_again.
  - intros Hn. destruct (Build_built n w Hn) as (w' & Hb & Hbuilt & _).
    exists w'. split; [exact Hb|]. split; apply Hbuilt.
  - intros Hn Hinx Hiny Hinz.
    destruct (array_ctor_built Int2Double xi yi zi n w Hn Hinx Hiny Hinz) as (w' & Hrun & Hb).
    exists w'. split; [exact Hrun|]. split; apply Hb.
  - intros Hn Hinx Hiny Hinz.
    destruct (array_ctor_built Float2Double xf yf zf n w Hn Hinx Hiny Hinz) as (w' & Hrun & Hb).
    exists w'. split; [exact Hrun|]. split; apply Hb.
  - exact Harrays.
  - intros Hn Hx Hy Hc.
    destruct (TGraph2D_ctor_TH2_ready h2 w Hn Hx Hy Hc) as (k & w' & Hrun & Hr).
    exists w'. split; [exact Hrun|]. exact (ready_defaults k _ Hr).
  - intros Hopen Hb Hscan.
    destruct (TGraph2D_ctor_file_ready filename format opt_arg lines w Hopen Hb Hscan)
      as (k & w' & Hrun & Hr).
    exists w'. split; [exact Hrun|]. exact (ready_defaults k _ Hr).
Qed.

End Proofs.

(** * The methods on concrete graphs *)

(** Closing a comparison of two computed integers. *)
Ltac by_computation :=
  vm_compute;
  repeat match goal with |- _ /\ _ => split end;
  first [reflexivity | exact I | let Hc := fresh in intro Hc; discriminate Hc].

(** On the empty graph [Interpolate(1, 2)] returns 0 after an error message. *)
Lemma empty_graph_queries_witness :
  fNpoints (this empty_world) <= 0 /\
  Interpolate (H := reference) 1 2 empty_world =
    Some (0%float,
          mkWorld (this empty_world) (heap empty_world) (brk empty_world)
                  (out empty_world ++ [mkMessage kError "Interpolate" "Empty TGraph2D" []])).
Proof.
  assert (Hn : fNpoints (this empty_world) <= 0) by by_computation.
  split; [exact Hn|].
  apply (empty_graph_queries (H := reference) empty_world 1 2 0 Hn).
Defined.

(** C1 as stated fails on the empty graph: the value [Interpolate] returns
    there is not a NaN. *)
Lemma Interpolate_empty_counterexample :
  ~ (forall v w', Interpolate (H := reference) 1 2 empty_world = Some (v, w') ->
                  is_nan v = true).
Proof.
  intros Hclaim.
  assert (Hrun : exists w', Interpolate (H := reference) 1 2 empty_world = Some (0%float, w'))
    by (eexists; vm_compute; reflexivity).
  destruct Hrun as [w' Hrun]. apply Hclaim in Hrun. vm_compute in Hrun. discriminate Hrun.
Qed.

(** [SetPoint] on the triangle with a cached histogram: the cache stays. *)
Lemma SetPoint_keeps_cache_witness :
  exists w', SetPoint (H := reference) 3 5 5 5 cached_world = Some (tt, w') /\
             fHistogram (this w') = Some 0%nat /\ fDelaunay (this w') = Some 1%nat.
Proof.
  destruct (SetPoint (H := reference) 3 5 5 5 cached_world) as [[[] w']|] eqn:Hrun;
    [|vm_compute in Hrun; discriminate Hrun].
  exists w'. split; [reflexivity|].
  destruct (SetPoint_keeps_cache (H := reference) cached_world w' 3 5 5 5 Hrun) as (Hh & Hd & _).
  rewrite Hh, Hd. split; vm_compute; reflexivity.
Defined.

(** The failing input of C2.  After [SetPoint(3, 5, 5, 5)] on the triangle
    whose triangulation is cached, the graph holds the same four samples as
    a graph built from them afresh; [Interpolate(5, 5)] answers from the old
    three-point triangulation (the outside value 0), while the fresh graph
    gives the new sample's z. *)
Lemma stale_interpolation_after_SetPoint :
  option_map (fun p => samples_of (this (snd p)))
             (SetPoint (H := reference) 3 5 5 5 cached_world) =
    Some (samples_of (this square_world)) /\
  option_map fst ((SetPoint (H := reference) 3 5 5 5 ;;;
                   Interpolate (H := reference) 5 5) cached_world) = Some 0%float /\
  option_map fst (Interpolate (H := reference) 5 5 square_world) = Some 5%float.
Proof. split; [|split]; vm_compute; reflexivity. Qed.

(** [GetHistogram("")] on the single sample at the origin: 16 fills on the
    widened range. *)
Lemma GetHistogram_fills_witness :
  exists a h w',
    GetHistogram (H := reference) "" single_point_world = Some (Some a, w') /\
    heap w' !! a = Some (ObjTH2D h) /\
    (hXmin h, hXmax h, hYmin h, hYmax h) =
      ((-0.001)%float, 0.001%float, (-0.001)%float, 0.001%float) /\
    length (hFills h) = 16%nat.
Proof.
  destruct (GetHistogram_fills (H := reference) single_point_world "")
    as (xmin & xmax & ymin & ymax & a & h & w' & Hbb & Hrun & _ & Hha & Hlim & Hfills);
    try by_computation.
  exists a, h, w'. split; [exact Hrun|]. split; [exact Hha|].
  vm_compute in Hbb. injection Hbb as <- <- <- <-.
  split.
  - rewrite Hlim. vm_compute. reflexivity.
  - rewrite Hfills. vm_compute. reflexivity.
Defined.

(** C3 as stated fails on the single sample at the origin: the fills are not
    the interpolation at the cell centres of the unwidened range, which all
    coincide with the sample. *)
Lemma GetHistogram_range_counterexample :
  exists a h w',
    bounding_box (this single_point_world) = Some (0, 0, 0, 0)%float /\
    GetHistogram (H := reference) "" single_point_world = Some (Some a, w') /\
    heap w' !! a = Some (ObjTH2D h) /\
    hFills h <>
      fills_of (H := reference) kDelaunay2D (samples_of (this single_point_world))
               100000 0%float
               (cells (claimed_limits (fMargin (this single_point_world)) 0 0 0 0)
                      (fNpx (this single_point_world)) (fNpy (this single_point_world))).
Proof.
  do 3 eexists. split; [vm_compute; reflexivity|].
  split; [vm_compute; reflexivity|].
  split; [vm_compute; reflexivity|].
  intros Heq.
  apply (f_equal (fun l => match l with
                           | (x, _, _) :: _ => (x =? 0)%float
                           | [] => true
                           end)) in Heq.
  vm_compute in Heq. discriminate Heq.
Qed.

(** Two calls of [Interpolate(1, 0)] on the triangle. *)
Lemma Interpolate_idempotent_witness :
  exists r w1,
    Interpolate (H := reference) 1 0 triangle_world = Some (r, w1) /\
    r = 1%float /\
    Interpolate (H := reference) 1 0 w1 = Some (r, w1).
Proof.
  destruct (Interpolate (H := reference) 1 0 triangle_world) as [[r w1]|] eqn:Hrun;
    [|vm_compute in Hrun; discriminate Hrun].
  exists r, w1. split; [reflexivity|]. split.
  - pose proof Hrun as Hval. vm_compute in Hval. injection Hval as Hr _.
    symmetry. exact Hr.
  - apply (Interpolate_idempotent (H := reference) triangle_world w1 1 0 r);
      [by_computation | exact Hrun].
Defined.

(** The constructors for two points, from the diagonal histogram and from
    the file of the triangle. *)
Lemma constructor_defaults_witness :
  (exists w', TGraph2D_ctor_n (H := reference) 2 raw_world = Some (tt, w') /\
     fZout (this w') = 0%float /\ fMaxIter (this w') = 100000) /\
  (exists w', TGraph2D_ctor_arrays (H := reference) 2
                (Some [1; 2]%float) (Some [3; 4]%float) (Some [5; 6]%float) raw_world
              = Some (tt, w') /\
     fZout (this w') = 0%float /\ fMaxIter (this w') = 100000) /\
  (exists w', TGraph2D_ctor_ints (H := reference) 2
                (Some [1; 2]) (Some [3; 4]) (Some [5; 6]) raw_world = Some (tt, w') /\
     fZout (this w') = 0%float /\ fMaxIter (this w') = 100000) /\
  (exists w', TGraph2D_ctor_TH2 (H := reference) (Some diagonal_hist) raw_world
              = Some (tt, w') /\
     fZout (this w') = 0%float /\ fMaxIter (this w') = 100000) /\
  (exists w', TGraph2D_ctor_file (H := reference) (H0 := reference_library)
                "points.txt" "%lg %lg %lg" EmptyString raw_world = Some (tt, w') /\
     fZout (this w') = 0%float /\ fMaxIter (this w') = 100000).
Proof.
  destruct (constructor_defaults (H := reference) (H0 := reference_library) raw_world 2
              [1; 2]%float [3; 4]%float [5; 6]%float [1; 2] [3; 4] [5; 6]
              [1; 2]%float [3; 4]%float [5; 6]%float "g" "g" diagonal_hist
              "points.txt" "%lg %lg %lg" EmptyString
              ["0 0 0"; "1 0 1"; "# triangle"; "0 1 2"]%string)
    as (_ & Hn & Harr & _ & Hint & _ & _ & Hh2 & Hfile).
  split; [apply Hn; lia|].
  split; [apply Harr; simpl; lia|].
  split; [apply Hint; simpl; lia|].
  split.
  - apply Hh2; [vm_compute; split; discriminate | reflexivity | reflexivity |].
    left. vm_compute. discriminate.
  - apply Hfile; [reflexivity | reflexivity |].
    intros _ line _. simpl. repeat destruct (String.eqb line _); discriminate.
Defined.

(** [RemovePoint(1)] and [RemovePoint(7)] on the triangle. *)
Lemma RemovePoint_spec_witness :
  (exists w', RemovePoint 1 triangle_world = Some (1, w') /\
              fNpoints (this w') = 2 /\
              coord (fX (this w')) 1 = Some 0%float /\
              coord (fZ (this w')) 1 = Some 2%float) /\
  RemovePoint 7 triangle_world = Some (-1, triangle_world).
Proof.
  destruct (RemovePoint_spec triangle_world 1) as [Hin _].
  destruct (RemovePoint_spec triangle_world 7) as [_ Hout].
  split.
  - destruct Hin as (w' & Hrun & Hn & _ & Hshift).
    + split; by_computation.
    + by_computation.
    + by_computation.
    + exists w'. split; [exact Hrun|]. split; [rewrite Hn; by_computation|].
      destruct (Hshift 1) as (Hx & _ & Hz); [split; by_computation|].
      rewrite Hx, Hz. split; vm_compute; reflexivity.
  - apply Hout. right. by_computation.
Defined.

(** [RemoveDuplicates] on five samples at two places. *)
Lemma RemoveDuplicates_spec_witness :
  exists n w',
    RemoveDuplicates duplicates_world = Some (n, w') /\
    n = 2 /\
    samples_of (this w') = [mkSample 0 0 5; mkSample 1 0 6].
Proof.
  destruct (RemoveDuplicates_spec duplicates_world)
    as (n & w' & Hrun & Hkeep & _ & _ & _ & Hlen).
  - by_computation.
  - by_computation.
  - exists n, w'. split; [exact Hrun|].
    assert (Hs : samples_of (this w') = [mkSample 0 0 5; mkSample 1 0 6])
      by (rewrite Hkeep; vm_compute; reflexivity).
    split; [|exact Hs].
    rewrite Hlen by by_computation. rewrite Hs. reflexivity.
Defined.

(** [SetNpx(700)] and [SetNpy(2)] on the empty graph. *)
Lemma SetNpx_SetNpy_clamp_witness :
  (exists w', SetNpx 700 empty_world = Some (tt, w') /\ fNpx (this w') = 500) /\
  (exists w', SetNpy 2 empty_world = Some (tt, w') /\ fNpy (this w') = 4).
Proof.
  assert (Hc : cache_ok empty_world) by by_computation.
  destruct (SetNpx_SetNpy_clamp empty_world 700 Hc) as [(w1 & Hrun1 & _ & _ & Hhigh) _].
  destruct (SetNpx_SetNpy_clamp empty_world 2 Hc) as [_ (w2 & Hrun2 & _ & Hlow & _)].
  split.
  - exists w1. split; [exact Hrun1 | apply Hhigh; lia].
  - exists w2. split; [exact Hrun2 | apply Hlow; lia].
Defined.

(** [SetMargin(2)] and [SetMargin(0.5)] on the empty graph. *)
Lemma SetMargin_fallback_witness :
  (exists w', SetMargin 2 empty_world = Some (tt, w') /\
              fMargin (this w') = 0.1%float) /\
  (exists w', SetMargin 0.5 empty_world = Some (tt, w') /\
              fMargin (this w') = 0.5%float).
Proof.
  assert (Hc : cache_ok empty_world) by by_computation.
  destruct (SetMargin_fallback empty_world 2 Hc) as (w1 & Hrun1 & _ & Hout & _).
  destruct (SetMargin_fallback empty_world 0.5 Hc) as (w2 & Hrun2 & Hin & _).
  split.
  - exists w1. split; [exact Hrun1 | apply Hout; right; reflexivity].
  - exists w2. split; [exact Hrun2 | apply Hin; split; reflexivity].
Defined.

(** [GetPoint(1, ...)] and [GetPoint(5, ...)] on the triangle. *)
Lemma GetPoint_spec_witness :
  GetPoint 1 (9, 9, 9)%float triangle_world =
    Some ((1, (1, 0, 1)%float), triangle_world) /\
  GetPoint 5 (9, 9, 9)%float triangle_world =
    Some ((-1, (9, 9, 9)%float), triangle_world).
Proof.
  destruct (GetPoint_spec triangle_world 1 (9, 9, 9)%float) as [_ Hin].
  destruct (GetPoint_spec triangle_world 5 (9, 9, 9)%float) as [Hout _].
  split.
  - destruct Hin as (x & y & z & Hx & Hy & Hz & Hrun).
    + split; by_computation.
    + vm_compute. discriminate.
    + vm_compute. discriminate.
    + vm_compute. discriminate.
    + by_computation.
    + vm_compute in Hx, Hy, Hz.
      injection Hx as <-. injection Hy as <-. injection Hz as <-. exact Hrun.
  - apply Hout. right. left. by_computation.
Defined.

(** ** Further runs on concrete graphs *)

(** Closing a fact about a concrete world that asks for an object of the
    heap. *)
Ltac by_lookup := vm_compute; eexists; reflexivity.

(** A fourth point on the triangle is read back. *)
Lemma SetPoint_GetPoint_witness :
  exists w', SetPoint (H := reference) 3 5 5 5 triangle_world = Some (tt, w') /\
    fNpoints (this w') = Z.max (fNpoints (this triangle_world)) (3 + 1) /\
    GetPoint 3 (0, 0, 0)%float w' = Some ((3, (5, 5, 5)%float), w').
Proof.
  apply (SetPoint_GetPoint (H := reference) triangle_world 3 5 5 5 (0, 0, 0)%float);
    by_computation.
Defined.

(** Rewriting point 1 of the triangle leaves points 0 and 2 alone. *)
Lemma SetPoint_other_points_witness :
  exists w', SetPoint (H := reference) 1 7 8 9 triangle_world = Some (tt, w') /\
    (forall i, 0 <= i < fSize (this triangle_world) -> i <> 1 ->
       point (this w') i = point (this triangle_world) i) /\
    fNpx (this w') = fNpx (this triangle_world) /\
    fNpy (this w') = fNpy (this triangle_world) /\
    fMargin (this w') = fMargin (this triangle_world) /\
    fZout (this w') = fZout (this triangle_world) /\
    fMaxIter (this w') = fMaxIter (this triangle_world) /\
    fMinimum (this w') = fMinimum (this triangle_world) /\
    fMaximum (this w') = fMaximum (this triangle_world) /\
    out w' = out triangle_world.
Proof.
  apply (SetPoint_other_points (H := reference) triangle_world 1 7 8 9); by_computation.
Defined.

(** The triangle has capacity 4; a point at index 9 makes it 10. *)
Lemma SetPoint_capacity_witness :
  exists w', SetPoint (H := reference) 9 1 1 1 triangle_world = Some (tt, w') /\
    storage_ok (this w') /\
    fSize (this w') = (if fSize (this triangle_world) <=? 9
                       then Z.max (2 * fSize (this triangle_world)) (9 + 1)
                       else fSize (this triangle_world)) /\
    fSize (this triangle_world) <= fSize (this w') /\ 9 < fSize (this w').
Proof.
  apply (SetPoint_capacity (H := reference) triangle_world 9 1 1 1); by_computation.
Defined.

(** The elements 4 to 8 that this adds are zero. *)
Lemma SetPoint_new_elements_witness :
  exists w', SetPoint (H := reference) 9 1 1 1 triangle_world = Some (tt, w') /\
    forall i, fSize (this triangle_world) <= i < fSize (this w') -> i <> 9 ->
      point (this w') i =
        Some (mkSample 0 0 0).
Proof.
  apply (SetPoint_new_elements (H := reference) triangle_world 9 1 1 1); by_computation.
Defined.

(** [Set(2)] on the triangle. *)
Lemma Set_spec_witness :
  exists w', TGraph2D_Set (H := reference) 2 triangle_world = Some (tt, w') /\
    fNpoints (this w') = Z.max 2 0 /\
    storage_ok (this w') /\
    (forall i, 0 <= i < fNpoints (this triangle_world) -> i < 2 ->
       point (this w') i = point (this triangle_world) i) /\
    fHistogram (this w') = fHistogram (this triangle_world) /\
    fDelaunay (this w') = fDelaunay (this triangle_world) /\
    heap w' = heap triangle_world /\ out w' = out triangle_world.
Proof.
  apply (Set_spec (H := reference) triangle_world 2); by_computation.
Defined.

(** [Set(1)] and [Set(3)] on the triangle bring the three points back. *)
Lemma Set_shrink_restore_witness :
  exists w', (TGraph2D_Set (H := reference) 1 ;;;
              TGraph2D_Set (H := reference) (fNpoints (this triangle_world)))
               triangle_world = Some (tt, w') /\
    fNpoints (this w') = fNpoints (this triangle_world) /\
    forall i, 0 <= i < fNpoints (this triangle_world) ->
      point (this w') i = point (this triangle_world) i.
Proof.
  apply (Set_shrink_restore (H := reference) triangle_world 1); by_computation.
Defined.

(** [Set(6)] on the triangle: points 4 and 5 are zero, point 3 is what the
    block held. *)
Lemma Set_new_points_witness :
  exists w', TGraph2D_Set (H := reference) 6 triangle_world = Some (tt, w') /\
    (forall i, fSize (this triangle_world) <= i < 6 ->
       point (this w') i = Some (mkSample 0 0 0)) /\
    (forall i, 0 <= i < fSize (this triangle_world) -> i < 6 ->
       point (this w') i = point (this triangle_world) i).
Proof.
  apply (Set_new_points (H := reference) triangle_world 6); by_computation.
Defined.

(** [Clear] on the triangle with its cached histogram. *)
Lemma Clear_empties_witness :
  exists w', Clear cached_world = Some (tt, w') /\
    fNpoints (this w') = 0 /\ fSize (this w') = 0 /\
    fX (this w') = None /\ fY (this w') = None /\ fZ (this w') = None /\
    storage_ok (this w') /\
    (forall i xyz, GetPoint i xyz w' = Some ((-1, xyz), w')) /\
    Clear w' = Some (tt, w').
Proof.
  apply (Clear_empties cached_world). by_lookup.
Defined.

(** [Clear] on the triangle with its own histogram, and on the triangle
    with the histogram of the user. *)
Lemma Clear_cache_witness :
  (exists w', Clear cached_world = Some (tt, w') /\
     fHistogram (this w') = None /\ fDelaunay (this w') = None) /\
  (exists w', Clear adopted_world = Some (tt, w') /\
     fUserHisto (this w') = true /\
     fHistogram (this w') = Some 0%nat /\ fDelaunay (this w') = Some 1%nat).
Proof.
  split.
  - destruct (Clear_cache cached_world) as (w' & Hrun & _ & Hown & _); [by_lookup|].
    exists w'. split; [exact Hrun|].
    destruct Hown as (Hh & Hd & _); [reflexivity|]. split; assumption.
  - destruct (Clear_cache adopted_world) as (w' & Hrun & Hu & _ & Huser); [by_lookup|].
    exists w'. split; [exact Hrun|]. split; [exact Hu|].
    destruct Huser as (Hh & Hd); [reflexivity|]. split; [exact Hh | exact Hd].
Defined.

(** [TGraph2D(-3)] on raw storage. *)
Lemma constructor_invalid_size_witness :
  let w' := mkWorld (set_fNpoints (-3) (set_kOldInterpolation false (this raw_world)))
                    (heap raw_world) (brk raw_world)
                    (out raw_world ++
                     [mkMessage kError "TGraph2D" "Invalid number of points (%d)" [-3]]) in
  TGraph2D_ctor_n (H := reference) (-3) raw_world = Some (tt, w') /\
  TGraph2D_ctor_arrays (H := reference) (-3) None None None raw_world = Some (tt, w').
Proof.
  apply (constructor_invalid_size (H := reference) raw_world (-3) None None None).
  by_computation.
Defined.

(** Two points from arrays of three elements. *)
Lemma constructor_copies_arrays_witness :
  exists w', TGraph2D_ctor_arrays (H := reference) 2
               (Some [1; 2; 3]%float) (Some [4; 5; 6]%float) (Some [7; 8; 9]%float)
               raw_world = Some (tt, w') /\
    fNpoints (this w') = 2 /\ fSize (this w') = 2 /\ storage_ok (this w') /\
    fHistogram (this w') = None /\ fDelaunay (this w') = None /\
    (forall i, 0 <= i < 2 ->
       point (this w') i =
         sample3 (coord (Some [1; 2; 3]%float) i) (coord (Some [4; 5; 6]%float) i)
                 (coord (Some [7; 8; 9]%float) i)).
Proof.
  apply (constructor_copies_arrays (H := reference) raw_world 2
           [1; 2; 3]%float [4; 5; 6]%float [7; 8; 9]%float); by_computation.
Defined.

Lemma constructor_zero_points_witness :
  exists w', TGraph2D_ctor_n (H := reference) 3 raw_world = Some (tt, w') /\
    fNpoints (this w') = 3 /\ fSize (this w') = 3 /\ storage_ok (this w') /\
    fHistogram (this w') = None /\ fDelaunay (this w') = None /\
    (forall i, 0 <= i < 3 -> point (this w') i = Some (mkSample 0 0 0)).
Proof.
  apply (constructor_zero_points (H := reference) raw_world 3); by_computation.
Defined.

(** [Apply] and [Add] on the triangle, without a current pad. *)
Lemma Apply_spec_witness :
  exists w', Apply None plane triangle_world = Some (tt, w') /\
    samples_of (this w') = map (applied plane) (samples_of (this triangle_world)).
Proof.
  destruct (Apply_spec None plane triangle_world) as (w' & Hs & _ & _ & _ & _ & _ & Hrun);
    [by_computation|].
  exists w'. split; assumption.
Defined.

Lemma Add_spec_witness :
  exists w', Add None plane 2 triangle_world = Some (tt, w') /\
    samples_of (this w') = map (added plane 2) (samples_of (this triangle_world)).
Proof.
  destruct (Add_spec None plane 2 triangle_world) as (w' & Hs & _ & _ & _ & _ & _ & Hrun);
    [by_computation|].
  exists w'. split; assumption.
Defined.

(** [Scale] on the triangle. *)
Lemma Scale_spec_witness :
  exists w', Scale 3 "XZ" triangle_world = Some (tt, w') /\
    samples_of (this w') = map (scaled 3 (ToLower "XZ")) (samples_of (this triangle_world)).
Proof.
  destruct (Scale_spec 3 "XZ" triangle_world) as (w' & Hrun & Hs & _); [by_computation|].
  exists w'. split; assumption.
Defined.

(** [Project("z")] on the triangle gives no histogram. *)
Lemma Project_null_witness : Project "z" triangle_world = Some (None, triangle_world).
Proof.
  apply (Project_null "z" triangle_world); by_computation.
Defined.

(** [Project("xy")] on the triangle. *)
Lemma Project_spec_witness :
  Project "xy" triangle_world = Some (projection_of (this triangle_world) 3, triangle_world).
Proof.
  apply (Project_spec "xy" triangle_world); by_computation.
Defined.

(** The extrema of the triangle. *)
Lemma maxima_spec_witness :
  exists xmax ymax zmax,
    GetXmax triangle_world = Some (xmax, triangle_world) /\
    GetYmax triangle_world = Some (ymax, triangle_world) /\
    GetZmax triangle_world = Some (zmax, triangle_world) /\
    forall s, In s (samples_of (this triangle_world)) ->
      dlt xmax (sx s) = false /\ dlt ymax (sy s) = false /\ dlt zmax (sz s) = false.
Proof.
  destruct (maxima_spec triangle_world) as (x & y & z & Hx & Hy & Hz & _ & _ & _ & Hd);
    [by_computation | by_computation |].
  exists x, y, z. auto.
Defined.

Lemma minima_spec_witness :
  exists xmin ymin zmin,
    GetXmin triangle_world = Some (xmin, triangle_world) /\
    GetYmin triangle_world = Some (ymin, triangle_world) /\
    GetZmin triangle_world = Some (zmin, triangle_world) /\
    forall s, In s (samples_of (this triangle_world)) ->
      dlt (sx s) xmin = false /\ dlt (sy s) ymin = false /\ dlt (sz s) zmin = false.
Proof.
  destruct (minima_spec triangle_world) as (x & y & z & Hx & Hy & Hz & _ & _ & _ & Hd);
    [by_computation | by_computation |].
  exists x, y, z. auto.
Defined.

(** [GetHistogram] on the graph without points. *)
Lemma GetHistogram_no_points_witness :
  exists w', GetHistogram (H := reference) "old" empty_world = Some (Some 0%nat, w') /\
             GetHistogram (H := reference) "empty" w' = Some (Some 0%nat, w').
Proof.
  destruct (GetHistogram_no_points (H := reference) empty_world "old" "empty")
    as [Hnew _]; [by_computation|].
  destruct Hnew as (Hrun & _ & Hagain); [by_computation|].
  eexists. split; [exact Hrun | exact Hagain].
Defined.

(** [GetHistogram("empty")] on the triangle. *)
Lemma GetHistogram_empty_option_witness :
  exists h w',
    GetHistogram (H := reference) "empty" triangle_world = Some (Some 0%nat, w') /\
    heap w' !! 0%nat = Some (ObjTH2D h) /\ hFills h = [].
Proof.
  destruct (GetHistogram_empty_option (H := reference) triangle_world "empty")
    as (xmin & xmax & ymin & ymax & zmin & zmax & h & D & w' & _ & _ & _ & Hrun & _ & Hl & HF & _);
    try by_computation.
  exists h, w'. auto.
Defined.

(** The built histogram of the single point is handed out again. *)
Lemma GetHistogram_memoized_witness :
  GetHistogram (H := reference) "empty" grid_world = Some (Some 0%nat, grid_world).
Proof.
  destruct (heap grid_world !! 0%nat) as [[h| |]|] eqn:Hl;
    try (vm_compute in Hl; discriminate Hl).
  apply (GetHistogram_memoized (H := reference) grid_world "empty" 0%nat h);
    try by_computation; try exact Hl.
  intros HF. vm_compute in Hl. injection Hl as <-. discriminate HF.
Defined.

Lemma GetHistogram_total_witness :
  exists a w', GetHistogram (H := reference) "old empty" cached_world = Some (Some a, w') /\
               samples_of (this w') = samples_of (this cached_world).
Proof.
  destruct (GetHistogram_total (H := reference) cached_world "old empty")
    as (a & h & w' & Hrun & _ & _ & Hs & _); try by_computation; try by_lookup.
  exists a, w'. auto.
Defined.

(** [SetMaximum(7)] on the triangle. *)
Lemma stored_extrema_spec_witness :
  exists a h w', SetMaximum (H := reference) 7 triangle_world = Some (tt, w') /\
    fMaximum (this w') = 7%float /\ heap w' !! a = Some (ObjTH2D h) /\ hMaximum h = 7%float.
Proof.
  destruct (stored_extrema_spec (H := reference) triangle_world 7)
    as [(a & h & w' & Hrun & Hm & _ & _ & Hl & Hh & _) _]; try by_computation.
  exists a, h, w'. auto.
Defined.

(** [Interpolate] at the second corner of the triangle. *)
Lemma Interpolate_fresh_witness :
  exists w', Interpolate (H := reference) 1 0 triangle_world =
    Some (interpolate (Collaborators := reference) kDelaunay2D
            (samples_of (this triangle_world)) 100000 (fZout (this triangle_world)) 1 0, w').
Proof.
  destruct (Interpolate_fresh (H := reference) triangle_world 1 0) as (w' & Hrun & _);
    try by_computation.
  exists w'. exact Hrun.
Defined.

(** The triangle is given the user's histogram of 5 x 5 bins. *)
Lemma SetHistogram_spec_witness :
  exists w', SetHistogram (Some 0%nat) "old" user_world = Some (tt, w') /\
    fUserHisto (this w') = true /\ fNpx (this w') = 5 /\ fNpy (this w') = 5 /\
    kOldInterpolation (this w') = true.
Proof.
  destruct (SetHistogram_spec user_world 0%nat (new_TH2D 5 0 1 5 0 1) "old")
    as [(w' & Hrun & Hu & _ & Hx & Hy & _ & Hk & _) _]; try by_computation.
  exists w'. auto.
Defined.

(** It is then filled over [0, 1] x [0, 1]. *)
Lemma GetHistogram_user_histogram_witness :
  exists h w',
    GetHistogram (H := reference) EmptyString adopted_world = Some (Some 0%nat, w') /\
    heap w' !! 0%nat = Some (ObjTH2D h) /\
    (hXmin h, hXmax h, hYmin h, hYmax h) = (0, 1, 0, 1)%float.
Proof.
  destruct (GetHistogram_user_histogram (H := reference) adopted_world EmptyString
              0%nat 1%nat (set_hFunctions [1%nat] (new_TH2D 5 0 1 5 0 1))
              (booked_delaunay (this user_world) false))
    as (h & w' & Hrun & _ & Hl & Hlim & _); try by_computation.
  exists h, w'. auto.
Defined.

(** The empty graph is assigned the triangle. *)
Lemma assignment_spec_witness :
  exists w', assign (H := reference) (fun a => ret a) (Some (this triangle_world)) empty_world =
               Some (tt, w') /\
    samples_of (this w') = samples_of (this triangle_world) /\
    fSize (this w') = fNpoints (this triangle_world).
Proof.
  destruct (assignment_spec (H := reference) (fun a => ret a) empty_world (this triangle_world))
    as [(w' & Hrun & Hs & _ & Hsz & _) _]; try by_computation.
  { left. by_computation. }
  exists w'. auto.
Defined.

Lemma RemoveDuplicates_idempotent_witness :
  exists n w1 w2,
    RemoveDuplicates duplicates_world = Some (n, w1) /\
    RemoveDuplicates w1 = Some (n, w2) /\
    samples_of (this w2) = samples_of (this w1).
Proof.
  apply (RemoveDuplicates_idempotent duplicates_world); by_computation.
Defined.

(** [SetNpx] on the triangle with the user's histogram. *)
Lemma user_histogram_lost_witness :
  exists w', SetNpx 10 adopted_world = Some (tt, w') /\
    fUserHisto (this w') = true /\ fHistogram (this w') = None /\
    GetHistogram (H := reference) EmptyString w' = None.
Proof.
  destruct (user_histogram_lost (H := reference) adopted_world 10)
    as (w' & Hrun & Hu & Hh & _ & Hget & _); try by_computation; try by_lookup.
  exists w'. auto.
Defined.
